(** * stream.c: multiplexing N byte streams into one seekable file

    A shallow embedding of [stream.c] (the stream layer of rzip) and the
    verification of its chunk format, buffering and session code.

    - C integers are [Z] with the conversions of the C types written out
      ([to_u32], [to_u16], [to_int], [to_uchar]).
    - The file behind the descriptor, the allocator and the [err_msg] log
      form the [world]; every C function is a function of the monad [M],
      which threads the world and can stop with a memory [Fault].
    - [struct stream_info] and [struct stream] are records passed in and out
      of each function (the session is owned by one caller, nothing aliases
      it).
    - The bzip2 block codec and the allocator's verdicts are parameters
      ([Env]). *)

From Stdlib Require Import ZArith List Lia Bool.
From Stdlib Require Import Strings.Byte.
From stdpp Require Import base list numbers.

Local Open Scope Z_scope.

(** ** Bytes and C integer conversions *)

Definition byte_val (b : byte) : Z := Z.of_N (Byte.to_N b).

(** Conversion to [uchar]: reduction modulo 256. *)
Definition to_uchar (z : Z) : byte :=
  match Byte.of_N (Z.to_N (z mod 256)) with
  | Some b => b
  | None => x00
  end.

(** Conversions to [u16], [u32] (wrap-around) and to [int] (the two's
    complement value, as gcc and clang define the conversion). *)
Definition to_u16 (z : Z) : Z := z mod 2 ^ 16.
Definition to_u32 (z : Z) : Z := z mod 2 ^ 32.
Definition to_int (z : Z) : Z := (z + 2 ^ 31) mod 2 ^ 32 - 2 ^ 31.

Definition CTYPE_NONE : Z := 3.
Definition CTYPE_BZIP2 : Z := 4.

(** Modelled from the spec: the [MIN] macro of [rzip.h] (not under src/);
    the spec reads it as [min]. *)
Definition MIN (a b : Z) : Z := if a <? b then a else b.

(** ** The world: one open file, the allocator, the message log *)

(** The messages of [err_msg], with their integer arguments. *)
Inductive errmsg : Type :=
| MsgAllocDecompress (dlen : Z)
| MsgDecompress
| MsgInconsistentLength (dlen buflen : Z)
| MsgWriteFailed (len : Z)
| MsgPartialWrite (len ret : Z)
| MsgReadFailed (len : Z)
| MsgPartialRead (len ret : Z)
| MsgSeekFailed (pos : Z)
| MsgWorkaround
| MsgBadTag (c : Z)
| MsgBadCLen (v1 v2 : Z)
| MsgBadULen (v2 : Z).

Record world : Type := mkWorld {
  w_fd : Z;            (* the number of the one open descriptor *)
  w_data : list byte;  (* the contents of the file *)
  w_pos : Z;           (* the file offset of the descriptor *)
  w_limit : Z;         (* the size the file cannot grow beyond *)
  w_allocs : nat;      (* allocation requests made so far *)
  w_log : list errmsg  (* messages of err_msg, latest first *)
}.

Definition set_file (w : world) (d : list byte) (p : Z) : world :=
  mkWorld (w_fd w) d p (w_limit w) (w_allocs w) (w_log w).
Definition set_pos (w : world) (p : Z) : world := set_file w (w_data w) p.

(** How a memory error of the C program shows in the model. *)
Inductive fault : Type :=
| HeapOverflow   (* access past the end of a heap block *)
| UninitRead     (* read of bytes of a block that were never written *)
| NullDeref      (* access through a null pointer *)
| BadIndex       (* stream index outside the stream array *)
| Indeterminate. (* a store that leaves unwritten bytes before it *)

Inductive outcome (A : Type) : Type :=
| Done (a : A) (w : world)
| Fault (f : fault)
| Timeout.
Arguments Done {A} a w.
Arguments Fault {A} f.
Arguments Timeout {A}.

Definition M (A : Type) : Type := world -> outcome A.

#[global] Instance M_ret : MRet M := fun A a w => Done a w.
#[global] Instance M_bind : MBind M := fun A B k m w =>
  match m w with
  | Done a w' => k a w'
  | Fault f => Fault f
  | Timeout => Timeout
  end.
Definition raise {A} (f : fault) : M A := fun _ => Fault f.

Definition err_msg (m : errmsg) : M unit :=
  fun w => Done tt (mkWorld (w_fd w) (w_data w) (w_pos w) (w_limit w)
                            (w_allocs w) (m :: w_log w)).

(** *** System calls on the file *)

(** [bs] written at offset [off] of [data]; a hole before [off] reads as
    zero bytes. *)
Definition pwrite (off : nat) (bs data : list byte) : list byte :=
  take off data ++ replicate (off - length data)%nat x00 ++ bs
    ++ drop (off + length bs)%nat data.

(** [write(f, p, len)]: -1 on a bad descriptor, a bad length or a full
    device; otherwise the count written, short when the limit is hit. *)
Definition sys_write (f : Z) (p : list byte) (len : Z) : M Z :=
  fun w =>
    if negb (f =? w_fd w) then Done (-1) w
    else if len <? 0 then Done (-1) w
    else if len =? 0 then Done 0 w
    else
      let k := Z.min len (w_limit w - w_pos w) in
      if k <=? 0 then Done (-1) w
      else Done k (set_file w
                     (pwrite (Z.to_nat (w_pos w)) (take (Z.to_nat k) p) (w_data w))
                     (w_pos w + k)).

(** [read(f, p, len)]: -1 on a bad descriptor or length; otherwise the bytes
    up to the end of the file, with their count. *)
Definition sys_read (f : Z) (len : Z) : M (Z * list byte) :=
  fun w =>
    if negb (f =? w_fd w) then Done (-1, []) w
    else if len <? 0 then Done (-1, []) w
    else
      let bs := take (Z.to_nat len) (drop (Z.to_nat (w_pos w)) (w_data w)) in
      Done (Z.of_nat (length bs), bs) (set_pos w (w_pos w + Z.of_nat (length bs))).

Inductive whence : Type := SEEK_SET | SEEK_CUR.

Definition sys_lseek (f : Z) (off : Z) (wh : whence) : M Z :=
  fun w =>
    if negb (f =? w_fd w) then Done (-1) w
    else
      let target := match wh with SEEK_SET => off | SEEK_CUR => w_pos w + off end in
      if target <? 0 then Done (-1) w
      else Done target (set_pos w target).

(** *** The allocator *)

(** A heap block: its size and the bytes written to it so far (a prefix of
    the block; the rest is indeterminate). *)
Record buffer : Type := mkBuffer { cap : Z; mem : list byte }.

(** The parameters of the development: the block codec (bzip2, outside this
    file) and the verdict of the allocator on its [k]-th request, of [size]
    bytes. *)
Record Env : Type := mkEnv {
  bz_compress : Z -> list byte -> option (list byte);
  bz_decompress : list byte -> option (list byte);
  alloc_ok : nat -> Z -> bool
}.

(** ** The data model of stream.c *)

Record stream : Type := mkStream {
  last_head : Z;         (* u32 *)
  buf : option buffer;   (* uchar *, None is the null pointer *)
  buflen : Z;            (* int *)
  bufp : Z;              (* int *)
  bzip_level : Z         (* int *)
}.

Record stream_info : Type := mkInfo {
  s : list stream;       (* struct stream *s, an array of num_streams *)
  num_streams : Z;       (* int *)
  fd : Z;                (* int *)
  bufsize : Z;           (* u32 *)
  cur_pos : Z;           (* u32 *)
  initial_pos : Z;       (* off_t, taken wide enough never to wrap *)
  total_read : Z         (* u32 *)
}.

(** What calloc gives: every field zero, the buffer pointer null. *)
Definition zero_stream : stream := mkStream 0 None 0 0 0.

Definition with_last_head (st : stream) (v : Z) : stream :=
  mkStream v (buf st) (buflen st) (bufp st) (bzip_level st).
Definition with_buf (st : stream) (b : option buffer) : stream :=
  mkStream (last_head st) b (buflen st) (bufp st) (bzip_level st).
Definition with_buflen (st : stream) (v : Z) : stream :=
  mkStream (last_head st) (buf st) v (bufp st) (bzip_level st).
Definition with_bufp (st : stream) (v : Z) : stream :=
  mkStream (last_head st) (buf st) (buflen st) v (bzip_level st).
Definition with_bzip_level (st : stream) (v : Z) : stream :=
  mkStream (last_head st) (buf st) (buflen st) (bufp st) v.

Definition with_s (si : stream_info) (l : list stream) : stream_info :=
  mkInfo l (num_streams si) (fd si) (bufsize si) (cur_pos si)
         (initial_pos si) (total_read si).
Definition with_cur_pos (si : stream_info) (v : Z) : stream_info :=
  mkInfo (s si) (num_streams si) (fd si) (bufsize si) v
         (initial_pos si) (total_read si).
Definition with_initial_pos (si : stream_info) (v : Z) : stream_info :=
  mkInfo (s si) (num_streams si) (fd si) (bufsize si) (cur_pos si)
         v (total_read si).
Definition with_total_read (si : stream_info) (v : Z) : stream_info :=
  mkInfo (s si) (num_streams si) (fd si) (bufsize si) (cur_pos si)
         (initial_pos si) v.

(** [sinfo->s[i]], read and written; an index outside the array is a
    memory error. *)
Definition get_stream (si : stream_info) (i : Z) : M stream :=
  if i <? 0 then raise BadIndex
  else match s si !! Z.to_nat i with
       | Some st => mret st
       | None => raise BadIndex
       end.
Definition set_stream (si : stream_info) (i : Z) (st : stream) : stream_info :=
  with_s si (<[Z.to_nat i := st]> (s si)).

(** Sizes of the two structs on an LP64 target, as the allocator sees
    them. *)
Definition sizeof_stream : Z := 32.
Definition sizeof_stream_info : Z := 40.

(** ** Memory blocks *)

(** [n] bytes read from offset [off] of a block ([memcpy] from it, or a
    system call or the codec reading it). *)
Definition buf_load (b : option buffer) (off n : Z) : M (list byte) :=
  match b with
  | None => raise NullDeref
  | Some bf =>
      if (n <? 0) || (off <? 0) || (cap bf <? off + n) then raise HeapOverflow
      else if Z.of_nat (length (mem bf)) <? off + n then raise UninitRead
      else mret (take (Z.to_nat n) (drop (Z.to_nat off) (mem bf)))
  end.

(** [bs] stored at offset [off] of a block ([memcpy] to it, or a system
    call or the codec filling it). *)
Definition buf_store (b : option buffer) (off : Z) (bs : list byte) : M (option buffer) :=
  match b with
  | None => raise NullDeref
  | Some bf =>
      if (off <? 0) || (cap bf <? off + Z.of_nat (length bs)) then raise HeapOverflow
      else if Z.of_nat (length (mem bf)) <? off then raise Indeterminate
      else mret (Some (mkBuffer (cap bf)
                         (take (Z.to_nat off) (mem bf) ++ bs
                            ++ drop (Z.to_nat off + length bs)%nat (mem bf))))
  end.

Section Model.

Context (E : Env).

Definition count_alloc (w : world) : world :=
  mkWorld (w_fd w) (w_data w) (w_pos w) (w_limit w) (S (w_allocs w)) (w_log w).

(** [malloc(size)]: a fresh block with nothing written to it, or null. *)
Definition malloc (size : Z) : M (option buffer) :=
  fun w =>
    Done (if alloc_ok E (w_allocs w) size then Some (mkBuffer size []) else None)
         (count_alloc w).

(** [malloc(sizeof( *sinfo))] and [calloc(sizeof( *sinfo), 1)]: only whether
    the request is granted matters, the record is built by the caller. *)
Definition alloc_struct (size : Z) : M bool :=
  fun w => Done (alloc_ok E (w_allocs w) size) (count_alloc w).

(** [calloc(sizeof(sinfo->s[0]), n)]: [n] zeroed stream records, or null.
    A negative [n] converts to a count whose product with the size
    overflows [size_t], which calloc refuses. *)
Definition calloc_streams (n : Z) : M (option (list stream)) :=
  fun w =>
    Done (if (0 <=? n) && alloc_ok E (w_allocs w) (sizeof_stream * n)
          then Some (replicate (Z.to_nat n) zero_stream) else None)
         (count_alloc w).

(** ** The wire codec *)

(** write to a file, return 0 on success and -1 on failure *)
Definition write_buf (f : Z) (p : list byte) (len : Z) : M Z :=
  ret ← sys_write f p len;
  if ret =? -1 then err_msg (MsgWriteFailed len);; mret (-1)
  else if negb (ret =? len) then err_msg (MsgPartialWrite len ret);; mret (-1)
  else mret 0.

(** write a byte *)
Definition write_u8 (f : Z) (v : Z) : M Z :=
  write_buf f [to_uchar v] 1.

(** The two bytes [p[0]], [p[1]] of [write_u16]. *)
Definition u16_bytes (v : Z) : list byte :=
  [to_uchar (Z.land v 255); to_uchar (Z.land (Z.shiftr v 8) 255)].

(** write a short *)
Definition write_u16 (f : Z) (v : Z) : M Z :=
  let v := to_u16 v in
  write_buf f (u16_bytes v) 2.

(** write a long *)
Definition write_u32 (f : Z) (v : Z) : M Z :=
  let v := to_u32 v in
  r1 ← write_u16 f (Z.land v 65535);
  if negb (r1 =? 0) then mret (-1)
  else
    r2 ← write_u16 f (Z.shiftr v 16);
    if negb (r2 =? 0) then mret (-1) else mret 0.

(** [read_buf]: the return code, and the bytes the call left at [p] (also
    when it fails on a short read). *)
Definition read_buf (f : Z) (len : Z) : M (Z * list byte) :=
  '(ret, bs) ← sys_read f len;
  if ret =? -1 then err_msg (MsgReadFailed len);; mret (-1, bs)
  else if negb (ret =? len) then err_msg (MsgPartialRead len ret);; mret (-1, bs)
  else mret (0, bs).

Definition byte_at (bs : list byte) (i : nat) : Z :=
  byte_val (default x00 (bs !! i)).

(** [read_u8], [read_u16], [read_u32]: [None] is the return code -1 (the
    destination is then left as it was), [Some v] is 0 with [v] stored. *)
Definition read_u8 (f : Z) : M (option Z) :=
  '(r, bs) ← read_buf f 1;
  if negb (r =? 0) then mret None else mret (Some (byte_at bs 0)).

Definition u16_of_bytes (bs : list byte) : Z :=
  to_u16 (Z.lor (Z.shiftl (byte_at bs 1) 8) (byte_at bs 0)).

Definition read_u16 (f : Z) : M (option Z) :=
  '(r, bs) ← read_buf f 2;
  if negb (r =? 0) then mret None else mret (Some (u16_of_bytes bs)).

Definition read_u32 (f : Z) : M (option Z) :=
  o1 ← read_u16 f;
  match o1 with
  | None => mret None
  | Some v1 =>
      o2 ← read_u16 f;
      match o2 with
      | None => mret None
      | Some v2 =>
          let v := v2 in
          let v := to_u32 (Z.shiftl v 16) in
          let v := Z.lor v v1 in
          mret (Some v)
      end
  end.

(** seek to a position within a set of streams - return -1 on failure *)
Definition seekto (sinfo : stream_info) (pos : Z) : M Z :=
  let spos := pos + initial_pos sinfo in
  r ← sys_lseek (fd sinfo) spos SEEK_SET;
  if negb (r =? spos) then err_msg (MsgSeekFailed pos);; mret (-1)
  else mret 0.

(** ** The compression gateway *)

(** Modelled from the spec: the block codec of bzlib (not under src/), by
    its contract: it fails on parameters out of range or a null source,
    reads [sourceLen] bytes of the source, and succeeds only when its output
    fits the [destcap] bytes of the destination; the output is then what
    [bz_compress] of the environment gives. *)
Definition BZ2_bzBuffToBuffCompress (destcap : Z) (source : option buffer)
    (sourceLen blockSize100k workFactor : Z) : M (option (list byte)) :=
  if (blockSize100k <? 1) || (9 <? blockSize100k)
     || (workFactor <? 0) || (250 <? workFactor) then mret None
  else match source with
       | None => mret None
       | Some _ =>
           src ← buf_load source 0 sourceLen;
           match bz_compress E blockSize100k src with
           | Some out =>
               if Z.of_nat (length out) <=? destcap then mret (Some out)
               else mret None
           | None => mret None
           end
       end.

(** Modelled from the spec: the block decompressor of bzlib (not under
    src/), by its contract, as above. *)
Definition BZ2_bzBuffToBuffDecompress (destcap : Z) (source : option buffer)
    (sourceLen : Z) : M (option (list byte)) :=
  match source with
  | None => mret None
  | Some _ =>
      src ← buf_load source 0 sourceLen;
      match bz_decompress E src with
      | Some out =>
          if Z.of_nat (length out) <=? destcap then mret (Some out)
          else mret None
      | None => mret None
      end
  end.

(** try to compress a buffer. If compression fails for whatever reason then
    leave uncompressed. Return the compression type in c_type and resulting
    length in c_len *)
Definition compress_buf (st : stream) (c_type c_len : Z) : M (stream * Z * Z) :=
  let dlen := to_u32 (buflen st - 1) in
  if bzip_level st =? 0 then mret (st, c_type, c_len)
  else
    c_buf ← malloc dlen;
    match c_buf with
    | None => mret (st, c_type, c_len)
    | Some _ =>
        o ← BZ2_bzBuffToBuffCompress dlen (buf st) (to_u32 (buflen st))
              (bzip_level st) (bzip_level st * 10);
        match o with
        | None => mret (st, c_type, c_len)
        | Some out =>
            let dlen := Z.of_nat (length out) in
            let c_len := dlen in
            let st := with_buf st (Some (mkBuffer (to_u32 (buflen st - 1)) out)) in
            let c_type := CTYPE_BZIP2 in
            mret (st, c_type, c_len)
        end
    end.

(** try to decompress a buffer. Return 0 on success and -1 on failure. *)
Definition decompress_buf (st : stream) (c_len c_type : Z) : M (Z * stream) :=
  let dlen := to_u32 (buflen st) in
  if c_type =? CTYPE_NONE then mret (0, st)
  else
    let c_buf := buf st in
    nb ← malloc dlen;
    let st := with_buf st nb in
    match nb with
    | None => err_msg (MsgAllocDecompress dlen);; mret (-1, st)
    | Some _ =>
        o ← BZ2_bzBuffToBuffDecompress dlen c_buf c_len;
        match o with
        | None => err_msg MsgDecompress;; mret (-1, st)
        | Some out =>
            let st := with_buf st (Some (mkBuffer dlen out)) in
            let dlen := Z.of_nat (length out) in
            if negb (dlen =? to_u32 (buflen st))
            then err_msg (MsgInconsistentLength dlen (buflen st));; mret (-1, st)
            else mret (0, st)
        end
    end.

(** ** Opening a set of streams *)

(** The first loop of [open_stream_out], [k] iterations from index [i]:
    [None] is the jump to [failed]. *)
Fixpoint alloc_bufs (k : nat) (i : Z) (sinfo : stream_info) (bzip_level : Z)
  : M (option stream_info) :=
  match k with
  | O => mret (Some sinfo)
  | S k' =>
      st ← get_stream sinfo i;
      b ← malloc (bufsize sinfo);
      let sinfo := set_stream sinfo i (with_buf st b) in
      match b with
      | None => mret None
      | Some _ =>
          let sinfo := set_stream sinfo i (with_bzip_level (with_buf st b) bzip_level) in
          alloc_bufs k' (i + 1) sinfo bzip_level
      end
  end.

(** write the initial headers: the second loop, whose calls to [write_u8]
    and [write_u32] have their results dropped. *)
Fixpoint write_initial_headers (k : nat) (i : Z) (sinfo : stream_info)
  : M stream_info :=
  match k with
  | O => mret sinfo
  | S k' =>
      st ← get_stream sinfo i;
      let sinfo := set_stream sinfo i (with_last_head st (to_u32 (cur_pos sinfo + 9))) in
      write_u8 (fd sinfo) CTYPE_NONE;;
      write_u32 (fd sinfo) 0;;
      write_u32 (fd sinfo) 0;;
      write_u32 (fd sinfo) 0;;
      let sinfo := with_cur_pos sinfo (to_u32 (cur_pos sinfo + 13)) in
      write_initial_headers k' (i + 1) sinfo
  end.

(** open a set of output streams, compressing with the given bzip level.
    [None] is the null pointer. The session comes from malloc: its
    [total_read], which this path never sets nor reads, is shown as 0. *)
Definition open_stream_out (f n bzip_level : Z) : M (option stream_info) :=
  ok ← alloc_struct sizeof_stream_info;
  if negb ok then mret None
  else
    let bufsize :=
      if bzip_level =? 0 then 100 * 1024 else to_u32 (100 * 1024 * bzip_level) in
    ip ← sys_lseek f 0 SEEK_CUR;
    os ← calloc_streams n;
    match os with
    | None => mret None
    | Some ss =>
        let sinfo := mkInfo ss n f bufsize 0 ip 0 in
        o ← alloc_bufs (Z.to_nat n) 0 sinfo bzip_level;
        match o with
        | None => mret None
        | Some sinfo =>
            sinfo ← write_initial_headers (Z.to_nat n) 0 sinfo;
            mret (Some sinfo)
        end
    end.

(** The body of the loop of [open_stream_in] for stream [i], with its
    label [again]: [None] is the jump to [failed]. Each [goto again] takes
    one unit of [fuel]. *)
Fixpoint read_initial_header (fuel : nat) (f : Z) (i : Z) (sinfo : stream_info)
  : M (option stream_info) :=
  match fuel with
  | O => fun _ => Timeout
  | S fuel' =>
      oc ← read_u8 f;
      match oc with None => mret None | Some c =>
      o1 ← read_u32 f;
      match o1 with None => mret None | Some v1 =>
      o2 ← read_u32 f;
      match o2 with None => mret None | Some v2 =>
      st ← get_stream sinfo i;
      o3 ← read_u32 f;
      match o3 with None => mret None | Some lh =>
      let sinfo := set_stream sinfo i (with_last_head st lh) in
      if (c =? CTYPE_NONE) && (v1 =? 0) && (v2 =? 0) && (lh =? 0) && (i =? 0)
      then
        err_msg MsgWorkaround;;
        let sinfo := with_initial_pos sinfo (initial_pos sinfo + 13) in
        read_initial_header fuel' f i sinfo
      else
        let sinfo := with_total_read sinfo (to_u32 (total_read sinfo + 13)) in
        if negb (c =? CTYPE_NONE) then err_msg (MsgBadTag c);; mret None
        else if negb (v1 =? 0) then err_msg (MsgBadCLen v1 v2);; mret None
        else if negb (v2 =? 0) then err_msg (MsgBadULen v2);; mret None
        else mret (Some sinfo)
      end end end end
  end.

(** The loop of [open_stream_in]: [k] iterations from index [i]. *)
Fixpoint read_initial_headers (fuel k : nat) (f : Z) (i : Z) (sinfo : stream_info)
  : M (option stream_info) :=
  match k with
  | O => mret (Some sinfo)
  | S k' =>
      o ← read_initial_header fuel f i sinfo;
      match o with
      | None => mret None
      | Some sinfo => read_initial_headers fuel k' f (i + 1) sinfo
      end
  end.

(** A bound on the jumps to [again]: every jump has consumed 13 more bytes
    of the file, so there are no more of them than bytes in the file. *)
Definition again_fuel : M nat := fun w => Done (S (length (w_data w))) w.

(** prepare a set of n streams for reading on file descriptor f *)
Definition open_stream_in (f n : Z) : M (option stream_info) :=
  ok ← alloc_struct sizeof_stream_info;
  if negb ok then mret None
  else
    ip ← sys_lseek f 0 SEEK_CUR;
    os ← calloc_streams n;
    match os with
    | None => mret None
    | Some ss =>
        let sinfo := mkInfo ss n f 0 0 ip 0 in
        fuel ← again_fuel;
        read_initial_headers fuel (Z.to_nat n) f 0 sinfo
    end.

(** ** Flush and fill *)

(** flush out any data in a stream buffer. Return -1 on failure *)
Definition flush_buffer (sinfo : stream_info) (stream : Z) : M (Z * stream_info) :=
  st ← get_stream sinfo stream;
  let c_type := CTYPE_NONE in
  let c_len := to_u32 (buflen st) in
  r ← seekto sinfo (last_head st);
  if negb (r =? 0) then mret (-1, sinfo) else
  r ← write_u32 (fd sinfo) (cur_pos sinfo);
  if negb (r =? 0) then mret (-1, sinfo) else
  let st := with_last_head st (to_u32 (cur_pos sinfo + 9)) in
  let sinfo := set_stream sinfo stream st in
  r ← seekto sinfo (cur_pos sinfo);
  if negb (r =? 0) then mret (-1, sinfo) else
  '(st, c_type, c_len) ← compress_buf st c_type c_len;
  let sinfo := set_stream sinfo stream st in
  r ← write_u8 (fd sinfo) c_type;
  if negb (r =? 0) then mret (-1, sinfo) else
  r ← write_u32 (fd sinfo) c_len;
  if negb (r =? 0) then mret (-1, sinfo) else
  r ← write_u32 (fd sinfo) (buflen st);
  if negb (r =? 0) then mret (-1, sinfo) else
  r ← write_u32 (fd sinfo) 0;
  if negb (r =? 0) then mret (-1, sinfo) else
  let sinfo := with_cur_pos sinfo (to_u32 (cur_pos sinfo + 13)) in
  (* write reads the block only when it has bytes to take from it *)
  p ← (if to_int c_len <=? 0 then mret [] else buf_load (buf st) 0 (to_int c_len));
  r ← write_buf (fd sinfo) p (to_int c_len);
  if negb (r =? 0) then mret (-1, sinfo) else
  let sinfo := with_cur_pos sinfo (to_u32 (cur_pos sinfo + c_len)) in
  let st := with_buflen st 0 in
  nb ← malloc (bufsize sinfo);
  let st := with_buf st nb in
  let sinfo := set_stream sinfo stream st in
  match nb with
  | None => mret (-1, sinfo)
  | Some _ => mret (0, sinfo)
  end.

(** fill a buffer from a stream - return -1 on failure *)
Definition fill_buffer (sinfo : stream_info) (stream : Z) : M (Z * stream_info) :=
  st ← get_stream sinfo stream;
  r ← seekto sinfo (last_head st);
  if negb (r =? 0) then mret (-1, sinfo) else
  oc ← read_u8 (fd sinfo);
  match oc with None => mret (-1, sinfo) | Some c_type =>
  o1 ← read_u32 (fd sinfo);
  match o1 with None => mret (-1, sinfo) | Some c_len =>
  o2 ← read_u32 (fd sinfo);
  match o2 with None => mret (-1, sinfo) | Some u_len =>
  o3 ← read_u32 (fd sinfo);
  match o3 with None => mret (-1, sinfo) | Some lh =>
  let st := with_last_head st lh in
  let sinfo := set_stream sinfo stream st in
  let sinfo := with_total_read sinfo (to_u32 (total_read sinfo + 13)) in
  nb ← malloc u_len;
  let st := with_buf st nb in
  let sinfo := set_stream sinfo stream st in
  match nb with None => mret (-1, sinfo) | Some _ =>
  '(r, bs) ← read_buf (fd sinfo) (to_int c_len);
  (* the bytes the read delivered are in the block, whatever it returned *)
  nb ← buf_store nb 0 bs;
  let st := with_buf st nb in
  let sinfo := set_stream sinfo stream st in
  if negb (r =? 0) then mret (-1, sinfo) else
  let sinfo := with_total_read sinfo (to_u32 (total_read sinfo + c_len)) in
  let st := with_buflen st (to_int u_len) in
  let st := with_bufp st 0 in
  let sinfo := set_stream sinfo stream st in
  '(r, st) ← decompress_buf st c_len c_type;
  let sinfo := set_stream sinfo stream st in
  if negb (r =? 0) then mret (-1, sinfo) else
  mret (0, sinfo)
  end end end end end.

(** ** Writing to and reading from a stream *)

(** [memcpy(dst + off, p, n)] into a heap block, [n] an [int] converted to
    [size_t]: a negative [n] is a count no block can hold. *)
Definition memcpy_to (b : option buffer) (off : Z) (p : list byte) (n : Z)
  : M (option buffer) :=
  if n <? 0 then raise HeapOverflow
  else if n =? 0 then mret b
  else if Z.of_nat (length p) <? n then raise HeapOverflow
  else buf_store b off (take (Z.to_nat n) p).

(** The loop of [write_stream]; one unit of [fuel] per iteration. [p] is
    the memory the caller's pointer points to. *)
Fixpoint write_stream_loop (fuel : nat) (sinfo : stream_info) (stream : Z)
    (p : list byte) (len : Z) : M (Z * stream_info) :=
  match fuel with
  | O => fun _ => Timeout
  | S fuel' =>
      if len =? 0 then mret (0, sinfo)
      else
        st ← get_stream sinfo stream;
        let n := to_int (MIN (to_u32 (bufsize sinfo - to_u32 (buflen st)))
                             (to_u32 len)) in
        nb ← memcpy_to (buf st) (buflen st) p n;
        let st := with_buflen (with_buf st nb) (buflen st + n) in
        let sinfo := set_stream sinfo stream st in
        let p := drop (Z.to_nat n) p in
        let len := len - n in
        if to_u32 (buflen st) =? bufsize sinfo then
          '(r, sinfo) ← flush_buffer sinfo stream;
          if negb (r =? 0) then mret (-1, sinfo)
          else write_stream_loop fuel' sinfo stream p len
        else write_stream_loop fuel' sinfo stream p len
  end.

(** write some data to a stream. Return -1 on failure. A call that
    terminates makes at most [len + 1] iterations (one that only flushes a
    full buffer, then one per byte at worst). *)
Definition write_stream (sinfo : stream_info) (stream : Z) (p : list byte)
    (len : Z) : M (Z * stream_info) :=
  write_stream_loop (Z.to_nat len + 2) sinfo stream p len.

(** The loop of [read_stream]; [out] is what has been copied to the
    caller's [p] so far. *)
Fixpoint read_stream_loop (fuel : nat) (sinfo : stream_info) (stream : Z)
    (out : list byte) (len ret : Z) : M (Z * list byte * stream_info) :=
  match fuel with
  | O => fun _ => Timeout
  | S fuel' =>
      if len =? 0 then mret (ret, out, sinfo)
      else
        st ← get_stream sinfo stream;
        let n := MIN (buflen st - bufp st) len in
        '(st, out, len, ret) ←
          (if 0 <? n then
             bs ← buf_load (buf st) (bufp st) n;
             mret (with_bufp st (bufp st + n), out ++ bs, len - n, ret + n)
           else mret (st, out, len, ret));
        let sinfo := set_stream sinfo stream st in
        if negb (len =? 0) && (bufp st =? buflen st) then
          '(r, sinfo) ← fill_buffer sinfo stream;
          if negb (r =? 0) then mret (-1, out, sinfo)
          else
            st ← get_stream sinfo stream;
            if bufp st =? buflen st then mret (ret, out, sinfo)
            else read_stream_loop fuel' sinfo stream out len ret
        else read_stream_loop fuel' sinfo stream out len ret
  end.

(** read some data from a stream. Return number of bytes read, or -1 on
    failure; with it, the bytes copied to [p]. A call that terminates makes
    at most [len + 1] iterations. *)
Definition read_stream (sinfo : stream_info) (stream : Z) (len : Z)
  : M (Z * list byte * stream_info) :=
  read_stream_loop (Z.to_nat len + 2) sinfo stream [] len 0.

(** ** Closing *)

(** The loop of [close_stream_out]: [Some sinfo] when it runs to its end,
    [None] when a flush fails and the function returns -1. *)
Fixpoint close_out_loop (k : nat) (i : Z) (sinfo : stream_info)
  : M (option stream_info) :=
  match k with
  | O => mret (Some sinfo)
  | S k' =>
      st ← get_stream sinfo i;
      if negb (buflen st =? 0) then
        '(r, sinfo) ← flush_buffer sinfo i;
        if negb (r =? 0) then mret None
        else close_out_loop k' (i + 1) sinfo
      else close_out_loop k' (i + 1) sinfo
  end.

(** flush and close down a stream. return -1 on failure *)
Definition close_stream_out (sinfo : stream_info) : M Z :=
  o ← close_out_loop (Z.to_nat (num_streams sinfo)) 0 sinfo;
  match o with
  | None => mret (-1)
  | Some _ => mret 0
  end.

(** close down an input stream *)
Definition close_stream_in (sinfo : stream_info) : M Z :=
  let target := initial_pos sinfo + total_read sinfo in
  r ← sys_lseek (fd sinfo) target SEEK_SET;
  if negb (r =? target) then mret (-1) else mret 0.

End Model.

(** * Definitions used to state the properties *)

(** ** The wire format *)

(** The four bytes [write_u32] hands to [write_buf], in order. *)
Definition u32_bytes (v : Z) : list byte :=
  let v := to_u32 v in
  u16_bytes (to_u16 (Z.land v 65535)) ++ u16_bytes (to_u16 (Z.shiftr v 16)).

(** The value [read_u32] assembles from four bytes. *)
Definition u32_of_bytes (bs : list byte) : Z :=
  Z.lor (to_u32 (Z.shiftl (u16_of_bytes (drop 2 bs)) 16)) (u16_of_bytes (take 2 bs)).

(** The 13 bytes of a chunk header. *)
Definition header_bytes (c_type c_len u_len next_head : Z) : list byte :=
  [to_uchar c_type] ++ u32_bytes c_len ++ u32_bytes u_len ++ u32_bytes next_head.

(** The bytes of the file from offset [off], [n] of them at most. *)
Definition file_slice (w : world) (off n : Z) : list byte :=
  take (Z.to_nat n) (drop (Z.to_nat off) (w_data w)).

(** The world after [bs] has been written at the current offset. *)
Definition write_at (w : world) (bs : list byte) : world :=
  set_file w (pwrite (Z.to_nat (w_pos w)) bs (w_data w))
           (w_pos w + Z.of_nat (length bs)).

(** The chunk header found at offset [off] of the file, when 13 bytes are
    there: (c_type, c_len, u_len, next_head). *)
Definition header_at (w : world) (off : Z) : option (Z * Z * Z * Z) :=
  let bs := file_slice w off 13 in
  if (length bs =? 13)%nat then
    Some (byte_at bs 0,
          u32_of_bytes (take 4 (drop 1 bs)),
          u32_of_bytes (take 4 (drop 5 bs)),
          u32_of_bytes (take 4 (drop 9 bs)))
  else None.

(** The world with the messages [ms] (latest first) added to its log. *)
Definition logged (w : world) (ms : list errmsg) : world :=
  mkWorld (w_fd w) (w_data w) (w_pos w) (w_limit w) (w_allocs w) (ms ++ w_log w).

(** No write on [f] can succeed: [f] is not the open descriptor, or the
    device is full. *)
Definition writes_fail (f : Z) (w : world) : Prop :=
  f <> w_fd w \/ w_limit w <= w_pos w.

(** ** Sessions as [open_stream_out] builds them *)

(** The four writes that [open_stream_out] makes for one stream. *)
Definition emit_initial (f : Z) : M Z :=
  write_u8 f CTYPE_NONE;; write_u32 f 0;; write_u32 f 0;; write_u32 f 0.

(** The stream records of a fresh write-session after its second loop:
    the [j]-th of them has [last_head] at the next_head slot of the [j]-th
    initial header, counted from position [c]. *)
Fixpoint headed (c : Z) (l : list stream) : list stream :=
  match l with
  | [] => []
  | st :: r => with_last_head st (to_u32 (c + 9)) :: headed (to_u32 (c + 13)) r
  end.

(** A stream record of a write-session whose buffer has just been
    allocated. *)
Definition fresh_stream (bufsize bzip_level : Z) : stream :=
  mkStream 0 (Some (mkBuffer bufsize [])) 0 0 bzip_level.

(** The messages left by the four failed writes of one initial header. *)
Definition initial_failures : list errmsg :=
  [MsgWriteFailed 2; MsgWriteFailed 2; MsgWriteFailed 2; MsgWriteFailed 1].

(** The world the four writes of one initial header leave. *)
Definition after_emit (f : Z) (w : world) : world :=
  match emit_initial f w with
  | Done _ w' => w'
  | _ => w
  end.

(** ** A small block codec, for the examples

    Runs of one byte, up to 255 long, are coded in two bytes (the byte and
    the length); anything else is refused. *)
Definition run_compress (level : Z) (src : list byte) : option (list byte) :=
  match src with
  | [] => None
  | b :: r =>
      if forallb (Byte.eqb b) r && (Z.of_nat (length src) <? 256)
      then Some [b; to_uchar (Z.of_nat (length src))]
      else None
  end.

Definition run_decompress (bs : list byte) : option (list byte) :=
  match bs with
  | [b; n] => Some (replicate (Z.to_nat (byte_val n)) b)
  | _ => None
  end.

(** An environment with that codec and an allocator that grants every
    request; and one whose codec refuses everything. *)
Definition run_env : Env := mkEnv run_compress run_decompress (fun _ _ => true).
Definition plain_env : Env := mkEnv (fun _ _ => None) (fun _ => None) (fun _ _ => true).

(** An empty file open on descriptor 3, on a device with room for [2^40]
    bytes. *)
Definition empty_file : world := mkWorld 3 [] 0 (2 ^ 40) 0 [].

(** A file of one stream whose only chunk declares 8 payload bytes for 2
    bytes of data. *)
Definition crafted_file : world :=
  mkWorld 3 (header_bytes 3 0 0 13 ++ header_bytes 3 8 2 0 ++ replicate 8 x41)
          0 (2 ^ 40) 0 [].

(** ** The ways out of [read_stream] *)

(** The first half of an iteration of [read_stream]: what the buffer has is
    copied out, up to [len] bytes. *)
Definition copy_out (st : stream) (out : list byte) (len ret : Z)
  : M (stream * list byte * Z * Z) :=
  let n := MIN (buflen st - bufp st) len in
  if 0 <? n then
    bs ← buf_load (buf st) (bufp st) n;
    mret (with_bufp st (bufp st + n), out ++ bs, len - n, ret + n)
  else mret (st, out, len, ret).

(** How a run of the loop of [read_stream] that was asked for [len] more
    bytes, with [ret] bytes copied to [out] so far, can return [r], [out']
    and the session [sinfo'] in world [w']:
    - all [len] bytes were copied;
    - or the last step was a fill that returned 0 and left the buffer empty
      (end of stream), and [r] counts the bytes copied so far;
    - or the last step was a fill that failed, and [r] is -1. *)
Definition read_exit (E : Env) (stream len ret : Z) (out : list byte)
    (r : Z) (out' : list byte) (sinfo' : stream_info) (w' : world) : Prop :=
  (r = ret + len /\ Z.of_nat (length out') = Z.of_nat (length out) + len)
  \/ (ret <= r < ret + len
      /\ Z.of_nat (length out') = Z.of_nat (length out) + (r - ret)
      /\ exists sb wb st',
           fill_buffer E sb stream wb = Done (0, sinfo') w'
           /\ s sinfo' !! Z.to_nat stream = Some st'
           /\ bufp st' = buflen st')
  \/ (r = -1
      /\ exists sb wb c, c <> 0 /\ fill_buffer E sb stream wb = Done (c, sinfo') w').

(** ** Whole sessions *)

(** The writes of a plan, in order: each entry is a stream index and the
    bytes to write to it. The run stops at the first write that fails. *)
Fixpoint write_plan (E : Env) (sinfo : stream_info) (plan : list (Z * list byte))
  : M (Z * stream_info) :=
  match plan with
  | [] => mret (0, sinfo)
  | (i, bs) :: rest =>
      '(r, sinfo) ← write_stream E sinfo i bs (Z.of_nat (length bs));
      if negb (r =? 0) then mret (r, sinfo) else write_plan E sinfo rest
  end.

(** A write-session from open to close: 0 when every step succeeded. *)
Definition writer_session (E : Env) (f n level : Z) (plan : list (Z * list byte))
  : M Z :=
  o ← open_stream_out E f n level;
  match o with
  | None => mret (-1)
  | Some sinfo =>
      '(r, sinfo) ← write_plan E sinfo plan;
      if negb (r =? 0) then mret (-1) else close_stream_out E sinfo
  end.

(** The reads of a plan, in order: each entry is a stream index and a
    count; the result lists what each [read_stream] returned and copied. *)
Fixpoint read_plan (E : Env) (sinfo : stream_info) (plan : list (Z * Z))
  : M (list (Z * list byte) * stream_info) :=
  match plan with
  | [] => mret ([], sinfo)
  | (i, len) :: rest =>
      '(r, out, sinfo) ← read_stream E sinfo i len;
      '(res, sinfo) ← read_plan E sinfo rest;
      mret ((r, out) :: res, sinfo)
  end.

(** A read-session: [None] when the open fails. *)
Definition reader_session (E : Env) (f n : Z) (plan : list (Z * Z))
  : M (option (list (Z * list byte))) :=
  o ← open_stream_in E f n;
  match o with
  | None => mret None
  | Some sinfo =>
      '(res, _) ← read_plan E sinfo plan;
      mret (Some res)
  end.

(** The reads that mirror a plan of writes, and what they are to return. *)
Definition mirror (plan : list (Z * list byte)) : list (Z * Z) :=
  map (fun '(i, bs) => (i, Z.of_nat (length bs))) plan.
Definition expected (plan : list (Z * list byte)) : list (Z * list byte) :=
  map (fun '(_, bs) => (Z.of_nat (length bs), bs)) plan.

(** Write a plan, go back to where the stream set starts, read it back. *)
Definition round_trip (E : Env) (f n level : Z) (plan : list (Z * list byte))
  : M (option (list (Z * list byte))) :=
  start ← sys_lseek f 0 SEEK_CUR;
  r ← writer_session E f n level plan;
  if negb (r =? 0) then mret None
  else
    sys_lseek f start SEEK_SET;;
    reader_session E f n (mirror plan).

(** ** Two files for the examples *)

(** The file a write-session of two streams leaves after "AAA" went to
    stream 0 and "BB" to stream 1, and the read-session opened on it. *)
Definition two_streams_data : list byte :=
  header_bytes 3 0 0 26 ++ header_bytes 3 0 0 42
    ++ header_bytes 3 3 3 0 ++ [x41; x41; x41]
    ++ header_bytes 3 2 2 0 ++ [x42; x42].
Definition two_streams_file : world :=
  mkWorld 3 two_streams_data 26 (2 ^ 40) 2 [].
Definition two_streams_session : stream_info :=
  mkInfo [mkStream 26 None 0 0 0; mkStream 42 None 0 0 0] 2 3 0 0 0 26.

(** The same file with its last byte missing. *)
Definition truncated_file : world :=
  mkWorld 3 (take 56 two_streams_data) 26 (2 ^ 40) 2 [].

(** ** The initial headers, as [open_stream_in] reads them *)

(** The header that [open_stream_in] takes, on stream 0, for the sentinel
    of the stream close workaround. *)
Definition sentinel : Z * Z * Z * Z := (CTYPE_NONE, 0, 0, 0).

Definition is_sentinel (h : Z * Z * Z * Z) : bool :=
  let '(c, v1, v2, lh) := h in
  (c =? CTYPE_NONE) && (v1 =? 0) && (v2 =? 0) && (lh =? 0).

(** How many times the workaround was applied: the number of its messages
    in the log. *)
Definition is_workaround (m : errmsg) : bool :=
  match m with MsgWorkaround => true | _ => false end.
Definition workarounds (w : world) : nat :=
  length (filter (fun m => is_workaround m = true) (w_log w)).

(** The claim that no open applies the workaround more than once. *)
Definition workaround_at_most_once (E : Env) (f n : Z) (w : world) : Prop :=
  forall r w', open_stream_in E f n w = Done r w' ->
               (workarounds w' <= workarounds w + 1)%nat.

(** The stream records of a read-session just opened: all zero but for the
    [last_head] taken from the stream's initial header. *)
Definition opened_streams (lhs : list Z) : list stream :=
  map (with_last_head zero_stream) lhs.

(** A file that starts with two sentinel headers before the initial header
    of its one stream, whose first chunk holds "AAA". *)
Definition double_sentinel_file : world :=
  mkWorld 3 (header_bytes 3 0 0 0 ++ header_bytes 3 0 0 0
             ++ header_bytes 3 0 0 13 ++ header_bytes 3 3 3 0 ++ [x41; x41; x41])
          0 (2 ^ 40) 0 [].

(** ** The layout of a stream set

    What a write-session has put in the file, chunk by chunk in file order:
    first the initial header of every stream, then the chunks in the order
    of their flushes. *)

Record chunk : Type := mkChunk {
  k_stream : Z;             (* the stream the chunk belongs to *)
  k_ctype : Z;              (* c_type *)
  k_payload : list byte;    (* the c_len bytes that follow the header *)
  k_data : list byte;       (* the u_len bytes the payload stands for *)
  k_next : Z                (* next_head *)
}.

Definition with_next (r : chunk) (v : Z) : chunk :=
  mkChunk (k_stream r) (k_ctype r) (k_payload r) (k_data r) v.

Definition chunk_bytes (r : chunk) : list byte :=
  header_bytes (k_ctype r) (Z.of_nat (length (k_payload r)))
               (Z.of_nat (length (k_data r))) (k_next r)
    ++ k_payload r.

Definition chunk_size (r : chunk) : Z := 13 + Z.of_nat (length (k_payload r)).

Fixpoint layout_bytes (rs : list chunk) : list byte :=
  match rs with
  | [] => []
  | r :: rest => chunk_bytes r ++ layout_bytes rest
  end.

Fixpoint layout_size (rs : list chunk) : Z :=
  match rs with
  | [] => 0
  | r :: rest => chunk_size r + layout_size rest
  end.

(** Whether stream [i] has a chunk in [rs]. *)
Definition has_stream (i : Z) (rs : list chunk) : bool :=
  existsb (fun r => k_stream r =? i) rs.

(** The offset of the first chunk of stream [i] in [rs], which starts at
    offset [base]; 0 when there is none. *)
Fixpoint first_off (base : Z) (i : Z) (rs : list chunk) : Z :=
  match rs with
  | [] => 0
  | r :: rest =>
      if k_stream r =? i then base
      else first_off (base + chunk_size r) i rest
  end.

(** The offset of the last chunk of stream [i] in [rs]. *)
Fixpoint last_off (base : Z) (i : Z) (rs : list chunk) : option Z :=
  match rs with
  | [] => None
  | r :: rest =>
      match last_off (base + chunk_size r) i rest with
      | Some o => Some o
      | None => if k_stream r =? i then Some base else None
      end
  end.

(** Every chunk points to the next chunk of its stream, the last one of
    each stream to 0. *)
Fixpoint linked (base : Z) (rs : list chunk) : Prop :=
  match rs with
  | [] => True
  | r :: rest =>
      k_next r = first_off (base + chunk_size r) (k_stream r) rest
      /\ linked (base + chunk_size r) rest
  end.

(** The layout with the next_head of the last chunk of stream [i] set to
    [v]: the back-patch of a flush. *)
Fixpoint patch (i : Z) (v : Z) (rs : list chunk) : list chunk :=
  match rs with
  | [] => []
  | r :: rest =>
      if has_stream i rest then r :: patch i v rest
      else if k_stream r =? i then with_next r v :: rest
      else r :: rest
  end.

(** The data of stream [i] in the layout, in order. *)
Fixpoint stream_data (i : Z) (rs : list chunk) : list byte :=
  match rs with
  | [] => []
  | r :: rest =>
      if k_stream r =? i then k_data r ++ stream_data i rest
      else stream_data i rest
  end.

(** All the data in the layout, counted. *)
Fixpoint data_total (rs : list chunk) : Z :=
  match rs with
  | [] => 0
  | r :: rest => Z.of_nat (length (k_data r)) + data_total rest
  end.

(** The initial header of stream [i]. *)
Definition initial_chunk (i : Z) : chunk := mkChunk i CTYPE_NONE [] [] 0.

(** The initial headers of streams [i], [i+1], ... ([k] of them). *)
Fixpoint initial_chunks (k : nat) (i : Z) : list chunk :=
  match k with
  | O => []
  | S k' => initial_chunk i :: initial_chunks k' (i + 1)
  end.

(** A chunk a reader can take in: its payload is its data as it is, or
    decompresses to it and is shorter; and the data fits an [int]. *)
Definition chunk_ok (E : Env) (r : chunk) : Prop :=
  Z.of_nat (length (k_data r)) < 2 ^ 31
  /\ ((k_ctype r = CTYPE_NONE /\ k_payload r = k_data r)
      \/ (k_ctype r = CTYPE_BZIP2
          /\ bz_decompress E (k_payload r) = Some (k_data r)
          /\ Z.of_nat (length (k_payload r)) < Z.of_nat (length (k_data r)))).

(** ** The invariant of a write-session *)

(** The bytes waiting in the buffers of all streams, counted. *)
Fixpoint pending_sum (l : list stream) : Z :=
  match l with
  | [] => 0
  | st :: r => buflen st + pending_sum r
  end.

(** [inits] are the initial headers of streams 0 .. N-1, whatever their
    next_head fields. *)
Definition initial_like (N : Z) (inits : list chunk) : Prop :=
  Z.of_nat (length inits) = N
  /\ forall i r, inits !! i = Some r ->
                 r = with_next (initial_chunk (Z.of_nat i)) (k_next r).

(** A chunk that a flush has emitted: it holds data, of a stream of the
    set, in a form the reader can take in. *)
Definition data_chunk (E : Env) (N : Z) (r : chunk) : Prop :=
  chunk_ok E r /\ k_data r <> [] /\ 0 <= k_stream r < N.

(** Stream [i] of a write-session, against the layout [rs]: [last_head] is
    the next_head slot of its last chunk, its buffer holds what was
    written to it (it is [W i] in all) and is not in the layout yet. *)
Definition stream_ready (B L : Z) (W : Z -> list byte) (rs : list chunk)
    (i : Z) (st : stream) : Prop :=
  exists o pend,
    last_off 0 i rs = Some o
    /\ last_head st = o + 9
    /\ buf st = Some (mkBuffer B pend)
    /\ buflen st = Z.of_nat (length pend)
    /\ buflen st <= B
    /\ bzip_level st = L
    /\ stream_data i rs ++ pend = W i.

(** A write-session [si] of [N] streams at level [L] with buffers of [B]
    bytes, started at file offset [p0], after [U] bytes in all were
    accepted, [W i] of them for stream [i], with the layout [rs] in the
    file. *)
Record writer_inv (E : Env) (N L B p0 U : Z) (W : Z -> list byte)
    (si : stream_info) (w : world) (rs : list chunk) : Prop := {
  wi_num : num_streams si = N;
  wi_fd : fd si = w_fd w;
  wi_bufsize : bufsize si = B;
  wi_ip : initial_pos si = p0;
  wi_cur : cur_pos si = layout_size rs;
  wi_len : Z.of_nat (length (s si)) = N;
  wi_file : exists pre post,
      w_data w = pre ++ layout_bytes rs ++ post /\ Z.of_nat (length pre) = p0;
  wi_linked : linked 0 rs;
  wi_shape : exists inits chunks,
      rs = inits ++ chunks /\ initial_like N inits /\ Forall (data_chunk E N) chunks;
  wi_size : layout_size rs <= 13 * N + 14 * data_total rs;
  wi_total : data_total rs + pending_sum (s si) = U;
  wi_streams : forall i st,
      0 <= i -> s si !! Z.to_nat i = Some st -> stream_ready B L W rs i st
}.

(** Every buffer has room for one more byte. *)
Definition all_room (B : Z) (si : stream_info) : Prop :=
  forall i st, s si !! i = Some st -> buflen st < B.

(** The codec gives back what it was given. *)
Definition codec_ok (E : Env) : Prop :=
  forall level src out,
    bz_compress E level src = Some out -> bz_decompress E out = Some src.

(** The buffer size [open_stream_out] takes for a level. *)
Definition bufsize_of (level : Z) : Z :=
  if level =? 0 then 100 * 1024 else to_u32 (100 * 1024 * level).

(** The bytes a plan writes to stream [i], and the bytes it writes in
    all. *)
Fixpoint plan_data (i : Z) (plan : list (Z * list byte)) : list byte :=
  match plan with
  | [] => []
  | (j, bs) :: rest => (if j =? i then bs else []) ++ plan_data i rest
  end.

Fixpoint plan_total (plan : list (Z * list byte)) : Z :=
  match plan with
  | [] => 0
  | (_, bs) :: rest => Z.of_nat (length bs) + plan_total rest
  end.

(** [W] after [bs] more bytes were written to stream [j]. *)
Definition record_write (W : Z -> list byte) (j : Z) (bs : list byte) : Z -> list byte :=
  fun i => if i =? j then W i ++ bs else W i.

(** ** The invariant of a read-session *)

(** A layout a reader can take in, in the bytes [D] of a file from offset
    [p0] on. *)
Record readable (E : Env) (p0 : Z) (D : list byte) (rs : list chunk) : Prop := {
  rd_file : exists pre post,
      D = pre ++ layout_bytes rs ++ post /\ Z.of_nat (length pre) = p0;
  rd_linked : linked 0 rs;
  rd_chunks : Forall (chunk_ok E) rs;
  rd_size : layout_size rs < 2 ^ 32
}.

(** The bytes [bs] of the buffer of a stream record that [read_stream] has
    not handed out yet. *)
Definition unread (st : stream) (bs : list byte) : Prop :=
  0 <= bufp st
  /\ Z.of_nat (length bs) = buflen st - bufp st
  /\ (bs = []
      \/ exists c m, buf st = Some (mkBuffer c m)
           /\ Z.of_nat (length m) = buflen st /\ buflen st <= c
           /\ bs = drop (Z.to_nat (bufp st)) m).

(** Stream [i] of a read-session, against the layout [rs]: [last_head] is
    the offset of the next chunk of the stream, and [rem] is what is left
    to read, from the buffer and then from the chunks to come, which all
    hold data. *)
Definition stream_at (rs : list chunk) (i : Z) (st : stream) (rem : list byte) : Prop :=
  exists pre suf bs,
    rs = pre ++ suf
    /\ last_head st = first_off (layout_size pre) i suf
    /\ Forall (fun r => k_stream r = i -> k_data r <> []) suf
    /\ unread st bs
    /\ rem = bs ++ stream_data i suf.

(** A read-session [si] of [N] streams on the layout [rs] of the file [D],
    with [R i] left to read on stream [i]. *)
Record reader_inv (N p0 : Z) (D : list byte) (rs : list chunk)
    (R : Z -> list byte) (si : stream_info) (w : world) : Prop := {
  ri_fd : fd si = w_fd w;
  ri_ip : initial_pos si = p0;
  ri_len : Z.of_nat (length (s si)) = N;
  ri_data : w_data w = D;
  ri_streams : forall i st,
      0 <= i -> s si !! Z.to_nat i = Some st -> stream_at rs i st (R i)
}.

(** [R] after [n] bytes were read from stream [j]. *)
Definition record_read (R : Z -> list byte) (j : Z) (n : Z) : Z -> list byte :=
  fun i => if i =? j then drop (Z.to_nat n) (R i) else R i.

(** ** The round trip *)

(** A plan is read back as it was written. *)
Definition round_trip_holds (E : Env) (f n level : Z) (plan : list (Z * list byte))
    (w : world) : Prop :=
  exists w', round_trip E f n level plan w = Done (Some (expected plan)) w'.

(** Write a plan, go back, open the stream set and read [len] bytes from
    stream [i]: what [read_stream] returned and copied, and the stream
    record it left; [None] when a step before the read fails. *)
Definition read_back (E : Env) (f n level : Z) (plan : list (Z * list byte))
    (i len : Z) : M (option (Z * list byte * stream)) :=
  start ← sys_lseek f 0 SEEK_CUR;
  r ← writer_session E f n level plan;
  if negb (r =? 0) then mret None
  else
    sys_lseek f start SEEK_SET;;
    o ← open_stream_in E f n;
    match o with
    | None => mret None
    | Some sinfo =>
        '(r, out, sinfo) ← read_stream E sinfo i len;
        st ← get_stream sinfo i;
        mret (Some (r, out, st))
    end.

(** The read of [read_back] returns 0, copies nothing and leaves the buffer
    of the stream empty. *)
Definition reads_zero (E : Env) (f n level : Z) (plan : list (Z * list byte))
    (i len : Z) (w : world) : Prop :=
  exists st w',
    read_back E f n level plan i len w = Done (Some (0, [], st)) w'
    /\ bufp st = 0 /\ buflen st = 0.

(** A plan for the examples: two writes to stream 0 around one to stream 1,
    whose five equal bytes the small codec takes. *)
Definition sample_plan : list (Z * list byte) :=
  [(0, [x41; x41; x41]); (1, [x42; x42; x42; x42; x42]); (0, [x43])].

(** ** Frames *)

(** The world [w'] has the file of [w]: the same bytes behind the same
    descriptor on the same device; the offset, the allocations and the log
    may differ. *)
Definition same_file (w w' : world) : Prop :=
  w_data w' = w_data w /\ w_fd w' = w_fd w /\ w_limit w' = w_limit w.

(** Every offset the write-session [si] seeks to is at or after [p0]: the
    set starts there, and the offsets it keeps ([cur_pos], every
    [last_head]) are unsigned. *)
Definition seeks_from (p0 : Z) (si : stream_info) : Prop :=
  p0 <= initial_pos si /\ 0 <= cur_pos si
  /\ Forall (fun st => 0 <= last_head st) (s si).

(** ** One slot of a read-session *)

(** Slot [i] of the read-session [si] follows the chain of stream [c] of
    the layout [rs], with [rem] left to read. After [open_stream_in], [c]
    is [i]. *)
Record follows (p0 : Z) (D : list byte) (rs : list chunk) (c : Z)
    (rem : list byte) (i : Z) (si : stream_info) (w : world) : Prop := {
  fo_fd : fd si = w_fd w;
  fo_ip : initial_pos si = p0;
  fo_data : w_data w = D;
  fo_slot : exists st, s si !! Z.to_nat i = Some st /\ stream_at rs c st rem
}.

(** Write a plan, go back to where the stream set starts, open it and make
    the reads [reads]: what each [read_stream] returned and copied. *)
Definition write_then_read (E : Env) (f n level : Z) (plan : list (Z * list byte))
    (reads : list (Z * Z)) : M (option (list (Z * list byte))) :=
  start ← sys_lseek f 0 SEEK_CUR;
  r ← writer_session E f n level plan;
  if negb (r =? 0) then mret None
  else
    sys_lseek f start SEEK_SET;;
    reader_session E f n reads.

(** What a sequence of reads is to return when [R i] is left to read on
    stream [i]: each read of [n] bytes from stream [i] takes the next [n]
    bytes of it. *)
Fixpoint served (R : Z -> list byte) (reads : list (Z * Z)) : list (Z * list byte) :=
  match reads with
  | [] => []
  | (i, n) :: rest =>
      (n, take (Z.to_nat n) (R i)) :: served (record_read R i n) rest
  end.

(** No read of the sequence asks for more than is left on its stream. *)
Fixpoint within (R : Z -> list byte) (reads : list (Z * Z)) : Prop :=
  match reads with
  | [] => True
  | (i, n) :: rest =>
      0 <= n <= Z.of_nat (length (R i)) /\ within (record_read R i n) rest
  end.

(** * Properties of the model *)

(** ** Bytes and integers *)

Lemma byte_val_range b : 0 <= byte_val b < 256.
Proof.
  unfold byte_val. pose proof (Byte.to_N_bounded b). lia.
Qed.

Lemma byte_val_to_uchar z : byte_val (to_uchar z) = z mod 256.
Proof.
  unfold byte_val, to_uchar.
  assert (Hr : 0 <= z mod 256 < 256) by (apply Z.mod_pos_bound; lia).
  pose proof (Byte.to_of_N_option_map (Z.to_N (z mod 256))) as H.
  destruct (Byte.of_N (Z.to_N (z mod 256))) as [b|] eqn:Hb; simpl in H.
  - destruct (N.leb_spec (Z.to_N (z mod 256)) 255); [|lia].
    injection H as ->. lia.
  - destruct (N.leb_spec (Z.to_N (z mod 256)) 255); [discriminate|lia].
Qed.

Lemma to_uchar_byte_val b : to_uchar (byte_val b) = b.
Proof.
  unfold to_uchar, byte_val.
  pose proof (Byte.to_N_bounded b).
  rewrite Z.mod_small by lia. rewrite N2Z.id, Byte.of_to_N. reflexivity.
Qed.

Lemma lor_shiftl_add a b n :
  0 <= n -> 0 <= b < 2 ^ n -> Z.lor (Z.shiftl a n) b = a * 2 ^ n + b.
Proof.
  intros Hn Hb.
  assert (Hl : Z.land (Z.shiftl a n) b = 0).
  { apply Z.bits_inj'. intros i Hi. rewrite Z.land_spec, Z.bits_0.
    destruct (Z.lt_ge_cases i n).
    - rewrite Z.shiftl_spec_low by lia. reflexivity.
    - destruct (Z.eq_dec b 0) as [->|]; [rewrite Z.bits_0; apply andb_false_r|].
      rewrite (Z.bits_above_log2 b i); [apply andb_false_r|lia|].
      apply Z.log2_lt_pow2; [lia|]. eapply Z.lt_le_trans; [apply Hb|].
      apply Z.pow_le_mono_r; lia. }
  pose proof (Z.add_lor_land (Z.shiftl a n) b) as H.
  rewrite Hl in H. rewrite Z.shiftl_mul_pow2 in * by lia. lia.
Qed.

Lemma u16_of_bytes_u16_bytes h :
  0 <= h < 2 ^ 16 -> u16_of_bytes (u16_bytes h) = h.
Proof.
  intros Hh. unfold u16_of_bytes, u16_bytes, byte_at. simpl.
  rewrite !byte_val_to_uchar.
  change 255 with (Z.ones 8). rewrite !Z.land_ones by lia.
  rewrite Z.shiftr_div_pow2 by lia.
  rewrite !Z.mod_mod by lia. change (2 ^ 8) with 256.
  assert (Hd : 0 <= h / 256 < 256) by (split; [apply Z.div_pos; lia | apply Z.div_lt_upper_bound; lia]).
  rewrite (Z.mod_small (h / 256)) by lia.
  assert (Hm : 0 <= h mod 256 < 256) by (apply Z.mod_pos_bound; lia).
  rewrite lor_shiftl_add by lia. change (2 ^ 8) with 256.
  unfold to_u16. rewrite (Z.mul_comm _ 256), <- Z.div_mod by lia. apply Z.mod_small; lia.
Qed.

Lemma u32_halves v :
  0 <= v < 2 ^ 32 ->
  Z.lor (to_u32 (Z.shiftl (Z.shiftr v 16) 16)) (Z.land v 65535) = v.
Proof.
  intros Hv. change 65535 with (Z.ones 16). rewrite Z.land_ones by lia.
  rewrite Z.shiftr_div_pow2 by lia.
  assert (Hd : 0 <= v / 2 ^ 16 < 2 ^ 16) by (split; [apply Z.div_pos; lia | apply Z.div_lt_upper_bound; lia]).
  assert (Hm : 0 <= v mod 2 ^ 16 < 2 ^ 16) by (apply Z.mod_pos_bound; lia).
  unfold to_u32. rewrite Z.shiftl_mul_pow2 by lia.
  rewrite (Z.mod_small (v / 2 ^ 16 * 2 ^ 16)).
  - rewrite <- Z.shiftl_mul_pow2 by lia.
    rewrite lor_shiftl_add by lia.
    rewrite (Z.mul_comm _ (2 ^ 16)), <- Z.div_mod by lia. reflexivity.
  - change (2 ^ 32) with (2 ^ 16 * 2 ^ 16). nia.
Qed.

Lemma to_uchar_mod a b : a mod 256 = b mod 256 -> to_uchar a = to_uchar b.
Proof. unfold to_uchar. intros ->. reflexivity. Qed.

Lemma to_u32_small v : 0 <= v < 2 ^ 32 -> to_u32 v = v.
Proof. intros. apply Z.mod_small. lia. Qed.

Lemma to_u32_range v : 0 <= to_u32 v < 2 ^ 32.
Proof. apply Z.mod_pos_bound. lia. Qed.

Lemma to_int_small v : - 2 ^ 31 <= v < 2 ^ 31 -> to_int v = v.
Proof. intros. unfold to_int. rewrite Z.mod_small; lia. Qed.

Lemma u32_low_half v : 0 <= v < 2 ^ 32 ->
  to_u16 (Z.land v 65535) = v mod 2 ^ 16.
Proof.
  intros. change 65535 with (Z.ones 16). rewrite Z.land_ones by lia.
  unfold to_u16. apply Z.mod_mod. lia.
Qed.

Lemma u32_high_half v : 0 <= v < 2 ^ 32 ->
  to_u16 (Z.shiftr v 16) = v / 2 ^ 16.
Proof.
  intros. rewrite Z.shiftr_div_pow2 by lia. unfold to_u16.
  apply Z.mod_small. split; [apply Z.div_pos; lia | apply Z.div_lt_upper_bound; lia].
Qed.

Lemma length_u16_bytes v : length (u16_bytes v) = 2%nat.
Proof. reflexivity. Qed.

Lemma length_u32_bytes v : length (u32_bytes v) = 4%nat.
Proof. reflexivity. Qed.

Lemma length_header_bytes c cl ul nx : length (header_bytes c cl ul nx) = 13%nat.
Proof. reflexivity. Qed.

Lemma u32_of_bytes_u32_bytes v :
  0 <= v < 2 ^ 32 -> u32_of_bytes (u32_bytes v) = v.
Proof.
  intros Hv. unfold u32_of_bytes, u32_bytes.
  rewrite (to_u32_small v) by assumption.
  rewrite drop_app_length', take_app_length' by reflexivity.
  rewrite u32_low_half, u32_high_half by assumption.
  rewrite !u16_of_bytes_u16_bytes.
  - rewrite <- (u32_halves v) at 3 by assumption.
    change 65535 with (Z.ones 16). rewrite Z.land_ones, Z.shiftr_div_pow2 by lia.
    reflexivity.
  - apply Z.mod_pos_bound. lia.
  - split; [apply Z.div_pos; lia | apply Z.div_lt_upper_bound; lia].
Qed.

(** The bytes of [write_u32] are those of [v], least significant first. *)
Lemma u32_bytes_le v :
  0 <= v < 2 ^ 32 ->
  u32_bytes v = [to_uchar v; to_uchar (v / 2 ^ 8); to_uchar (v / 2 ^ 16); to_uchar (v / 2 ^ 24)].
Proof.
  intros Hv. unfold u32_bytes. rewrite (to_u32_small v) by assumption.
  rewrite u32_low_half, u32_high_half by assumption.
  unfold u16_bytes. cbn [app].
  change 255 with (Z.ones 8). rewrite !Z.land_ones by lia.
  rewrite !Z.shiftr_div_pow2 by lia.
  change (2 ^ 8) with 256. change (2 ^ 16) with 65536. change (2 ^ 24) with 16777216.
  change (2 ^ 32) with 4294967296 in Hv.
  repeat (f_equal; try (apply to_uchar_mod; Z.to_euclidean_division_equations; lia)).
Qed.

(** ** Lists of bytes written in place *)

Lemma pwrite_end (d bs : list byte) : pwrite (length d) bs d = d ++ bs.
Proof.
  unfold pwrite. rewrite firstn_all, Nat.sub_diag. cbn [replicate app].
  rewrite drop_ge by lia. rewrite app_nil_r. reflexivity.
Qed.

Lemma pwrite_mid (a b c bs : list byte) :
  length bs = length b -> pwrite (length a) bs (a ++ b ++ c) = a ++ bs ++ c.
Proof.
  intros Hl. unfold pwrite.
  rewrite take_app_length.
  replace (length a - length (a ++ b ++ c))%nat with 0%nat
    by (rewrite !length_app; lia).
  cbn [replicate app].
  rewrite Hl, drop_app_add, drop_app_length. reflexivity.
Qed.

Lemma pwrite_nil (off : nat) (d : list byte) :
  (off <= length d)%nat -> pwrite off [] d = d.
Proof.
  intros H. unfold pwrite. replace (off - length d)%nat with 0%nat by lia.
  cbn [replicate app length]. rewrite Nat.add_0_r. apply take_drop.
Qed.

Lemma length_pwrite (off : nat) (bs d : list byte) :
  length (pwrite off bs d) = Nat.max (length d) (off + length bs).
Proof.
  unfold pwrite. rewrite !length_app, length_take, length_replicate, length_drop. lia.
Qed.

Lemma pwrite_app (off : nat) (a b d : list byte) :
  pwrite (off + length a) b (pwrite off a d) = pwrite off (a ++ b) d.
Proof.
  unfold pwrite at 1.
  assert (Hlen := length_pwrite off a d).
  replace (off + length a - length (pwrite off a d))%nat with 0%nat by lia.
  cbn [replicate app].
  assert (Ht : take (off + length a) (pwrite off a d)
               = take off d ++ replicate (off - length d) x00 ++ a).
  { unfold pwrite. rewrite !app_assoc.
    apply take_app_length'.
    rewrite !length_app, length_take, length_replicate. lia. }
  assert (Hd : drop (off + length a + length b) (pwrite off a d)
               = drop (off + length (a ++ b)) d).
  { unfold pwrite. rewrite !app_assoc.
    rewrite drop_app_ge by (rewrite !length_app, length_take, length_replicate; lia).
    rewrite !length_app, length_take, length_replicate, drop_drop.
    f_equal. lia. }
  rewrite Ht, Hd. unfold pwrite. rewrite <- !app_assoc. reflexivity.
Qed.

Lemma slice_app_mid (a b c : list byte) :
  take (length b) (drop (length a) (a ++ b ++ c)) = b.
Proof. rewrite drop_app_length, take_app_length. reflexivity. Qed.

(** ** Running the monad *)

Lemma mbind_eq {A B} (k : A -> M B) (m : M A) (w : world) :
  (m ≫= k) w = match m w with
               | Done a w' => k a w'
               | Fault f => Fault f
               | Timeout => Timeout
               end.
Proof. reflexivity. Qed.

Lemma mbind_done {A B} (k : A -> M B) (m : M A) (w w' : world) (a : A) :
  m w = Done a w' -> (m ≫= k) w = k a w'.
Proof. intros H. rewrite mbind_eq, H. reflexivity. Qed.

Lemma mret_eq {A} (a : A) (w : world) : (mret a : M A) w = Done a w.
Proof. reflexivity. Qed.

Lemma err_msg_ret {A} (m : errmsg) (a : A) (w : world) :
  (err_msg m;; mret a) w = Done a (logged w [m]).
Proof. reflexivity. Qed.

(** ** The system calls and the wire codec on a file that takes the bytes *)

Lemma write_at_app w a b :
  0 <= w_pos w -> write_at (write_at w a) b = write_at w (a ++ b).
Proof.
  intros Hp. unfold write_at, set_file. cbn [w_pos w_data w_fd w_limit w_allocs w_log].
  f_equal.
  - replace (Z.to_nat (w_pos w + Z.of_nat (length a)))
      with (Z.to_nat (w_pos w) + length a)%nat by lia.
    apply pwrite_app.
  - rewrite length_app. lia.
Qed.

Lemma write_buf_ok f p len w :
  f = w_fd w -> len = Z.of_nat (length p) -> 0 < len ->
  w_pos w + len <= w_limit w ->
  write_buf f p len w = Done 0 (write_at w p).
Proof.
  intros Hf Hlen Hpos Hlim. unfold write_buf.
  assert (Hw : sys_write f p len w = Done len (write_at w p)).
  { unfold sys_write. rewrite Hf, Z.eqb_refl. cbn [negb].
    destruct (Z.ltb_spec len 0); [lia|].
    destruct (Z.eqb_spec len 0); [lia|].
    rewrite Z.min_l by lia.
    destruct (Z.leb_spec len 0); [lia|].
    unfold write_at. rewrite Hlen, Nat2Z.id, firstn_all. reflexivity. }
  rewrite (mbind_done _ _ _ _ _ Hw).
  destruct (Z.eqb_spec len (-1)); [lia|].
  rewrite Z.eqb_refl. reflexivity.
Qed.

Lemma write_buf_zero f p w :
  f = w_fd w -> write_buf f p 0 w = Done 0 w.
Proof.
  intros Hf. unfold write_buf, sys_write. rewrite mbind_eq, Hf, Z.eqb_refl.
  reflexivity.
Qed.

Lemma write_u8_ok f v w :
  f = w_fd w -> w_pos w + 1 <= w_limit w ->
  write_u8 f v w = Done 0 (write_at w [to_uchar v]).
Proof. intros. unfold write_u8. apply write_buf_ok; auto; cbn; lia. Qed.

Lemma write_u16_ok f v w :
  f = w_fd w -> w_pos w + 2 <= w_limit w ->
  write_u16 f v w = Done 0 (write_at w (u16_bytes (to_u16 v))).
Proof. intros. unfold write_u16. apply write_buf_ok; auto; cbn; lia. Qed.

Lemma write_u32_ok f v w :
  f = w_fd w -> 0 <= w_pos w -> w_pos w + 4 <= w_limit w ->
  write_u32 f v w = Done 0 (write_at w (u32_bytes v)).
Proof.
  intros Hf Hp Hl. unfold write_u32.
  erewrite mbind_done by (apply write_u16_ok; [assumption | lia]).
  cbn [Z.eqb negb].
  erewrite mbind_done
    by (apply write_u16_ok; [assumption | cbn [write_at set_file w_pos w_limit u16_bytes length]; lia]).
  cbn [Z.eqb negb]. rewrite mret_eq, write_at_app by assumption. reflexivity.
Qed.

Lemma file_slice_set_pos w p off n :
  file_slice (set_pos w p) off n = file_slice w off n.
Proof. reflexivity. Qed.

Lemma w_pos_set_pos w p : w_pos (set_pos w p) = p.
Proof. reflexivity. Qed.

Lemma set_pos_set_pos w a b : set_pos (set_pos w a) b = set_pos w b.
Proof. reflexivity. Qed.

Lemma length_file_slice_le w off n :
  0 <= n -> Z.of_nat (length (file_slice w off n)) <= n.
Proof. intros. unfold file_slice. rewrite length_take. lia. Qed.

(** A slice of a slice. *)
Lemma file_slice_sub w off n a k :
  0 <= off -> 0 <= a -> 0 <= k -> a + k <= n ->
  take (Z.to_nat k) (drop (Z.to_nat a) (file_slice w off n)) = file_slice w (off + a) k.
Proof.
  intros Ho Ha Hk Hn. unfold file_slice.
  replace (Z.to_nat n) with (Z.to_nat a + (Z.to_nat n - Z.to_nat a))%nat by lia.
  rewrite <- take_drop_commute, take_take, drop_drop.
  f_equal; [lia | f_equal; lia].
Qed.

Lemma file_slice_take w off n k :
  0 <= k <= n -> take (Z.to_nat k) (file_slice w off n) = file_slice w off k.
Proof.
  intros H. unfold file_slice. rewrite take_take. f_equal. lia.
Qed.

Lemma file_slice_drop w off n a :
  0 <= off -> 0 <= a <= n ->
  drop (Z.to_nat a) (file_slice w off n) = file_slice w (off + a) (n - a).
Proof.
  intros Ho Ha. unfold file_slice.
  replace (Z.to_nat n) with (Z.to_nat a + Z.to_nat (n - a))%nat by lia.
  rewrite <- take_drop_commute, drop_drop.
  f_equal. f_equal. lia.
Qed.

Lemma length_file_slice_sub w off n a k :
  0 <= off -> 0 <= a -> 0 <= k -> a + k <= n ->
  Z.of_nat (length (file_slice w off n)) = n ->
  Z.of_nat (length (file_slice w (off + a) k)) = k.
Proof.
  intros Ho Ha Hk Hn Hl. unfold file_slice in *.
  rewrite length_take, length_drop in *. lia.
Qed.

Lemma read_buf_ok f len w :
  f = w_fd w -> 0 <= len ->
  Z.of_nat (length (file_slice w (w_pos w) len)) = len ->
  read_buf f len w = Done (0, file_slice w (w_pos w) len) (set_pos w (w_pos w + len)).
Proof.
  intros Hf Hlen Hl. unfold read_buf, sys_read.
  rewrite mbind_eq, Hf, Z.eqb_refl. cbn [negb].
  destruct (Z.ltb_spec len 0); [lia|].
  fold (file_slice w (w_pos w) len). rewrite Hl.
  destruct (Z.eqb_spec len (-1)); [lia|].
  rewrite Z.eqb_refl. reflexivity.
Qed.

(** A read that meets the end of the file early fails, leaving the bytes it
    got. *)
Lemma read_buf_short f len w :
  f = w_fd w -> 0 <= len ->
  Z.of_nat (length (file_slice w (w_pos w) len)) <> len ->
  exists w', read_buf f len w = Done (-1, file_slice w (w_pos w) len) w'
             /\ w_data w' = w_data w /\ w_fd w' = w_fd w.
Proof.
  intros Hf Hlen Hl. unfold read_buf, sys_read.
  rewrite mbind_eq, Hf, Z.eqb_refl. cbn [negb].
  destruct (Z.ltb_spec len 0); [lia|].
  fold (file_slice w (w_pos w) len).
  destruct (Z.eqb_spec (Z.of_nat (length (file_slice w (w_pos w) len))) (-1)); [lia|].
  destruct (Z.eqb_spec (Z.of_nat (length (file_slice w (w_pos w) len))) len); [lia|].
  cbn [negb]. eexists. split; [reflexivity|]. split; reflexivity.
Qed.

Lemma read_u8_ok f w :
  f = w_fd w -> 0 <= w_pos w ->
  Z.of_nat (length (file_slice w (w_pos w) 1)) = 1 ->
  read_u8 f w = Done (Some (byte_at (file_slice w (w_pos w) 1) 0)) (set_pos w (w_pos w + 1)).
Proof.
  intros Hf Hp Hl. unfold read_u8.
  rewrite (mbind_done _ _ _ _ _ (read_buf_ok f 1 w Hf ltac:(lia) Hl)). reflexivity.
Qed.

Lemma read_u16_ok f w :
  f = w_fd w -> 0 <= w_pos w ->
  Z.of_nat (length (file_slice w (w_pos w) 2)) = 2 ->
  read_u16 f w = Done (Some (u16_of_bytes (file_slice w (w_pos w) 2))) (set_pos w (w_pos w + 2)).
Proof.
  intros Hf Hp Hl. unfold read_u16.
  rewrite (mbind_done _ _ _ _ _ (read_buf_ok f 2 w Hf ltac:(lia) Hl)). reflexivity.
Qed.

Lemma read_u32_ok f w :
  f = w_fd w -> 0 <= w_pos w ->
  Z.of_nat (length (file_slice w (w_pos w) 4)) = 4 ->
  read_u32 f w = Done (Some (u32_of_bytes (file_slice w (w_pos w) 4))) (set_pos w (w_pos w + 4)).
Proof.
  intros Hf Hp Hl. unfold read_u32.
  assert (H1 : Z.of_nat (length (file_slice w (w_pos w) 2)) = 2).
  { rewrite <- (Z.add_0_r (w_pos w)).
    apply (length_file_slice_sub w (w_pos w) 4 0 2); lia. }
  assert (H2 : Z.of_nat (length (file_slice w (w_pos w + 2) 2)) = 2).
  { apply (length_file_slice_sub w (w_pos w) 4 2 2); lia. }
  rewrite (mbind_done _ _ _ _ _ (read_u16_ok f w Hf Hp H1)).
  erewrite mbind_done; cycle 1.
  { apply read_u16_ok; [exact Hf | cbn; lia | exact H2]. }
  rewrite mret_eq. unfold u32_of_bytes.
  cbn [set_pos set_file w_pos w_data].
  rewrite file_slice_set_pos.
  change (take 2 (file_slice w (w_pos w) 4))
    with (take (Z.to_nat 2) (file_slice w (w_pos w) 4)).
  change (drop 2 (file_slice w (w_pos w) 4))
    with (drop (Z.to_nat 2) (file_slice w (w_pos w) 4)).
  rewrite file_slice_take, file_slice_drop by lia.
  change (4 - 2) with 2.
  rewrite mret_eq. f_equal. unfold set_pos, set_file. cbn [w_fd w_data w_limit w_allocs w_log].
  f_equal. lia.
Qed.

Lemma slice_pwrite (off : nat) (bs d : list byte) :
  take (length bs) (drop off (pwrite off bs d)) = bs.
Proof.
  unfold pwrite. rewrite (app_assoc (take off d)).
  rewrite drop_app_length' by (rewrite length_app, length_take, length_replicate; lia).
  apply take_app_length.
Qed.

Lemma file_slice_write_at w bs :
  file_slice (write_at w bs) (w_pos w) (Z.of_nat (length bs)) = bs.
Proof.
  unfold file_slice, write_at, set_file. cbn [w_data].
  rewrite Nat2Z.id. apply slice_pwrite.
Qed.

(** ** Inverting a run *)

(** From a run that is [Done], the run of its first step. *)
Ltac bind_inv_fresh H :=
  let a := fresh "a" in
  let w := fresh "w" in
  let Hm := fresh "Hrun" in
  match type of H with
  | (?m ≫= ?k) ?w0 = _ =>
      rewrite (mbind_eq k m w0) in H;
      destruct (m w0) as [a w| |] eqn:Hm; [|discriminate H|discriminate H]
  end.

(** The test [if (r != 0) return -1] in a run that returned 0. *)
Ltac ret0_inv H :=
  match type of H with
  | (if negb (?r =? 0) then _ else _) _ = _ =>
      let Hr := fresh "Hr" in
      destruct (Z.eqb_spec r 0) as [Hr|Hr]; cbn [negb] in H;
      [|rewrite mret_eq in H; injection H; intros; discriminate || lia]
  end.

Tactic Notation "bind_inv" hyp(H) "as" simple_intropattern(a) ident(w) ident(Hm) :=
  match type of H with
  | (?m ≫= ?k) ?w0 = _ =>
      let x := fresh "x" in
      rewrite (mbind_eq k m w0) in H;
      destruct (m w0) as [x w| |] eqn:Hm;
      [revert x Hm H; intros a Hm H|discriminate H|discriminate H]
  end.

Tactic Notation "bind_inv" hyp(H) := bind_inv_fresh H.

(** ** The fuel of the loops

    A loop that returns with some fuel returns the same with more: what the
    model returns does not depend on the bound it was run with, so it is
    what the C loop returns. *)

Tactic Notation "step_both" hyp(H) "as" simple_intropattern(pat) :=
  match type of H with
  | (?m ≫= ?k) ?w0 = _ =>
      rewrite (mbind_eq k m w0) in H;
      match goal with
      | |- (m ≫= ?k') w0 = _ => rewrite (mbind_eq k' m w0)
      end;
      let x := fresh "x" in
      let w := fresh "w" in
      destruct (m w0) as [x w| |];
      [revert x H; intros pat H|discriminate H|discriminate H]
  end.

Lemma write_stream_loop_mono E fuel : forall fuel' si i p len w res w',
  (fuel <= fuel')%nat ->
  write_stream_loop E fuel si i p len w = Done res w' ->
  write_stream_loop E fuel' si i p len w = Done res w'.
Proof.
  induction fuel as [|fuel IH]; intros fuel' si i p len w res w' Hle H; [discriminate H|].
  destruct fuel' as [|fuel']; [lia|].
  cbn [write_stream_loop] in H |- *.
  destruct (len =? 0); [exact H|].
  step_both H as st. step_both H as nb. cbv beta iota zeta in H |- *.
  match type of H with
  | (if ?c then _ else _) _ = _ => destruct c
  end.
  - step_both H as [r si1]. cbv beta iota in H |- *.
    destruct (negb (r =? 0)); [exact H|]. apply IH; [lia|exact H].
  - apply IH; [lia|exact H].
Qed.

Lemma read_stream_loop_mono E fuel : forall fuel' si i out len ret w res w',
  (fuel <= fuel')%nat ->
  read_stream_loop E fuel si i out len ret w = Done res w' ->
  read_stream_loop E fuel' si i out len ret w = Done res w'.
Proof.
  induction fuel as [|fuel IH]; intros fuel' si i out len ret w res w' Hle H;
    [discriminate H|].
  destruct fuel' as [|fuel']; [lia|].
  cbn [read_stream_loop] in H |- *.
  destruct (len =? 0); [exact H|].
  step_both H as st. step_both H as [[[st2 out2] len2] ret2].
  cbv beta iota zeta in H |- *.
  match type of H with
  | (if ?c then _ else _) _ = _ => destruct c
  end.
  - step_both H as [r si1]. cbv beta iota in H |- *.
    destruct (negb (r =? 0)); [exact H|].
    step_both H as st3.
    match type of H with
    | (if ?c then _ else _) _ = _ => destruct c
    end; [exact H|apply IH; [lia|exact H]].
  - apply IH; [lia|exact H].
Qed.

Lemma read_initial_header_mono fuel : forall fuel' f i si w res w',
  (fuel <= fuel')%nat ->
  read_initial_header fuel f i si w = Done res w' ->
  read_initial_header fuel' f i si w = Done res w'.
Proof.
  induction fuel as [|fuel IH]; intros fuel' f i si w res w' Hle H; [discriminate H|].
  destruct fuel' as [|fuel']; [lia|].
  cbn [read_initial_header] in H |- *.
  step_both H as [c|]; [|exact H].
  step_both H as [v1|]; [|exact H].
  step_both H as [v2|]; [|exact H].
  step_both H as st.
  step_both H as [lh|]; [|exact H].
  cbv beta iota zeta in H |- *.
  match type of H with
  | (if ?c then _ else _) _ = _ => destruct c
  end; [|exact H].
  step_both H as u. apply IH; [lia|exact H].
Qed.

(** ** The u32 wire codec *)

(** C7: for every 32-bit value [v], [write_u32] emits the two 16-bit halves
    of [v], low half first, each half low byte first (so the four bytes of
    [v] from the least significant one), and [read_u32] over those four
    bytes returns [v]. *)
Theorem write_u32_read_u32_roundtrip f v w :
  0 <= v < 2 ^ 32 ->
  f = w_fd w -> 0 <= w_pos w -> w_pos w + 4 <= w_limit w ->
  let bs := [to_uchar v; to_uchar (v / 2 ^ 8);
             to_uchar (v / 2 ^ 16); to_uchar (v / 2 ^ 24)] in
  u16_bytes (to_u16 (Z.land v 65535)) ++ u16_bytes (to_u16 (Z.shiftr v 16)) = bs
  /\ write_u32 f v w = Done 0 (write_at w bs)
  /\ read_u32 f (set_pos (write_at w bs) (w_pos w)) = Done (Some v) (write_at w bs).
Proof.
  intros Hv Hf Hp Hl bs.
  assert (Hbs : u32_bytes v = bs) by (apply u32_bytes_le; assumption).
  split; [|split].
  - rewrite <- Hbs. unfold u32_bytes. rewrite to_u32_small by assumption. reflexivity.
  - rewrite <- Hbs. apply write_u32_ok; assumption.
  - rewrite read_u32_ok.
    + cbn [set_pos set_file w_pos]. rewrite file_slice_set_pos.
      change 4 with (Z.of_nat (length bs)) at 1.
      rewrite file_slice_write_at, <- Hbs, u32_of_bytes_u32_bytes by assumption.
      f_equal.
    + exact Hf.
    + exact Hp.
    + cbn [set_pos set_file w_pos]. rewrite file_slice_set_pos.
      change 4 with (Z.of_nat (length bs)) at 1.
      rewrite file_slice_write_at. reflexivity.
Qed.

Lemma write_u32_read_u32_roundtrip_witness :
  let w := mkWorld 3 [] 0 100 0 [] in
  let bs := [x78; x56; x34; x12] in
  write_u32 3 305419896 w = Done 0 (write_at w bs)
  /\ read_u32 3 (set_pos (write_at w bs) 0) = Done (Some 305419896) (write_at w bs).
Proof.
  intros w bs.
  exact (proj2 (write_u32_read_u32_roundtrip 3 305419896 w
                  ltac:(lia) eq_refl ltac:(cbn; lia) ltac:(cbn; lia))).
Defined.

(** ** Stream records and allocation *)

Lemma get_stream_ok si i st w :
  0 <= i -> s si !! Z.to_nat i = Some st -> get_stream si i w = Done st w.
Proof.
  intros Hi Hs. unfold get_stream.
  destruct (Z.ltb_spec i 0); [lia|]. rewrite Hs. reflexivity.
Qed.

Section Alloc.

Context (E : Env).
Hypothesis allocs_granted : forall k sz, alloc_ok E k sz = true.

Lemma malloc_ok sz w :
  malloc E sz w = Done (Some (mkBuffer sz [])) (count_alloc w).
Proof. unfold malloc. rewrite allocs_granted. reflexivity. Qed.

Lemma alloc_struct_ok sz w : alloc_struct E sz w = Done true (count_alloc w).
Proof. unfold alloc_struct. rewrite allocs_granted. reflexivity. Qed.

Lemma calloc_streams_ok n w :
  0 <= n ->
  calloc_streams E n w = Done (Some (replicate (Z.to_nat n) zero_stream)) (count_alloc w).
Proof.
  intros Hn. unfold calloc_streams. rewrite allocs_granted.
  destruct (Z.leb_spec 0 n); [reflexivity|lia].
Qed.

(** The first loop of [open_stream_out] gives every stream its buffer and
    level. *)
Lemma alloc_bufs_ok k : forall i si lvl w done,
  0 <= i -> length done = Z.to_nat i ->
  s si = done ++ replicate k zero_stream ->
  alloc_bufs E k i si lvl w
  = Done (Some (with_s si (done ++ replicate k (fresh_stream (bufsize si) lvl))))
         (Nat.iter k count_alloc w).
Proof.
  induction k as [|k IH]; intros i si lvl w done Hi Hlen Hs.
  - cbn [alloc_bufs replicate Nat.iter] in Hs |- *. rewrite mret_eq, <- Hs.
    destruct si; reflexivity.
  - cbn [alloc_bufs].
    assert (Hget : s si !! Z.to_nat i = Some zero_stream).
    { rewrite Hs, lookup_app_r by lia. rewrite Hlen, Nat.sub_diag. reflexivity. }
    rewrite (mbind_done _ _ _ _ _ (get_stream_ok si i _ w Hi Hget)).
    rewrite (mbind_done _ _ _ _ _ (malloc_ok _ w)).
    rewrite (IH (i + 1) _ lvl (count_alloc w) (done ++ [fresh_stream (bufsize si) lvl])).
    + f_equal.
      * f_equal. unfold with_s, set_stream. cbn [s num_streams fd bufsize cur_pos initial_pos total_read].
        f_equal. rewrite <- app_assoc. reflexivity.
      * rewrite Nat.iter_succ_r. reflexivity.
    + lia.
    + rewrite length_app. cbn [length]. lia.
    + unfold set_stream, with_s. cbn [s].
      rewrite Hs. rewrite <- Hlen.
      rewrite insert_app_r_alt by lia. rewrite Nat.sub_diag. cbn [replicate].
      rewrite insert_app_r_alt by lia. rewrite Nat.sub_diag. cbn.
      rewrite <- app_assoc. reflexivity.
Qed.

End Alloc.

(** ** The second loop of [open_stream_out] *)

Lemma iter_cur_pos k c : Nat.iter k (fun c => to_u32 (c + 13)) (to_u32 c) = to_u32 (c + 13 * Z.of_nat k).
Proof.
  induction k as [|k IH].
  - cbn. f_equal. lia.
  - rewrite Nat.iter_succ, IH. unfold to_u32.
    rewrite Zplus_mod_idemp_l. f_equal. lia.
Qed.

(** Whatever the four writes of an iteration do to the world ([T]), the
    session the loop builds is the same. [P k] is what the world satisfies
    when [k] iterations are left. *)
Lemma write_initial_headers_spec (P : nat -> world -> Prop) (T : world -> world) f :
  (forall k w, P (S k) w -> (exists r, emit_initial f w = Done r (T w)) /\ P k (T w)) ->
  forall k i si w done todo,
    fd si = f -> 0 <= i -> length done = Z.to_nat i -> length todo = k ->
    s si = done ++ todo -> P k w ->
    write_initial_headers k i si w
    = Done (with_cur_pos (with_s si (done ++ headed (cur_pos si) todo))
                         (Nat.iter k (fun c => to_u32 (c + 13)) (cur_pos si)))
           (Nat.iter k T w)
      /\ P O (Nat.iter k T w).
Proof.
  intros HT. induction k as [|k IH]; intros i si w done todo Hf Hi Hlen Hk Hs HP.
  - destruct todo; [|discriminate]. cbn [write_initial_headers headed Nat.iter].
    split; [|assumption]. rewrite mret_eq, <- Hs. destruct si; reflexivity.
  - destruct todo as [|st todo]; [discriminate|].
    cbn [write_initial_headers].
    assert (Hget : s si !! Z.to_nat i = Some st).
    { rewrite Hs, lookup_app_r by lia. rewrite Hlen, Nat.sub_diag. reflexivity. }
    rewrite (mbind_done _ _ _ _ _ (get_stream_ok si i _ w Hi Hget)).
    destruct (HT k w HP) as [[r Hr] HP'].
    unfold emit_initial in Hr. cbn [set_stream with_s fd] in *.
    rewrite Hf.
    pose proof Hr as Hr'. rewrite !mbind_eq in Hr'.
    rewrite mbind_eq.
    destruct (write_u8 f CTYPE_NONE w) as [r1 w1| |]; try discriminate.
    rewrite mbind_eq. rewrite mbind_eq in Hr'.
    destruct (write_u32 f 0 w1) as [r2 w2| |]; try discriminate.
    rewrite mbind_eq. rewrite mbind_eq in Hr'.
    destruct (write_u32 f 0 w2) as [r3 w3| |]; try discriminate.
    rewrite mbind_eq.
    destruct (write_u32 f 0 w3) as [r4 w4| |]; try discriminate.
    injection Hr' as _ Hw4. subst w4.
    set (st1 := with_last_head st (to_u32 (cur_pos si + 9))).
    set (si1 := with_cur_pos (with_s si (<[Z.to_nat i := st1]> (s si)))
                             (to_u32 (cur_pos si + 13))).
    assert (Hs1 : s si1 = (done ++ [st1]) ++ todo).
    { subst si1. cbn [with_cur_pos with_s s]. rewrite Hs, <- Hlen.
      rewrite insert_app_r_alt by lia. rewrite Nat.sub_diag. cbn.
      rewrite <- app_assoc. reflexivity. }
    assert (Hl1 : length (done ++ [st1]) = Z.to_nat (i + 1))
      by (rewrite length_app; cbn [length]; lia).
    assert (Hk1 : length todo = k) by (cbn [length] in Hk; lia).
    destruct (IH (i + 1) si1 (T w) (done ++ [st1]) todo Hf ltac:(lia) Hl1 Hk1 Hs1 HP')
      as [Heq HPk].
    change (write_initial_headers k (i + 1) si1 (T w)
            = Done (with_cur_pos (with_s si (done ++ headed (cur_pos si) (st :: todo)))
                      (Nat.iter (S k) (fun c => to_u32 (c + 13)) (cur_pos si)))
                   (Nat.iter (S k) T w)
            /\ P O (Nat.iter (S k) T w)).
    rewrite Heq, !Nat.iter_succ_r. split; [|exact HPk].
    f_equal. subst si1 st1.
    unfold with_cur_pos, with_s.
    cbn [s num_streams fd bufsize cur_pos initial_pos total_read headed].
    rewrite <- app_assoc. reflexivity.
Qed.

(** ** Writes that fail, and writes whatever they do *)

Lemma write_buf_fail f p len w :
  writes_fail f w -> 0 < len ->
  write_buf f p len w = Done (-1) (logged w [MsgWriteFailed len]).
Proof.
  intros Hw Hlen. unfold write_buf, sys_write. rewrite mbind_eq.
  destruct (Z.eqb_spec f (w_fd w)) as [Hf|Hf]; cbn [negb]; [|reflexivity].
  destruct Hw as [Hw|Hw]; [contradiction|].
  destruct (Z.ltb_spec len 0); [lia|].
  destruct (Z.eqb_spec len 0); [lia|].
  destruct (Z.leb_spec (Z.min len (w_limit w - w_pos w)) 0); [reflexivity|lia].
Qed.

Lemma writes_fail_logged f w ms : writes_fail f w -> writes_fail f (logged w ms).
Proof. intros H. exact H. Qed.

Lemma logged_logged w a b : logged (logged w a) b = logged w (b ++ a).
Proof. unfold logged. cbn. rewrite app_assoc. reflexivity. Qed.

Lemma write_u8_fail f v w :
  writes_fail f w -> write_u8 f v w = Done (-1) (logged w [MsgWriteFailed 1]).
Proof. intros. unfold write_u8. apply write_buf_fail; [assumption|lia]. Qed.

Lemma write_u32_fail f v w :
  writes_fail f w -> write_u32 f v w = Done (-1) (logged w [MsgWriteFailed 2]).
Proof.
  intros H. unfold write_u32, write_u16.
  rewrite (mbind_done _ _ _ _ _ (write_buf_fail f _ 2 w H ltac:(lia))).
  reflexivity.
Qed.

Lemma emit_initial_fail f w :
  writes_fail f w ->
  emit_initial f w = Done (-1) (logged w initial_failures).
Proof.
  intros H. unfold emit_initial.
  rewrite (mbind_done _ _ _ _ _ (write_u8_fail f _ w H)).
  rewrite (mbind_done _ _ _ _ _ (write_u32_fail f _ _ (writes_fail_logged f w _ H))).
  rewrite logged_logged.
  rewrite (mbind_done _ _ _ _ _ (write_u32_fail f _ _ (writes_fail_logged f w _ H))).
  rewrite logged_logged.
  rewrite (write_u32_fail f _ _ (writes_fail_logged f w _ H)).
  rewrite logged_logged. reflexivity.
Qed.

Lemma write_buf_total f p len w : exists r w', write_buf f p len w = Done r w'.
Proof.
  unfold write_buf, sys_write. rewrite mbind_eq.
  destruct (negb (f =? w_fd w)); [cbn; eauto|].
  destruct (len <? 0); [cbn; eauto|].
  destruct (len =? 0) eqn:H0.
  { apply Z.eqb_eq in H0. subst len. cbn. eauto. }
  destruct (Z.min len (w_limit w - w_pos w) <=? 0); [cbn; eauto|].
  destruct (Z.min len (w_limit w - w_pos w) =? -1); [cbn; eauto|].
  destruct (negb (Z.min len (w_limit w - w_pos w) =? len)); cbn; eauto.
Qed.

Lemma write_u32_total f v w : exists r w', write_u32 f v w = Done r w'.
Proof.
  unfold write_u32, write_u16.
  destruct (write_buf_total f (u16_bytes (to_u16 (Z.land (to_u32 v) 65535))) 2 w)
    as (r1 & w1 & H1).
  rewrite (mbind_done _ _ _ _ _ H1).
  destruct (negb (r1 =? 0)); [rewrite mret_eq; eauto|].
  destruct (write_buf_total f (u16_bytes (to_u16 (Z.shiftr (to_u32 v) 16))) 2 w1)
    as (r2 & w2 & H2).
  rewrite (mbind_done _ _ _ _ _ H2).
  destruct (negb (r2 =? 0)); rewrite mret_eq; eauto.
Qed.

Lemma emit_initial_total f w : exists r w', emit_initial f w = Done r w'.
Proof.
  unfold emit_initial, write_u8.
  destruct (write_buf_total f [to_uchar CTYPE_NONE] 1 w) as (r1 & w1 & H1).
  rewrite (mbind_done _ _ _ _ _ H1).
  destruct (write_u32_total f 0 w1) as (r2 & w2 & H2).
  rewrite (mbind_done _ _ _ _ _ H2).
  destruct (write_u32_total f 0 w2) as (r3 & w3 & H3).
  rewrite (mbind_done _ _ _ _ _ H3).
  apply write_u32_total.
Qed.

Lemma lseek_cur_0 f w : exists r, sys_lseek f 0 SEEK_CUR w = Done r w.
Proof.
  unfold sys_lseek. destruct (negb (f =? w_fd w)); [eauto|].
  destruct (w_pos w + 0 <? 0); [eauto|].
  eexists. f_equal. unfold set_pos, set_file. rewrite Z.add_0_r.
  destruct w; reflexivity.
Qed.

Lemma iter_logged k ms w :
  Nat.iter k (fun w => logged w ms) w = logged w (concat (replicate k ms)).
Proof.
  induction k as [|k IH].
  - destruct w; reflexivity.
  - rewrite Nat.iter_succ, IH, logged_logged. cbn [replicate concat]. reflexivity.
Qed.

Lemma iter_count_alloc_fields k w :
  w_fd (Nat.iter k count_alloc w) = w_fd w
  /\ w_data (Nat.iter k count_alloc w) = w_data w
  /\ w_pos (Nat.iter k count_alloc w) = w_pos w
  /\ w_limit (Nat.iter k count_alloc w) = w_limit w
  /\ w_log (Nat.iter k count_alloc w) = w_log w.
Proof.
  induction k as [|k IH]; [repeat split|].
  rewrite Nat.iter_succ. cbn [count_alloc w_fd w_data w_pos w_limit w_log]. exact IH.
Qed.

(** ** [open_stream_out] *)

(** What [open_stream_out] returns when its allocations are granted,
    whatever its writes do. *)
Lemma open_stream_out_session E f n lvl w :
  0 <= n -> (forall k sz, alloc_ok E k sz = true) ->
  exists ip w2,
    sys_lseek f 0 SEEK_CUR (count_alloc w) = Done ip (count_alloc w)
    /\ w2 = Nat.iter (Z.to_nat n) count_alloc (count_alloc (count_alloc w))
    /\ forall (P : nat -> world -> Prop) (T : world -> world),
         (forall k w, P (S k) w -> (exists r, emit_initial f w = Done r (T w)) /\ P k (T w)) ->
         P (Z.to_nat n) w2 ->
         let bsz := if lvl =? 0 then 100 * 1024 else to_u32 (100 * 1024 * lvl) in
         open_stream_out E f n lvl w
         = Done (Some (mkInfo (headed 0 (replicate (Z.to_nat n) (fresh_stream bsz lvl)))
                              n f bsz (to_u32 (13 * n)) ip 0))
                (Nat.iter (Z.to_nat n) T w2).
Proof.
  intros Hn Ha.
  destruct (lseek_cur_0 f (count_alloc w)) as [ip Hip].
  exists ip, (Nat.iter (Z.to_nat n) count_alloc (count_alloc (count_alloc w))).
  split; [exact Hip|]. split; [reflexivity|].
  intros P T HT HP bsz. unfold open_stream_out.
  rewrite (mbind_done _ _ _ _ _ (alloc_struct_ok E Ha _ w)). cbn [negb].
  rewrite (mbind_done _ _ _ _ _ Hip).
  rewrite (mbind_done _ _ _ _ _ (calloc_streams_ok E Ha n _ Hn)).
  fold bsz.
  erewrite mbind_done; cycle 1.
  { apply (alloc_bufs_ok E Ha (Z.to_nat n) 0 _ lvl _ []); [lia|reflexivity|reflexivity]. }
  cbn [app with_s s num_streams fd bufsize cur_pos initial_pos total_read].
  edestruct (write_initial_headers_spec P T f HT (Z.to_nat n) 0
               (mkInfo (replicate (Z.to_nat n) (fresh_stream bsz lvl)) n f bsz 0 ip 0)
               (Nat.iter (Z.to_nat n) count_alloc (count_alloc (count_alloc w)))
               [] (replicate (Z.to_nat n) (fresh_stream bsz lvl)))
    as [Heq _]; [reflexivity|lia|reflexivity|apply length_replicate|reflexivity|exact HP|].
  rewrite (mbind_done _ _ _ _ _ Heq). rewrite mret_eq.
  cbn [app with_cur_pos with_s s num_streams fd bufsize cur_pos initial_pos total_read].
  f_equal. f_equal. f_equal.
  replace (13 * n) with (0 + 13 * Z.of_nat (Z.to_nat n)) by lia.
  rewrite <- (iter_cur_pos (Z.to_nat n) 0). reflexivity.
Qed.

(** C10: [open_stream_out] drops the results of the writes of the initial
    headers: once its allocations are granted it returns a session (not
    null) with [cur_pos] advanced by 13 per stream, whatever the writes did;
    and when every one of those writes fails (nothing reaches the file, four
    failure messages per stream are logged) it still does so. *)
Theorem open_stream_out_ignores_write_errors E f n lvl w :
  0 <= n -> (forall k sz, alloc_ok E k sz = true) ->
  exists si w',
    open_stream_out E f n lvl w = Done (Some si) w'
    /\ cur_pos si = to_u32 (13 * n)
    /\ (writes_fail f w ->
        w_data w' = w_data w
        /\ w_log w' = concat (replicate (Z.to_nat n) initial_failures) ++ w_log w).
Proof.
  intros Hn Ha.
  destruct (open_stream_out_session E f n lvl w Hn Ha) as (ip & w2 & Hip & Hw2 & Hopen).
  pose proof (Hopen (fun _ _ => True) (after_emit f)) as Hany.
  cbv zeta in Hany. rewrite Hany; [|intros k0 w0 _; split; [|exact I]|exact I].
  - do 2 eexists. split; [reflexivity|]. split; [reflexivity|].
    intros Hfail.
    pose proof (Hopen (fun _ => writes_fail f) (fun w => logged w initial_failures)) as Hbad.
    cbv zeta in Hbad. rewrite Hany in Hbad; cycle 1.
    { intros k0 w0 _. split; [|exact I]. unfold after_emit.
      destruct (emit_initial_total f w0) as (r & w' & ->). eauto. }
    { exact I. }
    assert (Hw : writes_fail f w2).
    { subst w2. unfold writes_fail in *.
      destruct (iter_count_alloc_fields (Z.to_nat n) (count_alloc (count_alloc w)))
        as (-> & _ & -> & -> & _). exact Hfail. }
    specialize (Hbad ltac:(intros k0 w0 H0; split;
                             [eexists; apply emit_initial_fail; exact H0
                             |apply writes_fail_logged; exact H0]) Hw).
    injection Hbad as ->. rewrite iter_logged. cbn [logged w_data w_log].
    subst w2.
    destruct (iter_count_alloc_fields (Z.to_nat n) (count_alloc (count_alloc w)))
      as (_ & -> & _ & _ & ->). split; reflexivity.
  - unfold after_emit. destruct (emit_initial_total f w0) as (r & w' & ->). eauto.
Qed.

Lemma open_stream_out_ignores_write_errors_witness :
  let E := mkEnv (fun _ _ => None) (fun _ => None) (fun _ _ => true) in
  let w := mkWorld 3 [] 0 100 0 [] in
  exists si w',
    open_stream_out E 7 2 0 w = Done (Some si) w'
    /\ cur_pos si = 26
    /\ (writes_fail 7 w ->
        w_data w' = []
        /\ w_log w' = initial_failures ++ initial_failures).
Proof.
  intros E w.
  exact (open_stream_out_ignores_write_errors E 7 2 0 w ltac:(lia) (fun _ _ => eq_refl)).
Defined.

(** ** The compression gateway *)

Lemma buf_load_ok b n w :
  0 <= n -> n <= cap b -> n <= Z.of_nat (length (mem b)) ->
  buf_load (Some b) 0 n w = Done (take (Z.to_nat n) (mem b)) w.
Proof.
  intros H0 Hc Hm. unfold buf_load.
  destruct (Z.ltb_spec n 0); [lia|].
  destruct (Z.ltb_spec 0 0); [lia|].
  destruct (Z.ltb_spec (cap b) (0 + n)); [lia|]. cbn [orb].
  destruct (Z.ltb_spec (Z.of_nat (length (mem b))) (0 + n)); [lia|].
  reflexivity.
Qed.

(** The block codec leaves the world as it is, and an output it accepts
    fits the destination. *)
Lemma BZ2_compress_inv E destcap src slen lvl wf w o w' :
  BZ2_bzBuffToBuffCompress E destcap src slen lvl wf w = Done o w' ->
  w' = w /\ forall out, o = Some out -> Z.of_nat (length out) <= destcap.
Proof.
  unfold BZ2_bzBuffToBuffCompress. intros H.
  destruct ((lvl <? 1) || (9 <? lvl) || (wf <? 0) || (250 <? wf)).
  { rewrite mret_eq in H. injection H as <- <-. split; [reflexivity|discriminate]. }
  destruct src as [b|].
  2:{ rewrite mret_eq in H. injection H as <- <-. split; [reflexivity|discriminate]. }
  bind_inv H.
  assert (w0 = w) as ->.
  { unfold buf_load in Hrun.
    destruct ((slen <? 0) || (0 <? 0) || (cap b <? 0 + slen)); [discriminate|].
    destruct (Z.of_nat (length (mem b)) <? 0 + slen); [discriminate|].
    rewrite mret_eq in Hrun. injection Hrun as _ <-. reflexivity. }
  destruct (bz_compress E lvl a) as [out|].
  2:{ rewrite mret_eq in H. injection H as <- <-. split; [reflexivity|discriminate]. }
  destruct (Z.leb_spec (Z.of_nat (length out)) destcap);
    rewrite mret_eq in H; injection H as <- <-; (split; [reflexivity|]).
  - intros ? [= <-]. assumption.
  - discriminate.
Qed.

(** What [compress_buf] can return: its arguments as they were, or the
    compressed block with its type and length. *)
Lemma compress_buf_cases E st ct cl w st' ct' cl' w' :
  compress_buf E st ct cl w = Done (st', ct', cl') w' ->
  (st' = st /\ ct' = ct /\ cl' = cl)
  \/ (exists out,
        st' = with_buf st (Some (mkBuffer (to_u32 (buflen st - 1)) out))
        /\ ct' = CTYPE_BZIP2
        /\ cl' = Z.of_nat (length out)
        /\ Z.of_nat (length out) <= to_u32 (buflen st - 1)
        /\ bzip_level st <> 0).
Proof.
  unfold compress_buf. intros H.
  destruct (Z.eqb_spec (bzip_level st) 0) as [Hl|Hl].
  { rewrite mret_eq in H. injection H as <- <- <- <-. left. auto. }
  bind_inv H. destruct a as [cb|].
  2:{ rewrite mret_eq in H. injection H as <- <- <- <-. left. auto. }
  bind_inv H. destruct (BZ2_compress_inv _ _ _ _ _ _ _ _ _ Hrun0) as [-> Hfit].
  destruct a as [out|].
  2:{ rewrite mret_eq in H. injection H as <- <- <- <-. left. auto. }
  rewrite mret_eq in H. injection H as <- <- <- <-. right.
  exists out. repeat split; auto.
Qed.

(** C5: [compress_buf] has no failure to report to the flush around it.
    With compression level 0, with the allocation of the destination of
    [buflen - 1] bytes refused, or with the block codec reporting failure,
    it returns the stream, [c_type] and [c_len] it was given (for the flush:
    uncompressed, [buflen]); and whenever it replaces the buffer of a stream
    holding [buflen > 0] bytes, [c_type] is block-compressed and [c_len] is
    the size of the new contents, at most [buflen - 1]. *)
Theorem compress_buf_falls_back E st ct cl w :
  0 < buflen st < 2 ^ 31 ->
  let dlen := buflen st - 1 in
  (bzip_level st = 0 -> compress_buf E st ct cl w = Done (st, ct, cl) w)
  /\ (bzip_level st <> 0 -> alloc_ok E (w_allocs w) dlen = false ->
      compress_buf E st ct cl w = Done (st, ct, cl) (count_alloc w))
  /\ (bzip_level st <> 0 -> alloc_ok E (w_allocs w) dlen = true ->
      forall w1,
        BZ2_bzBuffToBuffCompress E dlen (buf st) (buflen st)
          (bzip_level st) (bzip_level st * 10) (count_alloc w) = Done None w1 ->
        compress_buf E st ct cl w = Done (st, ct, cl) (count_alloc w))
  /\ (forall st' ct' cl' w',
        compress_buf E st ct cl w = Done (st', ct', cl') w' ->
        (st' = st /\ ct' = ct /\ cl' = cl)
        \/ (exists out,
              buf st' = Some (mkBuffer dlen out)
              /\ ct' = CTYPE_BZIP2
              /\ cl' = Z.of_nat (length out)
              /\ cl' <= buflen st - 1
              /\ buflen st' = buflen st /\ last_head st' = last_head st))
  /\ (forall b, buf st = Some b -> Z.of_nat (length (mem b)) = buflen st ->
        buflen st <= cap b ->
        exists r w', compress_buf E st ct cl w = Done r w').
Proof.
  intros Hb dlen.
  assert (Hd : to_u32 (buflen st - 1) = dlen).
  { apply to_u32_small. subst dlen. lia. }
  assert (Hu : to_u32 (buflen st) = buflen st) by (apply to_u32_small; lia).
  split; [|split; [|split; [|split]]].
  - intros Hl. unfold compress_buf. rewrite Hl. reflexivity.
  - intros Hl Ha. unfold compress_buf.
    destruct (Z.eqb_spec (bzip_level st) 0); [contradiction|].
    rewrite mbind_eq. unfold malloc. rewrite Hd, Ha. reflexivity.
  - intros Hl Ha w1 Hc. unfold compress_buf.
    destruct (Z.eqb_spec (bzip_level st) 0); [contradiction|].
    rewrite mbind_eq. unfold malloc. rewrite Hd, Ha, Hu.
    rewrite (mbind_done _ _ _ _ _ Hc).
    destruct (BZ2_compress_inv _ _ _ _ _ _ _ _ _ Hc) as [-> _]. reflexivity.
  - intros st' ct' cl' w' H.
    destruct (compress_buf_cases _ _ _ _ _ _ _ _ _ H)
      as [?|(out & -> & -> & -> & Hfit & _)]; [left; assumption|right].
    exists out. rewrite Hd in *. repeat split; auto.
  - intros b Hbuf Hmem Hcap. unfold compress_buf.
    destruct (bzip_level st =? 0); [rewrite mret_eq; eauto|].
    rewrite mbind_eq. unfold malloc.
    destruct (alloc_ok E (w_allocs w) (to_u32 (buflen st - 1))); [|rewrite mret_eq; eauto].
    rewrite mbind_eq. unfold BZ2_bzBuffToBuffCompress.
    destruct ((bzip_level st <? 1) || (9 <? bzip_level st)
              || (bzip_level st * 10 <? 0) || (250 <? bzip_level st * 10));
      [rewrite !mret_eq; eauto|].
    rewrite Hbuf, Hu.
    rewrite (mbind_done _ _ _ _ _ (buf_load_ok b (buflen st) _ ltac:(lia) Hcap ltac:(lia))).
    destruct (bz_compress E (bzip_level st) _) as [out|]; [|rewrite !mret_eq; eauto].
    destruct (Z.of_nat (length out) <=? to_u32 (buflen st - 1)); rewrite !mret_eq; eauto.
Qed.

Lemma compress_buf_falls_back_witness :
  let st := mkStream 9 (Some (mkBuffer 100 [x41; x41; x41; x41])) 4 0 1 in
  compress_buf run_env st CTYPE_NONE 4 empty_file
  = Done (with_buf st (Some (mkBuffer 3 [x41; x04])), CTYPE_BZIP2, 2)
         (count_alloc empty_file)
  /\ 2 <= 4 - 1.
Proof.
  intros st.
  pose proof (compress_buf_falls_back run_env st CTYPE_NONE 4 empty_file
                ltac:(cbn; lia)) as (_ & _ & _ & H & _).
  split; [reflexivity|].
  destruct (H _ _ _ _ eq_refl) as [(_ & Hc & _)|(out & _ & _ & Hcl & Hle & _)].
  - discriminate Hc.
  - exact Hle.
Defined.

(** ** [flush_buffer] *)

Lemma compress_buf_fields E st ct cl w st' ct' cl' w' :
  compress_buf E st ct cl w = Done (st', ct', cl') w' ->
  last_head st' = last_head st /\ buflen st' = buflen st
  /\ bufp st' = bufp st /\ bzip_level st' = bzip_level st.
Proof.
  intros H. destruct (compress_buf_cases _ _ _ _ _ _ _ _ _ H)
    as [(-> & _)|(out & -> & _)]; repeat split.
Qed.

Lemma to_u32_add_l a b : to_u32 (to_u32 a + b) = to_u32 (a + b).
Proof. unfold to_u32. apply Zplus_mod_idemp_l. Qed.

(** C6: after a successful [flush_buffer] on a stream, the stream's
    [last_head] is the [cur_pos] of before the flush plus 9, [cur_pos] has
    advanced by 13 plus the [c_len] that [compress_buf] settled (both as
    32-bit values, so exactly when the sum stays below [2^32]), and the
    stream's [buflen] is 0. *)
Theorem flush_buffer_success E sinfo stream st w sinfo' w' :
  0 <= stream -> s sinfo !! Z.to_nat stream = Some st ->
  flush_buffer E sinfo stream w = Done (0, sinfo') w' ->
  exists st' stc c_type c_len wa wb,
    compress_buf E (with_last_head st (to_u32 (cur_pos sinfo + 9)))
                 CTYPE_NONE (to_u32 (buflen st)) wa = Done (stc, c_type, c_len) wb
    /\ s sinfo' !! Z.to_nat stream = Some st'
    /\ last_head st' = to_u32 (cur_pos sinfo + 9)
    /\ cur_pos sinfo' = to_u32 (cur_pos sinfo + (13 + c_len))
    /\ buflen st' = 0
    /\ (0 <= cur_pos sinfo -> 0 <= c_len -> cur_pos sinfo + 13 + c_len < 2 ^ 32 ->
        last_head st' = cur_pos sinfo + 9
        /\ cur_pos sinfo' = cur_pos sinfo + 13 + c_len).
Proof.
  intros Hi Hst H. unfold flush_buffer in H.
  rewrite (mbind_done _ _ _ _ _ (get_stream_ok sinfo stream st w Hi Hst)) in H.
  bind_inv H. ret0_inv H.
  bind_inv H. ret0_inv H.
  bind_inv H. ret0_inv H.
  bind_inv H as [[stc c_type] c_len] wc Hcomp.
  bind_inv H. ret0_inv H.
  bind_inv H. ret0_inv H.
  bind_inv H. ret0_inv H.
  bind_inv H. ret0_inv H.
  bind_inv H. bind_inv H. ret0_inv H.
  bind_inv H as [nb|] wn Hnb; rewrite mret_eq in H; [|discriminate].
  injection H as <- <-.
  destruct (compress_buf_fields _ _ _ _ _ _ _ _ _ Hcomp) as (Hlh & Hbl & _).
  assert (Hlt : (Z.to_nat stream < length (s sinfo))%nat)
    by (eapply lookup_lt_Some; eassumption).
  eexists _, stc, c_type, c_len, _, _.
  split; [exact Hcomp|].
  split.
  { cbn [set_stream with_s with_cur_pos s].
    rewrite list_lookup_insert_eq; [reflexivity|].
    rewrite !length_insert. exact Hlt. }
  cbn [with_buf with_buflen last_head buflen set_stream with_s with_cur_pos cur_pos].
  rewrite Hlh. cbn [with_last_head last_head].
  rewrite to_u32_add_l, <- Z.add_assoc.
  split; [reflexivity|]. split; [reflexivity|]. split; [reflexivity|].
  intros H0 Hc Hlt32. split; apply to_u32_small; lia.
Qed.

Lemma flush_buffer_success_witness :
  let st := mkStream 9 (Some (mkBuffer 100 [x41; x41; x41; x41])) 4 0 1 in
  let sinfo := mkInfo [st] 1 3 100 13 0 0 in
  let w := mkWorld 3 (header_bytes 3 0 0 0) 13 1000 0 [] in
  exists sinfo' w' st',
    flush_buffer run_env sinfo 0 w = Done (0, sinfo') w'
    /\ s sinfo' !! 0%nat = Some st'
    /\ last_head st' = 13 + 9
    /\ buflen st' = 0.
Proof.
  intros st sinfo w.
  assert (Hex : exists si' w', flush_buffer run_env sinfo 0 w = Done (0, si') w')
    by (vm_compute; eauto).
  destruct Hex as (si' & w' & Hf).
  destruct (flush_buffer_success run_env sinfo 0 st w si' w' ltac:(lia) eq_refl Hf)
    as (st' & stc & ct & cl & wa & wb & Hc & Hs & Hlh & Hcp & Hbl & _).
  exists si', w', st'. split; [exact Hf|].
  split; [exact Hs|]. split; [exact Hlh|exact Hbl].
Defined.

(** ** Reading a chunk header *)

Lemma seekto_ok si pos w :
  fd si = w_fd w -> 0 <= pos + initial_pos si ->
  seekto si pos w = Done 0 (set_pos w (pos + initial_pos si)).
Proof.
  intros Hf Hp. unfold seekto, sys_lseek. rewrite mbind_eq, Hf, Z.eqb_refl.
  cbn [negb]. destruct (Z.ltb_spec (pos + initial_pos si) 0); [lia|].
  rewrite Z.eqb_refl. reflexivity.
Qed.

Lemma header_at_length w off c cl ul nx :
  header_at w off = Some (c, cl, ul, nx) ->
  Z.of_nat (length (file_slice w off 13)) = 13.
Proof.
  unfold header_at. destruct (Nat.eqb_spec (length (file_slice w off 13)) 13); [lia|discriminate].
Qed.

(** The four reads that take a header from the file, when the header is
    there. *)
Lemma read_header_ok f w c cl ul nx :
  f = w_fd w -> 0 <= w_pos w ->
  header_at w (w_pos w) = Some (c, cl, ul, nx) ->
  read_u8 f w = Done (Some c) (set_pos w (w_pos w + 1))
  /\ read_u32 f (set_pos w (w_pos w + 1)) = Done (Some cl) (set_pos w (w_pos w + 5))
  /\ read_u32 f (set_pos w (w_pos w + 5)) = Done (Some ul) (set_pos w (w_pos w + 9))
  /\ read_u32 f (set_pos w (w_pos w + 9)) = Done (Some nx) (set_pos w (w_pos w + 13)).
Proof.
  intros Hf Hp Hh. pose proof (header_at_length _ _ _ _ _ _ Hh) as Hlen.
  unfold header_at in Hh. rewrite (proj2 (Nat.eqb_eq _ _)) in Hh by lia.
  injection Hh as Hc Hcl Hul Hnx.
  assert (Hsub : forall a k, 0 <= a -> 0 <= k -> a + k <= 13 ->
            Z.of_nat (length (file_slice w (w_pos w + a) k)) = k).
  { intros a k Ha Hk Hak. apply (length_file_slice_sub w (w_pos w) 13 a k); lia. }
  assert (Hget : forall a, 0 <= a -> a + 4 <= 13 ->
            take 4 (drop (Z.to_nat a) (file_slice w (w_pos w) 13))
            = file_slice w (w_pos w + a) 4).
  { intros a Ha Hak. change 4%nat with (Z.to_nat 4).
    apply file_slice_sub; lia. }
  split; [|split; [|split]].
  - rewrite read_u8_ok; [|assumption|assumption|].
    + do 2 f_equal. rewrite <- Hc.
      unfold byte_at. f_equal. f_equal.
      unfold file_slice. rewrite !lookup_take by lia. reflexivity.
    + rewrite <- (Z.add_0_r (w_pos w)). apply Hsub; lia.
  - rewrite read_u32_ok;
      [|assumption|rewrite w_pos_set_pos; lia
       |rewrite w_pos_set_pos, file_slice_set_pos; apply Hsub; lia].
    rewrite w_pos_set_pos, file_slice_set_pos, set_pos_set_pos.
    assert (Hv : cl = u32_of_bytes (file_slice w (w_pos w + 1) 4))
      by (rewrite <- (Hget 1) by lia; symmetry; exact Hcl).
    rewrite <- Hv. do 2 f_equal. lia.
  - rewrite read_u32_ok;
      [|assumption|rewrite w_pos_set_pos; lia
       |rewrite w_pos_set_pos, file_slice_set_pos; apply Hsub; lia].
    rewrite w_pos_set_pos, file_slice_set_pos, set_pos_set_pos.
    assert (Hv : ul = u32_of_bytes (file_slice w (w_pos w + 5) 4))
      by (rewrite <- (Hget 5) by lia; symmetry; exact Hul).
    rewrite <- Hv. do 2 f_equal. lia.
  - rewrite read_u32_ok;
      [|assumption|rewrite w_pos_set_pos; lia
       |rewrite w_pos_set_pos, file_slice_set_pos; apply Hsub; lia].
    rewrite w_pos_set_pos, file_slice_set_pos, set_pos_set_pos.
    assert (Hv : nx = u32_of_bytes (file_slice w (w_pos w + 9) 4))
      by (rewrite <- (Hget 9) by lia; symmetry; exact Hnx).
    rewrite <- Hv. do 2 f_equal. lia.
Qed.

(** Whatever [read_buf] returns, the bytes it leaves are those of the file
    at the offset, as many as there are up to [len]. *)
Lemma read_buf_bytes f len w :
  f = w_fd w -> 0 <= len ->
  exists r w', read_buf f len w = Done (r, file_slice w (w_pos w) len) w'.
Proof.
  intros Hf Hlen. unfold read_buf, sys_read.
  rewrite mbind_eq, Hf, Z.eqb_refl. cbn [negb].
  destruct (Z.ltb_spec len 0); [lia|].
  fold (file_slice w (w_pos w) len).
  destruct (_ =? -1); [cbn; eauto|].
  destruct (negb _); cbn; eauto.
Qed.

(** ** The unchecked payload read of [fill_buffer] *)

(** C2: [fill_buffer] allocates [u_len] bytes and reads [c_len] bytes into
    them without comparing the two: on a file whose chunk header declares
    [c_len > u_len] and which has more than [u_len] bytes after the header,
    the read writes past the end of the block. *)
Theorem fill_buffer_overflow E sinfo stream st w c_type c_len u_len nx :
  0 <= stream -> s sinfo !! Z.to_nat stream = Some st ->
  fd sinfo = w_fd w ->
  0 <= last_head st + initial_pos sinfo ->
  header_at w (last_head st + initial_pos sinfo) = Some (c_type, c_len, u_len, nx) ->
  alloc_ok E (w_allocs w) u_len = true ->
  u_len < c_len < 2 ^ 31 ->
  u_len < Z.of_nat (length (w_data w)) - (last_head st + initial_pos sinfo + 13) ->
  fill_buffer E sinfo stream w = Fault HeapOverflow.
Proof.
  intros Hi Hst Hf Hp Hh Ha Hlen Havail.
  set (pos := last_head st + initial_pos sinfo) in *.
  unfold fill_buffer.
  rewrite (mbind_done _ _ _ _ _ (get_stream_ok sinfo stream st w Hi Hst)).
  rewrite (mbind_done _ _ _ _ _ (seekto_ok sinfo _ w Hf Hp)). cbn [Z.eqb negb].
  fold pos.
  destruct (read_header_ok (fd sinfo) (set_pos w pos) c_type c_len u_len nx Hf Hp Hh)
    as (H1 & H2 & H3 & H4).
  cbn [set_pos set_file w_pos] in H1, H2, H3, H4.
  rewrite (mbind_done _ _ _ _ _ H1).
  rewrite (mbind_done _ _ _ _ _ H2).
  rewrite (mbind_done _ _ _ _ _ H3).
  rewrite (mbind_done _ _ _ _ _ H4).
  rewrite mbind_eq. unfold malloc at 1.
  cbn [set_pos set_file w_allocs]. rewrite Ha.
  assert (Hul : 0 <= u_len).
  { unfold header_at in Hh. destruct (_ =? _)%nat; [|discriminate].
    injection Hh as _ _ <- _. unfold u32_of_bytes.
    apply Z.lor_nonneg. split; [apply to_u32_range|].
    unfold u16_of_bytes, to_u16. apply Z.mod_pos_bound. lia. }
  rewrite (to_int_small c_len) by lia.
  cbn [set_stream with_s with_total_read fd].
  match goal with
  | |- (read_buf ?f ?n ≫= _) ?w0 = _ =>
      destruct (read_buf_bytes f n w0 Hf ltac:(lia)) as (r & w' & Hr)
  end.
  rewrite (mbind_done _ _ _ _ _ Hr).
  rewrite mbind_eq. unfold buf_store. cbn [cap mem count_alloc w_pos w_data].
  destruct (Z.ltb_spec 0 0); [lia|]. cbn [orb].
  match goal with
  | |- context [u_len <? 0 + Z.of_nat (length ?l)] =>
      assert (Hover : u_len < Z.of_nat (length l));
      [|destruct (Z.ltb_spec u_len (0 + Z.of_nat (length l))); [reflexivity|lia]]
  end.
  unfold file_slice. cbn [w_data w_pos count_alloc set_pos set_file].
  rewrite length_take, length_drop. lia.
Qed.

Lemma fill_buffer_overflow_witness :
  fill_buffer plain_env (mkInfo [with_last_head zero_stream 13] 1 3 0 0 0 13) 0
              crafted_file
  = Fault HeapOverflow.
Proof.
  apply (fill_buffer_overflow plain_env _ 0 (with_last_head zero_stream 13)
           crafted_file 3 8 2 0).
  - lia.
  - reflexivity.
  - reflexivity.
  - cbn. lia.
  - vm_compute. reflexivity.
  - reflexivity.
  - lia.
  - vm_compute. reflexivity.
Defined.

(** The same through the public functions: opening the crafted file and
    asking for one byte of its stream. *)
Example crafted_file_overflows_read_stream :
  (o ← open_stream_in plain_env 3 1;
   match o with
   | Some sinfo => read_stream plain_env sinfo 0 1
   | None => mret (-1, [], mkInfo [] 0 0 0 0 0 0)
   end) crafted_file = Fault HeapOverflow.
Proof. vm_compute. reflexivity. Qed.

(** ** [read_stream] *)

Lemma get_stream_inv si i st w w' :
  get_stream si i w = Done st w' ->
  w' = w /\ 0 <= i /\ s si !! Z.to_nat i = Some st.
Proof.
  unfold get_stream. destruct (Z.ltb_spec i 0); [discriminate|].
  destruct (s si !! Z.to_nat i); [|discriminate].
  rewrite mret_eq. intros [= -> ->]. auto.
Qed.

Lemma buf_load_inv b off n w bs w' :
  buf_load b off n w = Done bs w' ->
  w' = w /\ 0 <= n /\ Z.of_nat (length bs) = n.
Proof.
  unfold buf_load. destruct b as [bf|]; [|discriminate].
  destruct (Z.ltb_spec n 0); [discriminate|].
  destruct (Z.ltb_spec off 0); [discriminate|].
  destruct (Z.ltb_spec (cap bf) (off + n)); [discriminate|]. cbn [orb].
  destruct (Z.ltb_spec (Z.of_nat (length (mem bf))) (off + n)); [discriminate|].
  rewrite mret_eq. intros [= <- <-]. split; [reflexivity|]. split; [assumption|].
  rewrite length_take, length_drop. lia.
Qed.

Lemma MIN_le_r a b : MIN a b <= b.
Proof. unfold MIN. destruct (Z.ltb_spec a b); lia. Qed.

(** What the copy of an iteration changes. *)
Lemma copy_out_inv st out len ret w st2 out2 len2 ret2 w2 :
  copy_out st out len ret w = Done (st2, out2, len2, ret2) w2 ->
  0 <= len ->
  w2 = w /\ 0 <= len2 <= len /\ ret2 + len2 = ret + len
  /\ Z.of_nat (length out2) = Z.of_nat (length out) + (ret2 - ret).
Proof.
  unfold copy_out. intros H Hlen.
  pose proof (MIN_le_r (buflen st - bufp st) len) as Hmin.
  destruct (Z.ltb_spec 0 (MIN (buflen st - bufp st) len)).
  - bind_inv H as bs wl Hload. rewrite mret_eq in H.
    injection H as <- <- <- <- <-.
    destruct (buf_load_inv _ _ _ _ _ _ Hload) as (-> & _ & Hl).
    rewrite length_app. split; [reflexivity|]. lia.
  - rewrite mret_eq in H. injection H as <- <- <- <- <-.
    split; [reflexivity|]. lia.
Qed.

(** One iteration of the loop, with the copy named. *)
Lemma read_stream_loop_step E fuel si i out len ret :
  len <> 0 ->
  read_stream_loop E (S fuel) si i out len ret
  = (st ← get_stream si i;
     '(st, out, len, ret) ← copy_out st out len ret;
     let sinfo := set_stream si i st in
     if negb (len =? 0) && (bufp st =? buflen st) then
       '(r, sinfo) ← fill_buffer E sinfo i;
       if negb (r =? 0) then mret (-1, out, sinfo)
       else
         st ← get_stream sinfo i;
         if bufp st =? buflen st then mret (ret, out, sinfo)
         else read_stream_loop E fuel sinfo i out len ret
     else read_stream_loop E fuel sinfo i out len ret).
Proof.
  intros Hlen. cbn [read_stream_loop].
  destruct (Z.eqb_spec len 0); [contradiction|]. reflexivity.
Qed.

Lemma read_stream_loop_exit E fuel : forall si i out len ret w r out' si' w',
  0 <= len ->
  read_stream_loop E fuel si i out len ret w = Done (r, out', si') w' ->
  read_exit E i len ret out r out' si' w'.
Proof.
  induction fuel as [|fuel IH]; intros si i out len ret w r out' si' w' Hlen H.
  - discriminate H.
  - destruct (Z.eq_dec len 0) as [->|Hne].
    { cbn in H. injection H as <- <- <- <-. left. split; lia. }
    rewrite read_stream_loop_step in H by assumption.
    bind_inv H as st w0 Hget.
    bind_inv H as [[[st2 out2] len2] ret2] w2 Hcopy.
    destruct (copy_out_inv _ _ _ _ _ _ _ _ _ _ Hcopy Hlen) as (-> & Hl2 & Hsum & Hout).
    assert (Hrec : forall sx wx,
              read_stream_loop E fuel sx i out2 len2 ret2 wx = Done (r, out', si') w' ->
              read_exit E i len ret out r out' si' w').
    { intros sx wx Hx. apply IH in Hx; [|lia].
      destruct Hx as [(-> & Ho)|[(Hr & Ho & Hfill)|(-> & Hfill)]].
      - left. split; lia.
      - right. left. split; [lia|]. split; [lia|exact Hfill].
      - right. right. split; [reflexivity|exact Hfill]. }
    cbv beta iota zeta in H.
    destruct (negb (len2 =? 0) && (bufp st2 =? buflen st2)) eqn:Hcond.
    + apply andb_true_iff in Hcond. destruct Hcond as [Hl0 Hempty].
      apply negb_true_iff, Z.eqb_neq in Hl0.
      bind_inv H as [c si3] w3 Hfill.
      destruct (Z.eqb_spec c 0) as [->|Hc]; cbn [negb] in H.
      * bind_inv H as st3 w4 Hget3.
        destruct (get_stream_inv _ _ _ _ _ Hget3) as (-> & _ & Hst3).
        destruct (Z.eqb_spec (bufp st3) (buflen st3)) as [He|He].
        -- rewrite mret_eq in H. injection H as <- <- <- <-.
           right. left. split; [lia|]. split; [lia|].
           eexists _, _, st3. eauto.
        -- eapply Hrec. exact H.
      * rewrite mret_eq in H. injection H as <- <- <- <-.
        right. right. split; [reflexivity|]. eexists _, _, c. eauto.
    + eapply Hrec. exact H.
Qed.

(** C4: [read_stream] returns fewer bytes than were asked for only at the
    end of the stream, after a fill that returned 0 and left the buffer
    empty, and then returns the count copied so far; and when a fill fails
    (an I/O or decompression error) it returns -1, whatever was copied
    before in the call ([ret] bytes, in [out]). *)
Theorem read_stream_short_only_at_end E sinfo stream len :
  0 <= len ->
  (forall w r out' sinfo' w',
     read_stream E sinfo stream len w = Done (r, out', sinfo') w' ->
     (r = len /\ Z.of_nat (length out') = len)
     \/ (0 <= r < len /\ Z.of_nat (length out') = r
         /\ exists sb wb st',
              fill_buffer E sb stream wb = Done (0, sinfo') w'
              /\ s sinfo' !! Z.to_nat stream = Some st'
              /\ bufp st' = buflen st')
     \/ (r = -1
         /\ exists sb wb c, c <> 0 /\ fill_buffer E sb stream wb = Done (c, sinfo') w'))
  /\ (forall fuel si out n ret w st st2 out2 n2 ret2 w2 c si3 w3,
        n <> 0 ->
        get_stream si stream w = Done st w ->
        copy_out st out n ret w = Done (st2, out2, n2, ret2) w2 ->
        n2 <> 0 -> bufp st2 = buflen st2 ->
        fill_buffer E (set_stream si stream st2) stream w2 = Done (c, si3) w3 ->
        c <> 0 ->
        read_stream_loop E (S fuel) si stream out n ret w = Done (-1, out2, si3) w3).
Proof.
  intros Hlen. split.
  - intros w r out' sinfo' w' H. unfold read_stream in H.
    apply read_stream_loop_exit in H; [|assumption].
    destruct H as [(-> & Ho)|[(Hr & Ho & Hfill)|(-> & Hfill)]].
    + left. cbn [length] in Ho. split; lia.
    + right. left. cbn [length] in Ho. split; [lia|]. split; [lia|exact Hfill].
    + right. right. split; [reflexivity|exact Hfill].
  - intros fuel si out n ret w st st2 out2 n2 ret2 w2 c si3 w3
      Hn Hget Hcopy Hn2 Hempty Hfill Hc.
    rewrite read_stream_loop_step by assumption.
    rewrite (mbind_done _ _ _ _ _ Hget).
    rewrite (mbind_done _ _ _ _ _ Hcopy).
    cbv beta iota zeta.
    destruct (Z.eqb_spec n2 0); [contradiction|].
    rewrite Hempty, Z.eqb_refl. cbn [negb andb].
    rewrite (mbind_done _ _ _ _ _ Hfill).
    destruct (Z.eqb_spec c 0); [contradiction|]. reflexivity.
Qed.

Example two_streams_written :
  exists w, writer_session plain_env 3 2 0 [(0, [x41; x41; x41]); (1, [x42; x42])]
              empty_file = Done 0 w
            /\ w_data w = two_streams_data.
Proof. vm_compute. eauto. Qed.

Example two_streams_opened :
  open_stream_in plain_env 3 2 (mkWorld 3 two_streams_data 0 (2 ^ 40) 0 [])
  = Done (Some two_streams_session) two_streams_file.
Proof. vm_compute. reflexivity. Qed.

Lemma read_stream_short_only_at_end_witness :
  (exists sinfo' w' sb wb st',
     read_stream plain_env two_streams_session 1 10 two_streams_file
     = Done (2, [x42; x42], sinfo') w'
     /\ fill_buffer plain_env sb 1 wb = Done (0, sinfo') w'
     /\ s sinfo' !! 1%nat = Some st'
     /\ bufp st' = buflen st')
  /\ (exists si3 w3,
        read_stream_loop plain_env 12 two_streams_session 1 [] 10 0 truncated_file
        = Done (-1, [], si3) w3).
Proof.
  pose proof (read_stream_short_only_at_end plain_env two_streams_session 1 10
                ltac:(lia)) as [Ha Hb].
  split.
  - assert (Hex : exists si' w',
               read_stream plain_env two_streams_session 1 10 two_streams_file
               = Done (2, [x42; x42], si') w') by (vm_compute; eauto).
    destruct Hex as (si' & w' & Hrun).
    destruct (Ha _ _ _ _ _ Hrun) as [[Hr _]|[(_ & _ & sb & wb & st' & H1 & H2 & H3)|[Hr _]]].
    + discriminate Hr.
    + exists si', w', sb, wb, st'. auto.
    + discriminate Hr.
  - assert (Hex : exists si3 w3,
               fill_buffer plain_env
                 (set_stream two_streams_session 1 (mkStream 42 None 0 0 0)) 1
                 truncated_file = Done (-1, si3) w3) by (vm_compute; eauto).
    destruct Hex as (si3 & w3 & Hfill).
    exists si3, w3.
    apply (Hb 11%nat two_streams_session [] 10 0 truncated_file
              (mkStream 42 None 0 0 0) (mkStream 42 None 0 0 0) [] 10 0
              truncated_file (-1) si3 w3);
      [lia|reflexivity|reflexivity|lia|reflexivity|exact Hfill|lia].
Defined.

(** ** [open_stream_in]: one initial header *)

Lemma is_sentinel_true h : is_sentinel h = true <-> h = sentinel.
Proof.
  destruct h as [[[c v1] v2] lh]. unfold is_sentinel, sentinel. split.
  - intros H. repeat (apply andb_true_iff in H; destruct H as [H ?]).
    repeat match goal with H : (_ =? _) = true |- _ => apply Z.eqb_eq in H end.
    subst. reflexivity.
  - intros [= -> -> -> ->]. reflexivity.
Qed.

Section Header.

Context (f : Z) (w : world) (c v1 v2 lh : Z).
Hypothesis fd_ok : f = w_fd w.
Hypothesis pos_ok : 0 <= w_pos w.
Hypothesis header_here : header_at w (w_pos w) = Some (c, v1, v2, lh).

(** The body of the loop up to its tests, on a header that is there. *)
Lemma read_initial_header_reads fuel i si st :
  0 <= i -> s si !! Z.to_nat i = Some st ->
  read_initial_header (S fuel) f i si w
  = (let sinfo := set_stream si i (with_last_head st lh) in
     if (c =? CTYPE_NONE) && (v1 =? 0) && (v2 =? 0) && (lh =? 0) && (i =? 0)
     then
       err_msg MsgWorkaround;;
       read_initial_header fuel f i (with_initial_pos sinfo (initial_pos sinfo + 13))
     else
       let sinfo := with_total_read sinfo (to_u32 (total_read sinfo + 13)) in
       if negb (c =? CTYPE_NONE) then err_msg (MsgBadTag c);; mret None
       else if negb (v1 =? 0) then err_msg (MsgBadCLen v1 v2);; mret None
       else if negb (v2 =? 0) then err_msg (MsgBadULen v2);; mret None
       else mret (Some sinfo)) (set_pos w (w_pos w + 13)).
Proof.
  intros Hi Hst.
  destruct (read_header_ok f w c v1 v2 lh fd_ok pos_ok header_here) as (H1 & H2 & H3 & H4).
  cbn [read_initial_header].
  rewrite (mbind_done _ _ _ _ _ H1).
  rewrite (mbind_done _ _ _ _ _ H2).
  rewrite (mbind_done _ _ _ _ _ H3).
  rewrite (mbind_done _ _ _ _ _ (get_stream_ok si i st _ Hi Hst)).
  rewrite (mbind_done _ _ _ _ _ H4).
  reflexivity.
Qed.

(** A header taken for the sentinel: the workaround, and the jump to
    [again]. *)
Lemma read_initial_header_sentinel fuel si st :
  s si !! 0%nat = Some st ->
  (c, v1, v2, lh) = sentinel ->
  read_initial_header (S fuel) f 0 si w
  = read_initial_header fuel f 0
      (with_initial_pos (set_stream si 0 (with_last_head st 0)) (initial_pos si + 13))
      (logged (set_pos w (w_pos w + 13)) [MsgWorkaround]).
Proof.
  intros Hst Heq. injection Heq as Hc H1 H2 Hlh.
  rewrite (read_initial_header_reads fuel 0 si st ltac:(lia) Hst).
  rewrite Hc, H1, H2, Hlh. reflexivity.
Qed.

(** A header not taken for the sentinel, and valid. *)
Lemma read_initial_header_valid fuel i si st :
  0 <= i -> s si !! Z.to_nat i = Some st ->
  is_sentinel (c, v1, v2, lh) && (i =? 0) = false ->
  c = CTYPE_NONE -> v1 = 0 -> v2 = 0 ->
  read_initial_header (S fuel) f i si w
  = Done (Some (with_total_read (set_stream si i (with_last_head st lh))
                                (to_u32 (total_read si + 13))))
         (set_pos w (w_pos w + 13)).
Proof.
  intros Hi Hst Hns Hc H1 H2.
  rewrite (read_initial_header_reads fuel i si st Hi Hst).
  cbv zeta. unfold is_sentinel in Hns. rewrite Hns.
  rewrite Hc, H1, H2. reflexivity.
Qed.

(** A header not taken for the sentinel, and not valid: the jump to
    [failed]. *)
Lemma read_initial_header_invalid fuel i si st :
  0 <= i -> s si !! Z.to_nat i = Some st ->
  c <> CTYPE_NONE \/ v1 <> 0 \/ v2 <> 0 ->
  exists m, read_initial_header (S fuel) f i si w
            = Done None (logged (set_pos w (w_pos w + 13)) [m])
            /\ is_workaround m = false.
Proof.
  intros Hi Hst Hbad.
  rewrite (read_initial_header_reads fuel i si st Hi Hst).
  cbv zeta.
  assert (Hns : (c =? CTYPE_NONE) && (v1 =? 0) && (v2 =? 0) && (lh =? 0) && (i =? 0) = false).
  { destruct (Z.eqb_spec c CTYPE_NONE); [|reflexivity].
    destruct (Z.eqb_spec v1 0); [|reflexivity].
    destruct (Z.eqb_spec v2 0); [|reflexivity]. tauto. }
  rewrite Hns.
  destruct (Z.eqb_spec c CTYPE_NONE); cbn [negb]; [|eexists; split; reflexivity].
  destruct (Z.eqb_spec v1 0); cbn [negb]; [|eexists; split; reflexivity].
  destruct (Z.eqb_spec v2 0); cbn [negb]; [tauto|eexists; split; reflexivity].
Qed.

End Header.

(** ** Skipping the sentinels *)

Lemma header_at_frame w w' off :
  w_data w' = w_data w -> header_at w' off = header_at w off.
Proof. intros H. unfold header_at, file_slice. rewrite H. reflexivity. Qed.

Lemma set_stream_id si i st :
  s si !! Z.to_nat i = Some st -> set_stream si i st = si.
Proof.
  intros H. unfold set_stream, with_s. rewrite list_insert_id by assumption.
  destruct si; reflexivity.
Qed.

Lemma with_last_head_id st : with_last_head st (last_head st) = st.
Proof. destruct st; reflexivity. Qed.

Lemma replicate_app_cons {A} k (x : A) l :
  replicate k x ++ x :: l = x :: replicate k x ++ l.
Proof. induction k as [|k IH]; cbn; [reflexivity|]. rewrite IH. reflexivity. Qed.

(** On stream 0, [k] headers in a row that read as the sentinel are each
    skipped by the workaround: [initial_pos] moves by 13 for each, and each
    leaves its message. *)
Lemma sentinels_skipped f k : forall fuel si w st,
  f = w_fd w -> 0 <= w_pos w ->
  s si !! 0%nat = Some st -> last_head st = 0 ->
  (forall j, 0 <= j < Z.of_nat k -> header_at w (w_pos w + 13 * j) = Some sentinel) ->
  read_initial_header (k + fuel) f 0 si w
  = read_initial_header fuel f 0
      (with_initial_pos si (initial_pos si + 13 * Z.of_nat k))
      (logged (set_pos w (w_pos w + 13 * Z.of_nat k)) (replicate k MsgWorkaround)).
Proof.
  induction k as [|k IH]; intros fuel si w st Hf Hp Hst Hlh Hsent.
  - cbn [Nat.add replicate]. f_equal.
    + destruct si. unfold with_initial_pos. cbn. f_equal. lia.
    + destruct w. unfold logged, set_pos, set_file. cbn. f_equal. lia.
  - change (S k + fuel)%nat with (S (k + fuel)).
    assert (H0 : header_at w (w_pos w) = Some sentinel).
    { rewrite <- (Z.add_0_r (w_pos w)). apply (Hsent 0). lia. }
    rewrite (read_initial_header_sentinel f w _ _ _ _ Hf Hp H0 (k + fuel) si st Hst eq_refl).
    replace (with_last_head st 0) with st
      by (rewrite <- Hlh; symmetry; apply with_last_head_id).
    rewrite (set_stream_id si 0 st Hst).
    rewrite (IH fuel _ _ st); [| exact Hf | cbn; lia | exact Hst | exact Hlh |].
    + f_equal.
      * unfold with_initial_pos. cbn. f_equal. lia.
      * unfold logged, set_pos, set_file. cbn. f_equal; [lia|].
        apply replicate_app_cons.
    + intros j Hj. cbn [logged set_pos set_file w_pos].
      rewrite (header_at_frame w) by reflexivity.
      replace (w_pos w + 13 + 13 * j) with (w_pos w + 13 * (j + 1)) by lia.
      apply Hsent. lia.
Qed.

(** ** The loop over the initial headers *)

Lemma header_at_present w off1 off2 h :
  0 <= off1 <= off2 -> header_at w off2 = Some h ->
  exists h1, header_at w off1 = Some h1.
Proof.
  intros Ho Hh. destruct h as [[[c v1] v2] lh].
  pose proof (header_at_length _ _ _ _ _ _ Hh) as Hl.
  unfold header_at. unfold file_slice in *.
  rewrite length_take, length_drop in Hl.
  destruct (Nat.eqb_spec (length (take (Z.to_nat 13) (drop (Z.to_nat off1) (w_data w)))) 13)
    as [|Hn]; [eauto|].
  rewrite length_take, length_drop in Hn. lia.
Qed.

(** The headers from the current offset on are valid ones, with the
    next_head fields [lhs]: the loop stores those and counts 13 bytes
    each. *)
Lemma read_initial_headers_valid f fuel : forall lhs i si w done,
  f = w_fd w -> 0 <= w_pos w -> 0 < i ->
  length done = Z.to_nat i ->
  s si = done ++ replicate (length lhs) zero_stream ->
  (forall j lh, lhs !! j = Some lh ->
     header_at w (w_pos w + 13 * Z.of_nat j) = Some (CTYPE_NONE, 0, 0, lh)) ->
  read_initial_headers (S fuel) (length lhs) f i si w
  = Done (Some (with_total_read (with_s si (done ++ opened_streams lhs))
                  (Nat.iter (length lhs) (fun c => to_u32 (c + 13)) (total_read si))))
         (set_pos w (w_pos w + 13 * Z.of_nat (length lhs))).
Proof.
  induction lhs as [|lh lhs IH]; intros i si w done Hf Hp Hi Hlen Hs Hh.
  - cbn [length read_initial_headers opened_streams map replicate Nat.iter nat_rect] in Hs |- *.
    rewrite mret_eq. f_equal.
    + f_equal. rewrite <- Hs. destruct si. reflexivity.
    + destruct w. unfold set_pos, set_file. cbn. f_equal. lia.
  - cbn [length read_initial_headers].
    assert (Hget : s si !! Z.to_nat i = Some zero_stream).
    { rewrite Hs, lookup_app_r by lia. rewrite Hlen, Nat.sub_diag. reflexivity. }
    assert (H0 : header_at w (w_pos w) = Some (CTYPE_NONE, 0, 0, lh)).
    { rewrite <- (Z.add_0_r (w_pos w)). apply (Hh 0%nat). reflexivity. }
    erewrite mbind_done; cycle 1.
    { apply (read_initial_header_valid f w _ _ _ _ Hf Hp H0 fuel i si zero_stream);
        [lia|exact Hget| |reflexivity|reflexivity|reflexivity].
      destruct (Z.eqb_spec i 0); [lia|]. apply andb_false_r. }
    cbv beta iota.
    rewrite (IH (i + 1) _ _ (done ++ [with_last_head zero_stream lh]));
      [|exact Hf|cbn; lia|lia|rewrite length_app; cbn [length]; lia| |].
    + f_equal.
      * f_equal. unfold with_total_read, with_s, set_stream.
        cbn [s num_streams fd bufsize cur_pos initial_pos total_read opened_streams map].
        rewrite <- app_assoc, Nat.iter_succ_r. reflexivity.
      * unfold set_pos, set_file. cbn. f_equal. lia.
    + cbn [with_total_read set_stream with_s s]. rewrite Hs, <- Hlen.
      rewrite insert_app_r_alt by lia. rewrite Nat.sub_diag. cbn.
      rewrite <- app_assoc. reflexivity.
    + intros j lh' Hj. cbn [set_pos set_file w_pos].
      rewrite (header_at_frame w) by reflexivity.
      replace (w_pos w + 13 + 13 * Z.of_nat j) with (w_pos w + 13 * Z.of_nat (S j)) by lia.
      apply Hh. exact Hj.
Qed.

Lemma workarounds_logged w m :
  is_workaround m = false -> workarounds (logged w [m]) = workarounds w.
Proof.
  intros H. unfold workarounds, logged. cbn [w_log app].
  rewrite filter_cons_False; [reflexivity|]. rewrite H. discriminate.
Qed.

Lemma workarounds_replicate w k :
  workarounds (logged w (replicate k MsgWorkaround)) = (k + workarounds w)%nat.
Proof.
  unfold workarounds, logged. cbn [w_log].
  induction k as [|k IH]; [reflexivity|].
  cbn [replicate app]. rewrite filter_cons_True by reflexivity.
  cbn [length]. rewrite IH. reflexivity.
Qed.

(** Some valid headers, then one that is there and is not valid: the loop
    jumps to [failed], and the workaround is not applied on the way. *)
Lemma read_initial_headers_invalid f fuel c v1 v2 lh :
  c <> CTYPE_NONE \/ v1 <> 0 \/ v2 <> 0 ->
  forall m k i si w,
    f = w_fd w -> 0 <= w_pos w -> 0 < i ->
    (m < k)%nat -> (Z.to_nat i + k <= length (s si))%nat ->
    (forall j, (j < m)%nat ->
       exists lh', header_at w (w_pos w + 13 * Z.of_nat j) = Some (CTYPE_NONE, 0, 0, lh')) ->
    header_at w (w_pos w + 13 * Z.of_nat m) = Some (c, v1, v2, lh) ->
    exists w', read_initial_headers (S fuel) k f i si w = Done None w'
               /\ workarounds w' = workarounds w.
Proof.
  intros Hbad. induction m as [|m IH]; intros k i si w Hf Hp Hi Hk Hlen Hval Hinv.
  - destruct k as [|k]; [lia|]. cbn [read_initial_headers].
    rewrite Z.mul_0_r, Z.add_0_r in Hinv.
    destruct (lookup_lt_is_Some_2 (s si) (Z.to_nat i) ltac:(lia)) as [st Hst].
    destruct (read_initial_header_invalid f w _ _ _ _ Hf Hp Hinv fuel i si st
                ltac:(lia) Hst Hbad) as (msg & Hrun & Hmsg).
    rewrite (mbind_done _ _ _ _ _ Hrun). cbv beta iota. rewrite mret_eq.
    eexists. split; [reflexivity|].
    rewrite workarounds_logged by assumption. reflexivity.
  - destruct k as [|k]; [lia|]. cbn [read_initial_headers].
    destruct (Hval 0%nat ltac:(lia)) as [lh0 H0].
    rewrite Z.mul_0_r, Z.add_0_r in H0.
    destruct (lookup_lt_is_Some_2 (s si) (Z.to_nat i) ltac:(lia)) as [st Hst].
    erewrite mbind_done; cycle 1.
    { apply (read_initial_header_valid f w _ _ _ _ Hf Hp H0 fuel i si st);
        [lia|exact Hst| |reflexivity|reflexivity|reflexivity].
      destruct (Z.eqb_spec i 0); [lia|]. apply andb_false_r. }
    cbv beta iota.
    edestruct (IH k (i + 1)) as (w' & Hrun & Hw); cycle 7.
    + exists w'. split; [exact Hrun|]. rewrite Hw. reflexivity.
    + exact Hf.
    + cbn. lia.
    + lia.
    + lia.
    + cbn [with_total_read set_stream with_s s]. rewrite length_insert. lia.
    + intros j Hj. cbn [set_pos set_file w_pos].
      rewrite (header_at_frame w) by reflexivity.
      replace (w_pos w + 13 + 13 * Z.of_nat j) with (w_pos w + 13 * Z.of_nat (S j)) by lia.
      apply Hval. lia.
    + cbn [set_pos set_file w_pos].
      rewrite (header_at_frame w) by reflexivity.
      replace (w_pos w + 13 + 13 * Z.of_nat m) with (w_pos w + 13 * Z.of_nat (S m)) by lia.
      exact Hinv.
Qed.

(** ** [open_stream_in] on a file *)

Lemma lseek_cur_ok f w :
  f = w_fd w -> 0 <= w_pos w -> sys_lseek f 0 SEEK_CUR w = Done (w_pos w) w.
Proof.
  intros Hf Hp. unfold sys_lseek. rewrite Hf, Z.eqb_refl. cbn [negb].
  destruct (Z.ltb_spec (w_pos w + 0) 0); [lia|].
  rewrite Z.add_0_r. destruct w; reflexivity.
Qed.

Section OpenIn.

Context (E : Env) (f n : Z) (w : world) (k : nat).
Hypothesis allocs_granted : forall k sz, alloc_ok E k sz = true.
Hypothesis fd_ok : f = w_fd w.
Hypothesis pos_ok : 0 <= w_pos w.
Hypothesis n_pos : 0 < n.
Hypothesis sentinels_first :
  forall j, 0 <= j < Z.of_nat k -> header_at w (w_pos w + 13 * j) = Some sentinel.

Let base := w_pos w + 13 * Z.of_nat k.
Let w2 := count_alloc (count_alloc w).

(** Up to the first header that is not taken for the sentinel. *)
Lemma open_stream_in_skips h0 :
  header_at w base = Some h0 ->
  exists fuel,
    open_stream_in E f n w
    = (o ← read_initial_header (S fuel) f 0
             (mkInfo (replicate (Z.to_nat n) zero_stream) n f 0 0 base 0);
       match o with
       | None => mret None
       | Some sinfo => read_initial_headers (S (length (w_data w))) (Z.to_nat n - 1) f 1 sinfo
       end) (logged (set_pos w2 base) (replicate k MsgWorkaround)).
Proof.
  intros Hh0.
  assert (Hk : (k <= length (w_data w))%nat).
  { destruct h0 as [[[c v1] v2] lh].
    pose proof (header_at_length _ _ _ _ _ _ Hh0) as Hl.
    unfold file_slice in Hl. rewrite length_take, length_drop in Hl.
    subst base. lia. }
  exists (length (w_data w) - k)%nat.
  unfold open_stream_in.
  rewrite (mbind_done _ _ _ _ _ (alloc_struct_ok E allocs_granted _ w)). cbn [negb].
  rewrite (mbind_done _ _ _ _ _ (lseek_cur_ok f (count_alloc w) fd_ok pos_ok)).
  rewrite (mbind_done _ _ _ _ _ (calloc_streams_ok E allocs_granted n _ ltac:(lia))).
  fold w2. unfold again_fuel at 1. rewrite mbind_eq.
  change (w_data w2) with (w_data w). change (w_pos (count_alloc w)) with (w_pos w).
  destruct (Z.to_nat n) as [|n'] eqn:Hn; [lia|].
  cbn [read_initial_headers]. rewrite Nat.sub_succ, Nat.sub_0_r.
  rewrite !mbind_eq.
  replace (S (length (w_data w))) with (k + S (length (w_data w) - k))%nat at 1 by lia.
  rewrite (sentinels_skipped f k _ _ w2 zero_stream fd_ok pos_ok);
    [|reflexivity|reflexivity|].
  - cbn [with_initial_pos s num_streams fd bufsize cur_pos initial_pos total_read].
    change (w_pos w2) with (w_pos w). fold base.
    replace (w_pos w + 13 * Z.of_nat k) with base by reflexivity.
    replace (0 + 1) with 1 by lia. reflexivity.
  - intros j Hj. rewrite (header_at_frame w) by reflexivity.
    apply sentinels_first. exact Hj.
Qed.

(** After the sentinels, [n] valid headers, the first of which is not the
    sentinel: the open succeeds, [initial_pos] is past the sentinels and
    [total_read] counts the [n] headers alone. *)
Lemma open_stream_in_valid lhs :
  Z.of_nat (length lhs) = n ->
  (forall j lh, lhs !! j = Some lh ->
     header_at w (base + 13 * Z.of_nat j) = Some (CTYPE_NONE, 0, 0, lh)) ->
  lhs !! 0%nat <> Some 0 ->
  open_stream_in E f n w
  = Done (Some (mkInfo (opened_streams lhs) n f 0 0 base (to_u32 (13 * n))))
         (logged (set_pos w2 (base + 13 * n)) (replicate k MsgWorkaround)).
Proof.
  intros Hlen Hh Hfirst.
  destruct lhs as [|lh0 lhs]; [cbn in Hlen; lia|].
  assert (H0 : header_at w base = Some (CTYPE_NONE, 0, 0, lh0)).
  { rewrite <- (Z.add_0_r base). apply (Hh 0%nat). reflexivity. }
  destruct (open_stream_in_skips _ H0) as [fuel ->].
  assert (Hn : Z.to_nat n = S (length lhs)) by (cbn [length] in Hlen; lia).
  erewrite mbind_done; cycle 1.
  { apply (read_initial_header_valid f _ CTYPE_NONE 0 0 lh0);
      [exact fd_ok|cbn; subst base; lia|exact H0|lia| | |reflexivity|reflexivity|reflexivity].
    - cbn [s]. rewrite Hn. reflexivity.
    - unfold is_sentinel. destruct (Z.eqb_spec lh0 0) as [->|]; [|reflexivity].
      exfalso. apply Hfirst. reflexivity. }
  cbv beta iota. rewrite Hn, Nat.sub_succ, Nat.sub_0_r.
  rewrite (read_initial_headers_valid f _ lhs 1 _ _ [with_last_head zero_stream lh0]);
    [|exact fd_ok|cbn; subst base; lia|lia|reflexivity|reflexivity|].
  - f_equal.
    + f_equal. unfold with_total_read, with_s, set_stream.
      cbn [s num_streams fd bufsize cur_pos initial_pos total_read opened_streams map app].
      f_equal.
      change (to_u32 (0 + 13)) with (Nat.iter 1 (fun c => to_u32 (c + 13)) (to_u32 0)).
      rewrite <- Nat.iter_add, iter_cur_pos. f_equal. cbn [length] in Hlen. lia.
    + unfold logged, set_pos, set_file. cbn. f_equal. cbn [length] in Hlen. lia.
  - intros j lh Hj. cbn [logged set_pos set_file w_pos].
    rewrite (header_at_frame w) by reflexivity.
    replace (base + 13 + 13 * Z.of_nat j) with (base + 13 * Z.of_nat (S j)) by lia.
    apply Hh. exact Hj.
Qed.

(** After the sentinels, some valid headers, then one of the [n] that is
    there and is not valid: the open returns null. The workaround has been
    applied once for every sentinel. *)
Lemma open_stream_in_invalid h0 m c v1 v2 lh :
  header_at w base = Some h0 -> is_sentinel h0 = false ->
  Z.of_nat m < n ->
  (forall j, (j < m)%nat ->
     exists lh', header_at w (base + 13 * Z.of_nat j) = Some (CTYPE_NONE, 0, 0, lh')) ->
  header_at w (base + 13 * Z.of_nat m) = Some (c, v1, v2, lh) ->
  c <> CTYPE_NONE \/ v1 <> 0 \/ v2 <> 0 ->
  exists w', open_stream_in E f n w = Done None w'
             /\ workarounds w' = (k + workarounds w)%nat.
Proof.
  intros H0 Hns Hm Hval Hinv Hbad.
  destruct (open_stream_in_skips _ H0) as [fuel ->].
  set (w3 := logged (set_pos w2 base) (replicate k MsgWorkaround)).
  assert (Hw3 : workarounds w3 = (k + workarounds w)%nat)
    by (subst w3; rewrite workarounds_replicate; reflexivity).
  set (si0 := mkInfo (replicate (Z.to_nat n) zero_stream) n f 0 0 base 0).
  assert (Hst : s si0 !! Z.to_nat 0 = Some zero_stream)
    by (apply lookup_replicate_2; lia).
  destruct m as [|m].
  - rewrite Z.mul_0_r, Z.add_0_r in Hinv.
    destruct (read_initial_header_invalid f w3 c v1 v2 lh fd_ok
                ltac:(cbn; subst base; lia) Hinv fuel 0 si0 zero_stream
                ltac:(lia) Hst Hbad) as (msg & Hrun & Hmsg).
    rewrite (mbind_done _ _ _ _ _ Hrun). cbv beta iota. rewrite mret_eq.
    eexists. split; [reflexivity|].
    rewrite workarounds_logged by assumption. exact Hw3.
  - destruct (Hval 0%nat ltac:(lia)) as [lh0 Hh0].
    rewrite Z.mul_0_r, Z.add_0_r in Hh0.
    assert (h0 = (CTYPE_NONE, 0, 0, lh0)) as -> by congruence.
    erewrite mbind_done; cycle 1.
    { apply (read_initial_header_valid f w3 CTYPE_NONE 0 0 lh0 fd_ok
               ltac:(cbn; subst base; lia) Hh0 fuel 0 si0 zero_stream);
        [lia|exact Hst| |reflexivity|reflexivity|reflexivity].
      rewrite Hns. reflexivity. }
    cbv beta iota.
    set (si1 := with_total_read (set_stream si0 0 (with_last_head zero_stream lh0))
                  (to_u32 (total_read si0 + 13))).
    assert (Hposv : w_pos (set_pos w3 (w_pos w3 + 13)) = base + 13) by reflexivity.
    destruct (read_initial_headers_invalid f (length (w_data w)) c v1 v2 lh Hbad
                m (Z.to_nat n - 1)%nat 1 si1 (set_pos w3 (w_pos w3 + 13)))
      as (w' & Hrun & Hw).
    + exact fd_ok.
    + rewrite Hposv. subst base. lia.
    + lia.
    + lia.
    + subst si1 si0. cbn [with_total_read set_stream with_s s].
      rewrite length_insert, length_replicate. lia.
    + intros j Hj. rewrite Hposv.
      rewrite (header_at_frame w) by reflexivity.
      replace (base + 13 + 13 * Z.of_nat j) with (base + 13 * Z.of_nat (S j)) by lia.
      apply Hval. lia.
    + rewrite Hposv. rewrite (header_at_frame w) by reflexivity.
      replace (base + 13 + 13 * Z.of_nat m) with (base + 13 * Z.of_nat (S m)) by lia.
      exact Hinv.
    + exists w'. split; [exact Hrun|]. rewrite Hw. exact Hw3.
Qed.

End OpenIn.

(** ** What a run of [open_stream_in] tells, whatever the file *)

Lemma read_buf_frame f len w r bs w' :
  read_buf f len w = Done (r, bs) w' -> workarounds w' = workarounds w.
Proof.
  unfold read_buf, sys_read. rewrite mbind_eq.
  destruct (negb (f =? w_fd w)).
  { cbn. intros [= _ _ <-]. reflexivity. }
  destruct (len <? 0).
  { cbn. intros [= _ _ <-]. reflexivity. }
  cbv beta iota.
  destruct (_ =? -1).
  { cbn. intros [= _ _ <-]. reflexivity. }
  destruct (negb _); cbn; intros [= _ _ <-]; reflexivity.
Qed.

Lemma read_u8_frame f w o w' :
  read_u8 f w = Done o w' -> workarounds w' = workarounds w.
Proof.
  unfold read_u8. intros H. bind_inv H as [r bs] w1 Hb.
  apply read_buf_frame in Hb.
  destruct (negb (r =? 0)); rewrite mret_eq in H; injection H as _ <-; exact Hb.
Qed.

Lemma read_u16_frame f w o w' :
  read_u16 f w = Done o w' -> workarounds w' = workarounds w.
Proof.
  unfold read_u16. intros H. bind_inv H as [r bs] w1 Hb.
  apply read_buf_frame in Hb.
  destruct (negb (r =? 0)); rewrite mret_eq in H; injection H as _ <-; exact Hb.
Qed.

Lemma read_u32_frame f w o w' :
  read_u32 f w = Done o w' -> workarounds w' = workarounds w.
Proof.
  unfold read_u32. intros H. bind_inv H as o1 w1 H1.
  apply read_u16_frame in H1.
  destruct o1 as [v1|]; [|rewrite mret_eq in H; injection H as _ <-; exact H1].
  bind_inv H as o2 w2 H2. apply read_u16_frame in H2.
  destruct o2 as [v2|]; rewrite mret_eq in H; injection H as _ <-; congruence.
Qed.

(** The body of the loop, read backwards from its result: either the
    workaround was applied (only possible for stream 0) and the body ran
    again, or the header was tested and counted. *)
Lemma read_initial_header_inv fuel f i si w r w' :
  read_initial_header (S fuel) f i si w = Done r w' ->
  (i = 0 /\ exists si1 w1,
      read_initial_header fuel f i si1 w1 = Done r w'
      /\ initial_pos si1 = initial_pos si + 13
      /\ total_read si1 = total_read si
      /\ workarounds w1 = S (workarounds w))
  \/ (workarounds w' = workarounds w
      /\ forall si', r = Some si' ->
           initial_pos si' = initial_pos si
           /\ total_read si' = to_u32 (total_read si + 13)).
Proof.
  cbn [read_initial_header]. intros H.
  bind_inv H as oc w1 H1. apply read_u8_frame in H1.
  destruct oc as [c|];
    [|rewrite mret_eq in H; injection H as <- <-; right; split; [exact H1|discriminate]].
  bind_inv H as o1 w2 H2. apply read_u32_frame in H2.
  destruct o1 as [v1|];
    [|rewrite mret_eq in H; injection H as <- <-; right; split; [congruence|discriminate]].
  bind_inv H as o2 w3 H3. apply read_u32_frame in H3.
  destruct o2 as [v2|];
    [|rewrite mret_eq in H; injection H as <- <-; right; split; [congruence|discriminate]].
  bind_inv H as st w4 Hg. apply get_stream_inv in Hg. destruct Hg as (-> & _ & _).
  bind_inv H as o3 w5 H4. apply read_u32_frame in H4.
  destruct o3 as [lh|];
    [|rewrite mret_eq in H; injection H as <- <-; right; split; [congruence|discriminate]].
  cbv zeta in H.
  destruct ((c =? CTYPE_NONE) && (v1 =? 0) && (v2 =? 0) && (lh =? 0) && (i =? 0)) eqn:Hs.
  - left. apply andb_true_iff in Hs. destruct Hs as [_ Hi]. apply Z.eqb_eq in Hi.
    split; [exact Hi|].
    rewrite mbind_eq in H. cbn [err_msg] in H.
    eexists _, _. split; [exact H|]. split; [reflexivity|]. split; [reflexivity|].
    unfold workarounds. cbn [w_log]. rewrite filter_cons_True by reflexivity.
    cbn [length]. f_equal. unfold workarounds in *. congruence.
  - right.
    assert (Hw : workarounds w5 = workarounds w) by congruence.
    destruct (negb (c =? CTYPE_NONE)).
    { rewrite mbind_eq in H. cbn in H. injection H as <- <-.
      split; [exact Hw|discriminate]. }
    destruct (negb (v1 =? 0)).
    { rewrite mbind_eq in H. cbn in H. injection H as <- <-.
      split; [exact Hw|discriminate]. }
    destruct (negb (v2 =? 0)).
    { rewrite mbind_eq in H. cbn in H. injection H as <- <-.
      split; [exact Hw|discriminate]. }
    rewrite mret_eq in H. injection H as <- <-.
    split; [exact Hw|]. intros si' [= <-]. split; reflexivity.
Qed.

(** A header that is counted adds 13 to [total_read], however many times
    the workaround ran before it. *)
Lemma read_initial_header_total_read fuel : forall f i si w si' w',
  read_initial_header fuel f i si w = Done (Some si') w' ->
  total_read si' = to_u32 (total_read si + 13).
Proof.
  induction fuel as [|fuel IH]; intros f i si w si' w' H; [discriminate|].
  destruct (read_initial_header_inv _ _ _ _ _ _ _ H)
    as [(_ & si1 & w1 & Hrec & _ & Htr & _)|(_ & Hr)].
  - rewrite <- Htr. eapply IH. exact Hrec.
  - apply (Hr si' eq_refl).
Qed.

(** For a stream other than stream 0 the workaround is not applied. *)
Lemma read_initial_header_other fuel f i si w r w' :
  i <> 0 ->
  read_initial_header fuel f i si w = Done r w' ->
  workarounds w' = workarounds w
  /\ forall si', r = Some si' -> initial_pos si' = initial_pos si.
Proof.
  intros Hi H. destruct fuel as [|fuel]; [discriminate|].
  destruct (read_initial_header_inv _ _ _ _ _ _ _ H) as [(? & _)|(Hw & Hr)];
    [contradiction|].
  split; [exact Hw|]. intros si' Hs. apply (Hr si' Hs).
Qed.

Lemma read_initial_headers_other fuel f k : forall i si w r w',
  0 < i ->
  read_initial_headers fuel k f i si w = Done r w' ->
  workarounds w' = workarounds w
  /\ forall si', r = Some si' -> initial_pos si' = initial_pos si.
Proof.
  induction k as [|k IH]; intros i si w r w' Hi H.
  - cbn in H. injection H as <- <-. split; [reflexivity|]. intros ? [= <-]. reflexivity.
  - cbn [read_initial_headers] in H. bind_inv H as o w1 Hb.
    assert (Hi0 : i <> 0) by lia. assert (Hi1 : 0 < i + 1) by lia.
    destruct (read_initial_header_other _ _ _ _ _ _ _ Hi0 Hb) as [Hw Hp].
    destruct o as [si1|].
    + destruct (IH _ _ _ _ _ Hi1 H) as [Hw' Hp'].
      split; [congruence|]. intros si' Hs. rewrite (Hp' _ Hs). apply Hp. reflexivity.
    + rewrite mret_eq in H. injection H as <- <-. split; [exact Hw|discriminate].
Qed.

Lemma read_initial_headers_total_read fuel f k : forall i si w si' w',
  read_initial_headers fuel k f i si w = Done (Some si') w' ->
  total_read si' = Nat.iter k (fun c => to_u32 (c + 13)) (total_read si).
Proof.
  induction k as [|k IH]; intros i si w si' w' H.
  - cbn in H. injection H as <- <-. reflexivity.
  - cbn [read_initial_headers] in H. bind_inv H as o w1 Hb.
    destruct o as [si1|]; [|discriminate].
    rewrite (IH _ _ _ _ _ H), Nat.iter_succ_r.
    rewrite (read_initial_header_total_read _ _ _ _ _ _ _ Hb). reflexivity.
Qed.

(** On success [total_read] counts 13 bytes for each of the [n] streams. *)
Lemma open_stream_in_total_read E f n w si w' :
  0 <= n ->
  open_stream_in E f n w = Done (Some si) w' ->
  total_read si = to_u32 (13 * n).
Proof.
  intros Hn H. unfold open_stream_in in H.
  bind_inv H as ok w1 H1. destruct ok; cbn [negb] in H; [|discriminate].
  bind_inv H as ip w2 H2.
  bind_inv H as os w3 H3. destruct os as [ss|]; [|discriminate].
  bind_inv H as fuel w4 H4.
  apply read_initial_headers_total_read in H. rewrite H.
  cbn [total_read]. change 0 with (to_u32 0) at 1.
  rewrite iter_cur_pos. f_equal. lia.
Qed.

(** ** The two claims on [open_stream_in] *)

(** C8: [open_stream_in] validates each of the [n] initial headers. On
    success [total_read] has advanced by exactly 13 for each of them (as a
    32-bit value), and by nothing for the sentinels skipped before them. On
    a file that has [k] sentinels and then its first real header: a header
    among the [n] whose c_type is not 3, or whose c_len or u_len is not 0,
    makes the open return null; [n] valid headers make it succeed, with
    [initial_pos] just past the sentinels. *)
Theorem open_stream_in_validates E f n w :
  0 <= n ->
  (forall si w',
     open_stream_in E f n w = Done (Some si) w' -> total_read si = to_u32 (13 * n))
  /\ (forall k h0,
        (forall a sz, alloc_ok E a sz = true) ->
        f = w_fd w -> 0 <= w_pos w -> 0 < n ->
        (forall j, 0 <= j < Z.of_nat k ->
           header_at w (w_pos w + 13 * j) = Some sentinel) ->
        let base := w_pos w + 13 * Z.of_nat k in
        header_at w base = Some h0 -> is_sentinel h0 = false ->
        (forall m c v1 v2 lh,
           Z.of_nat m < n ->
           (forall j, (j < m)%nat ->
              exists lh', header_at w (base + 13 * Z.of_nat j) = Some (CTYPE_NONE, 0, 0, lh')) ->
           header_at w (base + 13 * Z.of_nat m) = Some (c, v1, v2, lh) ->
           c <> CTYPE_NONE \/ v1 <> 0 \/ v2 <> 0 ->
           exists w', open_stream_in E f n w = Done None w')
        /\ (forall lhs,
              Z.of_nat (length lhs) = n ->
              (forall j lh, lhs !! j = Some lh ->
                 header_at w (base + 13 * Z.of_nat j) = Some (CTYPE_NONE, 0, 0, lh)) ->
              exists w',
                open_stream_in E f n w
                = Done (Some (mkInfo (opened_streams lhs) n f 0 0 base (to_u32 (13 * n)))) w')).
Proof.
  intros Hn. split.
  - intros si w' H. eapply open_stream_in_total_read; eassumption.
  - intros k h0 Ha Hf Hp Hn0 Hsent base H0 Hns. split.
    + intros m c v1 v2 lh Hm Hval Hinv Hbad.
      destruct (open_stream_in_invalid E f n w k Ha Hf Hp Hn0 Hsent h0 m c v1 v2 lh
                  H0 Hns Hm Hval Hinv Hbad) as (w' & Hrun & _).
      exists w'. exact Hrun.
    + intros lhs Hlen Hh. eexists.
      apply (open_stream_in_valid E f n w k Ha Hf Hp Hn0 Hsent lhs Hlen Hh).
      destruct lhs as [|lh0 lhs]; [discriminate|].
      intros [= ->].
      specialize (Hh 0%nat 0 eq_refl). rewrite Z.mul_0_r, Z.add_0_r in Hh.
      fold base in Hh. rewrite Hh in H0. injection H0 as <-. discriminate Hns.
Qed.

Lemma open_stream_in_validates_witness :
  exists si w',
    open_stream_in plain_env 3 1 double_sentinel_file = Done (Some si) w'
    /\ total_read si = 13
    /\ initial_pos si = 26.
Proof.
  destruct (open_stream_in_validates plain_env 3 1 double_sentinel_file ltac:(lia))
    as [Htr Hfile].
  destruct (Hfile 2%nat (CTYPE_NONE, 0, 0, 13) (fun _ _ => eq_refl) eq_refl
              ltac:(cbn; lia) ltac:(lia)) as [_ Hok].
  - intros j Hj. assert (j = 0 \/ j = 1) as [->| ->] by lia; vm_compute; reflexivity.
  - vm_compute. reflexivity.
  - reflexivity.
  - destruct (Hok [13]) as [w' Hrun].
    + reflexivity.
    + intros j lh Hj. destruct j as [|[|j]]; [|discriminate..].
      injection Hj as <-. vm_compute. reflexivity.
    + do 2 eexists. split; [exact Hrun|]. split; [|reflexivity].
      apply (Htr _ _ Hrun).
Defined.

(** C3, as the code has it: the workaround is applied only while the
    header of stream 0 is read, never for a stream [i <> 0]; and on stream 0
    it is applied once for every header in a row that reads as the sentinel
    (c_type 3 and three zero fields), so as many times as there are of them
    before the first real header: [initial_pos] ends 13 bytes further for
    each. *)
Theorem workaround_once_per_sentinel E f n w k h0 :
  (forall a sz, alloc_ok E a sz = true) ->
  f = w_fd w -> 0 <= w_pos w -> 0 < n ->
  (forall j, 0 <= j < Z.of_nat k -> header_at w (w_pos w + 13 * j) = Some sentinel) ->
  header_at w (w_pos w + 13 * Z.of_nat k) = Some h0 -> is_sentinel h0 = false ->
  (forall r w',
     open_stream_in E f n w = Done r w' ->
     workarounds w' = (k + workarounds w)%nat
     /\ forall si, r = Some si -> initial_pos si = w_pos w + 13 * Z.of_nat k)
  /\ (forall fuel i si w0 r w',
        i <> 0 ->
        read_initial_header fuel f i si w0 = Done r w' ->
        workarounds w' = workarounds w0
        /\ forall si', r = Some si' -> initial_pos si' = initial_pos si).
Proof.
  intros Ha Hf Hp Hn Hsent H0 Hns. split.
  2:{ intros fuel i si w0 r w' Hi H. eapply read_initial_header_other; eassumption. }
  intros r w' H.
  destruct (open_stream_in_skips E f n w k Ha Hf Hp Hn Hsent h0 H0) as [fuel Heq].
  rewrite Heq in H. clear Heq.
  set (base := w_pos w + 13 * Z.of_nat k) in *.
  set (w3 := logged (set_pos (count_alloc (count_alloc w)) base)
                    (replicate k MsgWorkaround)) in *.
  assert (Hw3 : workarounds w3 = (k + workarounds w)%nat)
    by (subst w3; rewrite workarounds_replicate; reflexivity).
  set (si0 := mkInfo (replicate (Z.to_nat n) zero_stream) n f 0 0 base 0) in *.
  assert (Hst : s si0 !! Z.to_nat 0 = Some zero_stream)
    by (apply lookup_replicate_2; lia).
  destruct h0 as [[[c v1] v2] lh].
  rewrite mbind_eq in H.
  rewrite (read_initial_header_reads f w3 c v1 v2 lh Hf
             ltac:(cbn; subst base; lia) H0 fuel 0 si0 zero_stream ltac:(lia) Hst) in H.
  cbv zeta in H. unfold is_sentinel in Hns. rewrite Hns in H. cbn [andb] in H.
  assert (Hnone : forall m, is_workaround m = false ->
            workarounds (logged (set_pos w3 (w_pos w3 + 13)) [m]) = (k + workarounds w)%nat).
  { intros m Hm. rewrite workarounds_logged by assumption. exact Hw3. }
  destruct (negb (c =? CTYPE_NONE)).
  { rewrite err_msg_ret in H. cbv beta iota in H. rewrite mret_eq in H.
    injection H as <- <-.
    split; [apply Hnone; reflexivity|discriminate]. }
  destruct (negb (v1 =? 0)).
  { rewrite err_msg_ret in H. cbv beta iota in H. rewrite mret_eq in H.
    injection H as <- <-.
    split; [apply Hnone; reflexivity|discriminate]. }
  destruct (negb (v2 =? 0)).
  { rewrite err_msg_ret in H. cbv beta iota in H. rewrite mret_eq in H.
    injection H as <- <-.
    split; [apply Hnone; reflexivity|discriminate]. }
  rewrite mret_eq in H. cbv beta iota in H.
  destruct (read_initial_headers_other _ _ _ 1 _ _ _ _ ltac:(lia) H) as [Hw Hip].
  split.
  - rewrite Hw. exact Hw3.
  - intros si Hsi. rewrite (Hip si Hsi). reflexivity.
Qed.

Lemma workaround_once_per_sentinel_witness :
  exists si w',
    open_stream_in plain_env 3 1 double_sentinel_file = Done (Some si) w'
    /\ workarounds w' = 2%nat
    /\ initial_pos si = 26.
Proof.
  assert (Hex : exists si w',
             open_stream_in plain_env 3 1 double_sentinel_file = Done (Some si) w')
    by (vm_compute; eauto).
  destruct Hex as (si & w' & Hrun).
  destruct (workaround_once_per_sentinel plain_env 3 1 double_sentinel_file 2
              (CTYPE_NONE, 0, 0, 13) (fun _ _ => eq_refl) eq_refl
              ltac:(cbn; lia) ltac:(lia)) as [Hopen _].
  - intros j Hj. assert (j = 0 \/ j = 1) as [->| ->] by lia; vm_compute; reflexivity.
  - vm_compute. reflexivity.
  - reflexivity.
  - destruct (Hopen _ _ Hrun) as [Hw Hip].
    exists si, w'. split; [exact Hrun|]. split; [exact Hw|].
    exact (Hip si eq_refl).
Defined.

(** The claim as the spec has it (at most one application per session)
    fails on a file that starts with two sentinels. *)
Lemma workaround_applied_twice :
  ~ workaround_at_most_once plain_env 3 1 double_sentinel_file.
Proof.
  intros H.
  assert (Hex : exists si w',
             open_stream_in plain_env 3 1 double_sentinel_file = Done (Some si) w'
             /\ workarounds w' = 2%nat) by (vm_compute; eauto).
  destruct Hex as (si & w' & Hrun & Hw).
  specialize (H _ _ Hrun). rewrite Hw in H. cbn in H. lia.
Qed.

(** * The layout of a stream set *)

Lemma chunk_size_pos r : 13 <= chunk_size r.
Proof. unfold chunk_size. lia. Qed.

Lemma layout_size_nonneg rs : 0 <= layout_size rs.
Proof.
  induction rs as [|r rs IH]; cbn [layout_size]; [lia|].
  pose proof (chunk_size_pos r). lia.
Qed.

Lemma length_chunk_bytes r : Z.of_nat (length (chunk_bytes r)) = chunk_size r.
Proof.
  unfold chunk_bytes, chunk_size. rewrite length_app, length_header_bytes. lia.
Qed.

Lemma length_layout_bytes rs : Z.of_nat (length (layout_bytes rs)) = layout_size rs.
Proof.
  induction rs as [|r rs IH]; cbn [layout_bytes layout_size]; [reflexivity|].
  rewrite length_app, Nat2Z.inj_add, length_chunk_bytes, IH. reflexivity.
Qed.

Lemma layout_bytes_app a b : layout_bytes (a ++ b) = layout_bytes a ++ layout_bytes b.
Proof.
  induction a as [|r a IH]; cbn [layout_bytes app]; [reflexivity|].
  rewrite IH, app_assoc. reflexivity.
Qed.

Lemma layout_size_app a b : layout_size (a ++ b) = layout_size a + layout_size b.
Proof.
  induction a as [|r a IH]; cbn [layout_size app]; [reflexivity|]. rewrite IH. lia.
Qed.

Lemma has_stream_app i a b : has_stream i (a ++ b) = has_stream i a || has_stream i b.
Proof. unfold has_stream. apply existsb_app. Qed.

Lemma first_off_app base i a b :
  first_off base i (a ++ b)
  = if has_stream i a then first_off base i a
    else first_off (base + layout_size a) i b.
Proof.
  revert base. induction a as [|r a IH]; intros base.
  - cbn. f_equal. lia.
  - cbn [app first_off has_stream existsb layout_size].
    destruct (k_stream r =? i); cbn [orb]; [reflexivity|].
    rewrite IH. fold (has_stream i a).
    destruct (has_stream i a); [reflexivity|]. f_equal. lia.
Qed.

Lemma first_off_none base i rs : has_stream i rs = false -> first_off base i rs = 0.
Proof.
  revert base. induction rs as [|r rs IH]; intros base H; [reflexivity|].
  cbn [has_stream existsb first_off] in *. apply orb_false_iff in H. destruct H as [-> H].
  apply IH. exact H.
Qed.

Lemma last_off_none base i rs : has_stream i rs = false <-> last_off base i rs = None.
Proof.
  revert base. induction rs as [|r rs IH]; intros base; [cbn; tauto|].
  cbn [has_stream existsb last_off]. fold (has_stream i rs).
  specialize (IH (base + chunk_size r)).
  destruct (last_off (base + chunk_size r) i rs); destruct (k_stream r =? i);
    destruct (has_stream i rs); cbn; intuition congruence.
Qed.

Lemma last_off_range base i rs o :
  last_off base i rs = Some o -> base <= o /\ o + 13 <= base + layout_size rs.
Proof.
  revert base o. induction rs as [|r rs IH]; intros base o H; [discriminate|].
  cbn [last_off layout_size] in *.
  pose proof (chunk_size_pos r). pose proof (layout_size_nonneg rs).
  destruct (last_off (base + chunk_size r) i rs) as [o'|] eqn:Ho.
  - injection H as <-. apply IH in Ho. lia.
  - destruct (k_stream r =? i); [|discriminate]. injection H as <-. lia.
Qed.

(** ** The back-patch *)

Lemma chunk_size_with_next r v : chunk_size (with_next r v) = chunk_size r.
Proof. reflexivity. Qed.

Lemma patch_sizes i v rs :
  layout_size (patch i v rs) = layout_size rs
  /\ (forall j, has_stream j (patch i v rs) = has_stream j rs)
  /\ (forall b j, first_off b j (patch i v rs) = first_off b j rs)
  /\ (forall b j, last_off b j (patch i v rs) = last_off b j rs)
  /\ (forall j, stream_data j (patch i v rs) = stream_data j rs)
  /\ data_total (patch i v rs) = data_total rs
  /\ length (patch i v rs) = length rs.
Proof.
  induction rs as [|r rs IH]; [cbn; auto 10|].
  destruct IH as (I1 & I2 & I3 & I4 & I5 & I6 & I7).
  cbn [patch]. destruct (has_stream i rs).
  - cbn [layout_size has_stream existsb first_off last_off stream_data data_total length].
    fold (has_stream). rewrite I1, I6, I7.
    repeat split; auto.
    + intros j. f_equal. apply I2.
    + intros b j. rewrite I3. reflexivity.
    + intros b j. rewrite I4. reflexivity.
    + intros j. rewrite I5. reflexivity.
  - destruct (k_stream r =? i); repeat split; reflexivity.
Qed.

(** Appending a chunk of stream [i] after patching the last chunk of
    stream [i] to point to it keeps the layout linked. *)
Lemma linked_app_other base rs rnew :
  linked base rs -> has_stream (k_stream rnew) rs = false ->
  k_next rnew = 0 ->
  linked base (rs ++ [rnew]).
Proof.
  revert base. induction rs as [|r rs IH]; intros base Hl Hno Hn.
  - cbn. auto.
  - cbn [linked app has_stream existsb] in *. fold (has_stream (k_stream rnew) rs) in Hno.
    apply orb_false_iff in Hno. destruct Hno as [Hr Hno]. destruct Hl as [Hnext Hl].
    split; [|apply IH; assumption].
    rewrite first_off_app. cbn [first_off].
    destruct (has_stream (k_stream r) rs) eqn:Hh; [exact Hnext|].
    rewrite Hnext, first_off_none by assumption.
    destruct (Z.eqb_spec (k_stream rnew) (k_stream r)) as [e|]; [|reflexivity].
    rewrite e, Z.eqb_refl in Hr. discriminate.
Qed.

Lemma linked_flush base i rs rnew :
  linked base rs -> k_stream rnew = i -> k_next rnew = 0 ->
  linked base (patch i (base + layout_size rs) rs ++ [rnew]).
Proof.
  revert base. induction rs as [|r rs IH]; intros base Hl Hi Hn.
  - cbn. auto.
  - cbn [linked patch layout_size] in *. destruct Hl as [Hnext Hl].
    destruct (has_stream i rs) eqn:Hh.
    + cbn [app linked]. split.
      * rewrite first_off_app.
        destruct (patch_sizes i (base + (chunk_size r + layout_size rs)) rs)
          as (_ & H2 & H3 & _).
        rewrite H2, H3.
        destruct (has_stream (k_stream r) rs) eqn:Hr; [exact Hnext|].
        cbn [first_off]. rewrite Hnext, first_off_none by assumption.
        destruct (Z.eqb_spec (k_stream rnew) (k_stream r)) as [e|]; [|reflexivity].
        rewrite <- e, Hi, Hh in Hr. discriminate.
      * replace (base + (chunk_size r + layout_size rs))
          with (base + chunk_size r + layout_size rs) by lia.
        apply IH; assumption.
    + destruct (Z.eqb_spec (k_stream r) i) as [Hr|Hr].
      * cbn [app linked with_next k_next k_stream]. rewrite chunk_size_with_next. split.
        -- rewrite first_off_app, Hr, Hh. cbn [first_off]. rewrite Hi, Z.eqb_refl. lia.
        -- apply linked_app_other; [assumption|rewrite Hi; assumption|assumption].
      * cbn [app linked]. split.
        -- rewrite first_off_app.
           destruct (has_stream (k_stream r) rs) eqn:Hrs; [exact Hnext|].
           cbn [first_off]. rewrite Hnext, first_off_none by assumption.
           destruct (Z.eqb_spec (k_stream rnew) (k_stream r)) as [e|]; [|reflexivity].
           congruence.
        -- apply linked_app_other; [assumption|rewrite Hi; assumption|assumption].
Qed.

(** ** The layout as bytes of the file *)

(** The back-patch of a flush, on the bytes: the four bytes at offset 9 of
    the last chunk of the stream are those of the next_head field. *)
Lemma layout_bytes_patch i v : forall rs pre post base o,
  Z.of_nat (length pre) = base ->
  last_off base i rs = Some o ->
  pwrite (Z.to_nat (o + 9)) (u32_bytes v) (pre ++ layout_bytes rs ++ post)
  = pre ++ layout_bytes (patch i v rs) ++ post.
Proof.
  induction rs as [|r rs IH]; intros pre post base o Hpre Ho; [discriminate|].
  cbn [last_off patch layout_bytes] in *.
  destruct (last_off (base + chunk_size r) i rs) as [o'|] eqn:Hl.
  - injection Ho as ->.
    assert (Hh : has_stream i rs = true).
    { destruct (has_stream i rs) eqn:Hh; [reflexivity|].
      apply (last_off_none (base + chunk_size r)) in Hh. congruence. }
    rewrite Hh. cbn [layout_bytes].
    rewrite <- !app_assoc.
    rewrite (app_assoc pre (chunk_bytes r)).
    rewrite (IH (pre ++ chunk_bytes r) post (base + chunk_size r) o).
    + rewrite <- !app_assoc. reflexivity.
    + rewrite length_app, Nat2Z.inj_add, length_chunk_bytes. lia.
    + exact Hl.
  - assert (Hh : has_stream i rs = false) by (apply (last_off_none (base + chunk_size r)); exact Hl).
    rewrite Hh. destruct (k_stream r =? i); [|discriminate]. injection Ho as <-.
    cbn [layout_bytes]. unfold chunk_bytes, with_next, header_bytes.
    cbn [k_ctype k_payload k_data k_next].
    rewrite <- !app_assoc.
    set (a := pre ++ [to_uchar (k_ctype r)]
                  ++ u32_bytes (Z.of_nat (length (k_payload r)))
                  ++ u32_bytes (Z.of_nat (length (k_data r)))).
    replace (pre ++ [to_uchar (k_ctype r)]
                 ++ u32_bytes (Z.of_nat (length (k_payload r)))
                 ++ u32_bytes (Z.of_nat (length (k_data r)))
                 ++ u32_bytes (k_next r) ++ k_payload r ++ layout_bytes rs ++ post)
      with (a ++ u32_bytes (k_next r) ++ (k_payload r ++ layout_bytes rs ++ post))
      by (subst a; rewrite <- !app_assoc; reflexivity).
    replace (Z.to_nat (base + 9)) with (length a).
    2:{ subst a. rewrite !length_app, !length_u32_bytes. cbn [length]. lia. }
    rewrite pwrite_mid by reflexivity.
    subst a. rewrite <- !app_assoc. reflexivity.
Qed.

Lemma byte_at_to_uchar c l : 0 <= c < 256 -> byte_at (to_uchar c :: l) 0 = c.
Proof.
  intros H. unfold byte_at. cbn. rewrite byte_val_to_uchar. apply Z.mod_small. exact H.
Qed.

(** A header that was written is the header that is read. *)
Lemma header_at_bytes w pre post off c cl ul nx :
  w_data w = pre ++ header_bytes c cl ul nx ++ post ->
  Z.of_nat (length pre) = off ->
  0 <= c < 256 -> 0 <= cl < 2 ^ 32 -> 0 <= ul < 2 ^ 32 -> 0 <= nx < 2 ^ 32 ->
  header_at w off = Some (c, cl, ul, nx).
Proof.
  intros Hd Hoff Hc Hcl Hul Hnx. unfold header_at, file_slice.
  rewrite Hd, <- Hoff, Nat2Z.id.
  change (Z.to_nat 13) with (length (header_bytes c cl ul nx)).
  rewrite slice_app_mid. cbn [length header_bytes Nat.eqb].
  rewrite length_header_bytes. cbn [Nat.eqb].
  unfold header_bytes. cbn [app].
  rewrite byte_at_to_uchar by assumption.
  change (drop 1 (to_uchar c :: ?l)) with l.
  cbn [drop].
  rewrite (take_app_length' (u32_bytes cl)) by reflexivity.
  change 5%nat with (1 + 4)%nat. change 9%nat with (1 + (4 + 4))%nat.
  cbn [drop Nat.add].
  rewrite (drop_app_length' (u32_bytes cl)) by reflexivity.
  rewrite (take_app_length' (u32_bytes ul)) by reflexivity.
  rewrite (app_assoc (u32_bytes cl)).
  rewrite (drop_app_length' (u32_bytes cl ++ u32_bytes ul)) by reflexivity.
  rewrite take_ge by (rewrite length_u32_bytes; lia).
  rewrite !u32_of_bytes_u32_bytes by assumption. reflexivity.
Qed.

(** * A write-session keeps its invariant *)

(** ** The initial headers *)

Lemma emit_initial_ok f w :
  f = w_fd w -> 0 <= w_pos w -> w_pos w + 13 <= w_limit w ->
  emit_initial f w = Done 0 (write_at w (header_bytes CTYPE_NONE 0 0 0)).
Proof.
  intros Hf Hp Hl. unfold emit_initial.
  rewrite (mbind_done _ _ _ _ _ (write_u8_ok f _ w Hf ltac:(lia))).
  erewrite mbind_done
    by (apply write_u32_ok; [exact Hf|cbn; lia|cbn; lia]).
  rewrite write_at_app by assumption.
  erewrite mbind_done
    by (apply write_u32_ok; [exact Hf|cbn; lia|cbn; lia]).
  rewrite write_at_app by assumption.
  rewrite write_u32_ok; [|exact Hf|cbn; lia|cbn; lia].
  rewrite write_at_app by assumption. reflexivity.
Qed.

Lemma write_at_fields w bs :
  w_fd (write_at w bs) = w_fd w
  /\ w_pos (write_at w bs) = w_pos w + Z.of_nat (length bs)
  /\ w_limit (write_at w bs) = w_limit w.
Proof. repeat split. Qed.

Lemma write_at_nil w :
  0 <= w_pos w -> w_pos w <= Z.of_nat (length (w_data w)) -> write_at w [] = w.
Proof.
  intros Hp Hl. unfold write_at, set_file. rewrite pwrite_nil by lia.
  cbn [length]. rewrite Z.add_0_r. destruct w; reflexivity.
Qed.

Lemma iter_write_at k h w :
  0 <= w_pos w -> k <> O ->
  Nat.iter k (fun w => write_at w h) w = write_at w (concat (replicate k h)).
Proof.
  intros Hp Hk. destruct k as [|k]; [contradiction|]. clear Hk.
  induction k as [|k IH].
  - cbn. rewrite app_nil_r. reflexivity.
  - rewrite Nat.iter_succ, IH.
    rewrite write_at_app by assumption.
    f_equal. change (concat (replicate (S (S k)) h)) with (h ++ concat (replicate (S k) h)).
    clear. induction (S k) as [|m IHm]; cbn [replicate concat].
    + rewrite app_nil_r. reflexivity.
    + rewrite <- app_assoc, IHm. reflexivity.
Qed.

Lemma layout_bytes_initial k : forall i,
  layout_bytes (initial_chunks k i) = concat (replicate k (header_bytes CTYPE_NONE 0 0 0)).
Proof.
  induction k as [|k IH]; intros i; [reflexivity|].
  cbn [initial_chunks layout_bytes replicate concat]. rewrite IH.
  unfold chunk_bytes, initial_chunk. cbn [k_ctype k_payload k_data k_next length].
  rewrite app_nil_r. reflexivity.
Qed.

Lemma layout_size_initial k : forall i, layout_size (initial_chunks k i) = 13 * Z.of_nat k.
Proof.
  induction k as [|k IH]; intros i; [reflexivity|].
  cbn [initial_chunks layout_size]. rewrite IH. unfold chunk_size. cbn. lia.
Qed.

Lemma has_stream_initial k : forall i j,
  has_stream j (initial_chunks k i) = (i <=? j) && (j <? i + Z.of_nat k).
Proof.
  induction k as [|k IH]; intros i j.
  - cbn [initial_chunks has_stream existsb]. symmetry. apply andb_false_iff.
    destruct (Z.leb_spec i j); [right; apply Z.ltb_ge; lia|left; reflexivity].
  - cbn [initial_chunks has_stream existsb]. fold (has_stream j (initial_chunks k (i + 1))).
    rewrite IH. cbn [initial_chunk k_stream].
    apply eq_true_iff_eq.
    rewrite orb_true_iff, !andb_true_iff, Z.eqb_eq, !Z.leb_le, !Z.ltb_lt. lia.
Qed.

Lemma last_off_initial k : forall b i j,
  i <= j < i + Z.of_nat k ->
  last_off b j (initial_chunks k i) = Some (b + 13 * (j - i)).
Proof.
  induction k as [|k IH]; intros b i j Hj; [lia|].
  cbn [initial_chunks last_off].
  replace (chunk_size (initial_chunk i)) with 13 by reflexivity.
  replace (k_stream (initial_chunk i)) with i by reflexivity.
  destruct (Z.eq_dec i j) as [->|Hne].
  - rewrite Z.eqb_refl.
    assert (Hn : last_off (b + 13) j (initial_chunks k (j + 1)) = None).
    { apply last_off_none. rewrite has_stream_initial.
      destruct (Z.leb_spec (j + 1) j); [lia|reflexivity]. }
    rewrite Hn. f_equal. lia.
  - rewrite IH by lia. f_equal. lia.
Qed.

Lemma linked_initial k : forall b i, linked b (initial_chunks k i).
Proof.
  induction k as [|k IH]; intros b i; [exact I|].
  cbn [initial_chunks linked]. split; [|apply IH].
  cbn [initial_chunk k_next k_stream]. symmetry. apply first_off_none.
  rewrite has_stream_initial. destruct (Z.leb_spec (i + 1) i); [lia|reflexivity].
Qed.

Lemma stream_data_initial k : forall i j, stream_data j (initial_chunks k i) = [].
Proof.
  induction k as [|k IH]; intros i j; [reflexivity|].
  cbn [initial_chunks stream_data initial_chunk k_stream k_data].
  rewrite IH. destruct (i =? j); reflexivity.
Qed.

Lemma data_total_initial k : forall i, data_total (initial_chunks k i) = 0.
Proof.
  induction k as [|k IH]; intros i; [reflexivity|].
  cbn [initial_chunks data_total initial_chunk k_data length]. rewrite IH. reflexivity.
Qed.

Lemma lookup_initial_chunks k : forall i j r,
  initial_chunks k i !! j = Some r -> r = initial_chunk (i + Z.of_nat j).
Proof.
  induction k as [|k IH]; intros i j r H; [discriminate|].
  destruct j as [|j]; cbn in H.
  - injection H as <-. f_equal. lia.
  - apply IH in H. rewrite H. f_equal. lia.
Qed.

Lemma length_initial_chunks k i : length (initial_chunks k i) = k.
Proof. revert i. induction k as [|k IH]; intros i; cbn; [reflexivity|]. rewrite IH. reflexivity. Qed.

Lemma initial_like_initial N :
  0 <= N -> initial_like N (initial_chunks (Z.to_nat N) 0).
Proof.
  intros HN. split.
  - rewrite length_initial_chunks. lia.
  - intros i r H. apply lookup_initial_chunks in H. subst r. reflexivity.
Qed.

(** ** The stream records of a fresh session *)

Lemma lookup_headed l : forall c i st,
  0 <= c -> c + 13 * Z.of_nat (length l) < 2 ^ 32 ->
  headed c l !! i = Some st ->
  exists st0, l !! i = Some st0 /\ st = with_last_head st0 (c + 13 * Z.of_nat i + 9).
Proof.
  induction l as [|st0 l IH]; intros c i st Hc Hb H; [discriminate|].
  cbn [length] in Hb. destruct i as [|i]; cbn [headed] in H.
  - cbn in H. injection H as <-. exists st0. split; [reflexivity|].
    f_equal. rewrite to_u32_small by lia. lia.
  - cbn in H. rewrite to_u32_small in H by lia.
    destruct (IH (c + 13) i st ltac:(lia) ltac:(lia) H) as (st1 & Hl & ->).
    exists st1. split; [exact Hl|]. f_equal. lia.
Qed.

Lemma length_headed l : forall c, length (headed c l) = length l.
Proof. induction l as [|st l IH]; intros c; cbn; [reflexivity|]. rewrite IH. reflexivity. Qed.

Lemma pending_sum_headed l : forall c, pending_sum (headed c l) = pending_sum l.
Proof. induction l as [|st l IH]; intros c; cbn; [reflexivity|]. rewrite IH. reflexivity. Qed.

Lemma pending_sum_fresh k B L : pending_sum (replicate k (fresh_stream B L)) = 0.
Proof. induction k as [|k IH]; cbn; [reflexivity|]. rewrite IH. reflexivity. Qed.

Lemma bufsize_of_range L : 0 <= L <= 9 -> 102400 <= bufsize_of L <= 921600.
Proof.
  intros HL. unfold bufsize_of. destruct (Z.eqb_spec L 0); [lia|].
  rewrite to_u32_small; [lia|]. change (2 ^ 32) with 4294967296. lia.
Qed.

(** ** After [open_stream_out] *)

Lemma pwrite_split (off : nat) (bs d : list byte) :
  exists pre post, pwrite off bs d = pre ++ bs ++ post /\ length pre = off.
Proof.
  exists (take off d ++ replicate (off - length d) x00), (drop (off + length bs) d).
  split.
  - unfold pwrite. rewrite <- !app_assoc. reflexivity.
  - rewrite length_app, length_take, length_replicate. lia.
Qed.

Lemma open_stream_out_inv E f N L w :
  (forall a sz, alloc_ok E a sz = true) ->
  f = w_fd w -> 0 <= w_pos w -> 0 < N -> 0 <= L <= 9 ->
  13 * N < 2 ^ 32 -> w_pos w + 13 * N <= w_limit w ->
  exists si w',
    open_stream_out E f N L w = Done (Some si) w'
    /\ writer_inv E N L (bufsize_of L) (w_pos w) 0 (fun _ => []) si w'
                  (initial_chunks (Z.to_nat N) 0)
    /\ all_room (bufsize_of L) si
    /\ w_limit w' = w_limit w /\ w_fd w' = w_fd w.
Proof.
  intros Ha Hf Hp HN HL H32 Hlim.
  destruct (open_stream_out_session E f N L w ltac:(lia) Ha) as (ip & w2 & Hip & Hw2 & Hopen).
  rewrite (lseek_cur_ok f (count_alloc w) Hf Hp) in Hip. injection Hip as <-.
  destruct (iter_count_alloc_fields (Z.to_nat N) (count_alloc (count_alloc w)))
    as (F1 & F2 & F3 & F4 & F5).
  rewrite <- Hw2 in F1, F2, F3, F4, F5.
  cbn [count_alloc w_fd w_data w_pos w_limit w_log] in F1, F2, F3, F4, F5.
  set (h := header_bytes CTYPE_NONE 0 0 0).
  specialize (Hopen (fun k w0 => f = w_fd w0 /\ 0 <= w_pos w0
                                 /\ w_pos w0 + 13 * Z.of_nat k <= w_limit w0)
                    (fun w0 => write_at w0 h)).
  cbv zeta in Hopen. rewrite Hopen; clear Hopen.
  2:{ intros k w0 (H1 & H2 & H3). split.
      - exists 0. apply emit_initial_ok; [assumption|assumption|lia].
      - cbn [write_at set_file w_fd w_pos w_limit h length header_bytes app u32_bytes u16_bytes].
        repeat split; [assumption|lia|lia]. }
  2:{ rewrite F1, F3, F4. repeat split; [assumption|assumption|lia]. }
  rewrite iter_write_at by lia.
  fold (bufsize_of L). set (B := bufsize_of L).
  pose proof (bufsize_of_range L HL) as HB. fold B in HB.
  do 2 eexists. split; [reflexivity|].
  assert (Hheaded : forall i st,
            headed 0 (replicate (Z.to_nat N) (fresh_stream B L)) !! i = Some st ->
            st = with_last_head (fresh_stream B L) (13 * Z.of_nat i + 9)
            /\ Z.of_nat i < N).
  { intros i st Hst.
    assert (Hb : 0 + 13 * Z.of_nat (length (replicate (Z.to_nat N) (fresh_stream B L))) < 2 ^ 32)
      by (rewrite length_replicate; lia).
    destruct (lookup_headed _ 0 i st ltac:(lia) Hb Hst) as (st0 & Hl & ->).
    apply lookup_replicate in Hl. destruct Hl as [-> Hl]. split; [f_equal; lia|lia]. }
  split; [|split].
  - constructor; cbn [num_streams fd bufsize cur_pos initial_pos s].
    + reflexivity.
    + cbn [write_at set_file w_fd]. rewrite F1. exact Hf.
    + reflexivity.
    + reflexivity.
    + rewrite layout_size_initial, to_u32_small by lia. lia.
    + rewrite length_headed, length_replicate. lia.
    + cbn [write_at set_file w_data].
      rewrite layout_bytes_initial. fold h.
      destruct (pwrite_split (Z.to_nat (w_pos w2)) (concat (replicate (Z.to_nat N) h))
                  (w_data w2)) as (pre & post & -> & Hl).
      exists pre, post. split; [reflexivity|]. lia.
    + apply linked_initial.
    + exists (initial_chunks (Z.to_nat N) 0), []. rewrite app_nil_r.
      split; [reflexivity|]. split; [apply initial_like_initial; lia|constructor].
    + rewrite layout_size_initial, data_total_initial. lia.
    + rewrite data_total_initial, pending_sum_headed, pending_sum_fresh. reflexivity.
    + intros i st Hi Hst. destruct (Hheaded _ _ Hst) as [-> Hlt].
      exists (13 * i), []. cbn [with_last_head fresh_stream last_head buf buflen bzip_level length].
      rewrite last_off_initial by lia.
      rewrite stream_data_initial.
      repeat split; [f_equal; lia|lia|lia].
  - intros i st Hst. destruct (Hheaded _ _ Hst) as [-> _]. cbn. lia.
  - split; [cbn [write_at set_file w_limit]; exact F4|cbn [write_at set_file w_fd]; exact F1].
Qed.

(** ** More on layouts *)

Lemma last_off_shift d i rs : forall b,
  last_off (b + d) i rs = option_map (fun o => o + d) (last_off b i rs).
Proof.
  induction rs as [|r rs IH]; intros b; [reflexivity|].
  cbn [last_off]. replace (b + d + chunk_size r) with (b + chunk_size r + d) by lia.
  rewrite IH. destruct (last_off (b + chunk_size r) i rs); cbn [option_map]; [reflexivity|].
  destruct (k_stream r =? i); reflexivity.
Qed.

Lemma last_off_app i a b : forall base,
  last_off base i (a ++ b)
  = match last_off (base + layout_size a) i b with
    | Some o => Some o
    | None => last_off base i a
    end.
Proof.
  induction a as [|r a IH]; intros base.
  - cbn. rewrite Z.add_0_r. destruct (last_off base i b); reflexivity.
  - cbn [app last_off layout_size]. rewrite IH.
    replace (base + chunk_size r + layout_size a) with (base + (chunk_size r + layout_size a)) by lia.
    destruct (last_off (base + (chunk_size r + layout_size a)) i b); reflexivity.
Qed.

Lemma stream_data_app i a b : stream_data i (a ++ b) = stream_data i a ++ stream_data i b.
Proof.
  induction a as [|r a IH]; cbn [app stream_data]; [reflexivity|].
  rewrite IH. destruct (k_stream r =? i); [rewrite app_assoc|]; reflexivity.
Qed.

Lemma data_total_app a b : data_total (a ++ b) = data_total a + data_total b.
Proof. induction a as [|r a IH]; cbn [app data_total]; [reflexivity|]. rewrite IH. lia. Qed.

Lemma patch_app i v a b :
  patch i v (a ++ b) = if has_stream i b then a ++ patch i v b else patch i v a ++ b.
Proof.
  induction a as [|r a IH].
  - cbn [app patch]. destruct (has_stream i b) eqn:Hb; [reflexivity|].
    destruct b as [|r b]; [reflexivity|].
    cbn [patch]. cbn [has_stream existsb] in Hb. apply orb_false_iff in Hb.
    destruct Hb as [Hr Hb]. fold (has_stream i b) in Hb. rewrite Hb, Hr. reflexivity.
  - cbn [app patch]. rewrite has_stream_app, IH.
    destruct (has_stream i b); [rewrite orb_true_r; reflexivity|].
    rewrite orb_false_r. destruct (has_stream i a); [reflexivity|].
    destruct (k_stream r =? i); reflexivity.
Qed.

Lemma patch_lookup i v rs : forall n r',
  patch i v rs !! n = Some r' ->
  exists r, rs !! n = Some r /\ (r' = r \/ r' = with_next r v).
Proof.
  induction rs as [|r rs IH]; intros n r' H; [discriminate|].
  cbn [patch] in H. destruct (has_stream i rs).
  - destruct n as [|n]; cbn in *.
    + injection H as <-. eauto.
    + apply IH. exact H.
  - destruct (k_stream r =? i).
    + destruct n as [|n]; cbn in *; [injection H as <-|]; eauto.
    + eauto.
Qed.

Lemma Forall_patch (P : chunk -> Prop) i v rs :
  (forall r, P r -> P (with_next r v)) -> Forall P rs -> Forall P (patch i v rs).
Proof.
  intros HP H. apply Forall_lookup_2. intros n r' Hn.
  destruct (patch_lookup _ _ _ _ _ Hn) as (r & Hr & [->| ->]).
  - eapply Forall_lookup_1; eassumption.
  - apply HP. eapply Forall_lookup_1; eassumption.
Qed.

Lemma initial_like_patch N i v inits :
  initial_like N inits -> initial_like N (patch i v inits).
Proof.
  intros [Hl Hs]. split.
  - destruct (patch_sizes i v inits) as (_ & _ & _ & _ & _ & _ & ->). exact Hl.
  - intros n r' Hn. destruct (patch_lookup _ _ _ _ _ Hn) as (r & Hr & [->| ->]).
    + apply Hs. exact Hr.
    + rewrite (Hs _ _ Hr). reflexivity.
Qed.

Lemma data_chunk_with_next E N r v : data_chunk E N r -> data_chunk E N (with_next r v).
Proof. intros H. exact H. Qed.

(** ** Counting the pending bytes *)

Lemma pending_sum_insert l : forall i st st',
  l !! i = Some st ->
  pending_sum (<[i := st']> l) = pending_sum l - buflen st + buflen st'.
Proof.
  induction l as [|x l IH]; intros i st st' H; [discriminate|].
  destruct i as [|i]; cbn in *.
  - injection H as ->. lia.
  - rewrite (IH _ _ _ H). lia.
Qed.

Lemma pending_sum_nonneg l :
  (forall k x, l !! k = Some x -> 0 <= buflen x) -> 0 <= pending_sum l.
Proof.
  induction l as [|y l IH]; intros Hnn; cbn; [lia|].
  pose proof (Hnn 0%nat y eq_refl).
  assert (0 <= pending_sum l) by (apply IH; intros k z Hk; apply (Hnn (S k) z Hk)).
  lia.
Qed.

Lemma data_total_nonneg rs : 0 <= data_total rs.
Proof. induction rs as [|r rs IH]; cbn [data_total]; lia. Qed.

Lemma pending_sum_ge l : forall i st,
  (forall k x, l !! k = Some x -> 0 <= buflen x) ->
  l !! i = Some st -> buflen st <= pending_sum l.
Proof.
  induction l as [|x l IH]; intros i st Hnn H; [discriminate|].
  assert (Hp : 0 <= pending_sum l).
  { clear -Hnn. assert (Hnn' : forall k x, l !! k = Some x -> 0 <= buflen x)
      by (intros k y Hk; apply (Hnn (S k) y Hk)).
    clear Hnn. induction l as [|y l IH]; cbn; [lia|].
    pose proof (Hnn' 0%nat y eq_refl).
    assert (0 <= pending_sum l) by (apply IH; intros k z Hk; apply (Hnn' (S k) z Hk)).
    lia. }
  pose proof (Hnn 0%nat x eq_refl) as Hx.
  destruct i as [|i]; cbn in *.
  - injection H as ->. lia.
  - assert (buflen st <= pending_sum l)
      by (eapply IH; [intros k y Hk; apply (Hnn (S k) y Hk)|exact H]).
    lia.
Qed.

(** ** Writing over the end of the layout *)

Lemma pwrite_over (a bs c : list byte) :
  pwrite (length a) bs (a ++ c) = a ++ bs ++ drop (length bs) c.
Proof.
  unfold pwrite. rewrite take_app_length.
  replace (length a - length (a ++ c))%nat with 0%nat by (rewrite length_app; lia).
  cbn [replicate app]. rewrite drop_app_add. reflexivity.
Qed.

(** The four writes of a chunk header, and what follows them. *)
Lemma write_header_ok {A} f w c cl ul nx (fail rest : M A) :
  f = w_fd w -> 0 <= w_pos w -> w_pos w + 13 <= w_limit w ->
  (r ← write_u8 f c;
   if negb (r =? 0) then fail else
   r ← write_u32 f cl;
   if negb (r =? 0) then fail else
   r ← write_u32 f ul;
   if negb (r =? 0) then fail else
   r ← write_u32 f nx;
   if negb (r =? 0) then fail else rest) w
  = rest (write_at w (header_bytes c cl ul nx)).
Proof.
  intros Hf Hp Hl.
  rewrite (mbind_done _ _ _ _ _ (write_u8_ok f _ w Hf ltac:(lia))). cbn [Z.eqb negb].
  erewrite mbind_done by (apply write_u32_ok; [exact Hf|cbn; lia|cbn; lia]).
  cbn [Z.eqb negb]. rewrite write_at_app by assumption.
  erewrite mbind_done by (apply write_u32_ok; [exact Hf|cbn; lia|cbn; lia]).
  cbn [Z.eqb negb]. rewrite write_at_app by assumption.
  erewrite mbind_done by (apply write_u32_ok; [exact Hf|cbn; lia|cbn; lia]).
  cbn [Z.eqb negb]. rewrite write_at_app by assumption. reflexivity.
Qed.

(** ** The compression of a full buffer *)

(** What [compress_buf] returns on a stream whose buffer holds [pend]:
    with it, the payload to write. *)
Lemma compress_buf_payload E st B pend w :
  buf st = Some (mkBuffer B pend) ->
  buflen st = Z.of_nat (length pend) -> 0 < buflen st <= B -> buflen st < 2 ^ 31 ->
  exists stc ct payload w',
    compress_buf E st CTYPE_NONE (to_u32 (buflen st)) w
    = Done (stc, ct, Z.of_nat (length payload)) w'
    /\ (w' = w \/ w' = count_alloc w)
    /\ last_head stc = last_head st /\ buflen stc = buflen st
    /\ bufp stc = bufp st /\ bzip_level stc = bzip_level st
    /\ (exists cp, buf stc = Some (mkBuffer cp payload)
                   /\ Z.of_nat (length payload) <= cp)
    /\ ((ct = CTYPE_NONE /\ payload = pend)
        \/ (ct = CTYPE_BZIP2
            /\ bz_compress E (bzip_level st) pend = Some payload
            /\ Z.of_nat (length payload) < Z.of_nat (length pend))).
Proof.
  intros Hbuf Hlen Hb H31.
  assert (Hu : to_u32 (buflen st) = buflen st) by (apply to_u32_small; lia).
  assert (Hd : to_u32 (buflen st - 1) = buflen st - 1) by (apply to_u32_small; lia).
  assert (Hsame : exists stc ct payload,
             (stc, ct, Z.of_nat (length payload)) = (st, CTYPE_NONE, buflen st)
             /\ last_head stc = last_head st /\ buflen stc = buflen st
             /\ bufp stc = bufp st /\ bzip_level stc = bzip_level st
             /\ (exists cp, buf stc = Some (mkBuffer cp payload)
                            /\ Z.of_nat (length payload) <= cp)
             /\ ((ct = CTYPE_NONE /\ payload = pend)
                 \/ (ct = CTYPE_BZIP2
                     /\ bz_compress E (bzip_level st) pend = Some payload
                     /\ Z.of_nat (length payload) < Z.of_nat (length pend)))).
  { exists st, CTYPE_NONE, pend. rewrite Hlen.
    repeat split; try reflexivity; eauto.
    exists B. split; [exact Hbuf|lia]. }
  destruct Hsame as (stc0 & ct0 & pl0 & Heq0 & Hrest0).
  unfold compress_buf. rewrite Hu, Hd.
  destruct (bzip_level st =? 0).
  { exists stc0, ct0, pl0, w. rewrite mret_eq, Heq0. split; [reflexivity|]. split; [auto|exact Hrest0]. }
  rewrite mbind_eq. unfold malloc.
  destruct (alloc_ok E (w_allocs w) (buflen st - 1)).
  2:{ exists stc0, ct0, pl0, (count_alloc w). rewrite mret_eq, Heq0.
      split; [reflexivity|]. split; [auto|exact Hrest0]. }
  rewrite mbind_eq. unfold BZ2_bzBuffToBuffCompress.
  destruct ((bzip_level st <? 1) || (9 <? bzip_level st)
            || (bzip_level st * 10 <? 0) || (250 <? bzip_level st * 10)).
  { exists stc0, ct0, pl0, (count_alloc w). rewrite !mret_eq, Heq0.
    split; [reflexivity|]. split; [auto|exact Hrest0]. }
  rewrite Hbuf.
  rewrite (mbind_done _ _ _ _ _
             (buf_load_ok (mkBuffer B pend) (buflen st) _ ltac:(lia)
                ltac:(cbn; lia) ltac:(cbn; lia))).
  cbn [mem].
  replace (take (Z.to_nat (buflen st)) pend) with pend
    by (rewrite Hlen, Nat2Z.id, firstn_all; reflexivity).
  destruct (bz_compress E (bzip_level st) pend) as [out|] eqn:Hc.
  2:{ exists stc0, ct0, pl0, (count_alloc w). rewrite !mret_eq, Heq0.
      split; [reflexivity|]. split; [auto|exact Hrest0]. }
  destruct (Z.leb_spec (Z.of_nat (length out)) (buflen st - 1)).
  2:{ exists stc0, ct0, pl0, (count_alloc w). rewrite !mret_eq, Heq0.
      split; [reflexivity|]. split; [auto|exact Hrest0]. }
  rewrite !mret_eq.
  exists (with_buf st (Some (mkBuffer (buflen st - 1) out))), CTYPE_BZIP2, out, (count_alloc w).
  split; [reflexivity|]. split; [auto|].
  repeat split; try reflexivity.
  - exists (buflen st - 1). split; [reflexivity|lia].
  - right. repeat split; [lia].
Qed.

(** ** A flush keeps the invariant *)

Section Flush.

Context (E : Env) (N L B p0 U : Z) (W : Z -> list byte).
Hypothesis codec : codec_ok E.
Hypothesis allocs_granted : forall a sz, alloc_ok E a sz = true.
Hypothesis B_range : 0 < B < 2 ^ 31.
Hypothesis p0_nonneg : 0 <= p0.
Hypothesis fits_u32 : 13 * N + 14 * U < 2 ^ 32.

Lemma writer_inv_buflen si w rs :
  writer_inv E N L B p0 U W si w rs ->
  forall k x, s si !! k = Some x -> 0 <= buflen x.
Proof.
  intros Hinv k x Hk.
  destruct (wi_streams _ _ _ _ _ _ _ _ _ _ Hinv (Z.of_nat k) x ltac:(lia))
    as (o & pend & _ & _ & _ & Hbl & _).
  - rewrite Nat2Z.id. exact Hk.
  - lia.
Qed.

Lemma writer_inv_nonneg si w rs :
  writer_inv E N L B p0 U W si w rs -> 0 <= U.
Proof.
  intros Hinv. pose proof (writer_inv_buflen _ _ _ Hinv) as Hnn.
  apply pending_sum_nonneg in Hnn.
  pose proof (data_total_nonneg rs).
  pose proof (wi_total _ _ _ _ _ _ _ _ _ _ Hinv). lia.
Qed.

Lemma writer_inv_index si w rs j st :
  writer_inv E N L B p0 U W si w rs ->
  0 <= j -> s si !! Z.to_nat j = Some st -> j < N.
Proof.
  intros Hinv Hj Hst. apply lookup_lt_Some in Hst.
  pose proof (wi_len _ _ _ _ _ _ _ _ _ _ Hinv). lia.
Qed.

Lemma flush_buffer_inv si w rs j st :
  writer_inv E N L B p0 U W si w rs ->
  0 <= j -> s si !! Z.to_nat j = Some st -> 0 < buflen st ->
  p0 + 13 * N + 14 * U <= w_limit w ->
  exists si' w' rs',
    flush_buffer E si j w = Done (0, si') w'
    /\ writer_inv E N L B p0 U W si' w' rs'
    /\ s si' = <[Z.to_nat j := mkStream (layout_size rs + 9) (Some (mkBuffer B [])) 0
                                         (bufp st) L]> (s si)
    /\ w_limit w' = w_limit w /\ w_fd w' = w_fd w.
Proof.
  intros Hinv Hj Hst Hpos Hlim.
  pose proof (writer_inv_buflen _ _ _ Hinv) as Hnn.
  pose proof (writer_inv_index _ _ _ _ _ Hinv Hj Hst) as HjN.
  destruct Hinv as [Hnum Hfd Hbs Hip Hcur Hlen Hfile Hlinked Hshape Hsize Htot Hstreams].
  destruct (Hstreams j st Hj Hst) as (o & pend & Hlo & Hlh & Hbuf & Hbl & HblB & Hlvl & Hdata).
  destruct Hfile as (pre & post & Hdat & Hpre).
  pose proof (last_off_range _ _ _ _ Hlo) as Hor.
  set (cur := layout_size rs) in *.
  pose proof (pending_sum_ge _ _ _ Hnn Hst) as Hge.
  assert (Hcurb : cur + 13 + buflen st <= 13 * N + 14 * U) by lia.
  pose proof (layout_size_nonneg rs) as Hcur0. fold cur in Hcur0.
  unfold flush_buffer.
  rewrite (mbind_done _ _ _ _ _ (get_stream_ok si j st w Hj Hst)).
  rewrite (mbind_done _ _ _ _ _ (seekto_ok si (last_head st) w Hfd ltac:(lia))).
  cbn [Z.eqb negb].
  set (w1 := set_pos w (last_head st + initial_pos si)).
  erewrite mbind_done; cycle 1.
  { apply write_u32_ok; [exact Hfd|cbn; lia|cbn; lia]. }
  cbn [Z.eqb negb].
  set (w2 := write_at w1 (u32_bytes (cur_pos si))).
  assert (Hdat2 : w_data w2 = pre ++ layout_bytes (patch j cur rs) ++ post).
  { subst w2 w1. cbn [write_at set_pos set_file w_data w_pos].
    rewrite Hdat, Hcur, Hlh, Hip.
    replace (o + 9 + p0) with (o + p0 + 9) by lia.
    apply (layout_bytes_patch j cur rs pre post p0); [exact Hpre|].
    rewrite <- (Z.add_0_l p0) at 1. rewrite last_off_shift, Hlo. reflexivity. }
  set (st1 := with_last_head st (to_u32 (cur_pos si + 9))).
  set (si1 := set_stream si j st1).
  rewrite (mbind_done _ _ _ _ _ (seekto_ok si1 (cur_pos si1) w2 Hfd ltac:(cbn; lia))).
  cbn [Z.eqb negb].
  set (w3 := set_pos w2 (cur_pos si1 + initial_pos si1)).
  destruct (compress_buf_payload E st1 B pend w3 Hbuf Hbl ltac:(cbn; lia) ltac:(cbn; lia))
    as (stc & ct & payload & w4 & Hcomp & Hw4 & Hclh & Hcbl & Hcbp & Hclv & (cp & Hcbuf & Hcp) & Hcase).
  rewrite (mbind_done _ _ _ _ _ Hcomp). cbv beta iota.
  assert (Hpl : Z.of_nat (length payload) <= buflen st).
  { destruct Hcase as [(_ & ->)|(_ & _ & Hlt)]; lia. }
  assert (Hw4f : w_fd w4 = w_fd w /\ w_pos w4 = cur + p0 /\ w_limit w4 = w_limit w
                 /\ w_data w4 = w_data w2).
  { destruct Hw4 as [->| ->]; subst w3 si1;
      cbn [count_alloc set_pos set_file w_fd w_pos w_limit w_data set_stream with_s
           cur_pos initial_pos]; rewrite Hcur, Hip; auto. }
  destruct Hw4f as (Hf4 & Hp4 & Hl4 & Hd4).
  assert (Hfdc : fd (set_stream si1 j stc) = w_fd w4) by (rewrite Hf4; exact Hfd).
  rewrite write_header_ok; [|exact Hfdc|lia|lia].
  cbn [set_stream with_s with_cur_pos fd cur_pos].
  set (hdr := header_bytes ct (Z.of_nat (length payload)) (buflen stc) 0).
  set (w5 := write_at w4 hdr).
  rewrite to_int_small by lia.
  (* the payload *)
  assert (Hload : (if Z.of_nat (length payload) <=? 0 then mret []
                   else buf_load (buf stc) 0 (Z.of_nat (length payload))) w5
                  = Done payload w5).
  { destruct (Z.leb_spec (Z.of_nat (length payload)) 0).
    - destruct payload; [reflexivity|cbn [length] in *; lia].
    - rewrite Hcbuf, buf_load_ok by (cbn [cap mem]; lia).
      cbn [mem]. rewrite Nat2Z.id, firstn_all. reflexivity. }
  rewrite (mbind_done _ _ _ _ _ Hload).
  assert (Hwrite : write_buf (fd si) payload (Z.of_nat (length payload)) w5
                   = Done 0 (write_at w4 (hdr ++ payload))).
  { destruct payload as [|b payload].
    - rewrite write_buf_zero by (cbn; congruence).
      rewrite app_nil_r. reflexivity.
    - rewrite write_buf_ok.
      + subst w5. rewrite write_at_app by lia. reflexivity.
      + cbn; congruence.
      + reflexivity.
      + cbn [length]. lia.
      + subst w5 hdr. cbn [write_at set_file w_pos w_limit].
        rewrite length_header_bytes. lia. }
  rewrite (mbind_done _ _ _ _ _ Hwrite). cbn [Z.eqb negb].
  rewrite (mbind_done _ _ _ _ _ (malloc_ok E allocs_granted _ _)).
  rewrite mret_eq.
  set (rnew := mkChunk j ct payload pend 0).
  eexists _, _, (patch j cur rs ++ [rnew]).
  split; [reflexivity|].
  (* the stream record and the session the flush leaves *)
  set (stF := mkStream (cur + 9) (Some (mkBuffer B [])) 0 (bufp st) L).
  assert (Hlh1 : to_u32 (cur_pos si + 9) = cur + 9) by (rewrite Hcur; apply to_u32_small; lia).
  match goal with
  | |- writer_inv _ _ _ _ _ _ _ (set_stream ?sa j ?sx) _ _ /\ _ =>
      assert (HstF : sx = stF);
      [|assert (Hs' : s (set_stream sa j sx) = <[Z.to_nat j := stF]> (s si));
        [|assert (Hnum' : num_streams (set_stream sa j sx) = N) by exact Hnum;
          assert (Hfd' : fd (set_stream sa j sx)
                         = w_fd (count_alloc (write_at w4 (hdr ++ payload))))
            by (rewrite <- Hf4 in Hfd; exact Hfd);
          assert (Hbs' : bufsize (set_stream sa j sx) = B) by exact Hbs;
          assert (Hip' : initial_pos (set_stream sa j sx) = p0) by exact Hip;
          assert (Hcur' : cur_pos (set_stream sa j sx)
                          = layout_size (patch j cur rs ++ [rnew]));
          [|generalize dependent (set_stream sa j sx)]]]
  end.
  { cbn [bufsize with_cur_pos set_stream with_s]. subst si1. cbn [set_stream with_s bufsize].
    rewrite Hbs. unfold stF.
    destruct stc as [lh b bl bp lv].
    cbn [with_buf with_buflen last_head buflen bufp bzip_level buf] in *.
    rewrite Hclh, Hcbp, Hclv. unfold st1.
    cbn [with_last_head last_head bufp bzip_level]. rewrite Hlh1, Hlvl. reflexivity. }
  { rewrite HstF. subst si1. cbn [set_stream with_s with_cur_pos s].
    rewrite !list_insert_insert_eq. reflexivity. }
  { cbn [set_stream with_s with_cur_pos cur_pos]. unfold si1.
    cbn [set_stream with_s cur_pos]. rewrite to_u32_add_l, Hcur.
    rewrite layout_size_app. cbn [layout_size].
    destruct (patch_sizes j cur rs) as (-> & _).
    replace (chunk_size rnew) with (13 + Z.of_nat (length payload)) by reflexivity.
    rewrite to_u32_small by lia. fold cur. lia. }
  intros siF Hs' Hnum' Hfd' Hbs' Hip' Hcur'.
  assert (Hsz : layout_size (patch j cur rs) = cur) by (apply patch_sizes).
  assert (Hcs : chunk_size rnew = 13 + Z.of_nat (length payload)) by reflexivity.
  assert (Hlt : (Z.to_nat j < length (s si))%nat) by (eapply lookup_lt_Some; exact Hst).
  split; [|split; [exact Hs'|split; [cbn [count_alloc write_at set_file w_limit]; exact Hl4|cbn [count_alloc write_at set_file w_fd]; exact Hf4]]].
  constructor.
  - exact Hnum'.
  - exact Hfd'.
  - exact Hbs'.
  - exact Hip'.
  - exact Hcur'.
  - rewrite Hs', length_insert. exact Hlen.
  - exists pre, (drop (length (hdr ++ payload)) post).
    cbn [count_alloc write_at set_file w_data]. rewrite Hd4, Hdat2, Hp4.
    rewrite layout_bytes_app. cbn [layout_bytes]. rewrite app_nil_r.
    split; [|exact Hpre].
    replace (Z.to_nat (cur + p0)) with (length (pre ++ layout_bytes (patch j cur rs))).
    2:{ rewrite length_app. pose proof (length_layout_bytes (patch j cur rs)). lia. }
    rewrite (app_assoc pre), pwrite_over, <- !app_assoc.
    do 2 f_equal. unfold chunk_bytes. subst rnew hdr. cbn [k_ctype k_payload k_data k_next].
    rewrite Hcbl. cbn [st1 with_last_head buflen]. rewrite Hbl, <- app_assoc. reflexivity.
  - apply (linked_flush 0 j rs rnew); [exact Hlinked|reflexivity|reflexivity].
  - destruct Hshape as (inits & chunks & Hrs & Hil & Hch).
    assert (Hnew : data_chunk E N rnew).
    { split; [|split].
      - split; [cbn [rnew k_data]; lia|].
        destruct Hcase as [(-> & ->)|(-> & Hbz & Hlt')].
        + left. split; reflexivity.
        + right. split; [reflexivity|]. split; [|exact Hlt'].
          cbn [rnew k_payload k_data]. eapply codec. cbn [st1 with_last_head bzip_level] in Hbz.
          exact Hbz.
      - cbn [rnew k_data]. intros ->. cbn [length] in Hbl. lia.
      - cbn [rnew k_stream]. lia. }
    rewrite Hrs, patch_app. destruct (has_stream j chunks).
    + exists inits, (patch j cur chunks ++ [rnew]).
      rewrite <- app_assoc. split; [reflexivity|]. split; [exact Hil|].
      apply Forall_app. split; [|constructor; [exact Hnew|constructor]].
      apply Forall_patch; [intros r Hr; exact Hr|exact Hch].
    + exists (patch j cur inits), (chunks ++ [rnew]).
      rewrite <- app_assoc. split; [reflexivity|].
      split; [apply initial_like_patch; exact Hil|].
      apply Forall_app. split; [exact Hch|constructor; [exact Hnew|constructor]].
  - rewrite layout_size_app, data_total_app, Hsz. cbn [layout_size data_total].
    destruct (patch_sizes j cur rs) as (_ & _ & _ & _ & _ & -> & _).
    rewrite Hcs. cbn [rnew k_data]. lia.
  - rewrite data_total_app. cbn [data_total].
    destruct (patch_sizes j cur rs) as (_ & _ & _ & _ & _ & -> & _).
    rewrite Hs', (pending_sum_insert _ _ st stF Hst). cbn [rnew k_data stF buflen]. lia.
  - intros i sti Hi Hsti. rewrite Hs' in Hsti.
    destruct (patch_sizes j cur rs) as (_ & _ & _ & Hlast & Hsd & _ & _).
    destruct (Z.eq_dec i j) as [->|Hij].
    + rewrite list_lookup_insert_eq in Hsti by exact Hlt. injection Hsti as <-.
      exists cur, []. cbn [stF last_head buf buflen bzip_level length].
      rewrite last_off_app, Hsz. cbn [last_off rnew k_stream]. rewrite Z.eqb_refl.
      rewrite stream_data_app, Hsd, app_nil_r. cbn [stream_data k_stream k_data].
      rewrite Z.eqb_refl, app_nil_r.
      repeat split; try reflexivity; try lia. exact Hdata.
    + rewrite list_lookup_insert_ne in Hsti by lia.
      destruct (Hstreams i sti Hi Hsti) as (oi & pi & H1 & H2 & H3 & H4 & H5 & H6 & H7).
      exists oi, pi. rewrite last_off_app, Hsz. cbn [last_off rnew k_stream].
      destruct (Z.eqb_spec j i); [lia|]. rewrite Hlast, H1.
      rewrite stream_data_app, Hsd. unfold rnew. cbn [stream_data k_stream k_data].
      destruct (Z.eqb_spec j i); [lia|]. rewrite !app_nil_r.
      repeat split; try assumption; reflexivity.
Qed.

End Flush.

(** ** [write_stream] keeps the invariant *)

Lemma writer_inv_ext E N L B p0 U U' W W' si w rs :
  (forall i, W i = W' i) -> U = U' ->
  writer_inv E N L B p0 U W si w rs -> writer_inv E N L B p0 U' W' si w rs.
Proof.
  intros HW <- [H1 H2 H3 H4 H5 H6 H7 H8 H9 H10 H11 H12].
  constructor; try assumption.
  intros i st Hi Hst. destruct (H12 i st Hi Hst) as (o & pend & Ha & Hb & Hc & Hd & He & Hf & Hg).
  exists o, pend. rewrite <- HW. repeat split; assumption.
Qed.

Lemma MIN_min a b : MIN a b = Z.min a b.
Proof. unfold MIN. destruct (Z.ltb_spec a b); lia. Qed.

(** The copy into the buffer. *)
Lemma memcpy_to_append B pend p n w :
  0 < n -> n <= Z.of_nat (length p) -> Z.of_nat (length pend) + n <= B ->
  memcpy_to (Some (mkBuffer B pend)) (Z.of_nat (length pend)) p n w
  = Done (Some (mkBuffer B (pend ++ take (Z.to_nat n) p))) w.
Proof.
  intros Hn Hp HB. unfold memcpy_to.
  destruct (Z.ltb_spec n 0); [lia|]. destruct (Z.eqb_spec n 0); [lia|].
  destruct (Z.ltb_spec (Z.of_nat (length p)) n); [lia|].
  unfold buf_store. cbn [cap mem].
  destruct (Z.ltb_spec (Z.of_nat (length pend)) 0); [lia|]. cbn [orb].
  rewrite length_take.
  destruct (Z.ltb_spec B (Z.of_nat (length pend) + Z.of_nat (Z.to_nat n `min` length p)));
    [lia|].
  destruct (Z.ltb_spec (Z.of_nat (length pend)) (Z.of_nat (length pend))); [lia|].
  rewrite mret_eq, Nat2Z.id, firstn_all, drop_ge by lia.
  rewrite app_nil_r. reflexivity.
Qed.

Section Write.

Context (E : Env) (N L B p0 T : Z).
Hypothesis codec : codec_ok E.
Hypothesis allocs_granted : forall a sz, alloc_ok E a sz = true.
Hypothesis B_range : 0 < B < 2 ^ 31.
Hypothesis p0_nonneg : 0 <= p0.
Hypothesis fits_u32 : 13 * N + 14 * T < 2 ^ 32.

(** The bytes copied into the buffer of stream [j] count as written. *)
Lemma writer_inv_copy U W si w rs j st pend bs :
  writer_inv E N L B p0 U W si w rs ->
  0 <= j -> s si !! Z.to_nat j = Some st ->
  buf st = Some (mkBuffer B pend) -> buflen st = Z.of_nat (length pend) ->
  buflen st + Z.of_nat (length bs) <= B ->
  writer_inv E N L B p0 (U + Z.of_nat (length bs)) (record_write W j bs)
    (set_stream si j (with_buflen (with_buf st (Some (mkBuffer B (pend ++ bs))))
                                  (buflen st + Z.of_nat (length bs))))
    w rs.
Proof.
  intros Hinv Hj Hst Hbuf Hbl Hroom.
  destruct Hinv as [H1 H2 H3 H4 H5 H6 H7 H8 H9 H10 H11 H12].
  assert (Hlt : (Z.to_nat j < length (s si))%nat) by (eapply lookup_lt_Some; exact Hst).
  constructor; try assumption.
  - cbn [set_stream with_s s]. rewrite length_insert. exact H6.
  - cbn [set_stream with_s s]. rewrite (pending_sum_insert _ _ st _ Hst).
    cbn [with_buflen buflen]. lia.
  - intros i sti Hi Hsti. cbn [set_stream with_s s] in Hsti.
    unfold record_write. destruct (Z.eq_dec i j) as [->|Hij].
    + rewrite list_lookup_insert_eq in Hsti by exact Hlt. injection Hsti as <-.
      destruct (H12 j st Hj Hst) as (o & pend' & Ha & Hb & Hc & Hd & He & Hf & Hg).
      rewrite Hbuf in Hc. injection Hc as <-.
      exists o, (pend ++ bs). rewrite Z.eqb_refl.
      cbn [with_buflen with_buf last_head buf buflen bzip_level].
      rewrite length_app, Nat2Z.inj_add, <- Hbl, app_assoc, Hg.
      repeat split; try assumption; try reflexivity; lia.
    + rewrite list_lookup_insert_ne in Hsti by lia.
      unfold stream_ready. cbv beta.
      destruct (Z.eqb_spec i j); [contradiction|]. apply H12; assumption.
Qed.

Lemma write_stream_loop_inv fuel : forall U W si w rs j p,
  writer_inv E N L B p0 U W si w rs -> all_room B si ->
  0 <= j < N ->
  (length p < fuel)%nat ->
  U + Z.of_nat (length p) <= T ->
  p0 + 13 * N + 14 * T <= w_limit w ->
  exists si' w' rs',
    write_stream_loop E fuel si j p (Z.of_nat (length p)) w = Done (0, si') w'
    /\ writer_inv E N L B p0 (U + Z.of_nat (length p)) (record_write W j p) si' w' rs'
    /\ all_room B si'
    /\ w_limit w' = w_limit w /\ w_fd w' = w_fd w.
Proof.
  induction fuel as [|fuel IH]; intros U W si w rs j p Hinv Hroom Hj Hfuel HT Hlim; [lia|].
  cbn [write_stream_loop].
  destruct p as [|b0 p0'] eqn:Hp.
  { cbn [length Z.of_nat Z.eqb]. exists si, w, rs.
    split; [reflexivity|]. split; [|auto].
    eapply writer_inv_ext; [| |exact Hinv]; [|lia].
    intros i. unfold record_write. destruct (i =? j); [rewrite app_nil_r|]; reflexivity. }
  rewrite <- Hp in *. assert (Hlen : 0 < Z.of_nat (length p)) by (rewrite Hp; cbn [length]; lia).
  clear Hp b0 p0'.
  destruct (Z.eqb_spec (Z.of_nat (length p)) 0) as [|_]; [lia|].
  pose proof (wi_len _ _ _ _ _ _ _ _ _ _ Hinv) as HlenN.
  pose proof (writer_inv_nonneg E N L B p0 U W si w rs Hinv) as HU0.
  destruct (lookup_lt_is_Some_2 (s si) (Z.to_nat j) ltac:(lia)) as [st Hst].
  rewrite (mbind_done _ _ _ _ _ (get_stream_ok si j st w ltac:(lia) Hst)).
  destruct (wi_streams _ _ _ _ _ _ _ _ _ _ Hinv j st ltac:(lia) Hst)
    as (o & pend & Hlo & Hlh & Hbuf & Hbl & HblB & Hlvl & Hdata).
  pose proof (Hroom _ _ Hst) as Hrm.
  rewrite (wi_bufsize _ _ _ _ _ _ _ _ _ _ Hinv).
  set (len := Z.of_nat (length p)) in *.
  assert (Hlen31 : len < 2 ^ 31) by lia.
  set (n := Z.min (B - buflen st) len).
  assert (Hn : to_int (MIN (to_u32 (B - to_u32 (buflen st))) (to_u32 len)) = n).
  { rewrite (to_u32_small (buflen st)) by lia.
    rewrite (to_u32_small (B - buflen st)) by lia.
    rewrite (to_u32_small len) by lia.
    rewrite MIN_min. apply to_int_small. subst n. lia. }
  rewrite Hn.
  assert (Hn0 : 0 < n <= len) by (subst n; lia).
  rewrite Hbuf, Hbl.
  rewrite (mbind_done _ _ _ _ _ (memcpy_to_append B pend p n w ltac:(lia) ltac:(lia) ltac:(lia))).
  rewrite <- Hbl.
  set (bs := take (Z.to_nat n) p).
  assert (Hbs : Z.of_nat (length bs) = n) by (subst bs; rewrite length_take; lia).
  pose proof (writer_inv_copy U W si w rs j st pend bs Hinv ltac:(lia) Hst Hbuf Hbl
                ltac:(lia)) as Hinv2.
  rewrite Hbs in Hinv2.
  replace (with_buf st (Some (mkBuffer B (pend ++ bs))))
    with (with_buf st (Some (mkBuffer B (pend ++ bs)))) in Hinv2 by reflexivity.
  set (st2 := with_buflen (with_buf st (Some (mkBuffer B (pend ++ bs)))) (buflen st + n)) in *.
  set (si2 := set_stream si j st2) in *.
  assert (Hst2 : s si2 !! Z.to_nat j = Some st2).
  { subst si2. cbn [set_stream with_s s]. apply list_lookup_insert_eq.
    eapply lookup_lt_Some. exact Hst. }
  assert (Hdrop : Z.of_nat (length (drop (Z.to_nat n) p)) = len - n)
    by (rewrite length_drop; subst len; lia).
  assert (Hfinal : forall si' w' rs',
            writer_inv E N L B p0 (U + n + (len - n))
              (record_write (record_write W j bs) j (drop (Z.to_nat n) p)) si' w' rs' ->
            writer_inv E N L B p0 (U + len) (record_write W j p) si' w' rs').
  { intros si' w' rs' Hi'. eapply writer_inv_ext; [| |exact Hi']; [|lia].
    intros i. unfold record_write. destruct (i =? j); [|reflexivity].
    rewrite <- app_assoc. subst bs. rewrite take_drop. reflexivity. }
  assert (Hcond : (to_u32 (buflen st2) =? bufsize si2) = (buflen st + n =? B)).
  { unfold st2, si2. cbn [with_buflen buflen set_stream with_s bufsize].
    rewrite (wi_bufsize _ _ _ _ _ _ _ _ _ _ Hinv), to_u32_small by lia. reflexivity. }
  rewrite Hcond.
  destruct (Z.eqb_spec (buflen st + n) B) as [Hfull|Hnot].
  - 
    destruct (flush_buffer_inv E N L B p0 (U + n) (record_write W j bs) codec allocs_granted
                B_range ltac:(lia) si2 w rs j st2 Hinv2 ltac:(lia) Hst2
                ltac:(cbn; lia) ltac:(lia))
      as (si3 & w3 & rs3 & Hrun & Hinv3 & Hs3 & Hl3 & Hf3).
    rewrite (mbind_done _ _ _ _ _ Hrun). cbv beta iota. cbn [Z.eqb negb].
    destruct (IH (U + n) (record_write W j bs) si3 w3 rs3 j (drop (Z.to_nat n) p))
      as (si' & w' & rs' & Hrun' & Hinv' & Hroom' & Hl' & Hf').
    + exact Hinv3.
    + intros i sti Hsti. rewrite Hs3 in Hsti.
      destruct (Nat.eq_dec i (Z.to_nat j)) as [->|Hne].
      * rewrite list_lookup_insert_eq in Hsti
          by (subst si2; cbn [set_stream with_s s]; rewrite length_insert;
              eapply lookup_lt_Some; exact Hst).
        injection Hsti as <-. cbn. lia.
      * rewrite list_lookup_insert_ne in Hsti by lia.
        subst si2. cbn [set_stream with_s s] in Hsti.
        rewrite list_lookup_insert_ne in Hsti by lia. eapply Hroom. exact Hsti.
    + lia.
    + rewrite length_drop. lia.
    + lia.
    + lia.
    + rewrite Hdrop in Hrun', Hinv'.
      exists si', w', rs'. split; [exact Hrun'|]. split; [apply Hfinal; exact Hinv'|].
      split; [exact Hroom'|split; [lia|congruence]].
  - assert (Hlt : buflen st + n < B) by lia.
    destruct (IH (U + n) (record_write W j bs) si2 w rs j (drop (Z.to_nat n) p))
      as (si' & w' & rs' & Hrun' & Hinv' & Hroom' & Hl' & Hf').
    + exact Hinv2.
    + intros i sti Hsti. subst si2. cbn [set_stream with_s s] in Hsti.
      destruct (Nat.eq_dec i (Z.to_nat j)) as [->|Hne].
      * rewrite list_lookup_insert_eq in Hsti by (eapply lookup_lt_Some; exact Hst).
        injection Hsti as <-. cbn. lia.
      * rewrite list_lookup_insert_ne in Hsti by lia. eapply Hroom. exact Hsti.
    + lia.
    + rewrite length_drop. lia.
    + lia.
    + lia.
    + rewrite Hdrop in Hrun', Hinv'.
      exists si', w', rs'. split; [exact Hrun'|]. split; [apply Hfinal; exact Hinv'|].
      split; [exact Hroom'|split; [lia|congruence]].
Qed.

End Write.

(** ** A whole write-session *)

Section WriterSession.

Context (E : Env) (N L B p0 T : Z).
Hypothesis codec : codec_ok E.
Hypothesis allocs_granted : forall a sz, alloc_ok E a sz = true.
Hypothesis B_range : 0 < B < 2 ^ 31.
Hypothesis fits_u32 : 13 * N + 14 * T < 2 ^ 32.

Lemma write_stream_inv U W si w rs j p :
  writer_inv E N L B p0 U W si w rs -> all_room B si ->
  0 <= j < N ->
  U + Z.of_nat (length p) <= T ->
  p0 + 13 * N + 14 * T <= w_limit w ->
  exists si' w' rs',
    write_stream E si j p (Z.of_nat (length p)) w = Done (0, si') w'
    /\ writer_inv E N L B p0 (U + Z.of_nat (length p)) (record_write W j p) si' w' rs'
    /\ all_room B si'
    /\ w_limit w' = w_limit w /\ w_fd w' = w_fd w.
Proof.
  intros Hinv Hroom Hj HT Hlim. unfold write_stream.
  apply (write_stream_loop_inv E N L B p0 T codec allocs_granted B_range fits_u32
           (Z.to_nat (Z.of_nat (length p)) + 2) U W si w rs j p); try assumption.
  lia.
Qed.

Lemma write_plan_inv : forall plan U W si w rs,
  writer_inv E N L B p0 U W si w rs -> all_room B si ->
  Forall (fun e => 0 <= fst e < N) plan ->
  U + plan_total plan <= T ->
  p0 + 13 * N + 14 * T <= w_limit w ->
  exists si' w' rs',
    write_plan E si plan w = Done (0, si') w'
    /\ writer_inv E N L B p0 (U + plan_total plan)
         (fun i => W i ++ plan_data i plan) si' w' rs'
    /\ all_room B si'
    /\ w_limit w' = w_limit w /\ w_fd w' = w_fd w.
Proof.
  induction plan as [|[j bs] plan IH]; intros U W si w rs Hinv Hroom Hidx HT Hlim.
  - exists si, w, rs. cbn [write_plan plan_total plan_data].
    split; [reflexivity|]. split; [|auto].
    eapply writer_inv_ext; [| |exact Hinv]; [|lia].
    intros i. rewrite app_nil_r. reflexivity.
  - cbn [write_plan plan_total plan_data] in *.
    inversion Hidx as [|e l Hj Hrest]; subst e l. cbn [fst] in Hj.
    pose proof (writer_inv_nonneg E N L B p0 U W si w rs Hinv) as HU0.
    assert (Hpt : 0 <= plan_total plan).
    { clear. induction plan as [|[a b] l IHl]; cbn [plan_total]; lia. }
    destruct (write_stream_inv U W si w rs j bs Hinv Hroom Hj ltac:(lia) Hlim)
      as (si1 & w1 & rs1 & Hrun1 & Hinv1 & Hroom1 & Hl1 & Hf1).
    rewrite (mbind_done _ _ _ _ _ Hrun1). cbv beta iota. cbn [Z.eqb negb].
    destruct (IH _ _ si1 w1 rs1 Hinv1 Hroom1 Hrest ltac:(lia) ltac:(lia))
      as (si2 & w2 & rs2 & Hrun2 & Hinv2 & Hroom2 & Hl2 & Hf2).
    exists si2, w2, rs2. split; [exact Hrun2|].
    split; [|split; [exact Hroom2|split; congruence]].
    eapply writer_inv_ext; [| |exact Hinv2]; [|lia].
    intros i. unfold record_write. cbv beta.
    destruct (Z.eqb_spec i j) as [->|Hne].
    + rewrite Z.eqb_refl, <- app_assoc. reflexivity.
    + destruct (Z.eqb_spec j i); [lia|]. reflexivity.
Qed.

(** The loop of [close_stream_out] flushes what the buffers still hold. *)
Lemma close_out_loop_inv U W k : forall i si w rs,
  writer_inv E N L B p0 U W si w rs ->
  0 <= i -> Z.of_nat k + i = N -> U <= T ->
  (forall j st, (j < Z.to_nat i)%nat -> s si !! j = Some st -> buflen st = 0) ->
  p0 + 13 * N + 14 * T <= w_limit w ->
  exists si' w' rs',
    close_out_loop E k i si w = Done (Some si') w'
    /\ writer_inv E N L B p0 U W si' w' rs'
    /\ (forall j st, s si' !! j = Some st -> buflen st = 0)
    /\ w_limit w' = w_limit w /\ w_fd w' = w_fd w.
Proof.
  induction k as [|k IH]; intros i si w rs Hinv Hi Hk HU Hdone Hlim.
  - exists si, w, rs. cbn [close_out_loop]. split; [reflexivity|].
    split; [exact Hinv|]. split; [|auto].
    intros j st Hst. apply (Hdone j st); [|exact Hst].
    apply lookup_lt_Some in Hst.
    pose proof (wi_len _ _ _ _ _ _ _ _ _ _ Hinv). lia.
  - cbn [close_out_loop].
    pose proof (wi_len _ _ _ _ _ _ _ _ _ _ Hinv) as HlenN.
    pose proof (writer_inv_nonneg E N L B p0 U W si w rs Hinv) as HU0.
    destruct (lookup_lt_is_Some_2 (s si) (Z.to_nat i) ltac:(lia)) as [st Hst].
    rewrite (mbind_done _ _ _ _ _ (get_stream_ok si i st w Hi Hst)).
    pose proof (writer_inv_buflen E N L B p0 U W si w rs Hinv _ _ Hst) as Hb0.
    destruct (Z.eqb_spec (buflen st) 0) as [Hz|Hnz]; cbn [negb].
    + destruct (IH (i + 1) si w rs Hinv ltac:(lia) ltac:(lia) HU) as (si' & w' & rs' & H);
        [|exact Hlim|exists si', w', rs'; exact H].
      intros j stj Hj Hstj. destruct (Nat.eq_dec j (Z.to_nat i)) as [->|Hne].
      * rewrite Hst in Hstj. injection Hstj as <-. exact Hz.
      * apply (Hdone j stj); [lia|exact Hstj].
    + destruct (flush_buffer_inv E N L B p0 U W codec allocs_granted B_range ltac:(lia)
                  si w rs i st Hinv Hi Hst ltac:(lia) ltac:(lia))
        as (si1 & w1 & rs1 & Hrun & Hinv1 & Hs1 & Hl1 & Hf1).
      rewrite (mbind_done _ _ _ _ _ Hrun). cbv beta iota. cbn [Z.eqb negb].
      destruct (IH (i + 1) si1 w1 rs1 Hinv1 ltac:(lia) ltac:(lia) HU)
        as (si' & w' & rs' & Hrun' & Hinv' & Hall & Hl' & Hf');
        [| lia |exists si', w', rs'; split; [exact Hrun'|]; split; [exact Hinv'|];
           split; [exact Hall|]; split; congruence].
      intros j stj Hj Hstj. rewrite Hs1 in Hstj.
      destruct (Nat.eq_dec j (Z.to_nat i)) as [->|Hne].
      * rewrite list_lookup_insert_eq in Hstj by (eapply lookup_lt_Some; exact Hst).
        injection Hstj as <-. reflexivity.
      * rewrite list_lookup_insert_ne in Hstj by lia.
        apply (Hdone j stj); [lia|exact Hstj].
Qed.

End WriterSession.

(** What a write-session that ran to its end leaves in the file: a layout
    [rs] that starts at offset [p0], holds the initial headers and then data
    chunks, is linked, and has for every stream the bytes of the plan. *)
Lemma writer_session_inv E f N L plan w :
  codec_ok E -> (forall a sz, alloc_ok E a sz = true) ->
  f = w_fd w -> 0 <= w_pos w -> 0 < N -> 0 <= L <= 9 ->
  Forall (fun e => 0 <= fst e < N) plan ->
  13 * N + 14 * plan_total plan < 2 ^ 32 ->
  w_pos w + 13 * N + 14 * plan_total plan <= w_limit w ->
  exists w' rs pre post inits chunks,
    writer_session E f N L plan w = Done 0 w'
    /\ w_fd w' = w_fd w
    /\ w_data w' = pre ++ layout_bytes rs ++ post
    /\ Z.of_nat (length pre) = w_pos w
    /\ linked 0 rs
    /\ rs = inits ++ chunks /\ initial_like N inits /\ Forall (data_chunk E N) chunks
    /\ layout_size rs < 2 ^ 32
    /\ forall i, 0 <= i < N -> stream_data i rs = plan_data i plan.
Proof.
  intros Hc Ha Hf Hp HN HL Hidx H32 Hlim.
  assert (Hpt : 0 <= plan_total plan).
  { clear. induction plan as [|[a b] l IHl]; cbn [plan_total]; lia. }
  pose proof (bufsize_of_range L HL) as HB.
  destruct (open_stream_out_inv E f N L w Ha Hf Hp HN HL ltac:(lia) ltac:(lia))
    as (si0 & w0 & Hopen & Hinv0 & Hroom0 & Hl0 & Hf0).
  unfold writer_session. rewrite (mbind_done _ _ _ _ _ Hopen).
  destruct (write_plan_inv E N L (bufsize_of L) (w_pos w) (plan_total plan) Hc Ha
              ltac:(lia) H32 plan 0 (fun _ => []) si0 w0 _ Hinv0 Hroom0 Hidx
              ltac:(lia) ltac:(lia))
    as (si1 & w1 & rs1 & Hrun1 & Hinv1 & Hroom1 & Hl1 & Hf1).
  rewrite (mbind_done _ _ _ _ _ Hrun1). cbv beta iota. cbn [Z.eqb negb].
  unfold close_stream_out.
  rewrite (wi_num _ _ _ _ _ _ _ _ _ _ Hinv1).
  destruct (close_out_loop_inv E N L (bufsize_of L) (w_pos w) (plan_total plan) Hc Ha
              ltac:(lia) H32 _ _ (Z.to_nat N) 0 si1 w1 rs1 Hinv1 ltac:(lia) ltac:(lia)
              ltac:(lia))
    as (si2 & w2 & rs2 & Hrun2 & Hinv2 & Hall & Hl2 & Hf2).
  { intros j st Hj. cbn in Hj. lia. }
  { lia. }
  rewrite (mbind_done _ _ _ _ _ Hrun2). rewrite mret_eq.
  destruct Hinv2 as [H1 H2 H3 H4 H5 H6 H7 H8 H9 H10 H11 H12].
  destruct H7 as (pre & post & Hdat & Hpre).
  destruct H9 as (inits & chunks & Hrs & Hil & Hch).
  exists w2, rs2, pre, post, inits, chunks.
  split; [reflexivity|]. split; [congruence|].
  split; [exact Hdat|]. split; [exact Hpre|]. split; [exact H8|].
  split; [exact Hrs|]. split; [exact Hil|]. split; [exact Hch|].
  assert (Hps : pending_sum (s si2) = 0).
  { clear - Hall. induction (s si2) as [|st l IHl]; [reflexivity|].
    cbn [pending_sum]. rewrite (Hall 0%nat st eq_refl), IHl; [reflexivity|].
    intros j stj Hj. apply (Hall (S j) stj). exact Hj. }
  split; [lia|].
  intros i Hi.
  destruct (lookup_lt_is_Some_2 (s si2) (Z.to_nat i) ltac:(lia)) as [st Hst].
  destruct (H12 i st ltac:(lia) Hst) as (o & pend & _ & _ & _ & Hbl & _ & _ & Hdata).
  rewrite (Hall _ _ Hst) in Hbl. destruct pend; [|cbn [length] in Hbl; lia].
  rewrite app_nil_r in Hdata. rewrite Hdata. reflexivity.
Qed.

(** ** Reading a layout *)

Lemma first_off_range i rs : forall base,
  has_stream i rs = true ->
  base <= first_off base i rs /\ first_off base i rs + 13 <= base + layout_size rs.
Proof.
  induction rs as [|r rs IH]; intros base H; [discriminate H|].
  cbn [first_off layout_size]. unfold has_stream in H. cbn [existsb] in H.
  pose proof (chunk_size_pos r). pose proof (layout_size_nonneg rs).
  destruct (k_stream r =? i); [lia|]. cbn [orb] in H.
  specialize (IH (base + chunk_size r) H). lia.
Qed.

Lemma first_off_bounds base i rs :
  0 <= base -> 0 <= first_off base i rs <= base + layout_size rs.
Proof.
  intros Hb. destruct (has_stream i rs) eqn:H.
  - pose proof (first_off_range i rs base H). lia.
  - rewrite first_off_none by exact H. pose proof (layout_size_nonneg rs). lia.
Qed.

(** A chunk in the middle of a linked layout points to the next chunk of
    its stream. *)
Lemma linked_mid a r b : forall base,
  linked base (a ++ r :: b) ->
  k_next r = first_off (base + layout_size a + chunk_size r) (k_stream r) b.
Proof.
  induction a as [|x a IH]; intros base H; cbn [app linked layout_size] in *.
  - destruct H as [H _]. rewrite Z.add_0_r. exact H.
  - destruct H as [_ H]. rewrite (IH _ H). f_equal. lia.
Qed.

(** The first chunk of a stream that has one. *)
Lemma first_chunk i rs :
  has_stream i rs = true ->
  exists mid r suf, rs = mid ++ r :: suf /\ has_stream i mid = false /\ k_stream r = i.
Proof.
  induction rs as [|x rs IH]; intros H; [discriminate H|].
  unfold has_stream in H. cbn [existsb] in H.
  destruct (Z.eqb_spec (k_stream x) i) as [Hx|Hx].
  - exists [], x, rs. repeat split. exact Hx.
  - cbn [orb] in H. destruct (IH H) as (mid & r & suf & -> & Hm & Hr).
    exists (x :: mid), r, suf. split; [reflexivity|]. split; [|exact Hr].
    unfold has_stream. cbn [existsb]. destruct (Z.eqb_spec (k_stream x) i); [lia|].
    exact Hm.
Qed.

Lemma stream_data_none i rs : has_stream i rs = false -> stream_data i rs = [].
Proof.
  induction rs as [|x rs IH]; intros H; [reflexivity|].
  unfold has_stream in H. cbn [existsb] in H. cbn [stream_data].
  destruct (k_stream x =? i); [discriminate H|]. apply IH. exact H.
Qed.

Lemma chunk_ok_bounds E r :
  chunk_ok E r ->
  (k_ctype r = CTYPE_NONE \/ k_ctype r = CTYPE_BZIP2)
  /\ Z.of_nat (length (k_payload r)) <= Z.of_nat (length (k_data r))
  /\ Z.of_nat (length (k_data r)) < 2 ^ 31.
Proof.
  intros [Hd [(Hc & Hp)|(Hc & _ & Hl)]].
  - rewrite Hp. split; [left; exact Hc|lia].
  - split; [right; exact Hc|lia].
Qed.

(** A chunk of the layout, as the reader finds it in the file. *)
Lemma chunk_at E w pre post a r b p0 :
  w_data w = pre ++ layout_bytes (a ++ r :: b) ++ post ->
  Z.of_nat (length pre) = p0 ->
  chunk_ok E r -> 0 <= k_next r < 2 ^ 32 ->
  header_at w (p0 + layout_size a)
  = Some (k_ctype r, Z.of_nat (length (k_payload r)), Z.of_nat (length (k_data r)),
          k_next r)
  /\ file_slice w (p0 + layout_size a + 13) (Z.of_nat (length (k_payload r)))
     = k_payload r.
Proof.
  intros Hdat Hpre Hok Hnx.
  destruct (chunk_ok_bounds E r Hok) as (Hct & Hpl & Hdl).
  rewrite layout_bytes_app in Hdat. cbn [layout_bytes] in Hdat. unfold chunk_bytes in Hdat.
  rewrite <- !app_assoc in Hdat.
  set (hdr := header_bytes (k_ctype r) (Z.of_nat (length (k_payload r)))
                (Z.of_nat (length (k_data r))) (k_next r)) in *.
  split.
  - apply (header_at_bytes w (pre ++ layout_bytes a)
             (k_payload r ++ layout_bytes b ++ post)).
    + rewrite Hdat, <- !app_assoc. reflexivity.
    + rewrite length_app, Nat2Z.inj_add, length_layout_bytes. lia.
    + unfold CTYPE_NONE, CTYPE_BZIP2 in Hct; lia.
    + lia.
    + lia.
    + exact Hnx.
  - unfold file_slice. rewrite Hdat.
    replace (pre ++ layout_bytes a ++ hdr ++ k_payload r ++ layout_bytes b ++ post)
      with ((pre ++ layout_bytes a ++ hdr) ++ k_payload r ++ layout_bytes b ++ post)
      by (rewrite <- !app_assoc; reflexivity).
    replace (Z.to_nat (p0 + layout_size a + 13))
      with (length (pre ++ layout_bytes a ++ hdr)).
    2:{ rewrite !length_app. unfold hdr. rewrite length_header_bytes.
        pose proof (length_layout_bytes a). lia. }
    rewrite Nat2Z.id. apply slice_app_mid.
Qed.

(** The bytes of a stream, split at its first chunk. *)
Lemma stream_data_first i mid r suf :
  has_stream i mid = false -> k_stream r = i ->
  stream_data i (mid ++ r :: suf) = k_data r ++ stream_data i suf.
Proof.
  intros Hm Hr. rewrite stream_data_app, (stream_data_none _ _ Hm).
  cbn [app stream_data]. rewrite Hr, Z.eqb_refl. reflexivity.
Qed.

Lemma first_off_first base i mid r suf :
  has_stream i mid = false -> k_stream r = i ->
  first_off base i (mid ++ r :: suf) = base + layout_size mid.
Proof.
  intros Hm Hr. rewrite first_off_app, Hm. cbn [first_off]. rewrite Hr, Z.eqb_refl.
  reflexivity.
Qed.

Lemma has_stream_data i rs : stream_data i rs <> [] -> has_stream i rs = true.
Proof.
  intros H. destruct (has_stream i rs) eqn:E; [reflexivity|].
  rewrite stream_data_none in H by exact E. contradiction.
Qed.

(** ** A fill takes in one chunk *)

Lemma buf_store_fresh c bs w :
  Z.of_nat (length bs) <= c ->
  buf_store (Some (mkBuffer c [])) 0 bs w = Done (Some (mkBuffer c bs)) w.
Proof.
  intros H. unfold buf_store. cbn [cap mem length].
  destruct (Z.ltb_spec 0 0); [lia|]. cbn [orb].
  destruct (Z.ltb_spec c (0 + Z.of_nat (length bs))); [lia|].
  change (Z.of_nat 0 <? 0) with false. cbv iota.
  rewrite mret_eq, take_nil, drop_nil, app_nil_r. reflexivity.
Qed.

Section Fill.

Context (E : Env).
Hypothesis allocs_granted : forall a sz, alloc_ok E a sz = true.

(** The payload of a chunk, turned into its data. *)
Lemma decompress_buf_ok st ct payload data w :
  buf st = Some (mkBuffer (Z.of_nat (length data)) payload) ->
  buflen st = Z.of_nat (length data) ->
  Z.of_nat (length payload) <= Z.of_nat (length data) < 2 ^ 31 ->
  (ct = CTYPE_NONE /\ payload = data)
  \/ (ct = CTYPE_BZIP2 /\ bz_decompress E payload = Some data) ->
  exists w',
    decompress_buf E st (Z.of_nat (length payload)) ct w
    = Done (0, with_buf st (Some (mkBuffer (Z.of_nat (length data)) data))) w'
    /\ w_data w' = w_data w /\ w_fd w' = w_fd w.
Proof.
  intros Hbuf Hbl Hlen [(-> & Hp)|(-> & Hdec)]; unfold decompress_buf.
  - cbn [Z.eqb CTYPE_NONE Pos.eqb]. exists w. rewrite mret_eq.
    split; [|split; reflexivity]. subst payload. rewrite <- Hbuf. destruct st; reflexivity.
  - change (CTYPE_BZIP2 =? CTYPE_NONE) with false. cbv iota.
    rewrite (mbind_done _ _ _ _ _ (malloc_ok E allocs_granted _ _)).
    assert (Hbz : BZ2_bzBuffToBuffDecompress E (to_u32 (buflen st)) (buf st)
                    (Z.of_nat (length payload)) (count_alloc w)
                  = Done (Some data) (count_alloc w)).
    { unfold BZ2_bzBuffToBuffDecompress. rewrite Hbuf.
      erewrite mbind_done; cycle 1.
      { apply buf_load_ok; cbn [cap mem]; lia. }
      cbn [mem]. rewrite Nat2Z.id, firstn_all, Hdec.
      rewrite Hbl, to_u32_small by lia.
      destruct (Z.leb_spec (Z.of_nat (length data)) (Z.of_nat (length data))); [|lia].
      reflexivity. }
    rewrite (mbind_done _ _ _ _ _ Hbz).
    cbn [with_buf buflen]. rewrite Hbl, to_u32_small by lia. rewrite Z.eqb_refl.
    cbn [negb]. rewrite mret_eq.
    exists (count_alloc w). split; [|split; reflexivity].
    reflexivity.
Qed.

(** [fill_buffer] on a stream whose [last_head] is at a chunk that is in
    the file whole, and that the codec can turn into its data. *)
Lemma fill_buffer_chunk si i st w ct payload data nx :
  0 <= i -> s si !! Z.to_nat i = Some st ->
  fd si = w_fd w -> 0 <= last_head st + initial_pos si ->
  header_at w (last_head st + initial_pos si)
  = Some (ct, Z.of_nat (length payload), Z.of_nat (length data), nx) ->
  file_slice w (last_head st + initial_pos si + 13) (Z.of_nat (length payload)) = payload ->
  Z.of_nat (length payload) <= Z.of_nat (length data) < 2 ^ 31 ->
  (ct = CTYPE_NONE /\ payload = data)
  \/ (ct = CTYPE_BZIP2 /\ bz_decompress E payload = Some data) ->
  exists si' w',
    fill_buffer E si i w = Done (0, si') w'
    /\ w_data w' = w_data w /\ w_fd w' = w_fd w
    /\ fd si' = fd si /\ initial_pos si' = initial_pos si
    /\ s si' = <[Z.to_nat i := mkStream nx (Some (mkBuffer (Z.of_nat (length data)) data))
                                  (Z.of_nat (length data)) 0 (bzip_level st)]> (s si).
Proof.
  intros Hi Hst Hf Hp Hh Hpay Hlen Hcase.
  set (pos := last_head st + initial_pos si) in *.
  set (cl := Z.of_nat (length payload)) in *.
  set (ul := Z.of_nat (length data)) in *.
  unfold fill_buffer.
  rewrite (mbind_done _ _ _ _ _ (get_stream_ok si i st w Hi Hst)).
  rewrite (mbind_done _ _ _ _ _ (seekto_ok si _ w Hf Hp)). cbn [Z.eqb negb].
  fold pos.
  destruct (read_header_ok (fd si) (set_pos w pos) ct cl ul nx Hf Hp Hh)
    as (H1 & H2 & H3 & H4).
  cbn [set_pos set_file w_pos] in H1, H2, H3, H4.
  rewrite (mbind_done _ _ _ _ _ H1).
  rewrite (mbind_done _ _ _ _ _ H2).
  rewrite (mbind_done _ _ _ _ _ H3).
  rewrite (mbind_done _ _ _ _ _ H4).
  rewrite (mbind_done _ _ _ _ _ (malloc_ok E allocs_granted _ _)).
  rewrite (to_int_small cl) by (unfold cl; lia).
  rewrite (to_int_small ul) by (unfold ul; lia).
  cbn [set_stream with_s with_total_read fd].
  set (w5 := count_alloc (set_pos (set_pos w pos) (pos + 13))).
  assert (Hslice : file_slice w5 (w_pos w5) cl = payload) by exact Hpay.
  erewrite mbind_done; cycle 1.
  { apply read_buf_ok; [exact Hf|unfold cl; lia|]. rewrite Hslice. reflexivity. }
  rewrite Hslice.
  rewrite (mbind_done _ _ _ _ _ (buf_store_fresh ul payload _ ltac:(unfold cl, ul in *; lia))).
  cbn [Z.eqb negb].
  set (st1 := with_bufp _ 0).
  destruct (decompress_buf_ok st1 ct payload data (set_pos w5 (w_pos w5 + cl))
              eq_refl eq_refl Hlen Hcase) as (w' & Hdec & Hd' & Hf').
  fold cl ul in Hdec.
  rewrite (mbind_done _ _ _ _ _ Hdec). cbn [Z.eqb negb]. rewrite mret_eq.
  do 2 eexists. split; [reflexivity|].
  split; [exact Hd'|]. split; [exact Hf'|].
  split; [reflexivity|]. split; [reflexivity|].
  cbn [s set_stream with_s with_total_read]. rewrite !list_insert_insert_eq.
  reflexivity.
Qed.

End Fill.

(** ** [read_stream] keeps the invariant of a read-session *)

Lemma reader_inv_ext N p0 D rs R R' si w :
  (forall i, R i = R' i) ->
  reader_inv N p0 D rs R si w -> reader_inv N p0 D rs R' si w.
Proof.
  intros HR [H1 H2 H3 H4 H5]. constructor; try assumption.
  intros i st Hi Hst. rewrite <- HR. apply H5; assumption.
Qed.

(** The copy of an iteration hands out the head of the unread bytes. *)
Lemma copy_out_ok st out len ret bs w :
  unread st bs -> 0 < len ->
  exists st2,
    copy_out st out len ret w
    = Done (st2, out ++ take (Z.to_nat len) bs,
            len - Z.min (Z.of_nat (length bs)) len,
            ret + Z.min (Z.of_nat (length bs)) len) w
    /\ unread st2 (drop (Z.to_nat len) bs)
    /\ last_head st2 = last_head st /\ buflen st2 = buflen st
    /\ bufp st2 = bufp st + Z.min (Z.of_nat (length bs)) len.
Proof.
  intros (Hp & Hl & Hb) Hlen. unfold copy_out. rewrite MIN_min, <- Hl.
  remember (Z.min (Z.of_nat (length bs)) len) as n eqn:Hndef.
  destruct (Z.ltb_spec 0 n) as [Hn|Hn].
  - destruct Hb as [->|(c & m & Hbuf & Hm & Hc & Hbs)]; [cbn [length] in *; lia|].
    rewrite Hbuf. unfold buf_load. cbn [cap mem].
    destruct (Z.ltb_spec n 0); [lia|]. destruct (Z.ltb_spec (bufp st) 0); [lia|].
    destruct (Z.ltb_spec c (bufp st + n)); [lia|]. cbn [orb].
    destruct (Z.ltb_spec (Z.of_nat (length m)) (bufp st + n)); [lia|].
    rewrite mbind_eq, !mret_eq. rewrite <- Hbs.
    assert (Htake : take (Z.to_nat n) bs = take (Z.to_nat len) bs).
    { destruct (Z.le_gt_cases len (Z.of_nat (length bs))).
      - replace n with len by lia. reflexivity.
      - rewrite !take_ge by lia. reflexivity. }
    rewrite Htake. eexists. split; [reflexivity|].
    cbn [with_bufp last_head buflen bufp buf]. split; [|auto].
    unfold unread. cbn [with_bufp last_head buflen bufp buf].
    split; [lia|]. split; [rewrite length_drop; lia|].
    destruct (Z.le_gt_cases (Z.of_nat (length bs)) len).
    + left. apply drop_ge. lia.
    + right. exists c, m. repeat split; try assumption.
      rewrite Hbs, drop_drop. f_equal. lia.
  - assert (Hbs0 : bs = []) by (destruct bs; [reflexivity|cbn [length] in *; lia]).
    subst bs. rewrite mret_eq, take_nil, drop_nil, app_nil_r.
    replace n with 0 by (cbn [length] in *; lia). rewrite !Z.sub_0_r, !Z.add_0_r.
    exists st. split; [reflexivity|]. split; [|auto].
    split; [exact Hp|]. split; [exact Hl|]. left. reflexivity.
Qed.

Lemma read_stream_loop_zero E fuel si i out ret w :
  read_stream_loop E (S fuel) si i out 0 ret w = Done (ret, out, si) w.
Proof. reflexivity. Qed.

Section Reader.

Context (E : Env) (N p0 : Z) (D : list byte) (rs : list chunk).
Hypothesis allocs_granted : forall a sz, alloc_ok E a sz = true.
Hypothesis layout_readable : readable E p0 D rs.

(** A fill on a stream that has bytes left takes in its next chunk. *)
Lemma fill_buffer_inv R si w i st :
  reader_inv N p0 D rs R si w ->
  0 <= i -> s si !! Z.to_nat i = Some st ->
  bufp st = buflen st -> R i <> [] ->
  exists si' w' st',
    fill_buffer E si i w = Done (0, si') w'
    /\ reader_inv N p0 D rs R si' w'
    /\ s si' !! Z.to_nat i = Some st'
    /\ bufp st' = 0 /\ 0 < buflen st'.
Proof.
  intros Hinv Hi Hst Hempty Hrem.
  destruct Hinv as [Hfd Hip Hlen Hdat Hstreams].
  destruct layout_readable as [(fpre & fpost & HD & Hfpre) Hlinked Hchunks Hsize].
  destruct (Hstreams i st Hi Hst) as (pre & suf & bs & Hrs & Hlh & Hall & Hun & HR).
  assert (Hbs : bs = []).
  { destruct Hun as (_ & Hl & _). destruct bs; [reflexivity|cbn [length] in Hl; lia]. }
  subst bs. cbn [app] in HR.
  destruct (first_chunk i suf (has_stream_data i suf ltac:(rewrite <- HR; exact Hrem)))
    as (mid & r & suf' & Hsuf & Hmid & Hr).
  assert (Hrs' : rs = (pre ++ mid) ++ r :: suf') by (rewrite Hrs, Hsuf, <- app_assoc; reflexivity).
  set (o := layout_size (pre ++ mid)).
  assert (Ho : last_head st = o).
  { rewrite Hlh, Hsuf, (first_off_first _ i mid r suf' Hmid Hr).
    unfold o. rewrite layout_size_app. reflexivity. }
  assert (Ho0 : 0 <= o) by apply layout_size_nonneg.
  assert (Hok : chunk_ok E r).
  { rewrite Forall_forall in Hchunks. apply Hchunks. rewrite Hrs'.
    apply in_or_app. right. left. reflexivity. }
  assert (Hnx : k_next r = first_off (o + chunk_size r) i suf').
  { rewrite Hrs' in Hlinked. rewrite (linked_mid _ _ _ 0 Hlinked), Hr. reflexivity. }
  assert (Hsz : layout_size rs = o + chunk_size r + layout_size suf').
  { rewrite Hrs', layout_size_app. cbn [layout_size]. fold o. lia. }
  pose proof (chunk_size_pos r) as Hcs.
  pose proof (first_off_bounds (o + chunk_size r) i suf' ltac:(lia)) as Hfb.
  assert (Hp0 : 0 <= p0) by lia.
  destruct (chunk_at E w fpre fpost (pre ++ mid) r suf' p0) as (Hh & Hpay).
  { rewrite Hdat, HD, Hrs'. reflexivity. }
  { exact Hfpre. }
  { exact Hok. }
  { rewrite Hnx. lia. }
  fold o in Hh, Hpay.
  destruct (chunk_ok_bounds E r Hok) as (_ & Hpl & Hdl).
  destruct (fill_buffer_chunk E allocs_granted si i st w (k_ctype r) (k_payload r)
              (k_data r) (k_next r) Hi Hst Hfd)
    as (si' & w' & Hrun & Hd' & Hf' & Hfd' & Hip' & Hs').
  { rewrite Ho, Hip. lia. }
  { rewrite Ho, Hip, (Z.add_comm o p0). exact Hh. }
  { rewrite Ho, Hip, (Z.add_comm o p0). exact Hpay. }
  { lia. }
  { destruct Hok as [_ [(Hc & Hp)|(Hc & Hdec & _)]]; [left|right]; auto. }
  set (st' := mkStream (k_next r)
                (Some (mkBuffer (Z.of_nat (length (k_data r))) (k_data r)))
                (Z.of_nat (length (k_data r))) 0 (bzip_level st)) in *.
  assert (Hlt : (Z.to_nat i < length (s si))%nat) by (eapply lookup_lt_Some; exact Hst).
  assert (Hne : k_data r <> []).
  { rewrite Forall_forall in Hall. apply (Hall r); [|exact Hr].
    rewrite Hsuf. apply in_or_app. right. left. reflexivity. }
  exists si', w', st'. split; [exact Hrun|].
  split; [|split; [rewrite Hs'; apply list_lookup_insert_eq; exact Hlt|split; [reflexivity|]]].
  - constructor.
    + rewrite Hfd', Hf'. exact Hfd.
    + rewrite Hip'. exact Hip.
    + rewrite Hs', length_insert. exact Hlen.
    + rewrite Hd'. exact Hdat.
    + intros j stj Hj Hstj. rewrite Hs' in Hstj.
      destruct (Z.eq_dec j i) as [->|Hji].
      * rewrite list_lookup_insert_eq in Hstj by exact Hlt. injection Hstj as <-.
        exists (pre ++ mid ++ [r]), suf', (k_data r).
        split; [rewrite Hrs'; rewrite <- !app_assoc; reflexivity|].
        split.
        { cbn [st' last_head]. rewrite Hnx. f_equal.
          rewrite app_assoc, layout_size_app. cbn [layout_size]. fold o. lia. }
        split.
        { rewrite Hsuf in Hall. apply Forall_app in Hall. destruct Hall as [_ Hall].
          inversion Hall; assumption. }
        split.
        { cbn [st' unread bufp buflen buf]. unfold unread. cbn [st' bufp buflen buf].
          split; [lia|]. split; [lia|]. right.
          exists (Z.of_nat (length (k_data r))), (k_data r).
          repeat split; try reflexivity; lia. }
        rewrite HR, Hsuf. apply stream_data_first; assumption.
      * rewrite list_lookup_insert_ne in Hstj by lia. apply Hstreams; assumption.
  - cbn [st' buflen]. destruct (k_data r); [contradiction|cbn [length]; lia].
Qed.

(** The loop of [read_stream], asked for no more than is left. *)
Lemma read_stream_loop_inv fuel : forall R si w i out len ret,
  reader_inv N p0 D rs R si w ->
  0 <= i < N -> 0 <= len <= Z.of_nat (length (R i)) ->
  (forall st, s si !! Z.to_nat i = Some st ->
     (Z.to_nat len + (if (bufp st =? buflen st)%Z then 2 else 1) <= fuel)%nat) ->
  exists si' w',
    read_stream_loop E fuel si i out len ret w
    = Done (ret + len, out ++ take (Z.to_nat len) (R i), si') w'
    /\ reader_inv N p0 D rs (record_read R i len) si' w'.
Proof.
  induction fuel as [|fuel IH]; intros R si w i out len ret Hinv Hi Hlen Hfuel.
  { pose proof (ri_len _ _ _ _ _ _ _ Hinv) as HlenN.
    destruct (lookup_lt_is_Some_2 (s si) (Z.to_nat i) ltac:(lia)) as [st Hst].
    specialize (Hfuel st Hst). destruct (bufp st =? buflen st); lia. }
  destruct (Z.eq_dec len 0) as [->|Hne].
  { rewrite read_stream_loop_zero. exists si, w. cbn [Z.to_nat].
    rewrite take_0, app_nil_r, Z.add_0_r. split; [reflexivity|].
    eapply reader_inv_ext; [|exact Hinv].
    intros j. unfold record_read. destruct (j =? i); reflexivity. }
  rewrite read_stream_loop_step by exact Hne.
  pose proof (ri_len _ _ _ _ _ _ _ Hinv) as HlenN.
  destruct (lookup_lt_is_Some_2 (s si) (Z.to_nat i) ltac:(lia)) as [st Hst].
  specialize (Hfuel st Hst).
  rewrite (mbind_done _ _ _ _ _ (get_stream_ok si i st w ltac:(lia) Hst)).
  destruct (ri_streams _ _ _ _ _ _ _ Hinv i st ltac:(lia) Hst)
    as (pre & suf & bs & Hrs & Hlh & Hall & Hun & HR).
  destruct (copy_out_ok st out len ret bs w Hun ltac:(lia))
    as (st2 & Hcopy & Hun2 & Hlh2 & Hbl2 & Hbp2).
  rewrite (mbind_done _ _ _ _ _ Hcopy). cbv beta iota zeta.
  remember (Z.min (Z.of_nat (length bs)) len) as n eqn:Hndef.
  assert (Hlt : (Z.to_nat i < length (s si))%nat) by (eapply lookup_lt_Some; exact Hst).
  assert (Hbsl : Z.of_nat (length bs) = buflen st - bufp st) by apply Hun.
  (* the session after the copy *)
  assert (Hinv2 : reader_inv N p0 D rs (record_read R i n) (set_stream si i st2) w).
  { destruct Hinv as [Hfd Hip Hl Hdat Hstreams]. constructor; try assumption.
    - cbn [set_stream with_s s]. rewrite length_insert. exact Hl.
    - intros j stj Hj Hstj. cbn [set_stream with_s s] in Hstj. unfold record_read.
      destruct (Z.eqb_spec j i) as [->|Hji].
      + rewrite list_lookup_insert_eq in Hstj by exact Hlt. injection Hstj as <-.
        exists pre, suf, (drop (Z.to_nat len) bs).
        split; [exact Hrs|]. split; [rewrite Hlh2; exact Hlh|]. split; [exact Hall|].
        split; [exact Hun2|].
        rewrite HR. destruct (Z.le_gt_cases len (Z.of_nat (length bs))).
        * replace n with len by lia. apply drop_app_le. lia.
        * replace n with (Z.of_nat (length bs)) by lia.
          rewrite Nat2Z.id, drop_app_length, drop_ge by lia. reflexivity.
      + rewrite list_lookup_insert_ne in Hstj by lia. apply Hstreams; assumption. }
  assert (Hst2 : s (set_stream si i st2) !! Z.to_nat i = Some st2).
  { cbn [set_stream with_s s]. apply list_lookup_insert_eq. exact Hlt. }
  destruct (Z.eqb_spec (len - n) 0) as [Hz|Hnz]; cbn [negb andb].
  - (* everything asked for was in the buffer *)
    assert (Hnl : n = len) by lia. rewrite Hz.
    destruct fuel as [|fuel]; [destruct (bufp st =? buflen st); lia|].
    rewrite read_stream_loop_zero.
    exists (set_stream si i st2), w. split; [|rewrite <- Hnl; exact Hinv2].
    rewrite Hnl, HR, (take_app_le bs) by lia. reflexivity.
  - (* the buffer is used up: the next chunk is taken in *)
    assert (Hnb : n = Z.of_nat (length bs)) by lia.
    assert (Hfull : bufp st2 = buflen st2) by lia.
    rewrite Hfull, Z.eqb_refl.
    assert (HR2 : record_read R i n i = stream_data i suf).
    { unfold record_read. rewrite Z.eqb_refl, HR, Hnb, Nat2Z.id. apply drop_app_length. }
    assert (Hlen2 : Z.of_nat (length (R i))
                    = Z.of_nat (length bs) + Z.of_nat (length (stream_data i suf))).
    { rewrite HR, length_app. lia. }
    destruct (fill_buffer_inv (record_read R i n) (set_stream si i st2) w i st2 Hinv2
                ltac:(lia) Hst2 Hfull) as (si3 & w3 & st3 & Hrun & Hinv3 & Hst3 & Hbp3 & Hbl3).
    { rewrite HR2. intros Hnil. rewrite Hnil in Hlen2. cbn [length] in Hlen2. lia. }
    rewrite (mbind_done _ _ _ _ _ Hrun). cbv beta iota. cbn [Z.eqb negb].
    rewrite (mbind_done _ _ _ _ _ (get_stream_ok si3 i st3 w3 ltac:(lia) Hst3)).
    destruct (Z.eqb_spec (bufp st3) (buflen st3)) as [|_]; [lia|].
    destruct (IH (record_read R i n) si3 w3 i (out ++ take (Z.to_nat len) bs)
                (len - n) (ret + n) Hinv3 Hi)
      as (si4 & w4 & Hrun4 & Hinv4).
    { rewrite HR2. lia. }
    { intros stx Hstx. rewrite Hst3 in Hstx. injection Hstx as <-.
      destruct (Z.eqb_spec (bufp st3) (buflen st3)); [lia|].
      destruct (Z.eqb_spec (bufp st) (buflen st)); lia. }
    assert (Hout : take (Z.to_nat len) bs
                   ++ take (Z.to_nat (len - n)) (record_read R i n i)
                   = take (Z.to_nat len) (R i)).
    { rewrite HR2, HR, take_app, (take_ge bs) by lia. do 2 f_equal. lia. }
    exists si4, w4. rewrite Hrun4. split.
    + rewrite <- app_assoc, Hout. replace (ret + n + (len - n)) with (ret + len) by lia.
      reflexivity.
    + eapply reader_inv_ext; [|exact Hinv4].
      intros j. unfold record_read. destruct (j =? i); [|reflexivity].
      rewrite drop_drop. f_equal. lia.
Qed.

Lemma read_stream_inv R si w i len :
  reader_inv N p0 D rs R si w ->
  0 <= i < N -> 0 <= len <= Z.of_nat (length (R i)) ->
  exists si' w',
    read_stream E si i len w = Done (len, take (Z.to_nat len) (R i), si') w'
    /\ reader_inv N p0 D rs (record_read R i len) si' w'.
Proof.
  intros Hinv Hi Hlen. unfold read_stream.
  destruct (read_stream_loop_inv (Z.to_nat len + 2) R si w i [] len 0 Hinv Hi Hlen)
    as (si' & w' & Hrun & Hinv').
  { intros st _. destruct (bufp st =? buflen st); lia. }
  exists si', w'. split; [|exact Hinv']. rewrite Hrun. reflexivity.
Qed.

(** The reads that mirror a plan give back its bytes, when they are what is
    left on every stream. *)
Lemma read_plan_inv : forall plan R X si w,
  reader_inv N p0 D rs R si w ->
  Forall (fun e => 0 <= fst e < N) plan ->
  (forall i, 0 <= i < N -> R i = plan_data i plan ++ X i) ->
  exists si' w', read_plan E si (mirror plan) w = Done (expected plan, si') w'.
Proof.
  induction plan as [|[j bs] plan IH]; intros R X si w Hinv Hidx HR.
  - exists si, w. reflexivity.
  - inversion Hidx as [|e l Hj Hrest]; subst e l. cbn [fst] in Hj.
    cbn [mirror expected map read_plan].
    pose proof (HR j Hj) as HRj. cbn [plan_data] in HRj. rewrite Z.eqb_refl in HRj.
    rewrite <- app_assoc in HRj.
    destruct (read_stream_inv R si w j (Z.of_nat (length bs)) Hinv Hj)
      as (si1 & w1 & Hrun1 & Hinv1).
    { rewrite HRj, length_app. lia. }
    rewrite (mbind_done _ _ _ _ _ Hrun1). cbv beta iota.
    destruct (IH (record_read R j (Z.of_nat (length bs))) X si1 w1 Hinv1 Hrest)
      as (si2 & w2 & Hrun2).
    { intros i Hi. unfold record_read. rewrite (HR i Hi). cbn [plan_data].
      destruct (Z.eqb_spec i j) as [->|Hne].
      - rewrite Z.eqb_refl, <- app_assoc, Nat2Z.id. apply drop_app_length.
      - destruct (Z.eqb_spec j i); [lia|]. reflexivity. }
    fold (mirror plan). rewrite (mbind_done _ _ _ _ _ Hrun2). cbv beta iota.
    rewrite mret_eq. exists si2, w2.
    rewrite HRj, Nat2Z.id, take_app_length. reflexivity.
Qed.

End Reader.

(** ** Opening the stream set a write-session left *)

Lemma initial_like_lookup N inits j r :
  initial_like N inits -> inits !! j = Some r ->
  k_stream r = Z.of_nat j /\ k_ctype r = CTYPE_NONE
  /\ k_payload r = [] /\ k_data r = [].
Proof.
  intros [_ H] Hj. rewrite (H j r Hj). repeat split.
Qed.

Lemma initial_like_size N inits :
  initial_like N inits ->
  forall k, (k <= length inits)%nat -> layout_size (take k inits) = 13 * Z.of_nat k.
Proof.
  intros Hil k. induction k as [|k IH]; intros Hk.
  - rewrite take_0. reflexivity.
  - destruct (lookup_lt_is_Some_2 inits k ltac:(lia)) as [r Hr].
    rewrite (take_S_r _ _ _ Hr), layout_size_app, IH by lia.
    cbn [layout_size]. unfold chunk_size.
    destruct (initial_like_lookup N inits k r Hil Hr) as (_ & _ & -> & _).
    cbn [length]. lia.
Qed.

Lemma initial_like_no_data N inits i k :
  initial_like N inits -> stream_data i (take k inits) = [].
Proof.
  intros Hil.
  assert (Hall : Forall (fun r => k_data r = []) (take k inits)).
  { apply Forall_take, Forall_lookup. intros j r Hj.
    apply (initial_like_lookup N inits j r Hil Hj). }
  induction Hall as [|r l Hr _ IH]; [reflexivity|].
  cbn [stream_data]. rewrite Hr, IH. destruct (k_stream r =? i); reflexivity.
Qed.

Lemma initial_like_chunk_ok E N inits :
  initial_like N inits -> Forall (chunk_ok E) inits.
Proof.
  intros Hil. apply Forall_lookup. intros j r Hj.
  destruct (initial_like_lookup N inits j r Hil Hj) as (_ & Hc & Hp & Hd).
  split; [rewrite Hd; cbn; lia|]. left. split; [exact Hc|congruence].
Qed.

Section Reopen.

Context (E : Env) (f N : Z) (w : world) (rs inits chunks : list chunk).
Hypothesis allocs_granted : forall a sz, alloc_ok E a sz = true.
Hypothesis fd_ok : f = w_fd w.
Hypothesis N_pos : 0 < N.
Hypothesis layout_readable : readable E (w_pos w) (w_data w) rs.
Hypothesis shape : rs = inits ++ chunks.
Hypothesis inits_ok : initial_like N inits.
Hypothesis chunks_ok : Forall (data_chunk E N) chunks.

Lemma reopen_pos : 0 <= w_pos w.
Proof. destruct layout_readable as [(pre & post & _ & H) _ _ _]. lia. Qed.

(** The layout around the initial header of stream [j]. *)
Lemma reopen_split j r :
  inits !! j = Some r ->
  rs = take j inits ++ r :: (drop (S j) inits ++ chunks)
  /\ k_next r = first_off (13 * Z.of_nat j + 13) (Z.of_nat j)
                  (drop (S j) inits ++ chunks)
  /\ 0 <= k_next r < 2 ^ 32.
Proof.
  intros Hj.
  assert (Hrs : rs = take j inits ++ r :: (drop (S j) inits ++ chunks)).
  { rewrite shape. rewrite <- (take_drop_middle inits j r Hj) at 1.
    rewrite <- app_assoc. reflexivity. }
  destruct layout_readable as [_ Hlinked _ Hsize].
  destruct (initial_like_lookup N inits j r inits_ok Hj) as (Hs & _ & Hp & _).
  assert (Hsz : layout_size (take j inits) = 13 * Z.of_nat j).
  { apply (initial_like_size N inits inits_ok). apply lookup_lt_Some in Hj. lia. }
  assert (Hcs : chunk_size r = 13) by (unfold chunk_size; rewrite Hp; reflexivity).
  assert (Hnx : k_next r = first_off (13 * Z.of_nat j + 13) (Z.of_nat j)
                             (drop (S j) inits ++ chunks)).
  { pose proof Hlinked as Hl. rewrite Hrs in Hl.
    rewrite (linked_mid _ _ _ 0 Hl), Hs, Hsz, Hcs. reflexivity. }
  split; [exact Hrs|]. split; [exact Hnx|].
  pose proof (first_off_bounds (13 * Z.of_nat j + 13) (Z.of_nat j)
                (drop (S j) inits ++ chunks) ltac:(lia)) as Hb.
  assert (Hall : layout_size rs
                 = 13 * Z.of_nat j + 13 + layout_size (drop (S j) inits ++ chunks)).
  { rewrite Hrs at 1. rewrite layout_size_app. cbn [layout_size]. lia. }
  rewrite Hnx. lia.
Qed.

(** The initial header of stream [j], as it is in the file. *)
Lemma initial_header_at j r :
  inits !! j = Some r ->
  header_at w (w_pos w + 13 * Z.of_nat j) = Some (CTYPE_NONE, 0, 0, k_next r).
Proof.
  intros Hj. destruct (reopen_split j r Hj) as (Hrs & _ & Hnx).
  destruct layout_readable as [(pre & post & HD & Hpre) _ Hchunks _].
  destruct (initial_like_lookup N inits j r inits_ok Hj) as (_ & Hc & Hp & Hd).
  assert (Hok : chunk_ok E r).
  { rewrite Forall_lookup in Hchunks. apply (Hchunks j).
    rewrite shape. apply lookup_app_l_Some. exact Hj. }
  destruct (chunk_at E w pre post (take j inits) r (drop (S j) inits ++ chunks) (w_pos w))
    as [Hh _]; [rewrite HD, <- Hrs; reflexivity|exact Hpre|exact Hok|exact Hnx|].
  rewrite (initial_like_size N inits inits_ok) in Hh
    by (apply lookup_lt_Some in Hj; lia).
  rewrite Hh, Hc, Hp, Hd. reflexivity.
Qed.

(** When stream 0 has data, the open succeeds and every stream is at its
    first chunk. *)
Lemma open_stream_in_layout :
  stream_data 0 rs <> [] ->
  exists si w',
    open_stream_in E f N w = Done (Some si) w'
    /\ reader_inv N (w_pos w) (w_data w) rs (fun i => stream_data i rs) si w'.
Proof.
  intros Hdata0.
  pose proof reopen_pos as Hp.
  pose proof inits_ok as [HlenN _].
  set (lhs := map k_next inits).
  assert (Hlhs : forall j lh, lhs !! j = Some lh ->
            exists r, inits !! j = Some r /\ k_next r = lh).
  { intros j lh Hj. unfold lhs in Hj. rewrite list_lookup_fmap in Hj.
    destruct (inits !! j) as [r|]; [|discriminate]. injection Hj as <-. eauto. }
  rewrite (open_stream_in_valid E f N w 0 allocs_granted fd_ok Hp N_pos
             ltac:(intros j Hj; cbn in Hj; lia) lhs).
  - do 2 eexists. split; [reflexivity|].
    constructor; cbn [fd initial_pos s logged set_pos set_file count_alloc w_fd w_data].
    + exact fd_ok.
    + cbn. lia.
    + unfold opened_streams, lhs. rewrite !length_map. exact HlenN.
    + reflexivity.
    + intros i st Hi Hst. unfold opened_streams in Hst. rewrite list_lookup_fmap in Hst.
      destruct (lhs !! Z.to_nat i) as [lh|] eqn:Hlh; [|discriminate].
      injection Hst as <-.
      destruct (Hlhs _ _ Hlh) as (r & Hr & <-).
      destruct (reopen_split _ r Hr) as (Hrs & Hnx & _).
      rewrite Z2Nat.id in Hnx by lia.
      destruct (initial_like_lookup N inits _ r inits_ok Hr) as (Hs & _ & Hpl & _).
      rewrite Z2Nat.id in Hs by lia.
      exists (take (Z.to_nat i) inits ++ [r]), (drop (S (Z.to_nat i)) inits ++ chunks), [].
      split; [rewrite <- app_assoc; exact Hrs|].
      split.
      { cbn [with_last_head last_head]. rewrite Hnx, layout_size_app.
        rewrite (initial_like_size N inits inits_ok) by (apply lookup_lt_Some in Hr; lia).
        cbn [layout_size]. unfold chunk_size. rewrite Hpl. cbn [length].
        f_equal. lia. }
      split.
      { apply Forall_app. split.
        - apply Forall_lookup. intros j x Hx. rewrite lookup_drop in Hx.
          destruct (initial_like_lookup N inits _ x inits_ok Hx) as (Hsx & _).
          intros Hxi. lia.
        - eapply Forall_impl; [|exact chunks_ok].
          intros x (_ & Hx & _) _. exact Hx. }
      split.
      { unfold unread. cbn. split; [lia|]. split; [reflexivity|]. left. reflexivity. }
      rewrite Hrs at 1. cbn [app].
      change (take (Z.to_nat i) inits ++ r :: drop (S (Z.to_nat i)) inits ++ chunks)
        with (take (Z.to_nat i) inits ++ [r] ++ drop (S (Z.to_nat i)) inits ++ chunks).
      rewrite app_assoc, stream_data_app, <- (take_S_r _ _ _ Hr).
      rewrite (initial_like_no_data N inits i _ inits_ok). reflexivity.
  - unfold lhs. rewrite length_map. exact HlenN.
  - intros j lh Hj. destruct (Hlhs _ _ Hj) as (r & Hr & <-).
    rewrite Z.mul_0_r, Z.add_0_r. apply initial_header_at. exact Hr.
  - intros H0. destruct (Hlhs _ _ H0) as (r & Hr & Hnx0).
    destruct (reopen_split _ r Hr) as (Hrs & Hnx & _).
    assert (Hhas : has_stream 0 (drop 1 inits ++ chunks) = true).
    { apply has_stream_data. intros Hnil. apply Hdata0.
      rewrite Hrs, take_0. cbn [app stream_data].
      destruct (initial_like_lookup N inits _ r inits_ok Hr) as (_ & _ & _ & ->).
      destruct (k_stream r =? 0); exact Hnil. }
    pose proof (first_off_range 0 _ (13 * Z.of_nat 0 + 13) Hhas) as Hrange.
    change (Z.of_nat 0) with 0 in Hnx, Hrange. lia.
Qed.

End Reopen.

(** ** The round trip *)

(** The small codec of the examples gives back what it was given. *)
Lemma run_env_codec_ok : codec_ok run_env.
Proof.
  intros level src out. cbn [run_env bz_compress bz_decompress].
  unfold run_compress. destruct src as [|b r]; [discriminate|].
  destruct (forallb (Byte.eqb b) r) eqn:Hall; [|discriminate]. cbn [andb].
  destruct (Z.ltb_spec (Z.of_nat (length (b :: r))) 256) as [Hlen|]; [|discriminate].
  intros [= <-]. cbn [run_decompress length] in Hlen |- *.
  rewrite byte_val_to_uchar, Z.mod_small, Nat2Z.id by lia.
  f_equal. cbn [replicate]. f_equal.
  clear Hlen. induction r as [|x r IH]; [reflexivity|].
  cbn [forallb] in Hall. apply andb_prop in Hall. destruct Hall as [Hx Hr].
  apply Byte.byte_dec_bl in Hx. subst x. cbn [length replicate]. f_equal. apply IH. exact Hr.
Qed.

Lemma plan_total_nonneg plan : 0 <= plan_total plan.
Proof. induction plan as [|[a b] l IH]; cbn [plan_total]; lia. Qed.

Lemma lseek_set_ok f p w :
  f = w_fd w -> 0 <= p -> sys_lseek f p SEEK_SET w = Done p (set_pos w p).
Proof.
  intros -> Hp. unfold sys_lseek. rewrite Z.eqb_refl. cbn [negb].
  destruct (Z.ltb_spec p 0); [lia|]. reflexivity.
Qed.

(** The file a write-session leaves, with the descriptor put back where
    the session began: the layout in it is one a reader can take in and
    holds the bytes of the plan. *)
Lemma written_file_readable E f N L plan w :
  codec_ok E -> (forall a sz, alloc_ok E a sz = true) ->
  f = w_fd w -> 0 <= w_pos w -> 0 < N -> 0 <= L <= 9 ->
  Forall (fun e => 0 <= fst e < N) plan ->
  13 * N + 14 * plan_total plan < 2 ^ 32 ->
  w_pos w + 13 * N + 14 * plan_total plan <= w_limit w ->
  exists w0 rs inits chunks,
    writer_session E f N L plan w = Done 0 w0
    /\ f = w_fd w0
    /\ readable E (w_pos w) (w_data w0) rs
    /\ rs = inits ++ chunks /\ initial_like N inits /\ Forall (data_chunk E N) chunks
    /\ forall i, 0 <= i < N -> stream_data i rs = plan_data i plan.
Proof.
  intros Hc Ha Hf Hp HN HL Hidx H32 Hlim.
  destruct (writer_session_inv E f N L plan w Hc Ha Hf Hp HN HL Hidx H32 Hlim)
    as (w' & rs & pre & post & inits & chunks & Hrun & Hf' & Hdat & Hpre & Hlinked
        & Hrs & Hil & Hch & Hsize & Hdata).
  exists w', rs, inits, chunks.
  split; [exact Hrun|]. split; [congruence|].
  split; [|auto].
  constructor.
  - exists pre, post. split; [exact Hdat|exact Hpre].
  - exact Hlinked.
  - rewrite Hrs. apply Forall_app. split; [apply (initial_like_chunk_ok E N); exact Hil|].
    eapply Forall_impl; [|exact Hch]. intros x (Hx & _). exact Hx.
  - exact Hsize.
Qed.

(** C1, as amended: for every number of streams [N >= 1], every level [L]
    from 0 to 9 and every plan of writes to streams of the set in which
    stream 0 receives at least one byte, a write-session that executes the
    plan and is closed, followed by a read-session opened where the first
    began that makes the mirror reads, returns for each read the bytes of
    the write it mirrors, in the same order. The codec is one that
    decompresses what it compressed, the allocator grants every request,
    the stream set fits 32-bit offsets and the device has room for it. *)
Theorem round_trip_correct E f N L plan w :
  codec_ok E -> (forall a sz, alloc_ok E a sz = true) ->
  f = w_fd w -> 0 <= w_pos w -> 0 < N -> 0 <= L <= 9 ->
  Forall (fun e => 0 <= fst e < N) plan ->
  plan_data 0 plan <> [] ->
  13 * N + 14 * plan_total plan < 2 ^ 32 ->
  w_pos w + 13 * N + 14 * plan_total plan <= w_limit w ->
  round_trip_holds E f N L plan w.
Proof.
  intros Hc Ha Hf Hp HN HL Hidx H0 H32 Hlim.
  destruct (written_file_readable E f N L plan w Hc Ha Hf Hp HN HL Hidx H32 Hlim)
    as (w0 & rs & inits & chunks & Hrun & Hf0 & Hrd & Hrs & Hil & Hch & Hdata).
  unfold round_trip_holds, round_trip.
  rewrite (mbind_done _ _ _ _ _ (lseek_cur_ok f w Hf Hp)).
  rewrite (mbind_done _ _ _ _ _ Hrun). cbn [Z.eqb negb].
  rewrite (mbind_done _ _ _ _ _ (lseek_set_ok f (w_pos w) w0 Hf0 Hp)).
  set (w1 := set_pos w0 (w_pos w)).
  assert (Hf1 : f = w_fd w1) by exact Hf0.
  change (readable E (w_pos w1) (w_data w1) rs) in Hrd.
  destruct (open_stream_in_layout E f N w1 rs inits chunks Ha Hf1 HN Hrd Hrs Hil Hch)
    as (si & w2 & Hopen & Hinv).
  { rewrite (Hdata 0 ltac:(lia)). exact H0. }
  unfold reader_session. rewrite (mbind_done _ _ _ _ _ Hopen).
  destruct (read_plan_inv E N (w_pos w1) (w_data w1) rs Ha Hrd plan
              (fun i => stream_data i rs) (fun _ => []) si w2 Hinv Hidx)
    as (si3 & w3 & Hread).
  { intros i Hi. rewrite app_nil_r. apply Hdata. exact Hi. }
  rewrite (mbind_done _ _ _ _ _ Hread). cbv beta iota. rewrite mret_eq.
  exists w3. reflexivity.
Qed.

Lemma round_trip_correct_witness :
  round_trip_holds run_env 3 2 1 sample_plan empty_file.
Proof.
  apply round_trip_correct.
  - exact run_env_codec_ok.
  - intros a sz. reflexivity.
  - reflexivity.
  - cbn. lia.
  - lia.
  - lia.
  - repeat constructor; cbn; lia.
  - cbn. discriminate.
  - cbn. lia.
  - cbn. lia.
Defined.

(** C1, as stated, fails when stream 0 receives nothing: its initial header
    is then taken for the sentinel of the close workaround and the open of
    the read-session fails. *)
Lemma round_trip_needs_stream_0 :
  ~ round_trip_holds plain_env 3 2 0 [(1, [x42; x42])] empty_file.
Proof.
  intros [w' H]. vm_compute in H. discriminate H.
Qed.

(** ** Reading a stream nothing was written to *)

Section Unwritten.

Context (E : Env) (N p0 : Z) (D : list byte) (rs : list chunk).
Hypothesis allocs_granted : forall a sz, alloc_ok E a sz = true.

(** On a stream with nothing left whose [last_head] is 0, the fill reads
    the initial header of stream 0 as a chunk without data, and
    [read_stream] stops there. *)
Lemma read_stream_unwritten R si w i st len nx :
  reader_inv N p0 D rs R si w ->
  0 <= p0 -> 0 <= i -> s si !! Z.to_nat i = Some st ->
  bufp st = buflen st -> last_head st = 0 -> 0 < len ->
  header_at w p0 = Some (CTYPE_NONE, 0, 0, nx) ->
  exists si' w',
    read_stream E si i len w = Done (0, [], si') w'
    /\ s si' !! Z.to_nat i
       = Some (mkStream nx (Some (mkBuffer 0 [])) 0 0 (bzip_level st)).
Proof.
  intros Hinv Hp0 Hi Hst Hempty Hlh Hlen Hh.
  destruct Hinv as [Hfd Hip HlenN Hdat _].
  unfold read_stream.
  replace (Z.to_nat len + 2)%nat with (S (Z.to_nat len + 1)) by lia.
  rewrite read_stream_loop_step by lia.
  rewrite (mbind_done _ _ _ _ _ (get_stream_ok si i st w Hi Hst)).
  unfold copy_out. rewrite MIN_min, Hempty, Z.sub_diag, Z.min_l by lia.
  change (0 <? 0) with false. cbv iota. rewrite mbind_eq, mret_eq. cbv beta iota zeta.
  rewrite (set_stream_id si i st Hst), Hempty, Z.eqb_refl.
  destruct (Z.eqb_spec len 0); [lia|]. cbn [negb andb].
  destruct (fill_buffer_chunk E allocs_granted si i st w CTYPE_NONE [] [] nx Hi Hst Hfd)
    as (si' & w' & Hrun & _ & _ & _ & _ & Hs').
  { rewrite Hlh, Hip. lia. }
  { rewrite Hlh, Hip. exact Hh. }
  { unfold file_slice. apply take_0. }
  { cbn. lia. }
  { left. split; reflexivity. }
  cbn [length Z.of_nat] in Hs'.
  assert (Hst' : s si' !! Z.to_nat i
                 = Some (mkStream nx (Some (mkBuffer 0 [])) 0 0 (bzip_level st))).
  { rewrite Hs'. apply list_lookup_insert_eq. eapply lookup_lt_Some. exact Hst. }
  rewrite (mbind_done _ _ _ _ _ Hrun). cbv beta iota. cbn [Z.eqb negb].
  rewrite (mbind_done _ _ _ _ _ (get_stream_ok si' i _ w' Hi Hst')).
  cbn [bufp buflen Z.eqb]. rewrite mret_eq.
  exists si', w'. split; [reflexivity|exact Hst'].
Qed.

End Unwritten.

(** C9, as amended: reading from a stream to which nothing was ever written
    returns 0, not an error, in a stream set whose stream 0 was written to:
    after a write-session of [N] streams whose plan gives stream 0 at least
    one byte and stream [i] none, a reader opened on the file that asks
    stream [i] for [len > 0] bytes gets 0 from [read_stream] - the fill
    finds a header with [u_len = 0] (the initial header of stream 0, at
    offset 0 of the set) and leaves [bufp = buflen = 0]. *)
Theorem read_unwritten_stream E f N L plan i len w :
  codec_ok E -> (forall a sz, alloc_ok E a sz = true) ->
  f = w_fd w -> 0 <= w_pos w -> 0 < N -> 0 <= L <= 9 ->
  Forall (fun e => 0 <= fst e < N) plan ->
  plan_data 0 plan <> [] ->
  13 * N + 14 * plan_total plan < 2 ^ 32 ->
  w_pos w + 13 * N + 14 * plan_total plan <= w_limit w ->
  0 <= i < N -> plan_data i plan = [] -> 0 < len ->
  reads_zero E f N L plan i len w.
Proof.
  intros Hc Ha Hf Hp HN HL Hidx H0 H32 Hlim Hi Hnone Hlen.
  destruct (written_file_readable E f N L plan w Hc Ha Hf Hp HN HL Hidx H32 Hlim)
    as (w0 & rs & inits & chunks & Hrun & Hf0 & Hrd & Hrs & Hil & Hch & Hdata).
  unfold reads_zero, read_back.
  rewrite (mbind_done _ _ _ _ _ (lseek_cur_ok f w Hf Hp)).
  rewrite (mbind_done _ _ _ _ _ Hrun). cbn [Z.eqb negb].
  rewrite (mbind_done _ _ _ _ _ (lseek_set_ok f (w_pos w) w0 Hf0 Hp)).
  set (w1 := set_pos w0 (w_pos w)).
  assert (Hf1 : f = w_fd w1) by exact Hf0.
  change (readable E (w_pos w1) (w_data w1) rs) in Hrd.
  destruct (open_stream_in_layout E f N w1 rs inits chunks Ha Hf1 HN Hrd Hrs Hil Hch)
    as (si & w2 & Hopen & Hinv).
  { rewrite (Hdata 0 ltac:(lia)). exact H0. }
  rewrite (mbind_done _ _ _ _ _ Hopen).
  pose proof (ri_len _ _ _ _ _ _ _ Hinv) as HlenN.
  destruct (lookup_lt_is_Some_2 (s si) (Z.to_nat i) ltac:(lia)) as [st Hst].
  destruct (ri_streams _ _ _ _ _ _ _ Hinv i st ltac:(lia) Hst)
    as (pre & suf & bs & Hsplit & Hlh & Hall & Hun & HR).
  rewrite (Hdata i Hi), Hnone in HR. symmetry in HR.
  apply app_eq_nil in HR. destruct HR as [-> Hsuf].
  assert (Hno : has_stream i suf = false).
  { destruct (has_stream i suf) eqn:Hhas; [|reflexivity].
    destruct (first_chunk i suf Hhas) as (mid & r & suf' & -> & Hmid & Hr).
    rewrite (stream_data_first i mid r suf' Hmid Hr) in Hsuf.
    apply app_eq_nil in Hsuf. destruct Hsuf as [Hd _].
    apply Forall_app in Hall. destruct Hall as [_ Hall].
    inversion Hall as [|? ? Hne _]. contradiction (Hne Hr Hd). }
  rewrite (first_off_none _ _ _ Hno) in Hlh.
  destruct Hun as (Hbp & Hbl & _). cbn [length] in Hbl.
  (* the initial header of stream 0 *)
  pose proof Hil as [HlenI _].
  destruct (lookup_lt_is_Some_2 inits 0 ltac:(lia)) as [r0 Hr0].
  pose proof (initial_header_at E N w1 rs inits chunks Hrd Hrs Hil 0 r0 Hr0) as Hh.
  rewrite Z.mul_0_r, Z.add_0_r in Hh.
  assert (Hh2 : header_at w2 (w_pos w1) = Some (CTYPE_NONE, 0, 0, k_next r0)).
  { rewrite (header_at_frame w1 w2) by (apply (ri_data _ _ _ _ _ _ _ Hinv)). exact Hh. }
  assert (Hp1 : 0 <= w_pos w1) by exact Hp.
  assert (Hi0 : 0 <= i) by lia.
  assert (Hempty : bufp st = buflen st) by lia.
  destruct (read_stream_unwritten E N (w_pos w1) (w_data w1) rs Ha _ si w2 i st len
              (k_next r0) Hinv Hp1 Hi0 Hst Hempty Hlh Hlen Hh2)
    as (si' & w' & Hread & Hst').
  rewrite (mbind_done _ _ _ _ _ Hread). cbv beta iota.
  rewrite (mbind_done _ _ _ _ _ (get_stream_ok si' i _ w' ltac:(lia) Hst')).
  rewrite mret_eq. do 2 eexists. split; [reflexivity|]. split; reflexivity.
Qed.

Lemma read_unwritten_stream_witness :
  reads_zero run_env 3 2 1 [(0, [x41])] 1 10 empty_file.
Proof.
  apply read_unwritten_stream.
  - exact run_env_codec_ok.
  - intros a sz. reflexivity.
  - reflexivity.
  - cbn. lia.
  - lia.
  - lia.
  - repeat constructor; cbn; lia.
  - cbn. discriminate.
  - cbn. lia.
  - cbn. lia.
  - lia.
  - reflexivity.
  - lia.
Defined.

(** C9, as stated, fails: with one stream and nothing written the open of
    the read-session takes the initial header for the sentinel of the close
    workaround, finds the end of the file behind it and returns null, so no
    read takes place. *)
Lemma read_after_empty_session_fails :
  ~ reads_zero plain_env 3 1 0 [] 0 10 empty_file.
Proof.
  intros (st & w' & H & _). vm_compute in H. discriminate H.
Qed.

(** * Further properties of the code *)

(** ** The wire codec at its edges *)

(** The value of four bytes, least significant first. *)
Lemma u32_of_bytes_le a b c d :
  u32_of_bytes [a; b; c; d]
  = byte_val a + 2 ^ 8 * byte_val b + 2 ^ 16 * byte_val c + 2 ^ 24 * byte_val d.
Proof.
  pose proof (byte_val_range a). pose proof (byte_val_range b).
  pose proof (byte_val_range c). pose proof (byte_val_range d).
  unfold u32_of_bytes, u16_of_bytes, byte_at. cbn [take drop lookup list_lookup default].
  unfold id. change (2 ^ 8) with 256 in *.
  rewrite !(lor_shiftl_add _ _ 8) by (change (2 ^ 8) with 256; lia).
  change (2 ^ 8) with 256.
  unfold to_u16. rewrite !Z.mod_small by (change (2 ^ 16) with 65536; lia).
  rewrite Z.shiftl_mul_pow2 by lia.
  unfold to_u32. rewrite Z.mod_small by (change (2 ^ 16) with 65536; change (2 ^ 32) with 4294967296; lia).
  rewrite <- Z.shiftl_mul_pow2 by lia.
  rewrite lor_shiftl_add by (change (2 ^ 16) with 65536; lia).
  change (2 ^ 16) with 65536. change (2 ^ 24) with 16777216. lia.
Qed.

(** Encoding the value of four bytes gives the four bytes back. *)
Lemma u32_bytes_u32_of_bytes bs :
  length bs = 4%nat -> u32_bytes (u32_of_bytes bs) = bs.
Proof.
  intros Hl. destruct bs as [|a [|b [|c [|d [|]]]]]; try discriminate Hl.
  pose proof (byte_val_range a). pose proof (byte_val_range b).
  pose proof (byte_val_range c). pose proof (byte_val_range d).
  rewrite u32_of_bytes_le.
  change (2 ^ 8) with 256. change (2 ^ 16) with 65536. change (2 ^ 24) with 16777216.
  set (va := byte_val a) in *. set (vb := byte_val b) in *.
  set (vc := byte_val c) in *. set (vd := byte_val d) in *.
  rewrite u32_bytes_le by (change (2 ^ 32) with 4294967296; lia).
  change (2 ^ 8) with 256. change (2 ^ 16) with 65536. change (2 ^ 24) with 16777216.
  set (v := va + 256 * vb + 65536 * vc + 16777216 * vd).
  assert (H8 : v / 256 = vb + 256 * vc + 65536 * vd)
    by (symmetry; apply (Z.div_unique v 256 _ va); unfold v; lia).
  assert (H16 : v / 65536 = vc + 256 * vd)
    by (symmetry; apply (Z.div_unique v 65536 _ (va + 256 * vb)); unfold v; lia).
  assert (H24 : v / 16777216 = vd)
    by (symmetry; apply (Z.div_unique v 16777216 _ (va + 256 * vb + 65536 * vc));
        unfold v; lia).
  rewrite H8, H16, H24.
  assert (Hm : forall x y, 0 <= x < 256 -> to_uchar (x + 256 * y) = to_uchar x).
  { intros x y Hx. apply to_uchar_mod.
    rewrite (Z.mul_comm 256 y), Z.mod_add by lia. reflexivity. }
  unfold v.
  replace (va + 256 * vb + 65536 * vc + 16777216 * vd)
    with (va + 256 * (vb + 256 * vc + 65536 * vd)) by lia.
  replace (vb + 256 * vc + 65536 * vd) with (vb + 256 * (vc + 256 * vd)) by lia.
  rewrite !Hm by lia.
  unfold va, vb, vc, vd. rewrite !to_uchar_byte_val. reflexivity.
Qed.

Lemma u32_of_bytes_range bs : 0 <= u32_of_bytes bs < 2 ^ 32.
Proof.
  unfold u32_of_bytes.
  assert (H1 : 0 <= to_u32 (Z.shiftl (u16_of_bytes (drop 2 bs)) 16) < 2 ^ 32)
    by apply to_u32_range.
  assert (H2 : 0 <= u16_of_bytes (take 2 bs) < 2 ^ 16)
    by (unfold u16_of_bytes, to_u16; apply Z.mod_pos_bound; lia).
  split; [apply Z.lor_nonneg; lia|].
  destruct (Z.eq_dec (Z.lor (to_u32 (Z.shiftl (u16_of_bytes (drop 2 bs)) 16))
                            (u16_of_bytes (take 2 bs))) 0) as [->|Hne]; [lia|].
  apply Z.log2_lt_pow2; [pose proof (Z.lor_nonneg (to_u32 (Z.shiftl (u16_of_bytes (drop 2 bs)) 16))
                                        (u16_of_bytes (take 2 bs))); lia|].
  rewrite Z.log2_lor by lia.
  apply Z.max_lub_lt.
  - destruct (Z.eq_dec (to_u32 (Z.shiftl (u16_of_bytes (drop 2 bs)) 16)) 0) as [->|];
      [cbn; lia|apply Z.log2_lt_pow2; lia].
  - destruct (Z.eq_dec (u16_of_bytes (take 2 bs)) 0) as [->|];
      [cbn; lia|apply Z.log2_lt_pow2; lia].
Qed.

(** Bytes written over themselves leave the file as it is. *)
Lemma pwrite_same (off : nat) (bs d : list byte) :
  take (length bs) (drop off d) = bs -> (off + length bs <= length d)%nat ->
  pwrite off bs d = d.
Proof.
  intros Hbs Hl. unfold pwrite.
  replace (off - length d)%nat with 0%nat by lia. cbn [replicate app].
  transitivity (take off d ++ drop off d); [|apply take_drop].
  f_equal. rewrite <- (take_drop (length bs) (drop off d)), Hbs.
  f_equal. rewrite drop_drop. reflexivity.
Qed.

(** X1: the 32-bit wire format in the reading direction: wherever the file
    has four bytes, [read_u32] returns a value [v] below [2^32], and
    [write_u32] of that [v] at the same place writes the same four bytes
    (the file is left as it was and the offset is again 4 further). *)
Theorem read_u32_write_u32_identity f w :
  f = w_fd w -> 0 <= w_pos w ->
  w_pos w + 4 <= Z.of_nat (length (w_data w)) -> w_pos w + 4 <= w_limit w ->
  exists v,
    0 <= v < 2 ^ 32
    /\ read_u32 f w = Done (Some v) (set_pos w (w_pos w + 4))
    /\ write_u32 f v w = Done 0 (set_pos w (w_pos w + 4)).
Proof.
  intros Hf Hp Hlen Hlim.
  set (bs := file_slice w (w_pos w) 4).
  assert (Hbs : length bs = 4%nat).
  { unfold bs, file_slice. rewrite length_take, length_drop. lia. }
  exists (u32_of_bytes bs). split; [apply u32_of_bytes_range|]. split.
  - apply read_u32_ok; [exact Hf|exact Hp|fold bs; lia].
  - rewrite write_u32_ok by (try assumption; lia).
    rewrite (u32_bytes_u32_of_bytes bs Hbs). unfold write_at. rewrite Hbs.
    rewrite pwrite_same; [reflexivity| |lia].
    rewrite Hbs. reflexivity.
Qed.

Lemma read_u32_write_u32_identity_witness :
  exists v,
    0 <= v < 2 ^ 32
    /\ read_u32 3 (set_pos two_streams_file 9)
       = Done (Some v) (set_pos (set_pos two_streams_file 9) (9 + 4))
    /\ write_u32 3 v (set_pos two_streams_file 9)
       = Done 0 (set_pos (set_pos two_streams_file 9) (9 + 4)).
Proof.
  apply (read_u32_write_u32_identity 3 (set_pos two_streams_file 9)).
  - reflexivity.
  - cbn. lia.
  - cbn. lia.
  - cbn. lia.
Defined.

(** ** Failures of the system calls *)

(** X2: [write_buf] returns 0 only when all [len] bytes went out. When the
    descriptor is bad or the device is full it logs the failed write and
    returns -1 with the file untouched; when only [k] of the [len] bytes
    fit, it logs the partial write and returns -1, and those [k] bytes are
    in the file and the offset is past them. *)
Theorem write_buf_failures f p len w :
  0 < len <= Z.of_nat (length p) ->
  (f = w_fd w -> w_pos w + len <= w_limit w ->
   write_buf f p len w = Done 0 (write_at w (take (Z.to_nat len) p)))
  /\ (f <> w_fd w \/ w_limit w <= w_pos w ->
      write_buf f p len w = Done (-1) (logged w [MsgWriteFailed len]))
  /\ (forall k, f = w_fd w -> 0 < k < len -> w_limit w = w_pos w + k ->
      write_buf f p len w
      = Done (-1) (logged (write_at w (take (Z.to_nat k) p)) [MsgPartialWrite len k])).
Proof.
  intros Hlen. split; [|split].
  - intros Hf Hroom. unfold write_buf, sys_write. rewrite mbind_eq.
    rewrite Hf, Z.eqb_refl. cbn [negb].
    destruct (Z.ltb_spec len 0); [lia|]. destruct (Z.eqb_spec len 0); [lia|].
    rewrite Z.min_l by lia. destruct (Z.leb_spec len 0); [lia|].
    destruct (Z.eqb_spec len (-1)); [lia|]. rewrite Z.eqb_refl. cbn [negb].
    rewrite mret_eq. unfold write_at. rewrite length_take.
    do 2 f_equal. lia.
  - intros Hfail. apply write_buf_fail; [exact Hfail|lia].
  - intros k Hf Hk Hlim. unfold write_buf, sys_write. rewrite mbind_eq.
    rewrite Hf, Z.eqb_refl. cbn [negb].
    destruct (Z.ltb_spec len 0); [lia|]. destruct (Z.eqb_spec len 0); [lia|].
    rewrite Z.min_r by lia. replace (w_limit w - w_pos w) with k by lia.
    destruct (Z.leb_spec k 0); [lia|].
    destruct (Z.eqb_spec k (-1)); [lia|]. destruct (Z.eqb_spec k len); [lia|].
    cbn [negb]. rewrite err_msg_ret. unfold write_at. rewrite length_take.
    do 3 f_equal. lia.
Qed.

Lemma write_buf_failures_witness :
  let w := mkWorld 3 [x01; x02; x03; x04; x05] 5 7 0 [] in
  write_buf 3 [x41; x42; x43; x44] 4 w
  = Done (-1) (logged (write_at w [x41; x42]) [MsgPartialWrite 4 2]).
Proof.
  intros w.
  exact (proj2 (proj2 (write_buf_failures 3 [x41; x42; x43; x44] 4 w
                         ltac:(cbn; lia))) 2 eq_refl ltac:(lia) eq_refl).
Defined.

(** X3: [write_u32] is not atomic. With room for its first half only, the
    two low bytes of [v] go to the file and it returns -1; with no room at
    all (or a bad descriptor) it stops at the first half and logs one failed
    write, the second [write_u16] is not attempted. *)
Theorem write_u32_torn f v w :
  0 <= w_pos w ->
  (f = w_fd w -> w_limit w = w_pos w + 2 ->
   write_u32 f v w
   = Done (-1) (logged (write_at w (take 2 (u32_bytes v))) [MsgWriteFailed 2]))
  /\ (f <> w_fd w \/ w_limit w <= w_pos w ->
      write_u32 f v w = Done (-1) (logged w [MsgWriteFailed 2])).
Proof.
  intros Hp. split.
  - intros Hf Hlim. unfold write_u32.
    rewrite (mbind_done _ _ _ _ _ (write_u16_ok f _ w Hf ltac:(lia))).
    cbn [Z.eqb negb].
    erewrite mbind_done; cycle 1.
    { unfold write_u16. apply write_buf_fail; [|lia]. right.
      cbn [write_at set_file w_limit w_pos length u16_bytes]. lia. }
    cbn [Z.eqb negb]. rewrite mret_eq. reflexivity.
  - intros Hfail. apply write_u32_fail. exact Hfail.
Qed.

Lemma write_u32_torn_witness :
  let w := mkWorld 3 [x01; x02; x03; x04; x05] 5 7 0 [] in
  write_u32 3 305419896 w
  = Done (-1) (logged (write_at w [x78; x56]) [MsgWriteFailed 2]).
Proof.
  intros w.
  exact (proj1 (write_u32_torn 3 305419896 w ltac:(cbn; lia)) eq_refl eq_refl).
Defined.

(** X4: a read that the file cannot satisfy in full is an error for
    [read_buf]: it returns -1 and logs the partial read, yet the bytes that
    were there have been consumed (the offset is past them, at the end of
    the file). *)
Theorem read_buf_short_consumes f len w :
  f = w_fd w -> 0 <= len ->
  let bs := file_slice w (w_pos w) len in
  Z.of_nat (length bs) <> len ->
  read_buf f len w
  = Done (-1, bs)
         (logged (set_pos w (w_pos w + Z.of_nat (length bs)))
                 [MsgPartialRead len (Z.of_nat (length bs))]).
Proof.
  intros Hf Hlen bs Hshort. unfold read_buf, sys_read. rewrite mbind_eq.
  rewrite Hf, Z.eqb_refl. cbn [negb]. destruct (Z.ltb_spec len 0); [lia|].
  fold (file_slice w (w_pos w) len). fold bs.
  destruct (Z.eqb_spec (Z.of_nat (length bs)) (-1)); [lia|].
  destruct (Z.eqb_spec (Z.of_nat (length bs)) len); [contradiction|].
  cbn [negb]. rewrite err_msg_ret. reflexivity.
Qed.

Lemma read_buf_short_consumes_witness :
  let w := mkWorld 3 [x01; x02; x03; x04; x05] 3 7 0 [] in
  read_buf 3 4 w
  = Done (-1, [x04; x05]) (logged (set_pos w 5) [MsgPartialRead 4 2]).
Proof.
  intros w.
  exact (read_buf_short_consumes 3 4 w eq_refl ltac:(lia)
           ltac:(vm_compute; intros H; discriminate H)).
Defined.

(** The error value of [lseek] taken for the target. *)
Lemma seekto_minus_one si pos w :
  pos + initial_pos si = -1 -> seekto si pos w = Done 0 w.
Proof.
  intros Hm. unfold seekto, sys_lseek. cbv zeta. rewrite mbind_eq, Hm.
  destruct (negb (fd si =? w_fd w)); reflexivity.
Qed.

Lemma seekto_fail si pos w :
  pos + initial_pos si <> -1 ->
  fd si <> w_fd w \/ pos + initial_pos si < 0 ->
  seekto si pos w = Done (-1) (logged w [MsgSeekFailed pos]).
Proof.
  intros Hne Hbad. unfold seekto, sys_lseek. cbv zeta. rewrite mbind_eq.
  set (spos := pos + initial_pos si) in *.
  assert (Hcase : (if negb (fd si =? w_fd w) then Done (-1) w
                   else if spos <? 0 then Done (-1) w
                        else Done spos (set_pos w spos)) = Done (-1) w).
  { destruct (Z.eqb_spec (fd si) (w_fd w)); cbn [negb]; [|reflexivity].
    destruct (Z.ltb_spec spos 0); [reflexivity|]. destruct Hbad; [contradiction|lia]. }
  rewrite Hcase. destruct (Z.eqb_spec (-1) spos); [lia|]. cbn [negb].
  apply err_msg_ret.
Qed.

(** X5: [seekto] compares what [lseek] returned with the target. It
    returns 0 with the offset at [pos + initial_pos] when that is a valid
    offset of the open descriptor; it returns 0 as well, without moving,
    when the target is -1 (the error value of [lseek] is then taken for
    success); in every other case it logs the failed seek, returns -1 and
    leaves the offset where it was. *)
Theorem seekto_cases si pos w :
  let spos := pos + initial_pos si in
  (fd si = w_fd w -> 0 <= spos -> seekto si pos w = Done 0 (set_pos w spos))
  /\ (spos = -1 -> seekto si pos w = Done 0 w)
  /\ (spos <> -1 -> fd si <> w_fd w \/ spos < 0 ->
      seekto si pos w = Done (-1) (logged w [MsgSeekFailed pos])).
Proof.
  intros spos. split; [|split].
  - intros Hf Hp. apply seekto_ok; assumption.
  - apply seekto_minus_one.
  - apply seekto_fail.
Qed.

Lemma seekto_cases_witness :
  seekto (mkInfo [] 0 3 0 0 (-1) 0) 0 empty_file = Done 0 empty_file
  /\ seekto (mkInfo [] 0 3 0 0 (-5) 0) 0 empty_file
     = Done (-1) (logged empty_file [MsgSeekFailed 0]).
Proof.
  split.
  - exact (proj1 (proj2 (seekto_cases (mkInfo [] 0 3 0 0 (-1) 0) 0 empty_file)) eq_refl).
  - exact (proj2 (proj2 (seekto_cases (mkInfo [] 0 3 0 0 (-5) 0) 0 empty_file))
             ltac:(cbn; lia) ltac:(right; cbn; lia)).
Defined.

(** ** The read side never writes *)

Lemma same_file_refl w : same_file w w.
Proof. repeat split. Qed.

Lemma same_file_trans w1 w2 w3 : same_file w1 w2 -> same_file w2 w3 -> same_file w1 w3.
Proof. intros (A & B & C) (A' & B' & C'). repeat split; congruence. Qed.

Lemma same_file_set_pos w p : same_file w (set_pos w p).
Proof. repeat split. Qed.

Lemma same_file_logged w ms : same_file w (logged w ms).
Proof. repeat split. Qed.

Lemma same_file_count_alloc w : same_file w (count_alloc w).
Proof. repeat split. Qed.

Create HintDb frame.

#[local] Hint Resolve same_file_refl same_file_set_pos same_file_logged
  same_file_count_alloc : frame.

Lemma err_msg_same {A} m (a : A) w x w' :
  (err_msg m;; mret a) w = Done x w' -> same_file w w'.
Proof. rewrite err_msg_ret. intros [= _ <-]. auto with frame. Qed.

Lemma sys_lseek_same f off wh w r w' :
  sys_lseek f off wh w = Done r w' -> same_file w w'.
Proof.
  unfold sys_lseek. destruct (negb (f =? w_fd w)); [intros [= _ <-]; auto with frame|].
  destruct (_ <? 0); intros [= _ <-]; auto with frame.
Qed.

Lemma read_buf_same f len w x w' :
  read_buf f len w = Done x w' -> same_file w w'.
Proof.
  unfold read_buf, sys_read. rewrite mbind_eq.
  destruct (negb (f =? w_fd w)); [cbn; intros [= _ <-]; repeat split|].
  destruct (len <? 0); [cbn; intros [= _ <-]; repeat split|].
  cbv beta iota.
  destruct (_ =? -1); [cbn; intros [= _ <-]; repeat split|].
  destruct (negb _); cbn; intros [= _ <-]; repeat split.
Qed.

Lemma read_u8_same f w o w' : read_u8 f w = Done o w' -> same_file w w'.
Proof.
  unfold read_u8. intros H. bind_inv H as [r bs] w1 Hb. apply read_buf_same in Hb.
  destruct (negb (r =? 0)); rewrite mret_eq in H; injection H as _ <-; exact Hb.
Qed.

Lemma read_u16_same f w o w' : read_u16 f w = Done o w' -> same_file w w'.
Proof.
  unfold read_u16. intros H. bind_inv H as [r bs] w1 Hb. apply read_buf_same in Hb.
  destruct (negb (r =? 0)); rewrite mret_eq in H; injection H as _ <-; exact Hb.
Qed.

Lemma read_u32_same f w o w' : read_u32 f w = Done o w' -> same_file w w'.
Proof.
  unfold read_u32. intros H. bind_inv H as o1 w1 H1. apply read_u16_same in H1.
  destruct o1 as [v1|]; [|rewrite mret_eq in H; injection H as _ <-; exact H1].
  bind_inv H as o2 w2 H2. apply read_u16_same in H2.
  destruct o2 as [v2|]; rewrite mret_eq in H; injection H as _ <-;
    eapply same_file_trans; eassumption.
Qed.

Lemma seekto_same si pos w r w' : seekto si pos w = Done r w' -> same_file w w'.
Proof.
  unfold seekto. intros H. bind_inv H as r1 w1 H1. apply sys_lseek_same in H1.
  destruct (negb _).
  - apply err_msg_same in H. eapply same_file_trans; eassumption.
  - rewrite mret_eq in H. injection H as _ <-. exact H1.
Qed.

Lemma malloc_same E sz w b w' : malloc E sz w = Done b w' -> same_file w w'.
Proof. unfold malloc. intros [= _ <-]. auto with frame. Qed.

Lemma buf_load_same b off n w bs w' : buf_load b off n w = Done bs w' -> w' = w.
Proof. intros H. apply buf_load_inv in H. apply H. Qed.

Lemma buf_store_same b off bs w b' w' : buf_store b off bs w = Done b' w' -> w' = w.
Proof.
  unfold buf_store. destruct b as [bf|]; [|discriminate].
  destruct (_ || _); [discriminate|]. destruct (_ <? _); [discriminate|].
  rewrite mret_eq. intros [= _ <-]. reflexivity.
Qed.

Lemma decompress_buf_same E st cl ct w x w' :
  decompress_buf E st cl ct w = Done x w' -> same_file w w'.
Proof.
  unfold decompress_buf. destruct (ct =? CTYPE_NONE).
  { rewrite mret_eq. intros [= _ <-]. auto with frame. }
  intros H. bind_inv H as nb w1 Hm. apply malloc_same in Hm.
  destruct nb as [b|]; [|apply err_msg_same in H; eapply same_file_trans; eassumption].
  bind_inv H as o w2 Hz.
  assert (Hw2 : w2 = w1).
  { unfold BZ2_bzBuffToBuffDecompress in Hz. destruct (buf st) as [cb|].
    - bind_inv Hz as src w3 Hl. apply buf_load_same in Hl. subst w3.
      destruct (bz_decompress E src) as [out|].
      + destruct (_ <=? _); rewrite mret_eq in Hz; injection Hz as _ <-; reflexivity.
      + rewrite mret_eq in Hz. injection Hz as _ <-. reflexivity.
    - rewrite mret_eq in Hz. injection Hz as _ <-. reflexivity. }
  subst w2.
  destruct o as [out|]; [|apply err_msg_same in H; eapply same_file_trans; eassumption].
  cbv zeta in H. destruct (negb _).
  - apply err_msg_same in H. eapply same_file_trans; eassumption.
  - rewrite mret_eq in H. injection H as _ <-. exact Hm.
Qed.

Lemma fill_buffer_same E si i w x w' :
  fill_buffer E si i w = Done x w' -> same_file w w'.
Proof.
  unfold fill_buffer. intros H.
  bind_inv H as st w0 Hg. apply get_stream_inv in Hg. destruct Hg as (-> & _ & _).
  bind_inv H as r w1 Hs. apply seekto_same in Hs.
  destruct (negb (r =? 0)); [rewrite mret_eq in H; injection H as _ <-; exact Hs|].
  bind_inv H as oc w2 H1. apply read_u8_same in H1.
  pose proof (same_file_trans _ _ _ Hs H1) as F2.
  destruct oc as [c|]; [|rewrite mret_eq in H; injection H as _ <-; exact F2].
  bind_inv H as o1 w3 H2. apply read_u32_same in H2.
  pose proof (same_file_trans _ _ _ F2 H2) as F3.
  destruct o1 as [cl|]; [|rewrite mret_eq in H; injection H as _ <-; exact F3].
  bind_inv H as o2 w4 H3. apply read_u32_same in H3.
  pose proof (same_file_trans _ _ _ F3 H3) as F4.
  destruct o2 as [ul|]; [|rewrite mret_eq in H; injection H as _ <-; exact F4].
  bind_inv H as o3 w5 H4. apply read_u32_same in H4.
  pose proof (same_file_trans _ _ _ F4 H4) as F5.
  destruct o3 as [nx|]; [|rewrite mret_eq in H; injection H as _ <-; exact F5].
  cbv zeta in H.
  bind_inv H as nb w6 Hm. apply malloc_same in Hm.
  pose proof (same_file_trans _ _ _ F5 Hm) as F6.
  destruct nb as [b|]; [|rewrite mret_eq in H; injection H as _ <-; exact F6].
  bind_inv H as [r2 bs] w7 Hr. apply read_buf_same in Hr.
  pose proof (same_file_trans _ _ _ F6 Hr) as F7.
  bind_inv H as nb2 w8 Hst. apply buf_store_same in Hst. subst w8.
  destruct (negb (r2 =? 0)); [rewrite mret_eq in H; injection H as _ <-; exact F7|].
  bind_inv H as [r3 st3] w9 Hd. apply decompress_buf_same in Hd.
  pose proof (same_file_trans _ _ _ F7 Hd) as F9.
  destruct (negb (r3 =? 0)); rewrite mret_eq in H; injection H as _ <-; exact F9.
Qed.

Lemma read_stream_loop_same E fuel : forall si i out len ret w x w',
  read_stream_loop E fuel si i out len ret w = Done x w' -> same_file w w'.
Proof.
  induction fuel as [|fuel IH]; intros si i out len ret w x w' H; [discriminate H|].
  destruct (Z.eq_dec len 0) as [->|Hne].
  { rewrite read_stream_loop_zero in H. injection H as _ <-. auto with frame. }
  rewrite read_stream_loop_step in H by exact Hne.
  bind_inv H as st w0 Hg. apply get_stream_inv in Hg. destruct Hg as (-> & _ & _).
  bind_inv H as [[[st2 out2] len2] ret2] w2 Hc.
  assert (Hw2 : w2 = w).
  { unfold copy_out in Hc. destruct (0 <? _).
    - bind_inv Hc as bs w3 Hl. apply buf_load_same in Hl. subst w3.
      rewrite mret_eq in Hc. injection Hc as _ _ _ _ <-. reflexivity.
    - rewrite mret_eq in Hc. injection Hc as _ _ _ _ <-. reflexivity. }
  subst w2. cbv beta iota zeta in H.
  destruct (negb (len2 =? 0) && (bufp st2 =? buflen st2)).
  - bind_inv H as [r si3] w3 Hf. apply fill_buffer_same in Hf.
    destruct (negb (r =? 0)); [rewrite mret_eq in H; injection H as _ <-; exact Hf|].
    bind_inv H as st3 w4 Hg. apply get_stream_inv in Hg. destruct Hg as (-> & _ & _).
    destruct (bufp st3 =? buflen st3).
    + rewrite mret_eq in H. injection H as _ <-. exact Hf.
    + eapply same_file_trans; [exact Hf|]. eapply IH. exact H.
  - eapply IH. exact H.
Qed.

Lemma read_initial_header_same fuel : forall f i si w x w',
  read_initial_header fuel f i si w = Done x w' -> same_file w w'.
Proof.
  induction fuel as [|fuel IH]; intros f i si w x w' H; [discriminate H|].
  cbn [read_initial_header] in H.
  bind_inv H as oc w1 H1. apply read_u8_same in H1.
  destruct oc as [c|]; [|rewrite mret_eq in H; injection H as _ <-; exact H1].
  bind_inv H as o1 w2 H2. apply read_u32_same in H2.
  pose proof (same_file_trans _ _ _ H1 H2) as F2.
  destruct o1 as [v1|]; [|rewrite mret_eq in H; injection H as _ <-; exact F2].
  bind_inv H as o2 w3 H3. apply read_u32_same in H3.
  pose proof (same_file_trans _ _ _ F2 H3) as F3.
  destruct o2 as [v2|]; [|rewrite mret_eq in H; injection H as _ <-; exact F3].
  bind_inv H as st w4 Hg. apply get_stream_inv in Hg. destruct Hg as (-> & _ & _).
  bind_inv H as o3 w5 H4. apply read_u32_same in H4.
  pose proof (same_file_trans _ _ _ F3 H4) as F5.
  destruct o3 as [lh|]; [|rewrite mret_eq in H; injection H as _ <-; exact F5].
  cbv zeta in H.
  destruct ((c =? CTYPE_NONE) && (v1 =? 0) && (v2 =? 0) && (lh =? 0) && (i =? 0)).
  - rewrite mbind_eq in H. cbn [err_msg] in H. apply IH in H.
    eapply same_file_trans; [exact F5|]. eapply same_file_trans; [|exact H].
    repeat split.
  - destruct (negb (c =? CTYPE_NONE));
      [apply err_msg_same in H; eapply same_file_trans; eassumption|].
    destruct (negb (v1 =? 0));
      [apply err_msg_same in H; eapply same_file_trans; eassumption|].
    destruct (negb (v2 =? 0));
      [apply err_msg_same in H; eapply same_file_trans; eassumption|].
    rewrite mret_eq in H. injection H as _ <-. exact F5.
Qed.

Lemma read_initial_headers_same fuel f k : forall i si w x w',
  read_initial_headers fuel k f i si w = Done x w' -> same_file w w'.
Proof.
  induction k as [|k IH]; intros i si w x w' H; cbn [read_initial_headers] in H.
  - rewrite mret_eq in H. injection H as _ <-. auto with frame.
  - bind_inv H as o w1 H1. apply read_initial_header_same in H1.
    destruct o as [si1|]; [|rewrite mret_eq in H; injection H as _ <-; exact H1].
    eapply same_file_trans; [exact H1|]. eapply IH. exact H.
Qed.

Lemma open_stream_in_same E f n w x w' :
  open_stream_in E f n w = Done x w' -> same_file w w'.
Proof.
  unfold open_stream_in. intros H.
  bind_inv H as ok w1 H1.
  assert (F1 : same_file w w1) by (unfold alloc_struct in H1; injection H1 as _ <-;
                                   auto with frame).
  destruct (negb ok); [rewrite mret_eq in H; injection H as _ <-; exact F1|].
  bind_inv H as ip w2 H2. apply sys_lseek_same in H2.
  pose proof (same_file_trans _ _ _ F1 H2) as F2.
  bind_inv H as os w3 H3.
  assert (F3 : same_file w w3).
  { unfold calloc_streams in H3. injection H3 as _ <-.
    eapply same_file_trans; [exact F2|]. auto with frame. }
  destruct os as [ss|]; [|rewrite mret_eq in H; injection H as _ <-; exact F3].
  bind_inv H as fuel w4 H4. unfold again_fuel in H4. injection H4 as _ <-.
  eapply same_file_trans; [exact F3|]. eapply read_initial_headers_same. exact H.
Qed.

Lemma close_stream_in_same si w r w' :
  close_stream_in si w = Done r w' -> same_file w w'.
Proof.
  unfold close_stream_in. intros H. bind_inv H as r1 w1 H1. apply sys_lseek_same in H1.
  destruct (negb _); rewrite mret_eq in H; injection H as _ <-; exact H1.
Qed.

(** X6: the read side never writes. Whatever [open_stream_in],
    [read_stream] (with the fills it makes) and [close_stream_in] return,
    failures included, the bytes of the file, the descriptor and the device
    are what they were: only the offset, the allocations and the log
    change. *)
Theorem read_side_keeps_file E :
  (forall f n w o w', open_stream_in E f n w = Done o w' -> same_file w w')
  /\ (forall si i len w r w', read_stream E si i len w = Done r w' -> same_file w w')
  /\ (forall si w r w', close_stream_in si w = Done r w' -> same_file w w').
Proof.
  split; [|split].
  - intros f n w o w'. apply open_stream_in_same.
  - intros si i len w r w'. unfold read_stream. apply read_stream_loop_same.
  - intros si w r w'. apply close_stream_in_same.
Qed.

Lemma read_side_keeps_file_witness :
  exists r w',
    read_stream plain_env two_streams_session 0 3 two_streams_file = Done r w'
    /\ same_file two_streams_file w'.
Proof.
  assert (Hex : exists r w',
             read_stream plain_env two_streams_session 0 3 two_streams_file = Done r w')
    by (vm_compute; eauto).
  destruct Hex as (r & w' & Hrun). exists r, w'. split; [exact Hrun|].
  exact (proj1 (proj2 (read_side_keeps_file plain_env)) _ _ _ _ _ _ Hrun).
Defined.

(** ** Decompression and the fill *)

(** X7: [decompress_buf] looks at the tag only to tell "uncompressed" from
    the rest. With tag 3 it returns 0 and touches nothing, not even to
    compare the lengths. Any other tag, 4 or not, sends the buffer through
    the codec: a refused allocation returns -1 with the buffer pointer
    null; and a return of 0 means that the buffer now holds the output of
    the codec on the first [c_len] bytes of the old buffer, exactly [buflen]
    bytes. *)
Theorem decompress_buf_cases E st c_len c_type w :
  (c_type = CTYPE_NONE -> decompress_buf E st c_len c_type w = Done (0, st) w)
  /\ (c_type <> CTYPE_NONE -> alloc_ok E (w_allocs w) (to_u32 (buflen st)) = false ->
      decompress_buf E st c_len c_type w
      = Done (-1, with_buf st None)
             (logged (count_alloc w) [MsgAllocDecompress (to_u32 (buflen st))]))
  /\ (forall st' w',
        c_type <> CTYPE_NONE ->
        decompress_buf E st c_len c_type w = Done (0, st') w' ->
        exists src out,
          buf_load (buf st) 0 c_len w = Done src w
          /\ bz_decompress E src = Some out
          /\ Z.of_nat (length out) = to_u32 (buflen st)
          /\ st' = with_buf st (Some (mkBuffer (to_u32 (buflen st)) out))
          /\ w' = count_alloc w).
Proof.
  split; [|split].
  - intros ->. reflexivity.
  - intros Hne Ha. unfold decompress_buf.
    destruct (Z.eqb_spec c_type CTYPE_NONE); [contradiction|].
    unfold malloc at 1. rewrite mbind_eq, Ha. cbv beta iota zeta.
    rewrite err_msg_ret. reflexivity.
  - intros st' w' Hne H. unfold decompress_buf in H.
    destruct (Z.eqb_spec c_type CTYPE_NONE); [contradiction|].
    bind_inv H as nb w1 Hm. unfold malloc in Hm. injection Hm as <- <-.
    destruct (alloc_ok E (w_allocs w) (to_u32 (buflen st)));
      [|rewrite err_msg_ret in H; discriminate H].
    bind_inv H as o w2 Hz. unfold BZ2_bzBuffToBuffDecompress in Hz.
    cbn [with_buf buf] in Hz.
    destruct (buf st) as [cb|] eqn:Hbuf;
      [|rewrite mret_eq in Hz; injection Hz as <- <-; rewrite err_msg_ret in H;
        discriminate H].
    bind_inv Hz as src w3 Hl. pose proof (buf_load_same _ _ _ _ _ _ Hl) as ->.
    destruct (bz_decompress E src) as [out|] eqn:Hdec;
      [|rewrite mret_eq in Hz; injection Hz as <- <-; rewrite err_msg_ret in H;
        discriminate H].
    destruct (Z.of_nat (length out) <=? _); rewrite mret_eq in Hz; injection Hz as <- <-;
      [|rewrite err_msg_ret in H; discriminate H].
    cbv zeta in H. cbn [with_buf buflen] in H.
    destruct (Z.eqb_spec (Z.of_nat (length out)) (to_u32 (buflen st))) as [Heq|];
      cbn [negb] in H; [|rewrite err_msg_ret in H; discriminate H].
    rewrite mret_eq in H. injection H as <- <-.
    exists src, out. split.
    { unfold buf_load in Hl |- *. destruct (_ || _); [discriminate Hl|].
      destruct (_ <? _); [discriminate Hl|]. rewrite mret_eq in Hl |- *.
      injection Hl as <-. reflexivity. }
    split; [exact Hdec|]. split; [exact Heq|]. split; reflexivity.
Qed.

Lemma decompress_buf_cases_witness :
  let st := mkStream 0 (Some (mkBuffer 5 [x42; x05])) 5 0 0 in
  exists src out,
    buf_load (buf st) 0 2 empty_file = Done src empty_file
    /\ bz_decompress run_env src = Some out
    /\ Z.of_nat (length out) = to_u32 (buflen st)
    /\ with_buf st (Some (mkBuffer 5 [x42; x42; x42; x42; x42]))
       = with_buf st (Some (mkBuffer (to_u32 (buflen st)) out))
    /\ count_alloc empty_file = count_alloc empty_file.
Proof.
  intros st.
  exact (proj2 (proj2 (decompress_buf_cases run_env st 2 7 empty_file))
           (with_buf st (Some (mkBuffer 5 [x42; x42; x42; x42; x42])))
           (count_alloc empty_file) ltac:(discriminate) eq_refl).
Defined.

(** [fill_buffer] on an uncompressed chunk: the block has the size [u_len]
    of the header and holds the [c_len] bytes of the payload. *)
Lemma fill_buffer_plain E si i st w payload ul nx :
  0 <= i -> s si !! Z.to_nat i = Some st ->
  fd si = w_fd w -> 0 <= last_head st + initial_pos si ->
  header_at w (last_head st + initial_pos si)
  = Some (CTYPE_NONE, Z.of_nat (length payload), ul, nx) ->
  file_slice w (last_head st + initial_pos si + 13) (Z.of_nat (length payload)) = payload ->
  Z.of_nat (length payload) <= ul < 2 ^ 31 ->
  alloc_ok E (w_allocs w) ul = true ->
  exists si' w',
    fill_buffer E si i w = Done (0, si') w'
    /\ s si' = <[Z.to_nat i := mkStream nx (Some (mkBuffer ul payload)) ul 0
                                  (bzip_level st)]> (s si).
Proof.
  intros Hi Hst Hf Hp Hh Hpay Hlen Ha.
  set (pos := last_head st + initial_pos si) in *.
  set (cl := Z.of_nat (length payload)) in *.
  unfold fill_buffer.
  rewrite (mbind_done _ _ _ _ _ (get_stream_ok si i st w Hi Hst)).
  rewrite (mbind_done _ _ _ _ _ (seekto_ok si _ w Hf Hp)). cbn [Z.eqb negb].
  fold pos.
  destruct (read_header_ok (fd si) (set_pos w pos) CTYPE_NONE cl ul nx Hf Hp Hh)
    as (H1 & H2 & H3 & H4).
  cbn [set_pos set_file w_pos] in H1, H2, H3, H4.
  rewrite (mbind_done _ _ _ _ _ H1).
  rewrite (mbind_done _ _ _ _ _ H2).
  rewrite (mbind_done _ _ _ _ _ H3).
  rewrite (mbind_done _ _ _ _ _ H4).
  rewrite mbind_eq. unfold malloc at 1. cbn [set_pos set_file w_allocs]. rewrite Ha.
  rewrite (to_int_small cl) by (unfold cl; lia).
  rewrite (to_int_small ul) by (unfold cl in Hlen; lia).
  cbn [set_stream with_s with_total_read fd].
  set (w5 := count_alloc (set_pos (set_pos w pos) (pos + 13))).
  assert (Hslice : file_slice w5 (w_pos w5) cl = payload) by exact Hpay.
  erewrite mbind_done; cycle 1.
  { apply read_buf_ok; [exact Hf|unfold cl; lia|]. rewrite Hslice. reflexivity. }
  rewrite Hslice.
  rewrite (mbind_done _ _ _ _ _ (buf_store_fresh ul payload _ ltac:(unfold cl in *; lia))).
  cbn [Z.eqb negb]. unfold decompress_buf. rewrite Z.eqb_refl, mbind_eq, !mret_eq.
  cbn [Z.eqb negb]. rewrite mret_eq.
  do 2 eexists. split; [reflexivity|].
  cbn [s set_stream with_s with_total_read]. rewrite !list_insert_insert_eq.
  reflexivity.
Qed.

(** X8: [fill_buffer] does not compare the two lengths of an uncompressed
    chunk either. When the header has tag 3 and [c_len < u_len], the fill
    succeeds with a buffer of [u_len] bytes of which only the first [c_len]
    were read from the file, and [read_stream], asked for more than [c_len]
    bytes, copies bytes of the block that were never written. *)
Theorem read_stream_uninitialised E si i st w payload ul nx len :
  0 <= i -> s si !! Z.to_nat i = Some st ->
  fd si = w_fd w -> bufp st = buflen st ->
  0 <= last_head st + initial_pos si ->
  header_at w (last_head st + initial_pos si)
  = Some (CTYPE_NONE, Z.of_nat (length payload), ul, nx) ->
  file_slice w (last_head st + initial_pos si + 13) (Z.of_nat (length payload)) = payload ->
  Z.of_nat (length payload) < ul < 2 ^ 31 ->
  alloc_ok E (w_allocs w) ul = true ->
  Z.of_nat (length payload) < len ->
  read_stream E si i len w = Fault UninitRead.
Proof.
  intros Hi Hst Hf Hempty Hp Hh Hpay Hlen Ha Hask.
  destruct (fill_buffer_plain E si i st w payload ul nx Hi Hst Hf Hp Hh Hpay
              ltac:(lia) Ha) as (si' & w' & Hfill & Hs').
  set (st' := mkStream nx (Some (mkBuffer ul payload)) ul 0 (bzip_level st)) in *.
  assert (Hst' : s si' !! Z.to_nat i = Some st').
  { rewrite Hs'. apply list_lookup_insert_eq. eapply lookup_lt_Some. exact Hst. }
  unfold read_stream.
  replace (Z.to_nat len + 2)%nat with (S (S (Z.to_nat len))) by lia.
  rewrite read_stream_loop_step by lia.
  rewrite (mbind_done _ _ _ _ _ (get_stream_ok si i st w Hi Hst)).
  unfold copy_out at 1. rewrite MIN_min, Hempty, Z.sub_diag, Z.min_l by lia.
  change (0 <? 0) with false. cbv iota. rewrite mbind_eq, mret_eq. cbv beta iota zeta.
  rewrite (set_stream_id si i st Hst), Hempty, Z.eqb_refl.
  destruct (Z.eqb_spec len 0); [lia|]. cbn [negb andb].
  rewrite (mbind_done _ _ _ _ _ Hfill). cbv beta iota. cbn [Z.eqb negb].
  rewrite (mbind_done _ _ _ _ _ (get_stream_ok si' i st' w' Hi Hst')).
  cbn [st' bufp buflen]. destruct (Z.eqb_spec 0 ul); [lia|].
  rewrite read_stream_loop_step by lia.
  rewrite (mbind_done _ _ _ _ _ (get_stream_ok si' i st' w' Hi Hst')).
  unfold copy_out. rewrite MIN_min. cbn [st' bufp buflen buf]. rewrite Z.sub_0_r.
  destruct (Z.ltb_spec 0 (Z.min ul len)); [|lia].
  unfold buf_load. cbn [cap mem].
  destruct (Z.ltb_spec (Z.min ul len) 0); [lia|].
  change (0 <? 0) with false.
  destruct (Z.ltb_spec ul (0 + Z.min ul len)); [lia|]. cbn [orb].
  destruct (Z.ltb_spec (Z.of_nat (length payload)) (0 + Z.min ul len)); [|lia].
  reflexivity.
Qed.

Lemma read_stream_uninitialised_witness :
  read_stream plain_env (mkInfo [with_last_head zero_stream 13] 1 3 0 0 0 13) 0 4
    (mkWorld 3 (header_bytes 3 0 0 13 ++ header_bytes 3 2 8 0 ++ [x41; x41])
             13 (2 ^ 40) 0 [])
  = Fault UninitRead.
Proof.
  apply (read_stream_uninitialised plain_env _ 0 (with_last_head zero_stream 13) _
           [x41; x41] 8 0 4).
  - lia.
  - reflexivity.
  - reflexivity.
  - reflexivity.
  - cbn. lia.
  - vm_compute. reflexivity.
  - vm_compute. reflexivity.
  - cbn. lia.
  - reflexivity.
  - cbn. lia.
Defined.

(** *** What the reads of a header do, whatever the file *)

Lemma read_buf_none f len w :
  0 < len ->
  f <> w_fd w \/ Z.of_nat (length (file_slice w (w_pos w) len)) <> len ->
  exists bs w', read_buf f len w = Done (-1, bs) w'
                /\ w_data w' = w_data w /\ w_pos w <= w_pos w'.
Proof.
  intros Hlen Hbad. destruct (Z.eq_dec f (w_fd w)) as [Hf|Hf].
  - destruct Hbad as [|Hl]; [contradiction|].
    unfold read_buf, sys_read. rewrite mbind_eq, Hf, Z.eqb_refl. cbn [negb].
    destruct (Z.ltb_spec len 0); [lia|].
    fold (file_slice w (w_pos w) len).
    destruct (Z.eqb_spec (Z.of_nat (length (file_slice w (w_pos w) len))) (-1)); [lia|].
    destruct (Z.eqb_spec (Z.of_nat (length (file_slice w (w_pos w) len))) len); [lia|].
    cbn [negb]. rewrite err_msg_ret.
    eexists _, _. split; [reflexivity|]. split; [reflexivity|]. cbn. lia.
  - unfold read_buf, sys_read. rewrite mbind_eq.
    destruct (Z.eqb_spec f (w_fd w)); [contradiction|]. cbn [negb].
    rewrite Z.eqb_refl, err_msg_ret. eexists _, _. split; [reflexivity|].
    split; [reflexivity|]. cbn. lia.
Qed.

Lemma read_u8_cases f w :
  0 <= w_pos w ->
  (f = w_fd w /\ Z.of_nat (length (file_slice w (w_pos w) 1)) = 1
   /\ read_u8 f w = Done (Some (byte_at (file_slice w (w_pos w) 1) 0))
                         (set_pos w (w_pos w + 1)))
  \/ (exists w', read_u8 f w = Done None w'
                 /\ w_data w' = w_data w /\ w_pos w <= w_pos w').
Proof.
  intros Hp.
  assert (Hno : f <> w_fd w \/ Z.of_nat (length (file_slice w (w_pos w) 1)) <> 1 ->
                exists w', read_u8 f w = Done None w'
                           /\ w_data w' = w_data w /\ w_pos w <= w_pos w').
  { intros Hbad. destruct (read_buf_none f 1 w ltac:(lia) Hbad) as (bs & w' & H & Hd & Hq).
    exists w'. unfold read_u8. rewrite (mbind_done _ _ _ _ _ H). auto. }
  destruct (Z.eq_dec f (w_fd w)) as [Hf|Hf];
    [destruct (Z.eq_dec (Z.of_nat (length (file_slice w (w_pos w) 1))) 1) as [Hl|Hl]|].
  - left. split; [exact Hf|]. split; [exact Hl|]. apply read_u8_ok; assumption.
  - right. apply Hno. right. exact Hl.
  - right. apply Hno. left. exact Hf.
Qed.

Lemma read_u16_none f w :
  f <> w_fd w \/ Z.of_nat (length (file_slice w (w_pos w) 2)) <> 2 ->
  exists w', read_u16 f w = Done None w'
             /\ w_data w' = w_data w /\ w_pos w <= w_pos w'.
Proof.
  intros Hbad. destruct (read_buf_none f 2 w ltac:(lia) Hbad) as (bs & w' & H & Hd & Hq).
  exists w'. unfold read_u16. rewrite (mbind_done _ _ _ _ _ H). auto.
Qed.

Lemma read_u32_cases f w :
  0 <= w_pos w ->
  (f = w_fd w /\ Z.of_nat (length (file_slice w (w_pos w) 4)) = 4
   /\ read_u32 f w = Done (Some (u32_of_bytes (file_slice w (w_pos w) 4)))
                          (set_pos w (w_pos w + 4)))
  \/ (exists w', read_u32 f w = Done None w'
                 /\ w_data w' = w_data w /\ w_pos w <= w_pos w').
Proof.
  intros Hp.
  destruct (Z.eq_dec f (w_fd w)) as [Hf|Hf];
    [destruct (Z.eq_dec (Z.of_nat (length (file_slice w (w_pos w) 4))) 4) as [Hl|Hl]|].
  - left. split; [exact Hf|]. split; [exact Hl|]. apply read_u32_ok; assumption.
  - right. unfold read_u32.
    destruct (Z.eq_dec (Z.of_nat (length (file_slice w (w_pos w) 2))) 2) as [H2|H2].
    + rewrite (mbind_done _ _ _ _ _ (read_u16_ok f w Hf Hp H2)).
      destruct (read_u16_none f (set_pos w (w_pos w + 2))) as (w' & H & Hd & Hq).
      { right. rewrite w_pos_set_pos, file_slice_set_pos.
        unfold file_slice in *. rewrite length_take, length_drop in *. lia. }
      rewrite (mbind_done _ _ _ _ _ H). exists w'. rewrite mret_eq.
      split; [reflexivity|]. split; [exact Hd|]. cbn in Hq. lia.
    + destruct (read_u16_none f w (or_intror H2)) as (w' & H & Hd & Hq).
      rewrite (mbind_done _ _ _ _ _ H). exists w'. rewrite mret_eq. auto.
  - right. unfold read_u32.
    destruct (read_u16_none f w (or_introl Hf)) as (w' & H & Hd & Hq).
    rewrite (mbind_done _ _ _ _ _ H). exists w'. rewrite mret_eq. auto.
Qed.

(** The header that four successful reads have taken. *)
Lemma header_at_slices w p :
  0 <= p ->
  Z.of_nat (length (file_slice w (p + 9) 4)) = 4 ->
  header_at w p
  = Some (byte_at (file_slice w p 1) 0, u32_of_bytes (file_slice w (p + 1) 4),
          u32_of_bytes (file_slice w (p + 5) 4), u32_of_bytes (file_slice w (p + 9) 4)).
Proof.
  intros Hp H4.
  assert (H13 : length (file_slice w p 13) = 13%nat).
  { unfold file_slice in *. rewrite length_take, length_drop in *. lia. }
  unfold header_at. rewrite H13. cbn [Nat.eqb].
  assert (Hget : forall a, 0 <= a -> a + 4 <= 13 ->
            take 4 (drop (Z.to_nat a) (file_slice w p 13)) = file_slice w (p + a) 4).
  { intros a Ha Hak. change 4%nat with (Z.to_nat 4). apply file_slice_sub; lia. }
  rewrite <- (Hget 1), <- (Hget 5), <- (Hget 9) by lia.
  replace (byte_at (file_slice w p 1) 0) with (byte_at (file_slice w p 13) 0);
    [reflexivity|].
  unfold byte_at, file_slice. rewrite !lookup_take by lia. reflexivity.
Qed.

(** X9: the overflow of the payload read is the only memory error of
    [fill_buffer]. On any file and with any allocator, a fill on a stream
    of the session either returns (0 or -1) or faults by writing past the
    end of its block, and it faults only when the header it has read
    declares less data than payload: [u_len] is below the number of bytes
    the read delivered, itself at most [c_len]. *)
Theorem fill_buffer_faults_only_by_overflow E si i st w flt :
  0 <= i -> s si !! Z.to_nat i = Some st -> 0 <= w_pos w ->
  fill_buffer E si i w = Fault flt ->
  flt = HeapOverflow
  /\ exists w1 c cl ul nx,
       seekto si (last_head st) w = Done 0 w1
       /\ header_at w (w_pos w1) = Some (c, cl, ul, nx)
       /\ ul < Z.of_nat (length (file_slice w (w_pos w1 + 13) (to_int cl)))
       /\ ul < to_int cl.
Proof.
  intros Hi Hst Hp H. unfold fill_buffer in H.
  rewrite (mbind_done _ _ _ _ _ (get_stream_ok si i st w Hi Hst)) in H.
  (* the seek *)
  assert (Hseek : exists r w1, seekto si (last_head st) w = Done r w1
                               /\ w_data w1 = w_data w /\ 0 <= w_pos w1).
  { pose proof (seekto_ok si (last_head st) w) as Hok.
    pose proof (seekto_minus_one si (last_head st) w) as Hm1.
    pose proof (seekto_fail si (last_head st) w) as Hbad.
    destruct (Z.eq_dec (last_head st + initial_pos si) (-1)) as [Hm|Hm];
      [exists 0, w; rewrite (Hm1 Hm); auto|].
    destruct (Z.eq_dec (fd si) (w_fd w)) as [Hf|Hf];
      [destruct (Z_lt_le_dec (last_head st + initial_pos si) 0) as [Hneg|Hnn]|].
    - eexists _, _. rewrite (Hbad Hm (or_intror Hneg)). split; [reflexivity|]. auto.
    - eexists _, _. rewrite (Hok Hf Hnn). split; [reflexivity|]. split; [reflexivity|].
      exact Hnn.
    - eexists _, _. rewrite (Hbad Hm (or_introl Hf)). split; [reflexivity|]. auto. }
  destruct Hseek as (r & w1 & Hs & Hd1 & Hp1).
  rewrite (mbind_done _ _ _ _ _ Hs) in H.
  destruct (Z.eqb_spec r 0) as [->|]; cbn [negb] in H; [|discriminate H].
  set (p := w_pos w1) in *.
  (* the four reads *)
  destruct (read_u8_cases (fd si) w1 Hp1) as [(Hf & L1 & R1)|(w' & R1 & _)];
    rewrite (mbind_done _ _ _ _ _ R1) in H; [|discriminate H].
  destruct (read_u32_cases (fd si) (set_pos w1 (p + 1)) ltac:(cbn; lia))
    as [(_ & L2 & R2)|(w' & R2 & _)];
    rewrite (mbind_done _ _ _ _ _ R2) in H; [|discriminate H].
  rewrite w_pos_set_pos, file_slice_set_pos, set_pos_set_pos in *.
  destruct (read_u32_cases (fd si) (set_pos w1 (p + 1 + 4)) ltac:(cbn; lia))
    as [(_ & L3 & R3)|(w' & R3 & _)];
    rewrite (mbind_done _ _ _ _ _ R3) in H; [|discriminate H].
  rewrite w_pos_set_pos, file_slice_set_pos, set_pos_set_pos in *.
  destruct (read_u32_cases (fd si) (set_pos w1 (p + 1 + 4 + 4)) ltac:(cbn; lia))
    as [(_ & L4 & R4)|(w' & R4 & _)];
    rewrite (mbind_done _ _ _ _ _ R4) in H; [|discriminate H].
  rewrite w_pos_set_pos, file_slice_set_pos, set_pos_set_pos in *.
  replace (p + 1 + 4) with (p + 5) in * by lia.
  replace (p + 5 + 4) with (p + 9) in * by lia.
  replace (p + 9 + 4) with (p + 13) in * by lia.
  pose proof (header_at_slices w1 p Hp1 L4) as Hh.
  rewrite (header_at_frame w w1) in Hh by exact Hd1.
  set (c := byte_at (file_slice w1 p 1) 0) in *.
  set (cl := u32_of_bytes (file_slice w1 (p + 1) 4)) in *.
  set (ul := u32_of_bytes (file_slice w1 (p + 5) 4)) in *.
  set (nx := u32_of_bytes (file_slice w1 (p + 9) 4)) in *.
  pose proof (u32_of_bytes_range (file_slice w1 (p + 1) 4)) as Hcl. fold cl in Hcl.
  pose proof (u32_of_bytes_range (file_slice w1 (p + 5) 4)) as Hul. fold ul in Hul.
  cbv zeta in H.
  (* the block and the payload *)
  rewrite mbind_eq in H. unfold malloc at 1 in H.
  destruct (alloc_ok E _ ul); [|discriminate H].
  cbn [set_stream with_s with_total_read fd] in H.
  set (w5 := count_alloc (set_pos w1 (p + 13))) in *.
  assert (Hread : exists r2 bs w6,
             read_buf (fd si) (to_int cl) w5 = Done (r2, bs) w6
             /\ Z.of_nat (length bs)
                <= Z.of_nat (length (file_slice w (p + 13) (to_int cl)))
             /\ Z.of_nat (length bs) <= Z.max (to_int cl) 0
             /\ (r2 = 0 -> Z.of_nat (length bs) = to_int cl)).
  { destruct (Z_lt_le_dec (to_int cl) 0) as [Hneg|Hnn].
    - unfold read_buf, sys_read. rewrite mbind_eq.
      destruct (negb _); [|destruct (Z.ltb_spec (to_int cl) 0); [|lia]];
        rewrite Z.eqb_refl, err_msg_ret; eexists _, _, _;
        (split; [reflexivity|]); cbn [length]; repeat split; try lia;
        intros; discriminate.
    - destruct (Z.eq_dec (Z.of_nat (length (file_slice w5 (w_pos w5) (to_int cl))))
                  (to_int cl)) as [Hl|Hl].
      + eexists _, _, _. split; [apply read_buf_ok; [exact Hf|exact Hnn|exact Hl]|].
        unfold file_slice in *. cbn [w5 count_alloc set_pos set_file w_data w_pos] in *.
        rewrite Hd1 in *. repeat split; lia.
      + destruct (read_buf_short (fd si) (to_int cl) w5 Hf Hnn Hl) as (w6 & Hr & _).
        eexists _, _, _. split; [exact Hr|].
        pose proof (length_file_slice_le w5 (w_pos w5) (to_int cl) Hnn).
        unfold file_slice in *. cbn [w5 count_alloc set_pos set_file w_data w_pos] in *.
        rewrite Hd1 in *. repeat split; lia. }
  destruct Hread as (r2 & bs & w6 & Hr & Hle & Hmax & Hfull).
  rewrite (mbind_done _ _ _ _ _ Hr) in H.
  rewrite mbind_eq in H. unfold buf_store at 1 in H. cbn [cap mem length] in H.
  change (0 <? 0) with false in H. cbn [orb] in H.
  destruct (Z.ltb_spec ul (0 + Z.of_nat (length bs))) as [Hover|Hfit].
  { (* the overflow *)
    injection H as <-. split; [reflexivity|].
    exists w1, c, cl, ul, nx. split; [exact Hs|]. split; [exact Hh|]. fold p. split; lia. }
  change (Z.of_nat 0 <? 0) with false in H. cbv iota in H. rewrite mret_eq in H.
  rewrite take_nil, drop_nil, app_nil_r in H. cbn [app] in H.
  destruct (Z.eqb_spec r2 0) as [->|]; cbn [negb] in H; [|discriminate H].
  specialize (Hfull eq_refl).
  (* the decompression reads no more than the block has *)
  assert (Hcl2 : to_int cl = cl).
  { unfold to_int in *. change (2 ^ 31) with 2147483648 in *.
    change (2 ^ 32) with 4294967296 in *.
    destruct (Z_lt_le_dec cl 2147483648).
    - rewrite Z.mod_small by lia. lia.
    - replace (cl + 2147483648) with (cl - 2147483648 + 1 * 4294967296) in Hfull by lia.
      rewrite Z.mod_add, Z.mod_small in Hfull by lia. lia. }
  assert (Hdec : exists x w7,
             decompress_buf E
               (with_bufp (with_buflen (with_buf (with_buf (with_last_head st nx)
                   (Some (mkBuffer ul []))) (Some (mkBuffer ul bs))) (to_int ul)) 0)
               cl c w6 = Done x w7).
  { unfold decompress_buf. destruct (c =? CTYPE_NONE); [rewrite mret_eq; eauto|].
    rewrite mbind_eq. unfold malloc at 1.
    cbn [with_bufp with_buflen with_buf buf buflen].
    destruct (alloc_ok E _ _); [|rewrite err_msg_ret; eauto].
    rewrite mbind_eq. unfold BZ2_bzBuffToBuffDecompress.
    rewrite mbind_eq. unfold buf_load. cbn [cap mem].
    destruct (Z.ltb_spec cl 0); [lia|]. change (0 <? 0) with false.
    destruct (Z.ltb_spec ul (0 + cl)); [lia|]. cbn [orb].
    destruct (Z.ltb_spec (Z.of_nat (length bs)) (0 + cl)); [lia|].
    rewrite mret_eq.
    destruct (bz_decompress E _) as [out|]; [destruct (_ <=? _)|];
      rewrite mret_eq; cbv beta iota zeta; try (rewrite err_msg_ret; eauto).
    destruct (negb _); [rewrite err_msg_ret|rewrite mret_eq]; eauto. }
  destruct Hdec as ([r3 st3] & w7 & Hdec).
  rewrite (mbind_done _ _ _ _ _ Hdec) in H. cbv beta iota in H.
  destruct (negb (r3 =? 0)); rewrite mret_eq in H; discriminate H.
Qed.

Lemma fill_buffer_faults_only_by_overflow_witness :
  exists w1 c cl ul nx,
    seekto (mkInfo [with_last_head zero_stream 13] 1 3 0 0 0 13) 13 crafted_file
    = Done 0 w1
    /\ header_at crafted_file (w_pos w1) = Some (c, cl, ul, nx)
    /\ ul < Z.of_nat (length (file_slice crafted_file (w_pos w1 + 13) (to_int cl)))
    /\ ul < to_int cl.
Proof.
  assert (Hrun : fill_buffer plain_env (mkInfo [with_last_head zero_stream 13] 1 3 0 0 0 13)
                   0 crafted_file = Fault HeapOverflow) by (vm_compute; reflexivity).
  exact (proj2 (fill_buffer_faults_only_by_overflow plain_env
                  (mkInfo [with_last_head zero_stream 13] 1 3 0 0 0 13) 0
                  (with_last_head zero_stream 13) crafted_file HeapOverflow
                  ltac:(lia) eq_refl ltac:(cbn; lia) Hrun)).
Defined.

(** ** Opening and closing *)

(** The first loop of [open_stream_out] only allocates; it stops at the
    first request that is refused. *)
Lemma alloc_bufs_inv E k : forall i si lvl w o w',
  alloc_bufs E k i si lvl w = Done o w' ->
  w_data w' = w_data w /\ w_pos w' = w_pos w /\ w_log w' = w_log w
  /\ (w_allocs w <= w_allocs w')%nat
  /\ (o = None ->
      exists a sz, (w_allocs w <= a < w_allocs w')%nat /\ alloc_ok E a sz = false).
Proof.
  induction k as [|k IH]; intros i si lvl w o w' H; cbn [alloc_bufs] in H.
  - rewrite mret_eq in H. injection H as <- <-. repeat split; try lia. discriminate.
  - bind_inv H as st w0 Hg. apply get_stream_inv in Hg. destruct Hg as (-> & _ & _).
    bind_inv H as b w1 Hm. unfold malloc in Hm. injection Hm as <- <-.
    destruct (alloc_ok E (w_allocs w) (bufsize si)) eqn:Ha.
    + apply IH in H. cbn [count_alloc w_data w_pos w_log w_allocs] in H.
      destruct H as (A & B & C & D' & F). repeat split; try assumption; try lia.
      intros Ho. destruct (F Ho) as (a & sz & Hr & Hf). exists a, sz. split; [lia|exact Hf].
    + rewrite mret_eq in H. injection H as <- <-.
      cbn [count_alloc w_data w_pos w_log w_allocs]. repeat split; try lia.
      intros _. exists (w_allocs w), (bufsize si). split; [lia|exact Ha].
Qed.

(** X10: [open_stream_out] returns null only when an allocation was
    refused (the session, the stream array or one of the buffers; a
    negative [n] makes the array one), and it has then written nothing: the
    file, the offset and the log are as they were. The headers are written
    only after every allocation was granted. *)
Theorem open_stream_out_null E f n lvl w w' :
  open_stream_out E f n lvl w = Done None w' ->
  w_data w' = w_data w /\ w_pos w' = w_pos w /\ w_log w' = w_log w
  /\ (n < 0
      \/ exists a sz, (w_allocs w <= a < w_allocs w')%nat /\ alloc_ok E a sz = false).
Proof.
  unfold open_stream_out. intros H.
  bind_inv H as ok w1 H1. unfold alloc_struct in H1. injection H1 as <- <-.
  destruct (alloc_ok E (w_allocs w) sizeof_stream_info) eqn:Ha0; cbn [negb] in H.
  2:{ rewrite mret_eq in H. injection H as <-.
      cbn [count_alloc w_data w_pos w_log w_allocs]. repeat split.
      right. exists (w_allocs w), sizeof_stream_info. split; [lia|exact Ha0]. }
  bind_inv H as ip w2 H2.
  assert (F2 : w_data w2 = w_data w /\ w_pos w2 = w_pos w /\ w_log w2 = w_log w
               /\ w_allocs w2 = S (w_allocs w)).
  { unfold sys_lseek in H2. destruct (negb _); [injection H2 as _ <-; repeat split|].
    destruct (_ <? 0); injection H2 as _ <-; repeat split.
    cbn [set_pos set_file w_pos count_alloc]. lia. }
  destruct F2 as (A2 & B2 & C2 & D2').
  bind_inv H as os w3 H3. unfold calloc_streams in H3. injection H3 as <- <-.
  destruct ((0 <=? n) && alloc_ok E (w_allocs w2) (sizeof_stream * n)) eqn:Hc.
  2:{ rewrite mret_eq in H. injection H as <-.
      cbn [count_alloc w_data w_pos w_log w_allocs]. repeat split; try assumption.
      apply andb_false_iff in Hc. destruct Hc as [Hn|Hr].
      - left. apply Z.leb_gt in Hn. exact Hn.
      - right. exists (w_allocs w2), (sizeof_stream * n). split; [lia|exact Hr]. }
  bind_inv H as o w4 H4. apply alloc_bufs_inv in H4.
  cbn [count_alloc w_data w_pos w_log w_allocs] in H4.
  destruct H4 as (A4 & B4 & C4 & D4 & F4).
  destruct o as [si1|].
  { bind_inv H as si2 w5 H5. rewrite mret_eq in H. discriminate H. }
  rewrite mret_eq in H. injection H as <-.
  repeat split; try congruence.
  right. destruct (F4 eq_refl) as (a & sz & Hr & Hf). exists a, sz. split; [lia|exact Hf].
Qed.

Lemma open_stream_out_null_witness :
  let E := mkEnv (fun _ _ => None) (fun _ => None) (fun a _ => negb (a =? 3)%nat) in
  exists w',
    open_stream_out E 3 2 0 two_streams_file = Done None w'
    /\ w_data w' = w_data two_streams_file /\ w_pos w' = w_pos two_streams_file
    /\ w_log w' = w_log two_streams_file.
Proof.
  intros E.
  assert (Hex : exists w', open_stream_out E 3 2 0 two_streams_file = Done None w')
    by (vm_compute; eauto).
  destruct Hex as (w' & Hrun). exists w'. split; [exact Hrun|].
  destruct (open_stream_out_null E 3 2 0 two_streams_file w' Hrun) as (A & B & C & _).
  auto.
Defined.

(** X11: opening a read-session and closing it at once leaves the
    descriptor just past the [n] initial headers, the sentinels before them
    included: at [w_pos w + 13 k + 13 n] on a file with [k] sentinels and
    then [n] valid headers. *)
Theorem open_close_in_position E f n w k lhs :
  (forall a sz, alloc_ok E a sz = true) ->
  f = w_fd w -> 0 <= w_pos w -> 0 < n -> 13 * n < 2 ^ 32 ->
  (forall j, 0 <= j < Z.of_nat k -> header_at w (w_pos w + 13 * j) = Some sentinel) ->
  Z.of_nat (length lhs) = n ->
  (forall j lh, lhs !! j = Some lh ->
     header_at w (w_pos w + 13 * Z.of_nat k + 13 * Z.of_nat j)
     = Some (CTYPE_NONE, 0, 0, lh)) ->
  lhs !! 0%nat <> Some 0 ->
  exists w',
    (o ← open_stream_in E f n;
     match o with
     | Some sinfo => close_stream_in sinfo
     | None => mret (-1)
     end) w = Done 0 w'
    /\ w_pos w' = w_pos w + 13 * Z.of_nat k + 13 * n
    /\ same_file w w'.
Proof.
  intros Ha Hf Hp Hn H32 Hsent Hlen Hh Hfirst.
  rewrite (mbind_done _ _ _ _ _
             (open_stream_in_valid E f n w k Ha Hf Hp Hn Hsent lhs Hlen Hh Hfirst)).
  unfold close_stream_in. cbn [initial_pos total_read fd].
  rewrite to_u32_small by lia.
  erewrite mbind_done; cycle 1.
  { apply lseek_set_ok; [exact Hf|lia]. }
  rewrite Z.eqb_refl. cbn [negb]. rewrite mret_eq.
  eexists. split; [reflexivity|]. split; [reflexivity|]. repeat split.
Qed.

Lemma open_close_in_position_witness :
  exists w',
    (o ← open_stream_in plain_env 3 1;
     match o with
     | Some sinfo => close_stream_in sinfo
     | None => mret (-1)
     end) double_sentinel_file = Done 0 w'
    /\ w_pos w' = 0 + 13 * Z.of_nat 2 + 13 * 1
    /\ same_file double_sentinel_file w'.
Proof.
  apply (open_close_in_position plain_env 3 1 double_sentinel_file 2 [13]).
  - intros a sz. reflexivity.
  - reflexivity.
  - cbn. lia.
  - lia.
  - lia.
  - intros j Hj. assert (j = 0 \/ j = 1) as [-> | ->] by lia; vm_compute; reflexivity.
  - reflexivity.
  - intros j lh Hj. destruct j as [|j]; [|discriminate Hj].
    injection Hj as <-. vm_compute. reflexivity.
  - discriminate.
Defined.

(** *** [open_stream_in] returns on every file *)

(** The body of the loop with its jumps to [again]: every pass takes 13
    more bytes of the file, so it returns once the fuel covers the bytes
    that are left; and it returns a session only after a whole header was
    read. *)
Lemma read_initial_header_returns fuel : forall f i si w,
  0 <= w_pos w -> 0 <= i -> (Z.to_nat i < length (s si))%nat ->
  (0 < fuel)%nat ->
  Z.of_nat (length (w_data w)) - w_pos w < 13 * Z.of_nat fuel ->
  exists o w',
    read_initial_header fuel f i si w = Done o w'
    /\ w_data w' = w_data w /\ 0 <= w_pos w'
    /\ forall si', o = Some si' ->
         w_pos w + 13 <= w_pos w' <= Z.of_nat (length (w_data w))
         /\ length (s si') = length (s si).
Proof.
  induction fuel as [|fuel IH]; intros f i si w Hp Hi Hlt Hpos Hfuel; [lia|].
  cbn [read_initial_header]. set (p := w_pos w) in *.
  assert (Hnone : forall (wx : world),
            w_data wx = w_data w -> 0 <= w_pos wx ->
            exists o w', (mret None : M (option stream_info)) wx = Done o w'
              /\ w_data w' = w_data w /\ 0 <= w_pos w'
              /\ forall si', o = Some si' ->
                   p + 13 <= w_pos w' <= Z.of_nat (length (w_data w))
                   /\ length (s si') = length (s si)).
  { intros wx Hd Hx. exists None, wx. rewrite mret_eq.
    split; [reflexivity|]. split; [exact Hd|]. split; [exact Hx|]. discriminate. }
  destruct (read_u8_cases f w Hp) as [(Hf & L1 & R1)|(w' & R1 & Hd & Hq)];
    rewrite (mbind_done _ _ _ _ _ R1); [|apply Hnone; [exact Hd|lia]].
  destruct (read_u32_cases f (set_pos w (p + 1)) ltac:(cbn; lia))
    as [(_ & L2 & R2)|(w' & R2 & Hd & Hq)]; rewrite (mbind_done _ _ _ _ _ R2);
    [|apply Hnone; [exact Hd|cbn in Hq; lia]].
  rewrite w_pos_set_pos, file_slice_set_pos, set_pos_set_pos in *.
  destruct (read_u32_cases f (set_pos w (p + 1 + 4)) ltac:(cbn; lia))
    as [(_ & L3 & R3)|(w' & R3 & Hd & Hq)]; rewrite (mbind_done _ _ _ _ _ R3);
    [|apply Hnone; [exact Hd|cbn in Hq; lia]].
  rewrite w_pos_set_pos, file_slice_set_pos, set_pos_set_pos in *.
  destruct (lookup_lt_is_Some_2 (s si) (Z.to_nat i) Hlt) as [st Hst].
  rewrite (mbind_done _ _ _ _ _ (get_stream_ok si i st _ Hi Hst)).
  destruct (read_u32_cases f (set_pos w (p + 1 + 4 + 4)) ltac:(cbn; lia))
    as [(_ & L4 & R4)|(w' & R4 & Hd & Hq)]; rewrite (mbind_done _ _ _ _ _ R4);
    [|apply Hnone; [exact Hd|cbn in Hq; lia]].
  rewrite w_pos_set_pos, file_slice_set_pos, set_pos_set_pos in *.
  assert (Hroom : p + 13 <= Z.of_nat (length (w_data w))).
  { unfold file_slice in L4. rewrite length_take, length_drop in L4. lia. }
  cbv zeta.
  match goal with
  | |- context [if ?c then _ else _] => destruct c
  end.
  - (* the workaround: once more, 13 bytes further *)
    rewrite mbind_eq. cbn [err_msg].
    match goal with
    | |- context [read_initial_header fuel f i ?sx ?wx] =>
        destruct (IH f i sx wx) as (o & w' & Hrun & Hd & Hp' & Hsome)
    end.
    + cbn. lia.
    + exact Hi.
    + cbn [with_initial_pos set_stream with_s s]. rewrite length_insert. exact Hlt.
    + cbn [w_data w_pos set_pos set_file] in *. lia.
    + cbn [w_data w_pos set_pos set_file] in *. lia.
    + exists o, w'. split; [exact Hrun|]. split; [exact Hd|]. split; [exact Hp'|].
      intros si' Ho. destruct (Hsome si' Ho) as (Hrange & Hl).
      cbn [w_data w_pos set_pos set_file with_initial_pos set_stream with_s s] in *.
      rewrite length_insert in Hl. split; [lia|exact Hl].
  - repeat match goal with
           | |- context [if negb ?c then _ else _] => destruct (negb c)
           end;
      try (rewrite err_msg_ret; apply Hnone; cbn; [reflexivity|lia]).
    rewrite mret_eq. eexists _, _. split; [reflexivity|].
    split; [reflexivity|]. split; [cbn; lia|].
    intros si' [= <-]. cbn [w_pos set_pos set_file with_total_read set_stream with_s s].
    rewrite length_insert. split; [lia|reflexivity].
Qed.

Lemma read_initial_headers_returns fuel f k : forall i si w,
  0 <= w_pos w -> 0 <= i -> (Z.to_nat i + k <= length (s si))%nat ->
  (0 < fuel)%nat ->
  Z.of_nat (length (w_data w)) - w_pos w < 13 * Z.of_nat fuel ->
  exists o w',
    read_initial_headers fuel k f i si w = Done o w'
    /\ w_data w' = w_data w
    /\ forall si', o = Some si' ->
         w_pos w + 13 * Z.of_nat k <= w_pos w'
         /\ (k <> O -> w_pos w' <= Z.of_nat (length (w_data w))).
Proof.
  induction k as [|k IH]; intros i si w Hp Hi Hlen Hpos Hfuel; cbn [read_initial_headers].
  - exists (Some si), w. rewrite mret_eq. split; [reflexivity|]. split; [reflexivity|].
    intros si' _. split; [lia|congruence].
  - destruct (read_initial_header_returns fuel f i si w Hp Hi ltac:(lia) Hpos Hfuel)
      as (o & w1 & Hrun & Hd1 & Hp1 & Hsome).
    rewrite (mbind_done _ _ _ _ _ Hrun).
    destruct o as [si1|].
    + destruct (Hsome si1 eq_refl) as (Hrange & Hl1).
      destruct (IH (i + 1) si1 w1 Hp1 ltac:(lia) ltac:(lia) Hpos
                  ltac:(rewrite Hd1; lia)) as (o & w2 & Hrun2 & Hd2 & Hsome2).
      exists o, w2. split; [exact Hrun2|]. split; [congruence|].
      intros si' Ho. destruct (Hsome2 si' Ho) as (Hge & Hle).
      split; [lia|]. intros _. destruct k as [|k'].
      * cbn [read_initial_headers] in Hrun2. rewrite mret_eq in Hrun2.
        injection Hrun2 as _ <-. lia.
      * rewrite <- Hd1. apply Hle. discriminate.
    + exists None, w1. rewrite mret_eq. split; [reflexivity|]. split; [exact Hd1|].
      discriminate.
Qed.

(** [open_stream_in] on any file: it returns, and with a session only when
    the file had room for the [n] headers. *)
Lemma open_stream_in_total E f n w :
  0 <= w_pos w ->
  exists o w',
    open_stream_in E f n w = Done o w'
    /\ forall si, o = Some si ->
         0 < n -> w_pos w + 13 * n <= Z.of_nat (length (w_data w)).
Proof.
  intros Hp. unfold open_stream_in.
  rewrite mbind_eq. unfold alloc_struct at 1.
  destruct (alloc_ok E (w_allocs w) sizeof_stream_info); cbn [negb];
    [|eexists _, _; rewrite mret_eq; split; [reflexivity|discriminate]].
  assert (Hseek : exists ip w2, sys_lseek f 0 SEEK_CUR (count_alloc w) = Done ip w2
                                /\ w_data w2 = w_data w /\ w_pos w2 = w_pos w).
  { unfold sys_lseek. destruct (negb _); [eauto|].
    destruct (Z.ltb_spec (w_pos (count_alloc w) + 0) 0); [eauto|].
    eexists _, _. split; [reflexivity|]. split; [reflexivity|]. cbn. lia. }
  destruct Hseek as (ip & w2 & Hs & Hd2 & Hp2).
  rewrite (mbind_done _ _ _ _ _ Hs).
  rewrite mbind_eq. unfold calloc_streams at 1.
  destruct (Z.leb_spec 0 n) as [Hn|Hn]; cbn [andb];
    [|eexists _, _; rewrite mret_eq; split; [reflexivity|discriminate]].
  destruct (alloc_ok E (w_allocs w2) (sizeof_stream * n));
    [|eexists _, _; rewrite mret_eq; split; [reflexivity|discriminate]].
  rewrite mbind_eq. unfold again_fuel at 1.
  destruct (read_initial_headers_returns (S (length (w_data (count_alloc w2)))) f
              (Z.to_nat n) 0
              (mkInfo (replicate (Z.to_nat n) zero_stream) n f 0 0 ip 0) (count_alloc w2))
    as (o & w' & Hrun & Hd & Hsome).
  - cbn. lia.
  - lia.
  - cbn [s]. rewrite length_replicate. lia.
  - lia.
  - cbn [count_alloc w_data w_pos]. lia.
  - exists o, w'. split; [exact Hrun|].
    intros si Ho Hn0. destruct (Hsome si Ho) as (Hge & Hle).
    cbn [count_alloc w_data w_pos] in *. rewrite Hd2, Hp2 in *.
    specialize (Hle ltac:(lia)). lia.
Qed.

(** X12: [open_stream_in] returns on every file: the jumps to [again]
    cannot go on for ever, since each one has taken 13 more bytes of the
    file. And when it returns a session, the file had at least [13 n] bytes
    from the offset on. *)
Theorem open_stream_in_returns E f n w :
  0 <= w_pos w ->
  exists o w',
    open_stream_in E f n w = Done o w'
    /\ (0 < n -> o <> None -> w_pos w + 13 * n <= Z.of_nat (length (w_data w))).
Proof.
  intros Hp. destruct (open_stream_in_total E f n w Hp) as (o & w' & Hrun & Hsome).
  exists o, w'. split; [exact Hrun|]. intros Hn Ho.
  destruct o as [si|]; [|contradiction]. apply (Hsome si eq_refl Hn).
Qed.

Lemma open_stream_in_returns_witness :
  exists o w',
    open_stream_in plain_env 3 1 double_sentinel_file = Done o w'
    /\ (0 < 1 -> o <> None ->
        w_pos double_sentinel_file + 13 * 1
        <= Z.of_nat (length (w_data double_sentinel_file))).
Proof.
  apply (open_stream_in_returns plain_env 3 1 double_sentinel_file). cbn. lia.
Defined.

(** X13: a file too short for the [n] initial headers is refused: with
    fewer than [13 n] bytes from the offset on, [open_stream_in] returns
    null, whatever the bytes are. *)
Theorem open_stream_in_truncated E f n w :
  0 <= w_pos w -> 0 < n ->
  Z.of_nat (length (w_data w)) < w_pos w + 13 * n ->
  exists w', open_stream_in E f n w = Done None w'.
Proof.
  intros Hp Hn Hshort.
  destruct (open_stream_in_total E f n w Hp) as (o & w' & Hrun & Hsome).
  destruct o as [si|]; [|eauto].
  specialize (Hsome si eq_refl Hn). lia.
Qed.

Lemma open_stream_in_truncated_witness :
  exists w', open_stream_in plain_env 3 2 (set_pos truncated_file 40) = Done None w'.
Proof.
  apply open_stream_in_truncated.
  - cbn. lia.
  - lia.
  - cbn. lia.
Defined.

(** *** A session in which nothing is written *)

Lemma pwrite_past_end (off : nat) (bs d : list byte) :
  (length d <= off)%nat ->
  pwrite off bs d = (d ++ replicate (off - length d) x00) ++ bs.
Proof.
  intros H. unfold pwrite. rewrite take_ge, drop_ge by lia.
  rewrite app_nil_r, <- app_assoc. reflexivity.
Qed.

(** [open_stream_out] when nothing stands in its way: the [N] placeholder
    headers are in the file, and every buffer is empty. *)
Lemma open_stream_out_fresh E f N L w :
  (forall a sz, alloc_ok E a sz = true) ->
  f = w_fd w -> 0 <= w_pos w -> 0 < N -> w_pos w + 13 * N <= w_limit w ->
  exists si w',
    open_stream_out E f N L w = Done (Some si) w'
    /\ w_data w' = pwrite (Z.to_nat (w_pos w))
                     (concat (replicate (Z.to_nat N) (header_bytes CTYPE_NONE 0 0 0)))
                     (w_data w)
    /\ w_pos w' = w_pos w + 13 * N
    /\ w_fd w' = w_fd w /\ w_log w' = w_log w
    /\ num_streams si = N /\ Z.of_nat (length (s si)) = N
    /\ (forall j st, s si !! j = Some st -> buflen st = 0).
Proof.
  intros Ha Hf Hp HN Hlim.
  destruct (open_stream_out_session E f N L w ltac:(lia) Ha) as (ip & w2 & Hip & Hw2 & Hopen).
  destruct (iter_count_alloc_fields (Z.to_nat N) (count_alloc (count_alloc w)))
    as (F1 & F2 & F3 & F4 & F5).
  rewrite <- Hw2 in F1, F2, F3, F4, F5.
  cbn [count_alloc w_fd w_data w_pos w_limit w_log] in F1, F2, F3, F4, F5.
  set (h := header_bytes CTYPE_NONE 0 0 0).
  specialize (Hopen (fun k w0 => f = w_fd w0 /\ 0 <= w_pos w0
                                 /\ w_pos w0 + 13 * Z.of_nat k <= w_limit w0)
                    (fun w0 => write_at w0 h)).
  cbv zeta in Hopen. rewrite Hopen; clear Hopen.
  2:{ intros k w0 (H1 & H2 & H3). split.
      - exists 0. apply emit_initial_ok; [assumption|assumption|lia].
      - cbn [write_at set_file w_fd w_pos w_limit h length header_bytes app u32_bytes u16_bytes].
        repeat split; [assumption|lia|lia]. }
  2:{ rewrite F1, F3, F4. repeat split; [assumption|assumption|lia]. }
  rewrite iter_write_at by lia.
  do 2 eexists. split; [reflexivity|].
  cbn [write_at set_file w_data w_pos w_fd w_log num_streams s].
  rewrite F1, F2, F3, F5. split; [reflexivity|].
  split.
  { rewrite length_concat, fmap_replicate, sum_list_replicate.
    unfold h. rewrite length_header_bytes. lia. }
  split; [reflexivity|]. split; [reflexivity|]. split; [reflexivity|].
  split; [rewrite length_headed, length_replicate; lia|].
  intros j st Hst.
  assert (Hall : forall l c, Forall (fun x => buflen x = 0) l ->
                             Forall (fun x => buflen x = 0) (headed c l)).
  { induction l as [|x l IHl]; intros c Hl; cbn [headed]; [constructor|].
    inversion Hl; subst. constructor; [assumption|]. apply IHl. assumption. }
  assert (Hf0 : Forall (fun x => buflen x = 0)
                  (headed 0 (replicate (Z.to_nat N)
                     (fresh_stream (if L =? 0 then 100 * 1024
                                    else to_u32 (100 * 1024 * L)) L))))
    by (apply Hall, Forall_replicate; reflexivity).
  rewrite Forall_lookup in Hf0. exact (Hf0 j st Hst).
Qed.

(** The loop of [close_stream_out] when no buffer holds anything. *)
Lemma close_out_loop_idle E k : forall i si w,
  0 <= i -> (Z.to_nat i + k <= length (s si))%nat ->
  (forall j st, s si !! j = Some st -> buflen st = 0) ->
  close_out_loop E k i si w = Done (Some si) w.
Proof.
  induction k as [|k IH]; intros i si w Hi Hlen Hall; cbn [close_out_loop];
    [reflexivity|].
  destruct (lookup_lt_is_Some_2 (s si) (Z.to_nat i) ltac:(lia)) as [st Hst].
  rewrite (mbind_done _ _ _ _ _ (get_stream_ok si i st w Hi Hst)).
  rewrite (Hall _ _ Hst). cbn [Z.eqb negb]. apply IH; [lia|lia|exact Hall].
Qed.

(** X14: a session in which nothing is written leaves the [N] placeholder
    headers (3, 0, 0, 0) and nothing else: [close_stream_out] finds every
    buffer empty, flushes nothing and returns 0. *)
Theorem writer_session_empty E f N L w :
  (forall a sz, alloc_ok E a sz = true) ->
  f = w_fd w -> 0 <= w_pos w -> 0 < N -> w_pos w + 13 * N <= w_limit w ->
  exists w',
    writer_session E f N L [] w = Done 0 w'
    /\ w_data w' = pwrite (Z.to_nat (w_pos w))
                     (concat (replicate (Z.to_nat N) (header_bytes CTYPE_NONE 0 0 0)))
                     (w_data w)
    /\ w_pos w' = w_pos w + 13 * N.
Proof.
  intros Ha Hf Hp HN Hlim.
  destruct (open_stream_out_fresh E f N L w Ha Hf Hp HN Hlim)
    as (si & w' & Hopen & Hd & Hq & _ & _ & Hnum & Hlen & Hall).
  exists w'. unfold writer_session. rewrite (mbind_done _ _ _ _ _ Hopen).
  cbn [write_plan]. rewrite mbind_eq, mret_eq. cbn [Z.eqb negb].
  unfold close_stream_out. rewrite Hnum.
  rewrite (mbind_done _ _ _ _ _ (close_out_loop_idle E (Z.to_nat N) 0 si w' ltac:(lia)
                                    ltac:(lia) Hall)).
  rewrite mret_eq. auto.
Qed.

Lemma writer_session_empty_witness :
  exists w',
    writer_session plain_env 3 2 0 [] empty_file = Done 0 w'
    /\ w_data w' = pwrite (Z.to_nat (w_pos empty_file))
                     (concat (replicate (Z.to_nat 2) (header_bytes CTYPE_NONE 0 0 0)))
                     (w_data empty_file)
    /\ w_pos w' = w_pos empty_file + 13 * 2.
Proof.
  apply writer_session_empty.
  - intros a sz. reflexivity.
  - reflexivity.
  - cbn. lia.
  - lia.
  - cbn. lia.
Defined.

Lemma length_concat_headers k (h : list byte) :
  length h = 13%nat -> Z.of_nat (length (concat (replicate k h))) = 13 * Z.of_nat k.
Proof.
  intros Hh. rewrite length_concat, fmap_replicate, sum_list_replicate, Hh. lia.
Qed.

(** Among placeholder headers in a row, each one reads as the sentinel. *)
Lemma header_at_placeholders w pre post k j :
  w_data w = pre ++ concat (replicate k (header_bytes CTYPE_NONE 0 0 0)) ++ post ->
  (j < k)%nat ->
  header_at w (Z.of_nat (length pre) + 13 * Z.of_nat j) = Some sentinel.
Proof.
  intros Hd Hj. set (h := header_bytes CTYPE_NONE 0 0 0) in *.
  replace k with (j + S (k - j - 1))%nat in Hd by lia.
  rewrite replicate_add, concat_app in Hd. cbn [replicate concat] in Hd.
  rewrite <- !app_assoc in Hd. unfold sentinel.
  apply (header_at_bytes w (pre ++ concat (replicate j h))
           (concat (replicate (k - j - 1) h) ++ post)).
  - rewrite Hd, <- !app_assoc. reflexivity.
  - rewrite length_app, Nat2Z.inj_add, (length_concat_headers j h) by reflexivity. lia.
  - unfold CTYPE_NONE. lia.
  - lia.
  - lia.
  - lia.
Qed.

Lemma read_initial_header_eof fuel f i si w :
  0 <= w_pos w -> Z.of_nat (length (w_data w)) <= w_pos w ->
  exists w', read_initial_header (S fuel) f i si w = Done None w'.
Proof.
  intros Hp Heof. cbn [read_initial_header].
  destruct (read_u8_cases f w Hp) as [(_ & L1 & _)|(w' & R1 & _)].
  - unfold file_slice in L1. rewrite length_take, length_drop in L1. lia.
  - rewrite (mbind_done _ _ _ _ _ R1). rewrite mret_eq. eauto.
Qed.

(** Placeholder headers that end the file are all skipped by
    [open_stream_in], which then fails on the end of the file. *)
Lemma open_stream_in_placeholders E f N w pre :
  (forall a sz, alloc_ok E a sz = true) ->
  f = w_fd w -> 0 < N ->
  Z.of_nat (length pre) = w_pos w ->
  w_data w = pre ++ concat (replicate (Z.to_nat N) (header_bytes CTYPE_NONE 0 0 0)) ++ [] ->
  exists w', open_stream_in E f N w = Done None w'.
Proof.
  intros Ha Hf HN Hpre Hd1.
  set (h := header_bytes CTYPE_NONE 0 0 0) in *.
  assert (Hp : 0 <= w_pos w) by lia.
  assert (Hlen1 : Z.of_nat (length (w_data w)) = w_pos w + 13 * N).
  { rewrite Hd1, app_nil_r, length_app, Nat2Z.inj_add, Hpre,
      (length_concat_headers _ h) by reflexivity. lia. }
  unfold open_stream_in.
  rewrite (mbind_done _ _ _ _ _ (alloc_struct_ok E Ha _ w)). cbn [negb].
  assert (Hf1 : f = w_fd (count_alloc w)) by exact Hf.
  assert (Hp1 : 0 <= w_pos (count_alloc w)) by exact Hp.
  rewrite (mbind_done _ _ _ _ _ (lseek_cur_ok f (count_alloc w) Hf1 Hp1)).
  rewrite (mbind_done _ _ _ _ _ (calloc_streams_ok E Ha N _ ltac:(lia))).
  rewrite mbind_eq. unfold again_fuel at 1.
  set (w2 := count_alloc (count_alloc w)).
  change (w_data w2) with (w_data w). change (w_pos (count_alloc w)) with (w_pos w).
  destruct (Z.to_nat N) as [|n'] eqn:HnN; [lia|].
  cbn [read_initial_headers].
  set (si0 := mkInfo _ N f 0 0 (w_pos w) 0).
  replace (S (length (w_data w)))
    with (S n' + S (length (w_data w) - S n'))%nat by lia.
  rewrite (mbind_eq _ (read_initial_header _ _ _ _)).
  rewrite (sentinels_skipped f (S n') _ si0 w2 zero_stream);
    [|exact Hf|exact Hp|reflexivity|reflexivity|].
  2:{ intros j Hj. rewrite (header_at_frame w) by reflexivity.
      change (w_pos w2) with (w_pos w). rewrite <- Hpre.
      replace j with (Z.of_nat (Z.to_nat j)) by lia.
      apply (header_at_placeholders w pre [] (S n')); [exact Hd1|lia]. }
  match goal with
  | |- context [read_initial_header (S ?fu) f 0 ?sx ?wx] =>
      destruct (read_initial_header_eof fu f 0 sx wx) as (w' & Hrun)
  end.
  - cbn. lia.
  - cbn [logged set_pos set_file w_data w_pos]. change (w_data w2) with (w_data w).
    change (w_pos w2) with (w_pos w). lia.
  - rewrite Hrun. rewrite mret_eq. eauto.
Qed.

(** X15: a stream set in which nothing was written cannot be opened for
    reading when it ends the file. Every one of its [N] placeholder headers
    reads as the sentinel of the close workaround on stream 0, so
    [open_stream_in] skips them all, meets the end of the file and returns
    null: the round trip of the empty plan fails for every [N] and every
    level. *)
Theorem empty_set_is_not_reopened E f N L w :
  (forall a sz, alloc_ok E a sz = true) ->
  f = w_fd w -> 0 <= w_pos w -> Z.of_nat (length (w_data w)) <= w_pos w ->
  0 < N -> w_pos w + 13 * N <= w_limit w ->
  exists w', round_trip E f N L [] w = Done None w'.
Proof.
  intros Ha Hf Hp Hend HN Hlim.
  destruct (open_stream_out_fresh E f N L w Ha Hf Hp HN Hlim)
    as (si & w0 & Hopen & Hd & Hq & Hf0 & _ & Hnum & Hlen & Hall).
  assert (Hws : writer_session E f N L [] w = Done 0 w0).
  { unfold writer_session. rewrite (mbind_done _ _ _ _ _ Hopen).
    cbn [write_plan]. rewrite mbind_eq, mret_eq. cbn [Z.eqb negb].
    unfold close_stream_out. rewrite Hnum.
    rewrite (mbind_done _ _ _ _ _ (close_out_loop_idle E (Z.to_nat N) 0 si w0 ltac:(lia)
                                      ltac:(lia) Hall)).
    reflexivity. }
  unfold round_trip.
  rewrite (mbind_done _ _ _ _ _ (lseek_cur_ok f w Hf Hp)).
  rewrite (mbind_done _ _ _ _ _ Hws). cbn [Z.eqb negb].
  rewrite (mbind_done _ _ _ _ _ (lseek_set_ok f (w_pos w) w0 ltac:(congruence) Hp)).
  set (w1 := set_pos w0 (w_pos w)).
  set (pre := w_data w ++ replicate (Z.to_nat (w_pos w) - length (w_data w)) x00).
  assert (Hpre : Z.of_nat (length pre) = w_pos w).
  { unfold pre. rewrite length_app, length_replicate. lia. }
  assert (Hd1 : w_data w1
                = pre ++ concat (replicate (Z.to_nat N) (header_bytes CTYPE_NONE 0 0 0)) ++ []).
  { cbn [w1 set_pos set_file w_data]. rewrite Hd, pwrite_past_end by lia.
    rewrite app_nil_r. reflexivity. }
  destruct (open_stream_in_placeholders E f N w1 pre Ha ltac:(cbn; congruence) HN Hpre Hd1)
    as (w' & Hin).
  unfold reader_session. rewrite (mbind_done _ _ _ _ _ Hin). rewrite mret_eq. eauto.
Qed.

Lemma empty_set_is_not_reopened_witness :
  exists w', round_trip plain_env 3 2 0 [] empty_file = Done None w'.
Proof.
  apply empty_set_is_not_reopened.
  - intros a sz. reflexivity.
  - reflexivity.
  - cbn. lia.
  - cbn. lia.
  - lia.
  - cbn. lia.
Defined.

(** ** A write-session leaves the bytes before its stream set alone *)

Lemma pwrite_keeps (pre : list byte) off bs d :
  pre `prefix_of` d -> (length pre <= off)%nat -> pre `prefix_of` pwrite off bs d.
Proof.
  intros [k ->] Hl. unfold pwrite. rewrite take_app_ge by exact Hl.
  rewrite <- app_assoc. eexists. reflexivity.
Qed.

(** A step that moves neither the bytes nor the offset. *)
Lemma err_msg_still {A} m (a : A) w x w' :
  (err_msg m;; mret a) w = Done x w' ->
  x = a /\ w_data w' = w_data w /\ w_pos w' = w_pos w.
Proof. rewrite err_msg_ret. intros [= <- <-]. repeat split. Qed.

Lemma malloc_still E sz w b w' :
  malloc E sz w = Done b w' -> w_data w' = w_data w /\ w_pos w' = w_pos w.
Proof. unfold malloc. intros [= _ <-]. split; reflexivity. Qed.

Lemma sys_write_keeps (pre : list byte) f p len w r w' :
  pre `prefix_of` w_data w -> Z.of_nat (length pre) <= w_pos w ->
  sys_write f p len w = Done r w' ->
  pre `prefix_of` w_data w' /\ w_pos w <= w_pos w'.
Proof.
  intros Hpre Hpos. unfold sys_write.
  destruct (negb (f =? w_fd w)); [intros [= _ <-]; split; [exact Hpre|lia]|].
  destruct (len <? 0); [intros [= _ <-]; split; [exact Hpre|lia]|].
  destruct (len =? 0); [intros [= _ <-]; split; [exact Hpre|lia]|].
  cbv zeta. destruct (Z.leb_spec (Z.min len (w_limit w - w_pos w)) 0) as [|Hk].
  { intros [= _ <-]. split; [exact Hpre|lia]. }
  intros [= _ <-]. cbn [set_file w_data w_pos]. split; [|lia].
  apply pwrite_keeps; [exact Hpre|lia].
Qed.

Lemma write_buf_keeps (pre : list byte) f p len w r w' :
  pre `prefix_of` w_data w -> Z.of_nat (length pre) <= w_pos w ->
  write_buf f p len w = Done r w' ->
  pre `prefix_of` w_data w' /\ w_pos w <= w_pos w'.
Proof.
  intros Hpre Hpos H. unfold write_buf in H. bind_inv H as ret w1 Hw.
  destruct (sys_write_keeps pre f p len w ret w1 Hpre Hpos Hw) as (K1 & P1).
  destruct (ret =? -1).
  { apply err_msg_still in H. destruct H as (_ & -> & ->). auto. }
  destruct (negb (ret =? len)).
  { apply err_msg_still in H. destruct H as (_ & -> & ->). auto. }
  rewrite mret_eq in H. injection H as _ <-. auto.
Qed.

Lemma write_u8_keeps (pre : list byte) f v w r w' :
  pre `prefix_of` w_data w -> Z.of_nat (length pre) <= w_pos w ->
  write_u8 f v w = Done r w' ->
  pre `prefix_of` w_data w' /\ w_pos w <= w_pos w'.
Proof. unfold write_u8. apply write_buf_keeps. Qed.

Lemma write_u16_keeps (pre : list byte) f v w r w' :
  pre `prefix_of` w_data w -> Z.of_nat (length pre) <= w_pos w ->
  write_u16 f v w = Done r w' ->
  pre `prefix_of` w_data w' /\ w_pos w <= w_pos w'.
Proof. unfold write_u16. apply write_buf_keeps. Qed.

Lemma write_u32_keeps (pre : list byte) f v w r w' :
  pre `prefix_of` w_data w -> Z.of_nat (length pre) <= w_pos w ->
  write_u32 f v w = Done r w' ->
  pre `prefix_of` w_data w' /\ w_pos w <= w_pos w'.
Proof.
  intros Hpre Hpos H. unfold write_u32 in H. cbv zeta in H.
  bind_inv H as r1 w1 H1.
  destruct (write_u16_keeps pre f _ w r1 w1 Hpre Hpos H1) as (K1 & P1).
  destruct (negb (r1 =? 0)); [rewrite mret_eq in H; injection H as _ <-; auto|].
  bind_inv H as r2 w2 H2.
  destruct (write_u16_keeps pre f _ w1 r2 w2 K1 ltac:(lia) H2) as (K2 & P2).
  destruct (negb (r2 =? 0)); rewrite mret_eq in H; injection H as _ <-;
    (split; [exact K2|lia]).
Qed.

(** A seek that reports success has moved to the offset it was asked for,
    when that offset is not negative. *)
Lemma seekto_lands si pos w r w' :
  seekto si pos w = Done r w' ->
  w_data w' = w_data w
  /\ (r = 0 -> 0 <= pos + initial_pos si -> w_pos w' = pos + initial_pos si).
Proof.
  unfold seekto, sys_lseek. cbv zeta. rewrite mbind_eq.
  destruct (negb (fd si =? w_fd w)).
  { destruct (Z.eqb_spec (-1) (pos + initial_pos si)) as [He|He]; cbn [negb].
    - rewrite mret_eq. intros [= <- <-]. split; [reflexivity|lia].
    - intros H. apply err_msg_still in H. destruct H as (-> & -> & _).
      split; [reflexivity|lia]. }
  destruct (Z.ltb_spec (pos + initial_pos si) 0) as [Hneg|Hnn].
  { destruct (Z.eqb_spec (-1) (pos + initial_pos si)) as [He|He]; cbn [negb].
    - rewrite mret_eq. intros [= <- <-]. split; [reflexivity|lia].
    - intros H. apply err_msg_still in H. destruct H as (-> & -> & _).
      split; [reflexivity|lia]. }
  rewrite Z.eqb_refl. cbn [negb]. rewrite mret_eq. intros [= <- <-].
  split; reflexivity.
Qed.

Lemma compress_buf_still E st ct cl w st' ct' cl' w' :
  compress_buf E st ct cl w = Done (st', ct', cl') w' ->
  w_data w' = w_data w /\ w_pos w' = w_pos w /\ last_head st' = last_head st.
Proof.
  unfold compress_buf. cbv zeta.
  destruct (bzip_level st =? 0).
  { rewrite mret_eq. intros [= <- _ _ <-]. auto. }
  intros H. bind_inv H as cb w1 Hm. apply malloc_still in Hm. destruct Hm as (Hd & Hp).
  destruct cb as [b|]; [|rewrite mret_eq in H; injection H as <- _ _ <-; auto].
  bind_inv H as o w2 Hz.
  assert (Hw2 : w2 = w1).
  { unfold BZ2_bzBuffToBuffCompress in Hz.
    destruct (_ || _); [rewrite mret_eq in Hz; injection Hz as _ <-; reflexivity|].
    destruct (buf st) as [sb|]; [|rewrite mret_eq in Hz; injection Hz as _ <-; reflexivity].
    bind_inv Hz as src w3 Hl. apply buf_load_same in Hl. subst w3.
    destruct (bz_compress E _ src) as [out|].
    - destruct (_ <=? _); rewrite mret_eq in Hz; injection Hz as _ <-; reflexivity.
    - rewrite mret_eq in Hz. injection Hz as _ <-. reflexivity. }
  subst w2.
  destruct o as [out|]; rewrite mret_eq in H; injection H as <- _ _ <-; auto.
Qed.

Lemma seeks_from_set_stream p0 si i st :
  seeks_from p0 si -> 0 <= last_head st -> seeks_from p0 (set_stream si i st).
Proof.
  intros (A & B & C) Hst. repeat split; try assumption.
  cbn [set_stream with_s s]. apply Forall_insert; assumption.
Qed.

Lemma seeks_from_cur_pos p0 si v :
  seeks_from p0 si -> 0 <= v -> seeks_from p0 (with_cur_pos si v).
Proof. intros (A & B & C) Hv. repeat split; assumption. Qed.

Lemma seeks_from_lookup p0 si i st :
  seeks_from p0 si -> s si !! i = Some st -> 0 <= last_head st.
Proof.
  intros (_ & _ & C) Hst. rewrite Forall_lookup in C. exact (C i st Hst).
Qed.

Lemma to_u32_nonneg v : 0 <= to_u32 v.
Proof. apply to_u32_range. Qed.

#[local] Hint Resolve seeks_from_set_stream seeks_from_cur_pos to_u32_nonneg : frame.

Section WriterFrame.

Context (E : Env) (p0 : Z) (pre : list byte).
Hypothesis pre_before : Z.of_nat (length pre) <= p0.

(** A flush writes at the header it patches and at the end of the set,
    both at or after [p0]. *)
Lemma flush_buffer_keeps si j w r si' w' :
  seeks_from p0 si -> pre `prefix_of` w_data w ->
  flush_buffer E si j w = Done (r, si') w' ->
  pre `prefix_of` w_data w' /\ seeks_from p0 si'.
Proof.
  intros Hsf Hpre H. unfold flush_buffer in H.
  bind_inv H as st w0 Hg. apply get_stream_inv in Hg. destruct Hg as (-> & Hj & Hst).
  pose proof (seeks_from_lookup _ _ _ _ Hsf Hst) as Hlh.
  pose proof Hsf as (Hip & Hcp & _).
  bind_inv H as r1 w1 Hs1. apply seekto_lands in Hs1. destruct Hs1 as (D1 & L1).
  destruct (Z.eqb_spec r1 0) as [->|]; cbn [negb] in H;
    [|rewrite mret_eq in H; injection H as _ <- <-; rewrite D1; auto].
  specialize (L1 eq_refl ltac:(lia)).
  bind_inv H as r2 w2 Hw2.
  destruct (write_u32_keeps pre _ _ w1 r2 w2 ltac:(rewrite D1; exact Hpre) ltac:(lia) Hw2)
    as (K2 & _).
  destruct (negb (r2 =? 0)); [rewrite mret_eq in H; injection H as _ <- <-; auto|].
  cbv zeta in H.
  set (st1 := with_last_head st (to_u32 (cur_pos si + 9))) in H.
  set (si1 := set_stream si j st1) in H.
  assert (Hsf1 : seeks_from p0 si1).
  { apply seeks_from_set_stream; [exact Hsf|cbn; apply to_u32_nonneg]. }
  bind_inv H as r3 w3 Hs3. apply seekto_lands in Hs3. destruct Hs3 as (D3 & L3).
  destruct (Z.eqb_spec r3 0) as [->|]; cbn [negb] in H;
    [|rewrite mret_eq in H; injection H as _ <- <-; rewrite D3; auto].
  specialize (L3 eq_refl ltac:(cbn; lia)).
  change (initial_pos si1) with (initial_pos si) in L3.
  change (cur_pos si1) with (cur_pos si) in L3.
  bind_inv H as [[st2 ct] cl] w4 Hc. apply compress_buf_still in Hc.
  destruct Hc as (D4 & P4 & Hlh2). cbv beta iota zeta in H.
  set (si2 := set_stream si1 j st2) in H.
  assert (Hsf2 : seeks_from p0 si2).
  { apply seeks_from_set_stream; [exact Hsf1|rewrite Hlh2; cbn; apply to_u32_nonneg]. }
  assert (K4 : pre `prefix_of` w_data w4) by (rewrite D4, D3; exact K2).
  assert (Q4 : Z.of_nat (length pre) <= w_pos w4) by lia.
  bind_inv H as r5 w5 H5.
  destruct (write_u8_keeps pre _ _ w4 r5 w5 K4 Q4 H5) as (K5 & Q5).
  destruct (negb (r5 =? 0)); [rewrite mret_eq in H; injection H as _ <- <-; auto|].
  bind_inv H as r6 w6 H6.
  destruct (write_u32_keeps pre _ _ w5 r6 w6 K5 ltac:(lia) H6) as (K6 & Q6).
  destruct (negb (r6 =? 0)); [rewrite mret_eq in H; injection H as _ <- <-; auto|].
  bind_inv H as r7 w7 H7.
  destruct (write_u32_keeps pre _ _ w6 r7 w7 K6 ltac:(lia) H7) as (K7 & Q7).
  destruct (negb (r7 =? 0)); [rewrite mret_eq in H; injection H as _ <- <-; auto|].
  bind_inv H as r8 w8 H8.
  destruct (write_u32_keeps pre _ _ w7 r8 w8 K7 ltac:(lia) H8) as (K8 & Q8).
  destruct (negb (r8 =? 0)); [rewrite mret_eq in H; injection H as _ <- <-; auto|].
  set (si3 := with_cur_pos si2 (to_u32 (cur_pos si2 + 13))) in H.
  assert (Hsf3 : seeks_from p0 si3).
  { apply seeks_from_cur_pos; [exact Hsf2|apply to_u32_nonneg]. }
  bind_inv H as bs w9 Hl.
  assert (Hw9 : w9 = w8).
  { destruct (_ <=? 0).
    - rewrite mret_eq in Hl. injection Hl as _ <-. reflexivity.
    - apply buf_load_same in Hl. exact Hl. }
  subst w9.
  bind_inv H as r10 w10 H10.
  destruct (write_buf_keeps pre _ _ _ w8 r10 w10 K8 ltac:(lia) H10) as (K10 & Q10).
  destruct (negb (r10 =? 0)); [rewrite mret_eq in H; injection H as _ <- <-; auto|].
  set (si4 := with_cur_pos si3 (to_u32 (cur_pos si3 + cl))) in H.
  assert (Hsf4 : seeks_from p0 si4).
  { apply seeks_from_cur_pos; [exact Hsf3|apply to_u32_nonneg]. }
  bind_inv H as nb w11 Hm. apply malloc_still in Hm. destruct Hm as (D11 & _).
  assert (Hsf5 : seeks_from p0 (set_stream si4 j (with_buf (with_buflen st2 0) nb))).
  { apply seeks_from_set_stream; [exact Hsf4|].
    cbn [with_buf with_buflen last_head]. rewrite Hlh2. cbn. apply to_u32_nonneg. }
  destruct nb; rewrite mret_eq in H; injection H as _ <- <-;
    (split; [rewrite D11; exact K10|exact Hsf5]).
Qed.

Lemma memcpy_to_still b off p n w b' w' :
  memcpy_to b off p n w = Done b' w' -> w' = w.
Proof.
  unfold memcpy_to. destruct (n <? 0); [discriminate|].
  destruct (n =? 0); [rewrite mret_eq; intros [= _ <-]; reflexivity|].
  destruct (_ <? n); [discriminate|]. apply buf_store_same.
Qed.

Lemma write_stream_loop_keeps fuel : forall si j p len w r si' w',
  seeks_from p0 si -> pre `prefix_of` w_data w ->
  write_stream_loop E fuel si j p len w = Done (r, si') w' ->
  pre `prefix_of` w_data w' /\ seeks_from p0 si'.
Proof.
  induction fuel as [|fuel IH]; intros si j p len w r si' w' Hsf Hpre H; [discriminate|].
  cbn [write_stream_loop] in H.
  destruct (len =? 0); [rewrite mret_eq in H; injection H as _ <- <-; auto|].
  bind_inv H as st w0 Hg. apply get_stream_inv in Hg. destruct Hg as (-> & Hj & Hst).
  pose proof (seeks_from_lookup _ _ _ _ Hsf Hst) as Hlh.
  cbv zeta in H.
  bind_inv H as nb w1 Hc. apply memcpy_to_still in Hc. subst w1.
  match type of H with
  | context [set_stream si j ?stx] =>
      assert (Hsf1 : seeks_from p0 (set_stream si j stx))
        by (apply seeks_from_set_stream; [exact Hsf|exact Hlh])
  end.
  destruct (_ =? bufsize _).
  - bind_inv H as [r1 si1] w1 Hf.
    destruct (flush_buffer_keeps _ _ _ _ _ _ Hsf1 Hpre Hf) as (K1 & S1).
    cbv beta iota in H.
    destruct (negb (r1 =? 0)); [rewrite mret_eq in H; injection H as _ <- <-; auto|].
    exact (IH _ _ _ _ _ _ _ _ S1 K1 H).
  - exact (IH _ _ _ _ _ _ _ _ Hsf1 Hpre H).
Qed.

Lemma write_plan_keeps : forall plan si w r si' w',
  seeks_from p0 si -> pre `prefix_of` w_data w ->
  write_plan E si plan w = Done (r, si') w' ->
  pre `prefix_of` w_data w' /\ seeks_from p0 si'.
Proof.
  induction plan as [|[j bs] plan IH]; intros si w r si' w' Hsf Hpre H.
  - cbn [write_plan] in H. rewrite mret_eq in H. injection H as _ <- <-. auto.
  - cbn [write_plan] in H. bind_inv H as [r1 si1] w1 Hw.
    destruct (write_stream_loop_keeps _ _ _ _ _ _ _ _ _ Hsf Hpre Hw) as (K1 & S1).
    cbv beta iota in H.
    destruct (negb (r1 =? 0)); [rewrite mret_eq in H; injection H as _ <- <-; auto|].
    exact (IH _ _ _ _ _ S1 K1 H).
Qed.

Lemma close_out_loop_keeps k : forall i si w o w',
  seeks_from p0 si -> pre `prefix_of` w_data w ->
  close_out_loop E k i si w = Done o w' ->
  pre `prefix_of` w_data w'.
Proof.
  induction k as [|k IH]; intros i si w o w' Hsf Hpre H.
  - cbn [close_out_loop] in H. rewrite mret_eq in H. injection H as _ <-. exact Hpre.
  - cbn [close_out_loop] in H.
    bind_inv H as st w0 Hg. apply get_stream_inv in Hg. destruct Hg as (-> & _ & _).
    destruct (negb (buflen st =? 0)).
    + bind_inv H as [r1 si1] w1 Hf.
      destruct (flush_buffer_keeps _ _ _ _ _ _ Hsf Hpre Hf) as (K1 & S1).
      cbv beta iota in H.
      destruct (negb (r1 =? 0)); [rewrite mret_eq in H; injection H as _ <-; exact K1|].
      exact (IH _ _ _ _ _ S1 K1 H).
    + exact (IH _ _ _ _ _ Hsf Hpre H).
Qed.

Lemma alloc_bufs_keeps k : forall i si L w o w',
  seeks_from p0 si ->
  alloc_bufs E k i si L w = Done o w' ->
  w_data w' = w_data w /\ w_pos w' = w_pos w
  /\ forall si', o = Some si' -> seeks_from p0 si'.
Proof.
  induction k as [|k IH]; intros i si L w o w' Hsf H.
  - cbn [alloc_bufs] in H. rewrite mret_eq in H. injection H as <- <-.
    split; [reflexivity|split; [reflexivity|]]. intros six [= <-]. exact Hsf.
  - cbn [alloc_bufs] in H.
    bind_inv H as st w0 Hg. apply get_stream_inv in Hg. destruct Hg as (-> & _ & Hst).
    pose proof (seeks_from_lookup _ _ _ _ Hsf Hst) as Hlh.
    bind_inv H as b w1 Hm. apply malloc_still in Hm. destruct Hm as (D1 & P1).
    cbv zeta in H. destruct b as [b|].
    + apply IH in H.
      * destruct H as (D2 & P2 & S2).
        split; [congruence|split; [congruence|exact S2]].
      * apply seeks_from_set_stream; [|exact Hlh].
        apply seeks_from_set_stream; [exact Hsf|exact Hlh].
    + rewrite mret_eq in H. injection H as <- <-.
      split; [exact D1|split; [exact P1|]]. intros six [=].
Qed.

Lemma write_initial_headers_keeps k : forall i si w si' w',
  seeks_from p0 si -> pre `prefix_of` w_data w -> Z.of_nat (length pre) <= w_pos w ->
  write_initial_headers k i si w = Done si' w' ->
  pre `prefix_of` w_data w' /\ seeks_from p0 si'.
Proof.
  induction k as [|k IH]; intros i si w si' w' Hsf Hpre Hpos H.
  - cbn [write_initial_headers] in H. rewrite mret_eq in H. injection H as <- <-. auto.
  - cbn [write_initial_headers] in H.
    bind_inv H as st w0 Hg. apply get_stream_inv in Hg. destruct Hg as (-> & _ & Hst).
    cbv zeta in H.
    bind_inv H as r1 w1 H1.
    destruct (write_u8_keeps pre _ _ w r1 w1 Hpre Hpos H1) as (K1 & Q1).
    bind_inv H as r2 w2 H2.
    destruct (write_u32_keeps pre _ _ w1 r2 w2 K1 ltac:(lia) H2) as (K2 & Q2).
    bind_inv H as r3 w3 H3.
    destruct (write_u32_keeps pre _ _ w2 r3 w3 K2 ltac:(lia) H3) as (K3 & Q3).
    bind_inv H as r4 w4 H4.
    destruct (write_u32_keeps pre _ _ w3 r4 w4 K3 ltac:(lia) H4) as (K4 & Q4).
    apply IH in H; [exact H| |exact K4|lia].
    apply seeks_from_cur_pos; [|apply to_u32_nonneg].
    apply seeks_from_set_stream; [exact Hsf|cbn; apply to_u32_nonneg].
Qed.

End WriterFrame.

Lemma open_stream_out_keeps E f n L (pre : list byte) w o w' :
  f = w_fd w -> 0 <= w_pos w ->
  pre `prefix_of` w_data w -> Z.of_nat (length pre) <= w_pos w ->
  open_stream_out E f n L w = Done o w' ->
  pre `prefix_of` w_data w'
  /\ forall si, o = Some si -> seeks_from (w_pos w) si.
Proof.
  intros Hf Hp Hpre Hlen H.
  unfold open_stream_out in H.
  bind_inv H as ok w1 Ha. unfold alloc_struct in Ha. injection Ha as _ <-.
  destruct (negb ok).
  { rewrite mret_eq in H. injection H as <- <-. split; [exact Hpre|intros si [=]]. }
  cbv zeta in H.
  rewrite (mbind_done _ _ _ _ _ (lseek_cur_ok f (count_alloc w) Hf Hp)) in H.
  bind_inv H as os w2 Hc. unfold calloc_streams in Hc. injection Hc as Hos <-.
  destruct os as [ss|];
    [|rewrite mret_eq in H; injection H as <- <-; split; [exact Hpre|intros si [=]]].
  assert (Hss : ss = replicate (Z.to_nat n) zero_stream).
  { destruct (_ && _); [injection Hos as <-; reflexivity|discriminate]. }
  bind_inv H as o1 w3 Hb.
  apply (alloc_bufs_keeps E (w_pos w)) in Hb.
  2:{ repeat split; cbn; try lia. rewrite Hss. apply Forall_replicate. cbn. lia. }
  destruct Hb as (D3 & P3 & S3).
  destruct o1 as [si1|];
    [|rewrite mret_eq in H; injection H as <- <-; split;
      [rewrite D3; exact Hpre|intros si [=]]].
  bind_inv H as si2 w4 Hh.
  apply (write_initial_headers_keeps (w_pos w) pre) in Hh;
    [|exact (S3 si1 eq_refl)|rewrite D3; exact Hpre|rewrite P3; exact Hlen].
  rewrite mret_eq in H. injection H as <- <-. destruct Hh as (K4 & S4).
  split; [exact K4|]. intros si [= <-]. exact S4.
Qed.

(** Bytes that end at or before the offset a write-session is opened at
    are still at the start of the file when the session is over. *)
Lemma writer_session_prefix E f N L plan (pre : list byte) w r w' :
  f = w_fd w -> 0 <= w_pos w ->
  pre `prefix_of` w_data w -> Z.of_nat (length pre) <= w_pos w ->
  writer_session E f N L plan w = Done r w' ->
  pre `prefix_of` w_data w'.
Proof.
  intros Hf Hp Hpre Hlen H. unfold writer_session in H.
  bind_inv H as o w1 Ho.
  destruct (open_stream_out_keeps E f N L pre w o w1 Hf Hp Hpre Hlen Ho) as (K1 & S1).
  destruct o as [si|]; [|rewrite mret_eq in H; injection H as _ <-; exact K1].
  specialize (S1 si eq_refl).
  bind_inv H as [r2 si2] w2 Hw.
  destruct (write_plan_keeps E (w_pos w) _ Hlen plan si w1 r2 si2 w2 S1 K1 Hw) as (K2 & S2).
  cbv beta iota in H.
  destruct (negb (r2 =? 0)); [rewrite mret_eq in H; injection H as _ <-; exact K2|].
  unfold close_stream_out in H. bind_inv H as o3 w3 Hc.
  pose proof (close_out_loop_keeps E (w_pos w) _ Hlen _ _ _ _ _ _ S2 K2 Hc) as K3.
  destruct o3; rewrite mret_eq in H; injection H as _ <-; exact K3.
Qed.

(** X16: a write-session never touches the bytes of the file that come
    before the offset it was opened at. Whatever [open_stream_out], the
    writes and [close_stream_out] return, succeed or fail, and whatever the
    allocator and the codec do, the file still starts with the bytes it had
    before that offset: the headers are written from there on, and every
    later seek goes to that offset plus an unsigned position. *)
Theorem writer_session_keeps_prefix E f N L plan w r w' :
  f = w_fd w -> 0 <= w_pos w ->
  writer_session E f N L plan w = Done r w' ->
  take (Z.to_nat (w_pos w)) (w_data w) `prefix_of` w_data w'.
Proof.
  intros Hf Hp. apply writer_session_prefix; [exact Hf|exact Hp|apply prefix_take|].
  rewrite length_take. lia.
Qed.

Lemma writer_session_keeps_prefix_witness :
  exists r w',
    writer_session plain_env 3 2 0 sample_plan
      (mkWorld 3 [x01; x02; x03; x04] 2 (2 ^ 40) 0 []) = Done r w'
    /\ [x01; x02] `prefix_of` w_data w'.
Proof.
  assert (H : exists r w',
             writer_session plain_env 3 2 0 sample_plan
               (mkWorld 3 [x01; x02; x03; x04] 2 (2 ^ 40) 0 []) = Done r w')
    by (vm_compute; eauto).
  destruct H as (r & w' & H). exists r, w'. split; [exact H|].
  apply (writer_session_keeps_prefix plain_env 3 2 0 sample_plan
           (mkWorld 3 [x01; x02; x03; x04] 2 (2 ^ 40) 0 []) r w').
  - reflexivity.
  - cbn. lia.
  - exact H.
Defined.

(** ** Writes that stay in the buffer *)

(** X17: a write that does not fill the buffer of its stream is only
    buffered. When the [len] bytes leave room in the buffer ([buflen + len]
    is below [bufsize]), [write_stream] returns 0 after appending them to
    the buffer of the stream: the file, its offset and the log are as they
    were, and no other stream changes. *)
Theorem write_stream_buffers E si i st c m p len w :
  0 <= i -> s si !! Z.to_nat i = Some st ->
  buf st = Some (mkBuffer c m) -> buflen st = Z.of_nat (length m) ->
  0 < len -> len <= Z.of_nat (length p) ->
  buflen st + len < bufsize si -> bufsize si <= c -> bufsize si < 2 ^ 31 ->
  write_stream E si i p len w
  = Done (0, set_stream si i
               (with_buflen (with_buf st (Some (mkBuffer c (m ++ take (Z.to_nat len) p))))
                            (buflen st + len))) w.
Proof.
  intros Hi Hst Hbuf Hbl Hlen Hp Hroom Hc HB. unfold write_stream.
  replace (Z.to_nat len + 2)%nat with (S (S (Z.to_nat len))) by lia.
  cbn [write_stream_loop].
  destruct (Z.eqb_spec len 0) as [|_]; [lia|].
  rewrite (mbind_done _ _ _ _ _ (get_stream_ok si i st w Hi Hst)). cbv zeta.
  assert (Hn : to_int (MIN (to_u32 (bufsize si - to_u32 (buflen st))) (to_u32 len)) = len).
  { rewrite (to_u32_small (buflen st)) by lia.
    rewrite (to_u32_small (bufsize si - buflen st)) by lia.
    rewrite (to_u32_small len) by lia.
    rewrite MIN_min, Z.min_r by lia. apply to_int_small. lia. }
  rewrite Hn, Hbuf, Hbl.
  rewrite (mbind_done _ _ _ _ _ (memcpy_to_append c m p len w Hlen Hp ltac:(lia))).
  cbn [with_buflen with_buf buflen set_stream with_s bufsize].
  rewrite to_u32_small by lia.
  destruct (Z.eqb_spec (Z.of_nat (length m) + len) (bufsize si)) as [|_]; [lia|].
  rewrite Z.sub_diag. cbn [Z.eqb]. rewrite mret_eq. reflexivity.
Qed.

Lemma write_stream_buffers_witness :
  write_stream plain_env
    (mkInfo [mkStream 9 (Some (mkBuffer 102400 [x41])) 1 0 0] 1 3 102400 13 0 0)
    0 [x42; x43] 2 empty_file
  = Done (0, mkInfo [mkStream 9 (Some (mkBuffer 102400 [x41; x42; x43])) 3 0 0]
               1 3 102400 13 0 0) empty_file.
Proof.
  apply (write_stream_buffers plain_env
           (mkInfo [mkStream 9 (Some (mkBuffer 102400 [x41])) 1 0 0] 1 3 102400 13 0 0)
           0 (mkStream 9 (Some (mkBuffer 102400 [x41])) 1 0 0) 102400 [x41] [x42; x43] 2
           empty_file).
  - lia.
  - reflexivity.
  - reflexivity.
  - reflexivity.
  - lia.
  - cbn. lia.
  - cbn. lia.
  - cbn. lia.
  - cbn. lia.
Defined.

(** ** A read of a negative count *)

(** An iteration of the loop of [read_stream] that copies nothing and
    fills nothing leaves the state as it found it: the loop never ends. *)
Lemma read_stream_loop_stuck E si i st out len ret w :
  0 <= i -> s si !! Z.to_nat i = Some st ->
  bufp st <> buflen st -> len <> 0 -> MIN (buflen st - bufp st) len <= 0 ->
  forall fuel, read_stream_loop E fuel si i out len ret w = Timeout.
Proof.
  intros Hi Hst Hne Hlen Hmin fuel. induction fuel as [|fuel IH]; [reflexivity|].
  rewrite read_stream_loop_step by exact Hlen.
  rewrite (mbind_done _ _ _ _ _ (get_stream_ok si i st w Hi Hst)).
  unfold copy_out. cbv zeta.
  destruct (Z.ltb_spec 0 (MIN (buflen st - bufp st) len)); [lia|].
  rewrite mbind_eq, mret_eq. cbv beta iota zeta.
  rewrite (set_stream_id si i st Hst).
  destruct (Z.eqb_spec (bufp st) (buflen st)); [contradiction|].
  rewrite andb_false_r. exact IH.
Qed.

(** X18: [read_stream] asked for a negative count on a stream whose buffer
    is not used up never returns. The count taken from the buffer is the
    smaller of what is buffered and [len], so it is negative and nothing is
    copied; the buffer is not empty, so no fill is made; and [len] is still
    not zero: every iteration of the loop leaves the state as it found it,
    whatever the number of iterations allowed. *)
Theorem read_stream_negative_len_hangs E si i st out len ret w :
  0 <= i -> s si !! Z.to_nat i = Some st ->
  bufp st <> buflen st -> len < 0 ->
  forall fuel, read_stream_loop E fuel si i out len ret w = Timeout.
Proof.
  intros Hi Hst Hne Hlen.
  apply (read_stream_loop_stuck E si i st); try assumption; [lia|].
  pose proof (MIN_le_r (buflen st - bufp st) len). lia.
Qed.

Lemma read_stream_negative_len_hangs_witness :
  read_stream_loop plain_env 1000
    (mkInfo [mkStream 0 (Some (mkBuffer 2 [x41; x42])) 2 0 0] 1 3 0 0 0 26)
    0 [] (-1) 0 empty_file = Timeout.
Proof.
  apply (read_stream_negative_len_hangs plain_env
           (mkInfo [mkStream 0 (Some (mkBuffer 2 [x41; x42])) 2 0 0] 1 3 0 0 0 26)
           0 (mkStream 0 (Some (mkBuffer 2 [x41; x42])) 2 0 0) [] (-1) 0 empty_file).
  - lia.
  - reflexivity.
  - cbn. lia.
  - lia.
Defined.

(** ** Reading on after the end of a stream *)

Lemma reader_inv_follows N p0 D rs R si w i :
  reader_inv N p0 D rs R si w -> 0 <= i < N ->
  follows p0 D rs i (R i) i si w.
Proof.
  intros [Hfd Hip Hlen Hdat Hstreams] Hi.
  destruct (lookup_lt_is_Some_2 (s si) (Z.to_nat i) ltac:(lia)) as [st Hst].
  constructor; try assumption. exists st. split; [exact Hst|].
  apply Hstreams; [lia|exact Hst].
Qed.

(** A chain with nothing left has no chunk left. *)
Lemma stream_data_nil_none c suf :
  Forall (fun r => k_stream r = c -> k_data r <> []) suf ->
  stream_data c suf = [] -> has_stream c suf = false.
Proof.
  induction 1 as [|r l Hr _ IH]; intros Hd; [reflexivity|].
  unfold has_stream. cbn [existsb]. cbn [stream_data] in Hd.
  destruct (Z.eqb_spec (k_stream r) c) as [Hc|Hc].
  - specialize (Hr Hc). destruct (k_data r); [contradiction|discriminate Hd].
  - cbn [orb]. apply IH. exact Hd.
Qed.

Section Slot.

Context (E : Env) (p0 : Z) (D : list byte) (rs : list chunk).
Hypothesis allocs_granted : forall a sz, alloc_ok E a sz = true.
Hypothesis layout_readable : readable E p0 D rs.

(** A fill on a slot that has bytes left on the chain it follows takes in
    the next chunk of that chain. *)
Lemma fill_buffer_follows c rem si w i st :
  follows p0 D rs c rem i si w ->
  0 <= i -> s si !! Z.to_nat i = Some st ->
  bufp st = buflen st -> rem <> [] ->
  exists si' w' st',
    fill_buffer E si i w = Done (0, si') w'
    /\ follows p0 D rs c rem i si' w'
    /\ s si' !! Z.to_nat i = Some st'
    /\ bufp st' = 0 /\ 0 < buflen st'.
Proof.
  intros Hinv Hi Hst Hempty Hrem.
  destruct Hinv as [Hfd Hip Hdat (st0 & Hst0 & Hat)].
  rewrite Hst in Hst0. injection Hst0 as <-.
  destruct layout_readable as [(fpre & fpost & HD & Hfpre) Hlinked Hchunks Hsize].
  destruct Hat as (pre & suf & bs & Hrs & Hlh & Hall & Hun & HR).
  assert (Hbs : bs = []).
  { destruct Hun as (_ & Hl & _). destruct bs; [reflexivity|cbn [length] in Hl; lia]. }
  subst bs. cbn [app] in HR.
  destruct (first_chunk c suf (has_stream_data c suf ltac:(rewrite <- HR; exact Hrem)))
    as (mid & r & suf' & Hsuf & Hmid & Hr).
  assert (Hrs' : rs = (pre ++ mid) ++ r :: suf') by (rewrite Hrs, Hsuf, <- app_assoc; reflexivity).
  set (o := layout_size (pre ++ mid)).
  assert (Ho : last_head st = o).
  { rewrite Hlh, Hsuf, (first_off_first _ c mid r suf' Hmid Hr).
    unfold o. rewrite layout_size_app. reflexivity. }
  assert (Ho0 : 0 <= o) by apply layout_size_nonneg.
  assert (Hok : chunk_ok E r).
  { rewrite Forall_forall in Hchunks. apply Hchunks. rewrite Hrs'.
    apply in_or_app. right. left. reflexivity. }
  assert (Hnx : k_next r = first_off (o + chunk_size r) c suf').
  { rewrite Hrs' in Hlinked. rewrite (linked_mid _ _ _ 0 Hlinked), Hr. reflexivity. }
  assert (Hsz : layout_size rs = o + chunk_size r + layout_size suf').
  { rewrite Hrs', layout_size_app. cbn [layout_size]. fold o. lia. }
  pose proof (chunk_size_pos r) as Hcs.
  pose proof (first_off_bounds (o + chunk_size r) c suf' ltac:(lia)) as Hfb.
  assert (Hp0 : 0 <= p0) by lia.
  destruct (chunk_at E w fpre fpost (pre ++ mid) r suf' p0) as (Hh & Hpay).
  { rewrite Hdat, HD, Hrs'. reflexivity. }
  { exact Hfpre. }
  { exact Hok. }
  { rewrite Hnx. lia. }
  fold o in Hh, Hpay.
  destruct (chunk_ok_bounds E r Hok) as (_ & Hpl & Hdl).
  destruct (fill_buffer_chunk E allocs_granted si i st w (k_ctype r) (k_payload r)
              (k_data r) (k_next r) Hi Hst Hfd)
    as (si' & w' & Hrun & Hd' & Hf' & Hfd' & Hip' & Hs').
  { rewrite Ho, Hip. lia. }
  { rewrite Ho, Hip, (Z.add_comm o p0). exact Hh. }
  { rewrite Ho, Hip, (Z.add_comm o p0). exact Hpay. }
  { lia. }
  { destruct Hok as [_ [(Hc & Hp)|(Hc & Hdec & _)]]; [left|right]; auto. }
  set (st' := mkStream (k_next r)
                (Some (mkBuffer (Z.of_nat (length (k_data r))) (k_data r)))
                (Z.of_nat (length (k_data r))) 0 (bzip_level st)) in *.
  assert (Hlt : (Z.to_nat i < length (s si))%nat) by (eapply lookup_lt_Some; exact Hst).
  assert (Hne : k_data r <> []).
  { rewrite Forall_forall in Hall. apply (Hall r); [|exact Hr].
    rewrite Hsuf. apply in_or_app. right. left. reflexivity. }
  assert (Hst' : s si' !! Z.to_nat i = Some st').
  { rewrite Hs'. apply list_lookup_insert_eq. exact Hlt. }
  exists si', w', st'. split; [exact Hrun|].
  split; [|split; [exact Hst'|split; [reflexivity|]]].
  - constructor.
    + rewrite Hfd', Hf'. exact Hfd.
    + rewrite Hip'. exact Hip.
    + rewrite Hd'. exact Hdat.
    + exists st'. split; [exact Hst'|].
      exists (pre ++ mid ++ [r]), suf', (k_data r).
      split; [rewrite Hrs'; rewrite <- !app_assoc; reflexivity|].
      split.
      { cbn [st' last_head]. rewrite Hnx. f_equal.
        rewrite app_assoc, layout_size_app. cbn [layout_size]. fold o. lia. }
      split.
      { rewrite Hsuf in Hall. apply Forall_app in Hall. destruct Hall as [_ Hall].
        inversion Hall; assumption. }
      split.
      { unfold unread. cbn [st' bufp buflen buf].
        split; [lia|]. split; [lia|]. right.
        exists (Z.of_nat (length (k_data r))), (k_data r).
        repeat split; try reflexivity; lia. }
      rewrite HR, Hsuf. apply stream_data_first; assumption.
  - cbn [st' buflen]. destruct (k_data r); [contradiction|cbn [length]; lia].
Qed.

(** The loop of [read_stream] on a slot, asked for no more than is left on
    the chain the slot follows. *)
Lemma read_stream_loop_follows fuel : forall c rem si w i out len ret,
  follows p0 D rs c rem i si w ->
  0 <= i -> 0 <= len <= Z.of_nat (length rem) ->
  (forall st, s si !! Z.to_nat i = Some st ->
     (Z.to_nat len + (if (bufp st =? buflen st)%Z then 2 else 1) <= fuel)%nat) ->
  exists si' w',
    read_stream_loop E fuel si i out len ret w
    = Done (ret + len, out ++ take (Z.to_nat len) rem, si') w'
    /\ follows p0 D rs c (drop (Z.to_nat len) rem) i si' w'.
Proof.
  induction fuel as [|fuel IH]; intros c rem si w i out len ret Hinv Hi Hlen Hfuel.
  { destruct (fo_slot _ _ _ _ _ _ _ _ Hinv) as (st & Hst & _).
    specialize (Hfuel st Hst). destruct (bufp st =? buflen st); lia. }
  destruct (Z.eq_dec len 0) as [->|Hne].
  { rewrite read_stream_loop_zero. exists si, w. cbn [Z.to_nat].
    rewrite take_0, app_nil_r, Z.add_0_r, drop_0. split; [reflexivity|exact Hinv]. }
  rewrite read_stream_loop_step by exact Hne.
  destruct (fo_slot _ _ _ _ _ _ _ _ Hinv) as (st & Hst & Hat).
  specialize (Hfuel st Hst).
  rewrite (mbind_done _ _ _ _ _ (get_stream_ok si i st w Hi Hst)).
  destruct Hat as (pre & suf & bs & Hrs & Hlh & Hall & Hun & HR).
  destruct (copy_out_ok st out len ret bs w Hun ltac:(lia))
    as (st2 & Hcopy & Hun2 & Hlh2 & Hbl2 & Hbp2).
  rewrite (mbind_done _ _ _ _ _ Hcopy). cbv beta iota zeta.
  remember (Z.min (Z.of_nat (length bs)) len) as n eqn:Hndef.
  assert (Hlt : (Z.to_nat i < length (s si))%nat) by (eapply lookup_lt_Some; exact Hst).
  assert (Hbsl : Z.of_nat (length bs) = buflen st - bufp st) by apply Hun.
  assert (Hst2 : s (set_stream si i st2) !! Z.to_nat i = Some st2).
  { cbn [set_stream with_s s]. apply list_lookup_insert_eq. exact Hlt. }
  assert (Hrem2 : drop (Z.to_nat n) rem = drop (Z.to_nat len) bs ++ stream_data c suf).
  { rewrite HR. destruct (Z.le_gt_cases len (Z.of_nat (length bs))).
    - replace n with len by lia. apply drop_app_le. lia.
    - replace n with (Z.of_nat (length bs)) by lia.
      rewrite Nat2Z.id, drop_app_length, drop_ge by lia. reflexivity. }
  (* the session after the copy *)
  assert (Hinv2 : follows p0 D rs c (drop (Z.to_nat n) rem) i (set_stream si i st2) w).
  { destruct Hinv as [Hfd Hip Hdat _]. constructor; try assumption.
    exists st2. split; [exact Hst2|].
    exists pre, suf, (drop (Z.to_nat len) bs).
    split; [exact Hrs|]. split; [rewrite Hlh2; exact Hlh|]. split; [exact Hall|].
    split; [exact Hun2|exact Hrem2]. }
  destruct (Z.eqb_spec (len - n) 0) as [Hz|Hnz]; cbn [negb andb].
  - (* everything asked for was in the buffer *)
    assert (Hnl : n = len) by lia. rewrite Hz.
    destruct fuel as [|fuel]; [destruct (bufp st =? buflen st); lia|].
    rewrite read_stream_loop_zero.
    exists (set_stream si i st2), w. split; [|rewrite <- Hnl; exact Hinv2].
    rewrite Hnl, HR, (take_app_le bs) by lia. reflexivity.
  - (* the buffer is used up: the next chunk is taken in *)
    assert (Hnb : n = Z.of_nat (length bs)) by lia.
    assert (Hfull : bufp st2 = buflen st2) by lia.
    rewrite Hfull, Z.eqb_refl.
    assert (HR2 : drop (Z.to_nat n) rem = stream_data c suf).
    { rewrite HR, Hnb, Nat2Z.id. apply drop_app_length. }
    assert (Hlen2 : Z.of_nat (length rem)
                    = Z.of_nat (length bs) + Z.of_nat (length (stream_data c suf))).
    { rewrite HR, length_app. lia. }
    destruct (fill_buffer_follows c (drop (Z.to_nat n) rem) (set_stream si i st2) w i st2
                Hinv2 Hi Hst2 Hfull)
      as (si3 & w3 & st3 & Hrun & Hinv3 & Hst3 & Hbp3 & Hbl3).
    { rewrite HR2. intros Hnil. rewrite Hnil in Hlen2. cbn [length] in Hlen2. lia. }
    rewrite (mbind_done _ _ _ _ _ Hrun). cbv beta iota. cbn [Z.eqb negb].
    rewrite (mbind_done _ _ _ _ _ (get_stream_ok si3 i st3 w3 Hi Hst3)).
    destruct (Z.eqb_spec (bufp st3) (buflen st3)) as [|_]; [lia|].
    destruct (IH c (drop (Z.to_nat n) rem) si3 w3 i (out ++ take (Z.to_nat len) bs)
                (len - n) (ret + n) Hinv3 Hi)
      as (si4 & w4 & Hrun4 & Hinv4).
    { rewrite HR2. lia. }
    { intros stx Hstx. rewrite Hst3 in Hstx. injection Hstx as <-.
      destruct (Z.eqb_spec (bufp st3) (buflen st3)); [lia|].
      destruct (Z.eqb_spec (bufp st) (buflen st)); lia. }
    assert (Hout : take (Z.to_nat len) bs
                   ++ take (Z.to_nat (len - n)) (drop (Z.to_nat n) rem)
                   = take (Z.to_nat len) rem).
    { rewrite HR2, HR, take_app, (take_ge bs) by lia. do 2 f_equal. lia. }
    exists si4, w4. rewrite Hrun4. split.
    + rewrite <- app_assoc, Hout. replace (ret + n + (len - n)) with (ret + len) by lia.
      reflexivity.
    + rewrite drop_drop in Hinv4.
      replace (Z.to_nat n + Z.to_nat (len - n))%nat with (Z.to_nat len) in Hinv4 by lia.
      exact Hinv4.
Qed.

Lemma read_stream_follows c rem si w i len :
  follows p0 D rs c rem i si w ->
  0 <= i -> 0 <= len <= Z.of_nat (length rem) ->
  exists si' w',
    read_stream E si i len w = Done (len, take (Z.to_nat len) rem, si') w'
    /\ follows p0 D rs c (drop (Z.to_nat len) rem) i si' w'.
Proof.
  intros Hinv Hi Hlen. unfold read_stream.
  destruct (read_stream_loop_follows (Z.to_nat len + 2) c rem si w i [] len 0 Hinv Hi Hlen)
    as (si' & w' & Hrun & Hinv').
  { intros st _. destruct (bufp st =? buflen st); lia. }
  exists si', w'. split; [|exact Hinv']. rewrite Hrun. reflexivity.
Qed.

(** At the end of the chain it follows, a slot has [last_head] 0: the fill
    takes the first header of the stream set, the initial header of stream
    0, for the next chunk. It holds no data, so [read_stream] returns 0;
    but the slot now follows the chain of stream 0, from its start. *)
Lemma read_stream_at_end N inits chunks c si w i len :
  rs = inits ++ chunks -> initial_like N inits -> 0 < N ->
  Forall (data_chunk E N) chunks ->
  follows p0 D rs c [] i si w -> 0 <= i -> 0 < len ->
  exists si' w',
    read_stream E si i len w = Done (0, [], si') w'
    /\ follows p0 D rs 0 (stream_data 0 rs) i si' w'.
Proof.
  intros Hshape Hil HN Hch Hinv Hi Hlen.
  destruct Hinv as [Hfd Hip Hdat (st & Hst & Hat)].
  destruct Hat as (pre & suf & bs & Hrs & Hlh & Hall & Hun & HR).
  symmetry in HR. apply app_eq_nil in HR. destruct HR as (-> & Hnone).
  assert (Hempty : bufp st = buflen st).
  { destruct Hun as (_ & Hl & _). cbn [length] in Hl. lia. }
  rewrite (first_off_none _ _ _ (stream_data_nil_none c suf Hall Hnone)) in Hlh.
  (* the first header of the set *)
  destruct (lookup_lt_is_Some_2 inits 0 ltac:(destruct Hil; lia)) as [r0 Hr0].
  destruct (initial_like_lookup N inits 0 r0 Hil Hr0) as (Hs0 & Hc0 & Hp0 & Hd0).
  change (Z.of_nat 0) with 0 in Hs0.
  assert (Hrs0 : rs = [] ++ r0 :: (drop 1 inits ++ chunks)).
  { rewrite Hshape. rewrite <- (take_drop_middle inits 0 r0 Hr0) at 1.
    rewrite take_0. reflexivity. }
  destruct layout_readable as [(fpre & fpost & HD & Hfpre) Hlinked Hchunks Hsize].
  assert (Hcs : chunk_size r0 = 13) by (unfold chunk_size; rewrite Hp0; reflexivity).
  assert (Hnx : k_next r0 = first_off 13 0 (drop 1 inits ++ chunks)).
  { pose proof Hlinked as Hl. rewrite Hrs0 in Hl.
    rewrite (linked_mid _ _ _ 0 Hl), Hs0, Hcs. reflexivity. }
  assert (Hsz : layout_size rs = 13 + layout_size (drop 1 inits ++ chunks)).
  { rewrite Hrs0 at 1. cbn [app layout_size]. lia. }
  pose proof (first_off_bounds 13 0 (drop 1 inits ++ chunks) ltac:(lia)) as Hfb.
  assert (Hok : chunk_ok E r0).
  { rewrite Forall_lookup in Hchunks. apply (Hchunks 0%nat).
    rewrite Hshape. apply lookup_app_l_Some. exact Hr0. }
  destruct (chunk_at E w fpre fpost [] r0 (drop 1 inits ++ chunks) p0) as (Hh & _).
  { rewrite Hdat, HD, <- Hrs0. reflexivity. }
  { exact Hfpre. }
  { exact Hok. }
  { rewrite Hnx. lia. }
  cbn [layout_size] in Hh. rewrite Z.add_0_r, Hc0, Hp0, Hd0 in Hh. cbn [length] in Hh.
  assert (Hp0' : 0 <= p0) by lia.
  unfold read_stream.
  replace (Z.to_nat len + 2)%nat with (S (Z.to_nat len + 1)) by lia.
  rewrite read_stream_loop_step by lia.
  rewrite (mbind_done _ _ _ _ _ (get_stream_ok si i st w Hi Hst)).
  unfold copy_out. rewrite MIN_min, Hempty, Z.sub_diag, Z.min_l by lia.
  change (0 <? 0) with false. cbv iota. rewrite mbind_eq, mret_eq. cbv beta iota zeta.
  rewrite (set_stream_id si i st Hst), Hempty, Z.eqb_refl.
  destruct (Z.eqb_spec len 0); [lia|]. cbn [negb andb].
  destruct (fill_buffer_chunk E allocs_granted si i st w CTYPE_NONE [] [] (k_next r0)
              Hi Hst Hfd)
    as (si' & w' & Hrun & Hd' & Hf' & Hfd' & Hip' & Hs').
  { rewrite Hlh, Hip. lia. }
  { rewrite Hlh, Hip. exact Hh. }
  { unfold file_slice. apply take_0. }
  { cbn. lia. }
  { left. split; reflexivity. }
  cbn [length Z.of_nat] in Hs'.
  set (st' := mkStream (k_next r0) (Some (mkBuffer 0 [])) 0 0 (bzip_level st)) in *.
  assert (Hst' : s si' !! Z.to_nat i = Some st').
  { rewrite Hs'. apply list_lookup_insert_eq. eapply lookup_lt_Some. exact Hst. }
  rewrite (mbind_done _ _ _ _ _ Hrun). cbv beta iota. cbn [Z.eqb negb].
  rewrite (mbind_done _ _ _ _ _ (get_stream_ok si' i _ w' Hi Hst')).
  cbn [st' bufp buflen Z.eqb]. rewrite mret_eq.
  exists si', w'. split; [reflexivity|].
  constructor.
  - rewrite Hfd', Hf'. exact Hfd.
  - rewrite Hip'. exact Hip.
  - rewrite Hd'. exact Hdat.
  - exists st'. split; [exact Hst'|].
    exists [r0], (drop 1 inits ++ chunks), [].
    split; [exact Hrs0|].
    split; [cbn [st' last_head layout_size]; rewrite Hnx, Hcs; reflexivity|].
    split.
    { apply Forall_app. split.
      - apply Forall_lookup. intros j x Hx. rewrite lookup_drop in Hx.
        destruct (initial_like_lookup N inits _ x Hil Hx) as (Hsx & _).
        intros Hxi. lia.
      - eapply Forall_impl; [|exact Hch].
        intros x (_ & Hx & _) _. exact Hx. }
    split.
    { unfold unread. cbn. split; [lia|]. split; [reflexivity|]. left. reflexivity. }
    rewrite Hrs0 at 1. cbn [app stream_data]. rewrite Hd0.
    destruct (k_stream r0 =? 0); reflexivity.
Qed.

End Slot.

(** X19: the end of a stream is reported once only. After a write-session
    in which stream 0 received data, a read-session that has read all of
    stream [i] gets 0 from the next [read_stream] on it, and from the one
    after that the bytes of stream 0 from their start: at the end of its
    chain the stream has [last_head] 0, which [fill_buffer] follows to the
    first header of the set, the initial header of stream 0. *)
Theorem read_after_end_restarts_stream_0 E f N L plan i len len2 w :
  codec_ok E -> (forall a sz, alloc_ok E a sz = true) ->
  f = w_fd w -> 0 <= w_pos w -> 0 < N -> 0 <= L <= 9 ->
  Forall (fun e => 0 <= fst e < N) plan ->
  plan_data 0 plan <> [] ->
  13 * N + 14 * plan_total plan < 2 ^ 32 ->
  w_pos w + 13 * N + 14 * plan_total plan <= w_limit w ->
  0 <= i < N -> 0 < len -> 0 <= len2 <= Z.of_nat (length (plan_data 0 plan)) ->
  exists w',
    write_then_read E f N L plan
      [(i, Z.of_nat (length (plan_data i plan))); (i, len); (i, len2)] w
    = Done (Some [(Z.of_nat (length (plan_data i plan)), plan_data i plan);
                  (0, []);
                  (len2, take (Z.to_nat len2) (plan_data 0 plan))]) w'.
Proof.
  intros Hc Ha Hf Hp HN HL Hidx H0 H32 Hlim Hi Hlen Hlen2.
  destruct (written_file_readable E f N L plan w Hc Ha Hf Hp HN HL Hidx H32 Hlim)
    as (w0 & rs & inits & chunks & Hrun & Hf0 & Hrd & Hrs & Hil & Hch & Hdata).
  unfold write_then_read.
  rewrite (mbind_done _ _ _ _ _ (lseek_cur_ok f w Hf Hp)).
  rewrite (mbind_done _ _ _ _ _ Hrun). cbn [Z.eqb negb].
  rewrite (mbind_done _ _ _ _ _ (lseek_set_ok f (w_pos w) w0 Hf0 Hp)).
  set (w1 := set_pos w0 (w_pos w)).
  assert (Hf1 : f = w_fd w1) by exact Hf0.
  change (readable E (w_pos w1) (w_data w1) rs) in Hrd.
  destruct (open_stream_in_layout E f N w1 rs inits chunks Ha Hf1 HN Hrd Hrs Hil Hch)
    as (si & w2 & Hopen & Hinv).
  { rewrite (Hdata 0 ltac:(lia)). exact H0. }
  unfold reader_session. rewrite (mbind_done _ _ _ _ _ Hopen).
  pose proof (reader_inv_follows _ _ _ _ _ _ _ i Hinv Hi) as Hfo. cbv beta in Hfo.
  rewrite (Hdata i Hi) in Hfo.
  (* the stream is read to its end *)
  destruct (read_stream_follows E (w_pos w1) (w_data w1) rs Ha Hrd i (plan_data i plan)
              si w2 i (Z.of_nat (length (plan_data i plan))) Hfo ltac:(lia) ltac:(lia))
    as (si3 & w3 & Hread1 & Hfo3).
  rewrite Nat2Z.id, firstn_all in Hread1. rewrite Nat2Z.id, drop_all in Hfo3.
  (* the read at the end *)
  destruct (read_stream_at_end E (w_pos w1) (w_data w1) rs Ha Hrd N inits chunks i
              si3 w3 i len Hrs Hil HN Hch Hfo3 ltac:(lia) Hlen)
    as (si4 & w4 & Hread2 & Hfo4).
  rewrite (Hdata 0 ltac:(lia)) in Hfo4.
  (* the read after it *)
  destruct (read_stream_follows E (w_pos w1) (w_data w1) rs Ha Hrd 0 (plan_data 0 plan)
              si4 w4 i len2 Hfo4 ltac:(lia) Hlen2)
    as (si5 & w5 & Hread3 & _).
  assert (Hplan3 : read_plan E si4 [(i, len2)] w4
                   = Done ([(len2, take (Z.to_nat len2) (plan_data 0 plan))], si5) w5).
  { cbn [read_plan]. rewrite (mbind_done _ _ _ _ _ Hread3). reflexivity. }
  assert (Hplan2 : read_plan E si3 [(i, len); (i, len2)] w3
                   = Done ([(0, []); (len2, take (Z.to_nat len2) (plan_data 0 plan))],
                           si5) w5).
  { change (read_plan E si3 [(i, len); (i, len2)])
      with ('(r, out, sinfo) ← read_stream E si3 i len;
            '(res, sinfo) ← read_plan E sinfo [(i, len2)];
            mret ((r, out) :: res, sinfo)).
    rewrite (mbind_done _ _ _ _ _ Hread2). cbv beta iota.
    rewrite (mbind_done _ _ _ _ _ Hplan3). reflexivity. }
  assert (Hplan1 : read_plan E si
                     [(i, Z.of_nat (length (plan_data i plan))); (i, len); (i, len2)] w2
                   = Done ([(Z.of_nat (length (plan_data i plan)), plan_data i plan);
                            (0, []);
                            (len2, take (Z.to_nat len2) (plan_data 0 plan))], si5) w5).
  { change (read_plan E si
              [(i, Z.of_nat (length (plan_data i plan))); (i, len); (i, len2)])
      with ('(r, out, sinfo) ← read_stream E si i (Z.of_nat (length (plan_data i plan)));
            '(res, sinfo) ← read_plan E sinfo [(i, len); (i, len2)];
            mret ((r, out) :: res, sinfo)).
    rewrite (mbind_done _ _ _ _ _ Hread1). cbv beta iota.
    rewrite (mbind_done _ _ _ _ _ Hplan2). reflexivity. }
  rewrite (mbind_done _ _ _ _ _ Hplan1). cbv beta iota. rewrite mret_eq.
  exists w5. reflexivity.
Qed.

Lemma read_after_end_restarts_stream_0_witness :
  exists w',
    write_then_read run_env 3 2 1 sample_plan [(1, 5); (1, 10); (1, 2)] empty_file
    = Done (Some [(5, [x42; x42; x42; x42; x42]); (0, []); (2, [x41; x41])]) w'.
Proof.
  apply (read_after_end_restarts_stream_0 run_env 3 2 1 sample_plan 1 10 2 empty_file).
  - exact run_env_codec_ok.
  - intros a sz. reflexivity.
  - reflexivity.
  - cbn. lia.
  - lia.
  - lia.
  - repeat constructor; cbn; lia.
  - cbn. discriminate.
  - cbn. lia.
  - cbn. lia.
  - lia.
  - lia.
  - cbn. lia.
Defined.

(** ** A chunk whose [u_len] does not fit an [int] *)

(** [fill_buffer] on an uncompressed chunk, whatever its [u_len]: the
    length of the buffer is [u_len] converted to [int]. *)
Lemma fill_buffer_plain_wide E si i st w payload ul nx :
  0 <= i -> s si !! Z.to_nat i = Some st ->
  fd si = w_fd w -> 0 <= last_head st + initial_pos si ->
  header_at w (last_head st + initial_pos si)
  = Some (CTYPE_NONE, Z.of_nat (length payload), ul, nx) ->
  file_slice w (last_head st + initial_pos si + 13) (Z.of_nat (length payload)) = payload ->
  Z.of_nat (length payload) < 2 ^ 31 -> Z.of_nat (length payload) <= ul ->
  alloc_ok E (w_allocs w) ul = true ->
  exists si' w',
    fill_buffer E si i w = Done (0, si') w'
    /\ s si' = <[Z.to_nat i := mkStream nx (Some (mkBuffer ul payload)) (to_int ul) 0
                                  (bzip_level st)]> (s si).
Proof.
  intros Hi Hst Hf Hp Hh Hpay Hcl Hlen Ha.
  set (pos := last_head st + initial_pos si) in *.
  set (cl := Z.of_nat (length payload)) in *.
  unfold fill_buffer.
  rewrite (mbind_done _ _ _ _ _ (get_stream_ok si i st w Hi Hst)).
  rewrite (mbind_done _ _ _ _ _ (seekto_ok si _ w Hf Hp)). cbn [Z.eqb negb].
  fold pos.
  destruct (read_header_ok (fd si) (set_pos w pos) CTYPE_NONE cl ul nx Hf Hp Hh)
    as (H1 & H2 & H3 & H4).
  cbn [set_pos set_file w_pos] in H1, H2, H3, H4.
  rewrite (mbind_done _ _ _ _ _ H1).
  rewrite (mbind_done _ _ _ _ _ H2).
  rewrite (mbind_done _ _ _ _ _ H3).
  rewrite (mbind_done _ _ _ _ _ H4).
  rewrite mbind_eq. unfold malloc at 1. cbn [set_pos set_file w_allocs]. rewrite Ha.
  rewrite (to_int_small cl) by (unfold cl; lia).
  cbn [set_stream with_s with_total_read fd].
  set (w5 := count_alloc (set_pos (set_pos w pos) (pos + 13))).
  assert (Hslice : file_slice w5 (w_pos w5) cl = payload) by exact Hpay.
  erewrite mbind_done; cycle 1.
  { apply read_buf_ok; [exact Hf|unfold cl; lia|]. rewrite Hslice. reflexivity. }
  rewrite Hslice.
  rewrite (mbind_done _ _ _ _ _ (buf_store_fresh ul payload _ ltac:(unfold cl in *; lia))).
  cbn [Z.eqb negb]. unfold decompress_buf. rewrite Z.eqb_refl, mbind_eq, !mret_eq.
  cbn [Z.eqb negb]. rewrite mret_eq.
  do 2 eexists. split; [reflexivity|].
  cbn [s set_stream with_s with_total_read]. rewrite !list_insert_insert_eq.
  reflexivity.
Qed.

(** X20: a chunk header that declares [u_len] of 2^31 or more makes
    [read_stream] loop for ever. [fill_buffer] stores [u_len] in the [int]
    field [buflen], which is then negative while [bufp] is 0: the fill
    returns 0, the buffer does not count as empty, the count to copy is
    negative so nothing is copied, and no further fill is made. Whatever
    the number of iterations allowed, the loop has not returned. *)
Theorem read_stream_hangs_on_wide_u_len E si i st w payload ul nx len :
  0 <= i -> s si !! Z.to_nat i = Some st ->
  fd si = w_fd w -> bufp st = buflen st ->
  0 <= last_head st + initial_pos si ->
  header_at w (last_head st + initial_pos si)
  = Some (CTYPE_NONE, Z.of_nat (length payload), ul, nx) ->
  file_slice w (last_head st + initial_pos si + 13) (Z.of_nat (length payload)) = payload ->
  Z.of_nat (length payload) < 2 ^ 31 -> 2 ^ 31 <= ul < 2 ^ 32 ->
  alloc_ok E (w_allocs w) ul = true ->
  0 < len ->
  forall fuel, read_stream_loop E fuel si i [] len 0 w = Timeout.
Proof.
  intros Hi Hst Hf Hempty Hp Hh Hpay Hcl Hul Ha Hlen fuel.
  destruct (fill_buffer_plain_wide E si i st w payload ul nx Hi Hst Hf Hp Hh Hpay Hcl
              ltac:(lia) Ha) as (si' & w' & Hfill & Hs').
  set (st' := mkStream nx (Some (mkBuffer ul payload)) (to_int ul) 0 (bzip_level st)) in *.
  assert (Hst' : s si' !! Z.to_nat i = Some st').
  { rewrite Hs'. apply list_lookup_insert_eq. eapply lookup_lt_Some. exact Hst. }
  assert (Hneg : to_int ul < 0).
  { unfold to_int. replace (ul + 2 ^ 31) with (ul - 2 ^ 31 + 1 * 2 ^ 32) by lia.
    rewrite Z.mod_add by lia. rewrite Z.mod_small by lia. lia. }
  destruct fuel as [|fuel]; [reflexivity|].
  rewrite read_stream_loop_step by lia.
  rewrite (mbind_done _ _ _ _ _ (get_stream_ok si i st w Hi Hst)).
  unfold copy_out at 1. rewrite MIN_min, Hempty, Z.sub_diag, Z.min_l by lia.
  change (0 <? 0) with false. cbv iota. rewrite mbind_eq, mret_eq. cbv beta iota zeta.
  rewrite (set_stream_id si i st Hst), Hempty, Z.eqb_refl.
  destruct (Z.eqb_spec len 0); [lia|]. cbn [negb andb].
  rewrite (mbind_done _ _ _ _ _ Hfill). cbv beta iota. cbn [Z.eqb negb].
  rewrite (mbind_done _ _ _ _ _ (get_stream_ok si' i st' w' Hi Hst')).
  unfold st' at 1 2. cbn [bufp buflen].
  destruct (Z.eqb_spec 0 (to_int ul)); [lia|].
  apply (read_stream_loop_stuck E si' i st'); try assumption.
  rewrite MIN_min. unfold st'. cbn [bufp buflen]. lia.
Qed.

Lemma read_stream_hangs_on_wide_u_len_witness :
  read_stream_loop plain_env 1000
    (mkInfo [mkStream 0 None 0 0 0] 1 3 0 0 0 0) 0 [] 1 0
    (mkWorld 3 (header_bytes CTYPE_NONE 0 (2 ^ 31) 0) 0 (2 ^ 40) 0 []) = Timeout.
Proof.
  apply (read_stream_hangs_on_wide_u_len plain_env
           (mkInfo [mkStream 0 None 0 0 0] 1 3 0 0 0 0) 0 (mkStream 0 None 0 0 0)
           (mkWorld 3 (header_bytes CTYPE_NONE 0 (2 ^ 31) 0) 0 (2 ^ 40) 0 [])
           [] (2 ^ 31) 0 1).
  - lia.
  - reflexivity.
  - reflexivity.
  - reflexivity.
  - cbn. lia.
  - vm_compute. reflexivity.
  - reflexivity.
  - cbn. lia.
  - lia.
  - reflexivity.
  - lia.
Defined.

(** ** What a write-session leaves in the file *)

Lemma prefix_same_length {A} (l1 l2 x : list A) :
  l1 `prefix_of` l2 ++ x -> length l1 = length l2 -> l1 = l2.
Proof.
  intros [k Hk] Hl. symmetry in Hk. apply app_inj_1 in Hk; [apply Hk|exact Hl].
Qed.

(** X21: the format of the file a write-session leaves. After a session
    that ran a plan of writes to its end, the file holds, after the bytes
    it had before the offset the session was opened at, a stream set:
    the [N] initial headers, then the chunks the flushes emitted, each
    holding data of a stream of the set in a form the reader can take in;
    every header points to the next chunk of its stream and the last of
    each stream to 0; and the data of the chunks of stream [i], in file
    order, are the bytes written to stream [i]. *)
Theorem writer_session_layout E f N L plan w :
  codec_ok E -> (forall a sz, alloc_ok E a sz = true) ->
  f = w_fd w -> 0 <= w_pos w <= Z.of_nat (length (w_data w)) ->
  0 < N -> 0 <= L <= 9 ->
  Forall (fun e => 0 <= fst e < N) plan ->
  13 * N + 14 * plan_total plan < 2 ^ 32 ->
  w_pos w + 13 * N + 14 * plan_total plan <= w_limit w ->
  exists w' inits chunks post,
    writer_session E f N L plan w = Done 0 w'
    /\ w_data w' = take (Z.to_nat (w_pos w)) (w_data w)
                     ++ layout_bytes (inits ++ chunks) ++ post
    /\ initial_like N inits /\ Forall (data_chunk E N) chunks
    /\ linked 0 (inits ++ chunks)
    /\ forall i, 0 <= i < N -> stream_data i (inits ++ chunks) = plan_data i plan.
Proof.
  intros Hc Ha Hf Hp HN HL Hidx H32 Hlim.
  destruct (writer_session_inv E f N L plan w Hc Ha Hf ltac:(lia) HN HL Hidx H32 Hlim)
    as (w' & rs & pre & post & inits & chunks & Hrun & _ & Hdat & Hpre & Hlinked
        & Hrs & Hil & Hch & _ & Hdata).
  pose proof (writer_session_prefix E f N L plan (take (Z.to_nat (w_pos w)) (w_data w))
                w 0 w' Hf ltac:(lia) ltac:(apply prefix_take)
                ltac:(rewrite length_take; lia) Hrun) as Hk.
  rewrite Hdat in Hk. apply prefix_same_length in Hk; [|rewrite length_take; lia].
  subst rs. exists w', inits, chunks, post.
  split; [exact Hrun|]. split; [rewrite Hk; exact Hdat|]. auto.
Qed.

Lemma writer_session_layout_witness :
  exists w' inits chunks post,
    writer_session run_env 3 2 1 sample_plan
      (mkWorld 3 [x01; x02; x03; x04] 2 (2 ^ 40) 0 []) = Done 0 w'
    /\ w_data w' = [x01; x02] ++ layout_bytes (inits ++ chunks) ++ post
    /\ initial_like 2 inits /\ Forall (data_chunk run_env 2) chunks
    /\ linked 0 (inits ++ chunks)
    /\ forall i, 0 <= i < 2 -> stream_data i (inits ++ chunks) = plan_data i sample_plan.
Proof.
  apply (writer_session_layout run_env 3 2 1 sample_plan
           (mkWorld 3 [x01; x02; x03; x04] 2 (2 ^ 40) 0 [])).
  - exact run_env_codec_ok.
  - intros a sz. reflexivity.
  - reflexivity.
  - cbn. lia.
  - lia.
  - lia.
  - repeat constructor; cbn; lia.
  - cbn. lia.
  - cbn. lia.
Defined.

(** ** What a fill that succeeds has done *)





(** ** The wire codec on values wider than the field *)

Lemma u32_bytes_to_u32 v : u32_bytes (to_u32 v) = u32_bytes v.
Proof.
  unfold u32_bytes. cbv zeta.
  replace (to_u32 (to_u32 v)) with (to_u32 v); [reflexivity|].
  unfold to_u32. rewrite Z.mod_mod by lia. reflexivity.
Qed.

Lemma set_pos_write_at w bs :
  set_pos (set_pos (write_at w bs) (w_pos w)) (w_pos w + Z.of_nat (length bs))
  = write_at w bs.
Proof. reflexivity. Qed.

(** X23: the three integer writers keep the low bits of the value they are
    given. For every integer [v], what [write_u8], [write_u16] and
    [write_u32] have written reads back, from the same offset, as [v]
    modulo 2^8, 2^16 and 2^32. *)
Theorem wire_codec_truncates f v w :
  f = w_fd w -> 0 <= w_pos w -> w_pos w + 4 <= w_limit w ->
  (exists w1, write_u8 f v w = Done 0 w1
              /\ read_u8 f (set_pos w1 (w_pos w)) = Done (Some (v mod 2 ^ 8)) w1)
  /\ (exists w1, write_u16 f v w = Done 0 w1
                 /\ read_u16 f (set_pos w1 (w_pos w)) = Done (Some (v mod 2 ^ 16)) w1)
  /\ (exists w1, write_u32 f v w = Done 0 w1
                 /\ read_u32 f (set_pos w1 (w_pos w)) = Done (Some (v mod 2 ^ 32)) w1).
Proof.
  intros Hf Hp Hl. split; [|split].
  - exists (write_at w [to_uchar v]). split; [apply write_u8_ok; [exact Hf|lia]|].
    rewrite read_u8_ok.
    + cbn [set_pos set_file w_pos]. rewrite file_slice_set_pos.
      change 1 with (Z.of_nat (length [to_uchar v])) at 1.
      rewrite file_slice_write_at.
      change (byte_at [to_uchar v] 0) with (byte_val (to_uchar v)).
      rewrite byte_val_to_uchar. reflexivity.
    + exact Hf.
    + exact Hp.
    + cbn [set_pos set_file w_pos]. rewrite file_slice_set_pos.
      change 1 with (Z.of_nat (length [to_uchar v])) at 1.
      rewrite file_slice_write_at. reflexivity.
  - exists (write_at w (u16_bytes (to_u16 v))).
    split; [apply write_u16_ok; [exact Hf|lia]|].
    rewrite read_u16_ok.
    + cbn [set_pos set_file w_pos]. rewrite file_slice_set_pos.
      change 2 with (Z.of_nat (length (u16_bytes (to_u16 v)))) at 1.
      rewrite file_slice_write_at, u16_of_bytes_u16_bytes
        by (apply Z.mod_pos_bound; lia).
      reflexivity.
    + exact Hf.
    + exact Hp.
    + cbn [set_pos set_file w_pos]. rewrite file_slice_set_pos.
      change 2 with (Z.of_nat (length (u16_bytes (to_u16 v)))) at 1.
      rewrite file_slice_write_at. reflexivity.
  - exists (write_at w (u32_bytes v)).
    split; [apply write_u32_ok; assumption|].
    rewrite read_u32_ok.
    + cbn [set_pos set_file w_pos]. rewrite file_slice_set_pos.
      change 4 with (Z.of_nat (length (u32_bytes v))) at 1.
      rewrite file_slice_write_at, <- u32_bytes_to_u32, u32_of_bytes_u32_bytes
        by apply to_u32_range.
      reflexivity.
    + exact Hf.
    + exact Hp.
    + cbn [set_pos set_file w_pos]. rewrite file_slice_set_pos.
      change 4 with (Z.of_nat (length (u32_bytes v))) at 1.
      rewrite file_slice_write_at. reflexivity.
Qed.

Lemma wire_codec_truncates_witness :
  (exists w1, write_u8 3 (-1) empty_file = Done 0 w1
              /\ read_u8 3 (set_pos w1 0) = Done (Some 255) w1)
  /\ (exists w1, write_u16 3 65537 empty_file = Done 0 w1
                 /\ read_u16 3 (set_pos w1 0) = Done (Some 1) w1)
  /\ (exists w1, write_u32 3 (2 ^ 32 + 5) empty_file = Done 0 w1
                 /\ read_u32 3 (set_pos w1 0) = Done (Some 5) w1).
Proof.
  pose proof (wire_codec_truncates 3 (-1) empty_file eq_refl ltac:(cbn; lia)
                ltac:(cbn; lia)) as (H8 & _ & _).
  pose proof (wire_codec_truncates 3 65537 empty_file eq_refl ltac:(cbn; lia)
                ltac:(cbn; lia)) as (_ & H16 & _).
  pose proof (wire_codec_truncates 3 (2 ^ 32 + 5) empty_file eq_refl ltac:(cbn; lia)
                ltac:(cbn; lia)) as (_ & _ & H32).
  split; [exact H8|]. split; [exact H16|exact H32].
Defined.

(** ** Reads of any sizes *)

Section AnyReads.

Context (E : Env) (N p0 : Z) (D : list byte) (rs : list chunk).
Hypothesis allocs_granted : forall a sz, alloc_ok E a sz = true.
Hypothesis layout_readable : readable E p0 D rs.

Lemma read_plan_served : forall reads R R' si w,
  reader_inv N p0 D rs R si w ->
  Forall (fun e => 0 <= fst e < N) reads ->
  (forall i, 0 <= i < N -> R i = R' i) ->
  within R' reads ->
  exists si' w', read_plan E si reads w = Done (served R' reads, si') w'.
Proof.
  induction reads as [|[j n] reads IH]; intros R R' si w Hinv Hidx HR Hfit.
  - exists si, w. reflexivity.
  - inversion Hidx as [|e l Hj Hrest]; subst e l. cbn [fst] in Hj.
    destruct Hfit as (Hn & Hfit). cbn [read_plan served].
    destruct (read_stream_inv E N p0 D rs allocs_granted layout_readable R si w j n
                Hinv Hj ltac:(rewrite (HR j Hj); exact Hn))
      as (si1 & w1 & Hrun1 & Hinv1).
    rewrite (mbind_done _ _ _ _ _ Hrun1). cbv beta iota.
    destruct (IH (record_read R j n) (record_read R' j n) si1 w1 Hinv1 Hrest)
      as (si2 & w2 & Hrun2).
    { intros i Hi. unfold record_read. rewrite (HR i Hi). reflexivity. }
    { exact Hfit. }
    rewrite (mbind_done _ _ _ _ _ Hrun2). cbv beta iota. rewrite mret_eq.
    exists si2, w2. rewrite (HR j Hj). reflexivity.
Qed.

End AnyReads.

(** X24: what is read back does not depend on how the reads are sized.
    After a write-session that ran a plan in which stream 0 received data,
    a read-session opened where the first began serves any sequence of
    reads that asks no stream for more than was written to it: each
    [read_stream] of [n] bytes on stream [i] returns [n] and the next [n]
    bytes written to stream [i], whatever the sizes of the writes and of
    the earlier reads. *)
Theorem read_back_any_sizes E f N L plan reads w :
  codec_ok E -> (forall a sz, alloc_ok E a sz = true) ->
  f = w_fd w -> 0 <= w_pos w -> 0 < N -> 0 <= L <= 9 ->
  Forall (fun e => 0 <= fst e < N) plan ->
  plan_data 0 plan <> [] ->
  13 * N + 14 * plan_total plan < 2 ^ 32 ->
  w_pos w + 13 * N + 14 * plan_total plan <= w_limit w ->
  Forall (fun e => 0 <= fst e < N) reads ->
  within (fun i => plan_data i plan) reads ->
  exists w',
    write_then_read E f N L plan reads w
    = Done (Some (served (fun i => plan_data i plan) reads)) w'.
Proof.
  intros Hc Ha Hf Hp HN HL Hidx H0 H32 Hlim Hridx Hfit.
  destruct (written_file_readable E f N L plan w Hc Ha Hf Hp HN HL Hidx H32 Hlim)
    as (w0 & rs & inits & chunks & Hrun & Hf0 & Hrd & Hrs & Hil & Hch & Hdata).
  unfold write_then_read.
  rewrite (mbind_done _ _ _ _ _ (lseek_cur_ok f w Hf Hp)).
  rewrite (mbind_done _ _ _ _ _ Hrun). cbn [Z.eqb negb].
  rewrite (mbind_done _ _ _ _ _ (lseek_set_ok f (w_pos w) w0 Hf0 Hp)).
  set (w1 := set_pos w0 (w_pos w)).
  assert (Hf1 : f = w_fd w1) by exact Hf0.
  change (readable E (w_pos w1) (w_data w1) rs) in Hrd.
  destruct (open_stream_in_layout E f N w1 rs inits chunks Ha Hf1 HN Hrd Hrs Hil Hch)
    as (si & w2 & Hopen & Hinv).
  { rewrite (Hdata 0 ltac:(lia)). exact H0. }
  unfold reader_session. rewrite (mbind_done _ _ _ _ _ Hopen).
  destruct (read_plan_served E N (w_pos w1) (w_data w1) rs Ha Hrd reads
              (fun i => stream_data i rs) (fun i => plan_data i plan) si w2 Hinv Hridx
              Hdata Hfit)
    as (si3 & w3 & Hread).
  rewrite (mbind_done _ _ _ _ _ Hread). cbv beta iota. rewrite mret_eq.
  exists w3. reflexivity.
Qed.

Lemma read_back_any_sizes_witness :
  exists w',
    write_then_read run_env 3 2 1 sample_plan [(0, 1); (1, 4); (0, 3); (1, 1)] empty_file
    = Done (Some [(1, [x41]); (4, [x42; x42; x42; x42]);
                  (3, [x41; x41; x43]); (1, [x42])]) w'.
Proof.
  apply (read_back_any_sizes run_env 3 2 1 sample_plan
           [(0, 1); (1, 4); (0, 3); (1, 1)] empty_file).
  - exact run_env_codec_ok.
  - intros a sz. reflexivity.
  - reflexivity.
  - cbn. lia.
  - lia.
  - lia.
  - repeat constructor; cbn; lia.
  - cbn. discriminate.
  - cbn. lia.
  - cbn. lia.
  - repeat constructor; cbn; lia.
  - cbn [within]. unfold record_read. cbn. repeat split; vm_compute; discriminate.
Defined.
